(** * Sailfish secrets daemon: request queue and request processor

    A shallow embedding of [daemon/requestqueue.cpp] and
    [daemon/SecretsImpl/secretsrequestprocessor.cpp], followed by the
    properties established about them.

    Conventions of the embedding:
    - [QString] and [QByteArray] are both Rocq strings.  A [QString] is
      read as a sequence of Latin-1 code points (one character per code
      point), a [QByteArray] as a sequence of octets.
    - [quint64] is a [Z] kept in [0, 2^64) with the wrap-around written out;
      [int] and [pid_t] are [Z].
    - [QMap]/[QHash] members are [gmap]s.
    - Member functions are computations in a state monad over the
      processor's members; dereferencing a plugin pointer that is not in
      the registry ([m_plugins[name]->f()] on an absent name) is the
      failure [None] of that monad. *)

From Stdlib Require Import ZArith Lia List String Ascii Bool NArith.
From stdpp Require Import gmap strings list fin_maps.
Import ListNotations.

Local Open Scope string_scope.
Local Open Scope Z_scope.

Abbreviation QString := string.
Abbreviation QByteArray := string.

(** ** Qt string helpers used by the sources *)

Module Qt.

Definition isEmpty (s : QString) : bool :=
  match s with EmptyString => true | String _ _ => false end.

(** [QChar::toCaseFolded] on the Latin-1 range: [A-Z] and the accented
    capitals [0xC0-0xDE] (except the multiplication sign [0xD7]) move
    down by 32. *)
Definition foldCase (c : ascii) : ascii :=
  let n := N_of_ascii c in
  if ((65 <=? n) && (n <=? 90))%N then ascii_of_N (n + 32)
  else if ((192 <=? n) && (n <=? 222) && negb (n =? 215))%N then ascii_of_N (n + 32)
  else c.

Fixpoint foldCaseString (s : QString) : QString :=
  match s with
  | EmptyString => EmptyString
  | String c r => String (foldCase c) (foldCaseString r)
  end.

(** [a.compare(b, Qt::CaseInsensitive) == 0] *)
Definition equalsCaseInsensitive (a b : QString) : bool :=
  String.eqb (foldCaseString a) (foldCaseString b).

(** [QString::toUtf8] on Latin-1 code points: one octet below 128, two
    octets from 128 to 255. *)
Definition utf8OfChar (c : ascii) : QByteArray :=
  let n := N_of_ascii c in
  if (n <? 128)%N then String c EmptyString
  else String (ascii_of_N (192 + n / 64))
         (String (ascii_of_N (128 + n mod 64)) EmptyString).

Fixpoint toUtf8 (s : QString) : QByteArray :=
  match s with
  | EmptyString => EmptyString
  | String c r => utf8OfChar c +:+ toUtf8 r
  end.

(** [QString::fromLatin1]: every octet is the code point of the same value. *)
Definition fromLatin1 (ba : QByteArray) : QString := ba.

Definition base64Alphabet : string :=
  "ABCDEFGHIJKLMNOPQRSTUVWXYZabcdefghijklmnopqrstuvwxyz0123456789+/".

Definition base64Char (n : N) : ascii :=
  match String.get (N.to_nat n) base64Alphabet with
  | Some c => c
  | None => "="%char
  end.

(** [QByteArray::toBase64] (standard alphabet, padded with [=]). *)
Fixpoint toBase64 (ba : QByteArray) : QByteArray :=
  match ba with
  | EmptyString => EmptyString
  | String a EmptyString =>
      let x := N_of_ascii a in
      String (base64Char (x / 4))
        (String (base64Char ((x mod 4) * 16)) "==")
  | String a (String b EmptyString) =>
      let x := N_of_ascii a in
      let y := N_of_ascii b in
      String (base64Char (x / 4))
        (String (base64Char ((x mod 4) * 16 + y / 16))
           (String (base64Char ((y mod 16) * 4)) "="))
  | String a (String b (String c rest)) =>
      let x := N_of_ascii a in
      let y := N_of_ascii b in
      let z := N_of_ascii c in
      String (base64Char (x / 4))
        (String (base64Char ((x mod 4) * 16 + y / 16))
           (String (base64Char ((y mod 16) * 4 + z / 64))
              (String (base64Char (z mod 64)) (toBase64 rest))))
  end%N.

End Qt.

(** ** Results ([Secrets/result.h]) *)

(** Modelled from the spec: the header that declares [Result] is not part
    of the sources at hand.  Section 7 of the specification lists the
    result kinds and the failure codes; a [Result] built from an error
    code is a [Failed] result carrying that code, a [Result] built from a
    result kind carries no error.  The human-readable message is not
    modelled. *)
Inductive ResultCode := Succeeded | Pending | Failed.

Inductive ErrorCode :=
| NoError
| UnknownError
| PermissionsError
| IncorrectAuthenticationKeyError
| OperationNotSupportedError
| OperationRequiresUserInteraction
| OperationRequiresInProcessUserInteraction
| SecretsDaemonRequestQueueFullError
| SecretsPluginEncryptionError
| SecretsPluginDecryptionError
| InvalidSecretError
| InvalidCollectionError
| InvalidExtensionPluginError
| CollectionAlreadyExistsError
| CollectionIsLockedError
| DatabaseQueryError
| DatabaseTransactionError.

Record Result := mkResult { code : ResultCode; errorCode : ErrorCode }.

Definition ResultOfCode (c : ResultCode) : Result := mkResult c NoError.
Definition ResultOfError (e : ErrorCode) : Result := mkResult Failed e.

#[global] Instance ResultCode_eq_dec : EqDecision ResultCode.
Proof. solve_decision. Defined.
#[global] Instance ErrorCode_eq_dec : EqDecision ErrorCode.
Proof. solve_decision. Defined.
#[global] Instance Result_eq_dec : EqDecision Result.
Proof. solve_decision. Defined.

(** [r.code() == Result::Succeeded] and [r.code() == Result::Failed] *)
Definition isSucceeded (r : Result) : bool :=
  match code r with Succeeded => true | _ => false end.
Definition isFailed (r : Result) : bool :=
  match code r with Failed => true | _ => false end.

(** ** Values carried in argument vectors ([QVariant]) *)

(** Only the alternatives the daemon stores are modelled.  The readers
    below are for a variant read at the type it stores; for another
    alternative they give that type's default value, as after a
    conversion that failed. *)
Inductive QVariant :=
| VString (s : QString)
| VBytes (b : QByteArray)
| VInt (i : Z)
| VBool (b : bool)
| VResult (r : Result).

Definition toQString (v : QVariant) : QString :=
  match v with VString s => s | _ => EmptyString end.
Definition toQByteArray (v : QVariant) : QByteArray :=
  match v with VBytes b => b | _ => EmptyString end.
Definition toInt (v : QVariant) : Z :=
  match v with VInt i => i | VBool b => if b then 1 else 0 | _ => 0 end.
Definition toBool (v : QVariant) : bool :=
  match v with VBool b => b | VInt i => negb (i =? 0) | _ => false end.

(** The types at which parked values are read back ([QMetaType::Type]),
    and whether a variant stores a value of the type. *)
Inductive QMetaType := QStringType | QByteArrayType | IntType | BoolType.

Definition holds (t : QMetaType) (v : QVariant) : bool :=
  match t, v with
  | QStringType, VString _ | QByteArrayType, VBytes _
  | IntType, VInt _ | BoolType, VBool _ => true
  | _, _ => false
  end.

(** ** The request queue ([daemon/requestqueue.cpp]) *)

Module RequestQueue.

Inductive RequestStatus := RequestPending | RequestInProgress | RequestFinished.

Record RequestData := mkRequestData {
  remotePid : Z;
  status : RequestStatus;
  type : Z;
  inParams : list QVariant;
  outParams : list QVariant;
  requestId : Z;
  isSecretsCryptoRequest : bool;
  cryptoRequestId : Z
}.

Definition setRequestId (id : Z) (r : RequestData) : RequestData :=
  mkRequestData (remotePid r) (status r) (type r) (inParams r) (outParams r)
    id (isSecretsCryptoRequest r) (cryptoRequestId r).

Definition finish (out : list QVariant) (r : RequestData) : RequestData :=
  mkRequestData (remotePid r) RequestFinished (type r) (inParams r) out
    (requestId r) (isSecretsCryptoRequest r) (cryptoRequestId r).

(** The queue object: the list [m_requests] and the function-local
    [static quint64 requestId] of [enqueueRequest]. *)
Record t := mk {
  requestIdCounter : Z;
  m_requests : list RequestData
}.

(** Request ids are [quint64].  The allocation below is written for an
    id type of [bits] bits, so that it can also be run on an id space
    small enough to exhaust; the daemon's is the one of 64 bits. *)
Definition modulus (bits : nat) : Z := 2 ^ Z.of_nat bits.
Definition wrap (bits : nat) (z : Z) : Z := z mod modulus bits.

(** The inner [while] loop: is some tracked request using [id]? *)
Definition idInUse (reqs : list RequestData) (id : Z) : bool :=
  existsb (fun r => requestId r =? id) reqs.

(** A loop that runs its body at most [2^n] times; [inr] is the exit. *)
Fixpoint loopPow2 {S R : Type} (n : nat) (body : S -> S + R) (s : S) : S + R :=
  match n with
  | O => body s
  | Datatypes.S n' =>
      match loopPow2 n' body s with
      | inl s' => loopPow2 n' body s'
      | inr r => inr r
      end
  end.

(** One turn of [for ( ; nextFreeId != prevId; ++nextFreeId)]; the state
    is [(nextFreeId, found)]. *)
Definition scanBody (bits : nat) (reqs : list RequestData) (prevId : Z)
    (st : Z * bool) : (Z * bool) + (Z * bool) :=
  let '(nextFreeId, found) := st in
  if nextFreeId =? prevId then inr (nextFreeId, found)
  else if idInUse reqs nextFreeId then inl (wrap bits (nextFreeId + 1), true)
  else inr (nextFreeId, false).

Definition scanFreeId (bits : nat) (reqs : list RequestData) (prevId : Z) : Z * bool :=
  match loopPow2 bits (scanBody bits reqs prevId) (wrap bits (prevId + 1), false) with
  | inl st => st
  | inr st => st
  end.

Definition enqueueRequestOfWidth (bits : nat) (request : RequestData) (q : t)
    : Result * t :=
  let prevId := requestIdCounter q in
  let counter := wrap bits (prevId + 1) in
  let '(nextFreeId, found) := scanFreeId bits (m_requests q) prevId in
  if found then
    (ResultOfError SecretsDaemonRequestQueueFullError, mk counter (m_requests q))
  else
    (ResultOfCode Succeeded,
     mk counter (m_requests q ++ [setRequestId nextFreeId request])).

Definition enqueueRequest : RequestData -> t -> Result * t :=
  enqueueRequestOfWidth 64.

(** [requestFinished]: the first record with this id becomes [Finished]
    and takes the output parameters; an unknown id changes nothing. *)
Fixpoint finishFirst (id : Z) (out : list QVariant) (reqs : list RequestData)
    : list RequestData :=
  match reqs with
  | [] => []
  | r :: rest =>
      if requestId r =? id then finish out r :: rest
      else r :: finishFirst id out rest
  end.

Definition requestFinished (id : Z) (out : list QVariant) (q : t) : t :=
  mk (requestIdCounter q) (finishFirst id out (m_requests q)).

End RequestQueue.

(** ** Enumerations of [Secrets/secretmanager.h] *)

Inductive UserInteractionMode :=
| PreventUserInteractionMode
| SystemUserInteractionMode
| InProcessUserInteractionMode.

Inductive AccessControlMode := OwnerOnlyMode | SystemAccessControlMode.

Inductive DeviceLockUnlockSemantic := DeviceLockKeepUnlocked | DeviceLockRelock.

Inductive CustomLockUnlockSemantic :=
| CustomLockKeepUnlocked
| CustomLockDeviceLockRelock
| CustomLockTimoutRelock
| CustomLockAccessRelock.

Definition isPreventUserInteractionMode (m : UserInteractionMode) : bool :=
  match m with PreventUserInteractionMode => true | _ => false end.
Definition isInProcessUserInteractionMode (m : UserInteractionMode) : bool :=
  match m with InProcessUserInteractionMode => true | _ => false end.

(** The enumerators' integer values, as the header assigns them.  Values
    that the daemon reads back from the database or from a parked
    argument vector are kept as the stored [int]: a [static_cast] to the
    enumeration does not change them. *)
Definition intOfUserInteractionMode (m : UserInteractionMode) : Z :=
  match m with
  | PreventUserInteractionMode => 0
  | SystemUserInteractionMode => 1
  | InProcessUserInteractionMode => 2
  end.

Definition userInteractionModeOfInt (i : Z) : UserInteractionMode :=
  if i =? 0 then PreventUserInteractionMode
  else if i =? 2 then InProcessUserInteractionMode
  else SystemUserInteractionMode.

Definition intOfAccessControlMode (m : AccessControlMode) : Z :=
  match m with OwnerOnlyMode => 0 | SystemAccessControlMode => 1 end.

Definition intOfDeviceLockUnlockSemantic (s : DeviceLockUnlockSemantic) : Z :=
  match s with DeviceLockKeepUnlocked => 0 | DeviceLockRelock => 1 end.

Definition intOfCustomLockUnlockSemantic (s : CustomLockUnlockSemantic) : Z :=
  match s with
  | CustomLockKeepUnlocked => 8
  | CustomLockDeviceLockRelock => 9
  | CustomLockTimoutRelock => 10
  | CustomLockAccessRelock => 11
  end.

(** Constants of the sources. *)
Definition DeviceLockKey : QByteArray := "example_device_lock_key".
Definition standaloneCollectionName : QString := "standalone".

(** Modelled from the spec: [SecretManager::DefaultAuthenticationPluginName]
    is declared in the header and defined in a file that is not at hand;
    only its being one fixed plugin name matters here. *)
Definition DefaultAuthenticationPluginName : QString :=
  "org.sailfishos.secrets.plugin.authentication.system".

(** ** The metadata store *)

(** The attribute columns shared by the [Collections] and the [Secrets]
    tables (section 6 of the specification). *)
Record Row := mkRow {
  rowApplicationId : QString;
  rowUsesDeviceLockKey : Z;
  rowStoragePluginName : QString;
  rowEncryptionPluginName : QString;
  rowAuthenticationPluginName : QString;
  rowUnlockSemantic : Z;
  rowCustomLockTimeoutMs : Z;
  rowAccessControlMode : Z
}.

Module Database.

Record Tables := mkTables {
  Collections : gmap string Row;
  Secrets : gmap (string * string) Row
}.

(** Modelled from the spec: the [Database] class is not part of the
    sources at hand.  Section 4.2 describes a transactional relational
    store with [begin/commit/rollback]; section 6 gives the tables and
    their primary keys, and section 3 the referential invariant between
    a secret and its collection.  [stored] is the committed content,
    [transaction] the working copy of an open transaction.  Every call
    that the callers treat as fallible ([prepare], [execute],
    [beginTransaction], [commitTransaction]) consumes one entry of
    [faults]; [true] makes that call fail without any effect, and an
    exhausted script means no further failure. *)
Record t := mk {
  stored : Tables;
  transaction : option Tables;
  faults : list bool
}.

Definition current (db : t) : Tables :=
  match transaction db with Some w => w | None => stored db end.

Definition withinTransaction (db : t) : bool :=
  match transaction db with Some _ => true | None => false end.

Definition nextFault (db : t) : bool * t :=
  match faults db with
  | [] => (false, db)
  | f :: rest => (f, mk (stored db) (transaction db) rest)
  end.

Inductive Query :=
| SelectCollection (collectionName : QString)
| InsertCollection (collectionName : QString) (r : Row)
| DeleteCollection (collectionName : QString)
| SelectSecret (collectionName hashedSecretName : QString)
| InsertSecret (collectionName hashedSecretName : QString) (r : Row)
| UpdateSecret (collectionName hashedSecretName : QString) (r : Row)
| DeleteSecret (collectionName hashedSecretName : QString).

(** The effect of a statement on the tables; [None] is a constraint
    violation (duplicate primary key, or a secret whose collection has
    no row).  Deleting a collection takes its secrets along. *)
Definition apply (q : Query) (tb : Tables) : option Tables :=
  match q with
  | SelectCollection _ | SelectSecret _ _ => Some tb
  | InsertCollection c r =>
      match Collections tb !! c with
      | Some _ => None
      | None => Some (mkTables (<[c := r]> (Collections tb)) (Secrets tb))
      end
  | DeleteCollection c =>
      Some (mkTables (delete c (Collections tb))
              (filter (fun kv => fst (fst kv) <> c) (Secrets tb)))
  | InsertSecret c h r =>
      match Collections tb !! c, Secrets tb !! (c, h) with
      | Some _, None => Some (mkTables (Collections tb) (<[(c, h) := r]> (Secrets tb)))
      | _, _ => None
      end
  | UpdateSecret c h r =>
      match Secrets tb !! (c, h) with
      | Some _ => Some (mkTables (Collections tb) (<[(c, h) := r]> (Secrets tb)))
      | None => Some tb
      end
  | DeleteSecret c h =>
      Some (mkTables (Collections tb) (delete (c, h) (Secrets tb)))
  end.

(** The row a [SELECT] positions its cursor on, if any. *)
Definition selected (q : Query) (tb : Tables) : option Row :=
  match q with
  | SelectCollection c => Collections tb !! c
  | SelectSecret c h => Secrets tb !! (c, h)
  | _ => None
  end.

(** [prepare]: [true] when [errorText] stays empty. *)
Definition prepare (db : t) : bool * t :=
  let '(fault, db) := nextFault db in (negb fault, db).

(** [execute]: success flag and the selected row.  Outside a
    transaction a statement takes effect on the stored tables at once. *)
Definition execute (q : Query) (db : t) : (bool * option Row) * t :=
  let '(fault, db) := nextFault db in
  if fault then ((false, None), db)
  else
    match apply q (current db) with
    | None => ((false, None), db)
    | Some tb =>
        let row := selected q (current db) in
        match transaction db with
        | Some _ => ((true, row), mk (stored db) (Some tb) (faults db))
        | None => ((true, row), mk tb None (faults db))
        end
    end.

Definition beginTransaction (db : t) : bool * t :=
  let '(fault, db) := nextFault db in
  if fault then (false, db)
  else
    match transaction db with
    | Some _ => (false, db)
    | None => (true, mk (stored db) (Some (stored db)) (faults db))
    end.

Definition commitTransaction (db : t) : bool * t :=
  let '(fault, db) := nextFault db in
  if fault then (false, db)
  else
    match transaction db with
    | Some tb => (true, mk tb None (faults db))
    | None => (false, db)
    end.

Definition rollbackTransaction (db : t) : t :=
  mk (stored db) None (faults db).

End Database.

(** ** Plugins *)

(** A scripted plugin answers from its script first: [Some r] makes the
    next call return [r] and leave the plugin as it was, [None] (or an
    exhausted script) lets the call take its normal course. *)
Definition nextScripted (script : list (option Result)) : option Result * list (option Result) :=
  match script with
  | [] => (None, [])
  | o :: rest => (o, rest)
  end.

Module StoragePlugin.

(** Modelled from the spec: the storage plugins' sources are not at
    hand.  Section 6 gives the operations; the reference plugin keeps,
    per collection, a map from hashed secret names to the stored
    bytes, and reports a missing collection or secret with the
    matching invalid-collection or invalid-secret code.  The reserved
    collection of standalone secrets is an ordinary entry of the map. *)
Record t := mk {
  collections : gmap string (gmap string QByteArray);
  script : list (option Result)
}.

Definition scripted {A : Type} (dflt : A) (normal : gmap string (gmap string QByteArray) ->
    (Result * A) * gmap string (gmap string QByteArray)) (p : t) : (Result * A) * t :=
  match nextScripted (script p) with
  | (Some r, rest) => ((r, dflt), mk (collections p) rest)
  | (None, rest) =>
      let '(ra, cs) := normal (collections p) in (ra, mk cs rest)
  end.

Definition createCollection (c : QString) : t -> (Result * unit) * t :=
  scripted tt (fun cs =>
    match cs !! c with
    | Some _ => ((ResultOfError CollectionAlreadyExistsError, tt), cs)
    | None => ((ResultOfCode Succeeded, tt), <[c := ∅]> cs)
    end).

Definition removeCollection (c : QString) : t -> (Result * unit) * t :=
  scripted tt (fun cs => ((ResultOfCode Succeeded, tt), delete c cs)).

Definition setSecret (c h : QString) (secret : QByteArray) : t -> (Result * unit) * t :=
  scripted tt (fun cs =>
    match cs !! c with
    | Some m => ((ResultOfCode Succeeded, tt), <[c := <[h := secret]> m]> cs)
    | None => ((ResultOfError InvalidCollectionError, tt), cs)
    end).

Definition getSecret (c h : QString) : t -> (Result * QByteArray) * t :=
  scripted EmptyString (fun cs =>
    match cs !! c with
    | Some m =>
        match m !! h with
        | Some b => ((ResultOfCode Succeeded, b), cs)
        | None => ((ResultOfError InvalidSecretError, EmptyString), cs)
        end
    | None => ((ResultOfError InvalidCollectionError, EmptyString), cs)
    end).

Definition removeSecret (c h : QString) : t -> (Result * unit) * t :=
  scripted tt (fun cs =>
    match cs !! c with
    | Some m => ((ResultOfCode Succeeded, tt), <[c := delete h m]> cs)
    | None => ((ResultOfCode Succeeded, tt), cs)
    end).

End StoragePlugin.

Module EncryptionPlugin.

(** Modelled from the spec: an encryption plugin is a pair of
    functions, [encrypt_secret(plain, key)] and
    [decrypt_secret(cipher, key)] (section 6). *)
Record t := mk {
  encryptSecret : QByteArray -> QByteArray -> Result * QByteArray;
  decryptSecret : QByteArray -> QByteArray -> Result * QByteArray
}.

(** The contract a well-behaved plugin honours. *)
Definition honoursContract (p : t) : Prop :=
  forall plain key,
    exists cipher,
      encryptSecret p plain key = (ResultOfCode Succeeded, cipher) /\
      decryptSecret p cipher key = (ResultOfCode Succeeded, plain).

End EncryptionPlugin.

Module EncryptedStoragePlugin.

(** A collection of the plugin: the key it was created with, the key
    currently applied ([None] when none is), and its secrets. *)
Record Collection := mkCollection {
  collectionKey : QByteArray;
  appliedKey : option QByteArray;
  secrets : gmap string QByteArray
}.

(** Modelled from the spec: the encrypted-storage plugins' sources are
    not at hand.  Section 6 gives the operations and section 4.5.4 the
    protocol around [set_encryption_key] and [is_locked]: a collection
    is unlocked exactly while the key it was created with is applied,
    applying a key always succeeds, and the empty key removes the
    applied key.  Secrets of a collection can be written, read and
    removed only while it is unlocked.  Standalone secrets are kept
    apart, each under the key it was stored with. *)
Record t := mk {
  collections : gmap string Collection;
  standaloneSecrets : gmap string (QByteArray * QByteArray);
  script : list (option Result)
}.

Definition locked (col : Collection) : bool :=
  negb (bool_decide (appliedKey col = Some (collectionKey col))).

Definition scripted {A : Type} (dflt : A) (normal : t -> (Result * A) * t) (p : t)
    : (Result * A) * t :=
  match nextScripted (script p) with
  | (Some r, rest) => ((r, dflt), mk (collections p) (standaloneSecrets p) rest)
  | (None, rest) => normal (mk (collections p) (standaloneSecrets p) rest)
  end.

Definition setCollections (cs : gmap string Collection) (p : t) : t :=
  mk cs (standaloneSecrets p) (script p).

Definition setStandaloneSecrets (ss : gmap string (QByteArray * QByteArray)) (p : t) : t :=
  mk (collections p) ss (script p).

Definition createCollection (c : QString) (key : QByteArray) : t -> (Result * unit) * t :=
  scripted tt (fun p =>
    match collections p !! c with
    | Some _ => ((ResultOfError CollectionAlreadyExistsError, tt), p)
    | None =>
        ((ResultOfCode Succeeded, tt),
         setCollections (<[c := mkCollection key (Some key) ∅]> (collections p)) p)
    end).

Definition removeCollection (c : QString) : t -> (Result * unit) * t :=
  scripted tt (fun p =>
    ((ResultOfCode Succeeded, tt), setCollections (delete c (collections p)) p)).

(** A name that is not a collection of the plugin (the reserved
    standalone name among them) is reported as not locked. *)
Definition isLocked (c : QString) : t -> (Result * bool) * t :=
  scripted false (fun p =>
    match collections p !! c with
    | Some col => ((ResultOfCode Succeeded, locked col), p)
    | None => ((ResultOfCode Succeeded, false), p)
    end).

Definition setEncryptionKey (c : QString) (key : QByteArray) : t -> (Result * unit) * t :=
  scripted tt (fun p =>
    match collections p !! c with
    | Some col =>
        let applied := if Qt.isEmpty key then None else Some key in
        ((ResultOfCode Succeeded, tt),
         setCollections
           (<[c := mkCollection (collectionKey col) applied (secrets col)]> (collections p)) p)
    | None => ((ResultOfCode Succeeded, tt), p)
    end).

Definition setSecret (c h : QString) (secret : QByteArray) : t -> (Result * unit) * t :=
  scripted tt (fun p =>
    match collections p !! c with
    | Some col =>
        if locked col then ((ResultOfError CollectionIsLockedError, tt), p)
        else
          ((ResultOfCode Succeeded, tt),
           setCollections
             (<[c := mkCollection (collectionKey col) (appliedKey col)
                       (<[h := secret]> (secrets col))]> (collections p)) p)
    | None => ((ResultOfError InvalidCollectionError, tt), p)
    end).

Definition getSecret (c h : QString) : t -> (Result * QByteArray) * t :=
  scripted EmptyString (fun p =>
    match collections p !! c with
    | Some col =>
        if locked col then ((ResultOfError CollectionIsLockedError, EmptyString), p)
        else
          match secrets col !! h with
          | Some b => ((ResultOfCode Succeeded, b), p)
          | None => ((ResultOfError InvalidSecretError, EmptyString), p)
          end
    | None => ((ResultOfError InvalidCollectionError, EmptyString), p)
    end).

(** Removing from a collection needs it unlocked; under any other name
    the standalone secret of that hashed name is removed. *)
Definition removeSecret (c h : QString) : t -> (Result * unit) * t :=
  scripted tt (fun p =>
    match collections p !! c with
    | Some col =>
        if locked col then ((ResultOfError CollectionIsLockedError, tt), p)
        else
          ((ResultOfCode Succeeded, tt),
           setCollections
             (<[c := mkCollection (collectionKey col) (appliedKey col)
                       (delete h (secrets col))]> (collections p)) p)
    | None =>
        ((ResultOfCode Succeeded, tt),
         setStandaloneSecrets (delete h (standaloneSecrets p)) p)
    end).

(** The four-argument [setSecret]: a standalone secret with its own key. *)
Definition setSecretWithKey (c h : QString) (secret key : QByteArray)
    : t -> (Result * unit) * t :=
  scripted tt (fun p =>
    ((ResultOfCode Succeeded, tt),
     setStandaloneSecrets (<[h := (key, secret)]> (standaloneSecrets p)) p)).

Definition accessSecret (c h : QString) (key : QByteArray)
    : t -> (Result * QByteArray) * t :=
  scripted EmptyString (fun p =>
    match standaloneSecrets p !! h with
    | Some (k, b) =>
        if bool_decide (k = key) then ((ResultOfCode Succeeded, b), p)
        else ((ResultOfError IncorrectAuthenticationKeyError, EmptyString), p)
    | None => ((ResultOfError InvalidSecretError, EmptyString), p)
    end).

End EncryptedStoragePlugin.

Module AuthenticationPlugin.

Inductive AuthenticationType :=
| ApplicationSpecificAuthentication
| SystemDefaultAuthentication.

Record Begun := mkBegun {
  begunCallerPid : Z;
  begunRequestId : Z;
  begunCallerApplicationId : QString;
  begunCollectionName : QString;
  begunSecretName : QString;
  begunUiServiceAddress : QString
}.

(** Modelled from the spec: the authentication plugins' sources are not
    at hand.  Section 6: a plugin reports its authentication type, and
    [begin_authentication] starts a flow whose outcome arrives later as
    an [authentication_completed] event.  The model records the flows
    begun; a call answers from the script, and [Pending] otherwise. *)
Record t := mk {
  authenticationType : AuthenticationType;
  begun : list Begun;
  script : list (option Result)
}.

Definition beginAuthentication (b : Begun) (p : t) : Result * t :=
  match nextScripted (script p) with
  | (Some r, rest) => (r, mk (authenticationType p) (begun p) rest)
  | (None, rest) =>
      (ResultOfCode Pending, mk (authenticationType p) (begun p ++ [b]) rest)
  end.

End AuthenticationPlugin.

Definition isApplicationSpecific (a : AuthenticationPlugin.AuthenticationType) : bool :=
  match a with
  | AuthenticationPlugin.ApplicationSpecificAuthentication => true
  | AuthenticationPlugin.SystemDefaultAuthentication => false
  end.

(** Modelled from the spec: [ApplicationPermissions] is not part of the
    sources at hand.  Section 4.3: a caller's process id maps to an
    application identifier and a platform bit. *)
Record ApplicationPermissions := mkApplicationPermissions {
  applicationIsPlatformApplication : Z -> bool;
  platformApplicationId : QString;
  applicationId : Z -> QString
}.

(** ** The request processor's members *)

(** A [QTimer] allocated by the processor: its identity and interval. *)
Record QTimer := mkQTimer { timerId : nat; interval : Z }.

#[global] Instance QTimer_eq_dec : EqDecision QTimer.
Proof. solve_decision. Defined.

(** [enum RequestType] of [secrets_p.h]. *)
Inductive RequestType :=
| InvalidRequest
| GetPluginInfoRequest
| CreateDeviceLockCollectionRequest
| CreateCustomLockCollectionRequest
| DeleteCollectionRequest
| SetCollectionSecretRequest
| SetStandaloneDeviceLockSecretRequest
| SetStandaloneCustomLockSecretRequest
| GetCollectionSecretRequest
| GetStandaloneSecretRequest
| DeleteCollectionSecretRequest
| DeleteStandaloneSecretRequest.

Record PendingRequest := mkPendingRequest {
  prCallerPid : Z;
  prRequestId : Z;
  prRequestType : RequestType;
  prParameters : list QVariant
}.

(** The calls made on plugins, in order: what the processor did to the
    world outside its own members. *)
Inductive PluginCall :=
| StorageCreateCollection (plugin c : QString)
| StorageRemoveCollection (plugin c : QString)
| StorageSetSecret (plugin c h : QString) (bytes : QByteArray)
| StorageGetSecret (plugin c h : QString)
| StorageRemoveSecret (plugin c h : QString)
| EncryptSecret (plugin : QString) (plain key : QByteArray)
| DecryptSecret (plugin : QString) (cipher key : QByteArray)
| EncryptedCreateCollection (plugin c : QString) (key : QByteArray)
| EncryptedRemoveCollection (plugin c : QString)
| EncryptedIsLocked (plugin c : QString)
| EncryptedSetEncryptionKey (plugin c : QString) (key : QByteArray)
| EncryptedSetSecret (plugin c h : QString) (bytes : QByteArray)
| EncryptedSetSecretWithKey (plugin c h : QString) (bytes key : QByteArray)
| EncryptedGetSecret (plugin c h : QString)
| EncryptedAccessSecret (plugin c h : QString) (key : QByteArray)
| EncryptedRemoveSecret (plugin c h : QString)
| BeginAuthentication (plugin : QString) (requestId : Z).

Record RequestProcessor := mkRequestProcessor {
  m_requestQueue : RequestQueue.t;
  m_db : Database.t;
  m_appPermissions : ApplicationPermissions;
  m_storagePlugins : gmap string StoragePlugin.t;
  m_encryptionPlugins : gmap string EncryptionPlugin.t;
  m_encryptedStoragePlugins : gmap string EncryptedStoragePlugin.t;
  m_authenticationPlugins : gmap string AuthenticationPlugin.t;
  m_collectionAuthenticationKeys : gmap string QByteArray;
  m_standaloneSecretAuthenticationKeys : gmap string QByteArray;
  m_collectionLockTimers : gmap string QTimer;
  m_standaloneSecretLockTimers : gmap string QTimer;
  m_pendingRequests : gmap Z PendingRequest;
  timersAllocated : nat;
  pluginCalls : list PluginCall
}.

Section Setters.
Variable p : RequestProcessor.

Definition withRequestQueue (x : RequestQueue.t) : RequestProcessor :=
  mkRequestProcessor x (m_db p) (m_appPermissions p) (m_storagePlugins p)
    (m_encryptionPlugins p) (m_encryptedStoragePlugins p) (m_authenticationPlugins p)
    (m_collectionAuthenticationKeys p) (m_standaloneSecretAuthenticationKeys p)
    (m_collectionLockTimers p) (m_standaloneSecretLockTimers p) (m_pendingRequests p)
    (timersAllocated p) (pluginCalls p).

Definition withDb (x : Database.t) : RequestProcessor :=
  mkRequestProcessor (m_requestQueue p) x (m_appPermissions p) (m_storagePlugins p)
    (m_encryptionPlugins p) (m_encryptedStoragePlugins p) (m_authenticationPlugins p)
    (m_collectionAuthenticationKeys p) (m_standaloneSecretAuthenticationKeys p)
    (m_collectionLockTimers p) (m_standaloneSecretLockTimers p) (m_pendingRequests p)
    (timersAllocated p) (pluginCalls p).

Definition withStoragePlugins (x : gmap string StoragePlugin.t) : RequestProcessor :=
  mkRequestProcessor (m_requestQueue p) (m_db p) (m_appPermissions p) x
    (m_encryptionPlugins p) (m_encryptedStoragePlugins p) (m_authenticationPlugins p)
    (m_collectionAuthenticationKeys p) (m_standaloneSecretAuthenticationKeys p)
    (m_collectionLockTimers p) (m_standaloneSecretLockTimers p) (m_pendingRequests p)
    (timersAllocated p) (pluginCalls p).

Definition withEncryptedStoragePlugins (x : gmap string EncryptedStoragePlugin.t)
    : RequestProcessor :=
  mkRequestProcessor (m_requestQueue p) (m_db p) (m_appPermissions p) (m_storagePlugins p)
    (m_encryptionPlugins p) x (m_authenticationPlugins p)
    (m_collectionAuthenticationKeys p) (m_standaloneSecretAuthenticationKeys p)
    (m_collectionLockTimers p) (m_standaloneSecretLockTimers p) (m_pendingRequests p)
    (timersAllocated p) (pluginCalls p).

Definition withAuthenticationPlugins (x : gmap string AuthenticationPlugin.t)
    : RequestProcessor :=
  mkRequestProcessor (m_requestQueue p) (m_db p) (m_appPermissions p) (m_storagePlugins p)
    (m_encryptionPlugins p) (m_encryptedStoragePlugins p) x
    (m_collectionAuthenticationKeys p) (m_standaloneSecretAuthenticationKeys p)
    (m_collectionLockTimers p) (m_standaloneSecretLockTimers p) (m_pendingRequests p)
    (timersAllocated p) (pluginCalls p).

Definition withCollectionAuthenticationKeys (x : gmap string QByteArray) : RequestProcessor :=
  mkRequestProcessor (m_requestQueue p) (m_db p) (m_appPermissions p) (m_storagePlugins p)
    (m_encryptionPlugins p) (m_encryptedStoragePlugins p) (m_authenticationPlugins p)
    x (m_standaloneSecretAuthenticationKeys p)
    (m_collectionLockTimers p) (m_standaloneSecretLockTimers p) (m_pendingRequests p)
    (timersAllocated p) (pluginCalls p).

Definition withStandaloneSecretAuthenticationKeys (x : gmap string QByteArray)
    : RequestProcessor :=
  mkRequestProcessor (m_requestQueue p) (m_db p) (m_appPermissions p) (m_storagePlugins p)
    (m_encryptionPlugins p) (m_encryptedStoragePlugins p) (m_authenticationPlugins p)
    (m_collectionAuthenticationKeys p) x
    (m_collectionLockTimers p) (m_standaloneSecretLockTimers p) (m_pendingRequests p)
    (timersAllocated p) (pluginCalls p).

Definition withCollectionLockTimers (x : gmap string QTimer) (allocated : nat)
    : RequestProcessor :=
  mkRequestProcessor (m_requestQueue p) (m_db p) (m_appPermissions p) (m_storagePlugins p)
    (m_encryptionPlugins p) (m_encryptedStoragePlugins p) (m_authenticationPlugins p)
    (m_collectionAuthenticationKeys p) (m_standaloneSecretAuthenticationKeys p)
    x (m_standaloneSecretLockTimers p) (m_pendingRequests p)
    allocated (pluginCalls p).

Definition withStandaloneSecretLockTimers (x : gmap string QTimer) (allocated : nat)
    : RequestProcessor :=
  mkRequestProcessor (m_requestQueue p) (m_db p) (m_appPermissions p) (m_storagePlugins p)
    (m_encryptionPlugins p) (m_encryptedStoragePlugins p) (m_authenticationPlugins p)
    (m_collectionAuthenticationKeys p) (m_standaloneSecretAuthenticationKeys p)
    (m_collectionLockTimers p) x (m_pendingRequests p)
    allocated (pluginCalls p).

Definition withPendingRequests (x : gmap Z PendingRequest) : RequestProcessor :=
  mkRequestProcessor (m_requestQueue p) (m_db p) (m_appPermissions p) (m_storagePlugins p)
    (m_encryptionPlugins p) (m_encryptedStoragePlugins p) (m_authenticationPlugins p)
    (m_collectionAuthenticationKeys p) (m_standaloneSecretAuthenticationKeys p)
    (m_collectionLockTimers p) (m_standaloneSecretLockTimers p) x
    (timersAllocated p) (pluginCalls p).

Definition logCall (c : PluginCall) : RequestProcessor :=
  mkRequestProcessor (m_requestQueue p) (m_db p) (m_appPermissions p) (m_storagePlugins p)
    (m_encryptionPlugins p) (m_encryptedStoragePlugins p) (m_authenticationPlugins p)
    (m_collectionAuthenticationKeys p) (m_standaloneSecretAuthenticationKeys p)
    (m_collectionLockTimers p) (m_standaloneSecretLockTimers p) (m_pendingRequests p)
    (timersAllocated p) (pluginCalls p ++ [c]).
End Setters.

(** ** The monad of member functions *)

Definition M (A : Type) : Type := RequestProcessor -> option (A * RequestProcessor).

Definition ret {A : Type} (a : A) : M A := fun p => Some (a, p).

Definition bind {A B : Type} (m : M A) (k : A -> M B) : M B :=
  fun p => match m p with Some (a, p') => k a p' | None => None end.

Definition gets {A : Type} (f : RequestProcessor -> A) : M A := fun p => Some (f p, p).

Definition modify (f : RequestProcessor -> RequestProcessor) : M unit :=
  fun p => Some (tt, f p).

Declare Scope proc_scope.
Delimit Scope proc_scope with proc.
Notation "x <- c ;; k" := (bind c (fun x => k))
  (at level 100, c at next level, right associativity) : proc_scope.
Notation "c ;;; k" := (bind c (fun _ => k))
  (at level 100, right associativity) : proc_scope.
Local Open Scope proc_scope.

Definition errorResult (e : ErrorCode) : M Result := ret (ResultOfError e).

Definition contains {V : Type} (m : gmap string V) (k : QString) : bool :=
  match m !! k with Some _ => true | None => false end.

(** Database calls act on [m_db]. *)
Definition db {A : Type} (f : Database.t -> A * Database.t) : M A :=
  fun p => let '(a, d) := f (m_db p) in Some (a, withDb p d).

Definition rollbackTransaction : M unit :=
  modify (fun p => withDb p (Database.rollbackTransaction (m_db p))).

(** [prepare], [bindValues], [execute] of a [SELECT], each failure
    answered by the caller with a database-query error: [None] is that
    failure, [Some row] the row the cursor found, if any. *)
Definition select (q : Database.Query) : M (option (option Row)) :=
  ok <- db Database.prepare ;;
  if negb ok then ret None
  else
    executed <- db (Database.execute q) ;;
    let '(ok, row) := executed in
    if negb ok then ret None else ret (Some row).

(** [beginTransaction], [execute], [commitTransaction] of a prepared
    statement, with the callers' error for each failing step; [None] when
    the statement is committed. *)
Definition inTransaction (q : Database.Query) : M (option ErrorCode) :=
  ok <- db Database.beginTransaction ;;
  if negb ok then ret (Some DatabaseTransactionError)
  else
    executed <- db (Database.execute q) ;;
    if negb (fst executed) then rollbackTransaction ;;; ret (Some DatabaseQueryError)
    else
      ok <- db Database.commitTransaction ;;
      if negb ok then rollbackTransaction ;;; ret (Some DatabaseTransactionError)
      else ret None.

(** Calls through the plugin registries.  The call is logged, and an
    absent plugin is a null pointer. *)
Definition callStorage {A : Type} (name : QString) (ev : PluginCall)
    (f : StoragePlugin.t -> (Result * A) * StoragePlugin.t) : M (Result * A) :=
  fun p =>
    match m_storagePlugins p !! name with
    | None => None
    | Some plugin =>
        let '(ra, plugin') := f plugin in
        Some (ra, logCall (withStoragePlugins p (<[name := plugin']> (m_storagePlugins p))) ev)
    end.

Definition callEncryptedStorage {A : Type} (name : QString) (ev : PluginCall)
    (f : EncryptedStoragePlugin.t -> (Result * A) * EncryptedStoragePlugin.t) : M (Result * A) :=
  fun p =>
    match m_encryptedStoragePlugins p !! name with
    | None => None
    | Some plugin =>
        let '(ra, plugin') := f plugin in
        Some (ra, logCall (withEncryptedStoragePlugins p
                             (<[name := plugin']> (m_encryptedStoragePlugins p))) ev)
    end.

Definition callEncrypt (name : QString) (plain key : QByteArray) : M (Result * QByteArray) :=
  fun p =>
    match m_encryptionPlugins p !! name with
    | None => None
    | Some plugin =>
        Some (EncryptionPlugin.encryptSecret plugin plain key,
              logCall p (EncryptSecret name plain key))
    end.

Definition callDecrypt (name : QString) (cipher key : QByteArray) : M (Result * QByteArray) :=
  fun p =>
    match m_encryptionPlugins p !! name with
    | None => None
    | Some plugin =>
        Some (EncryptionPlugin.decryptSecret plugin cipher key,
              logCall p (DecryptSecret name cipher key))
    end.

Definition authenticationTypeOf (name : QString) : M AuthenticationPlugin.AuthenticationType :=
  fun p =>
    match m_authenticationPlugins p !! name with
    | None => None
    | Some plugin => Some (AuthenticationPlugin.authenticationType plugin, p)
    end.

Definition beginAuthentication (name : QString) (b : AuthenticationPlugin.Begun) : M Result :=
  fun p =>
    match m_authenticationPlugins p !! name with
    | None => None
    | Some plugin =>
        let '(r, plugin') := AuthenticationPlugin.beginAuthentication b plugin in
        Some (r, logCall (withAuthenticationPlugins p
                            (<[name := plugin']> (m_authenticationPlugins p)))
                   (BeginAuthentication name (AuthenticationPlugin.begunRequestId b)))
    end.

(** [applicationIsPlatformApplication(callerPid) ? platformApplicationId()
    : applicationId(callerPid)] *)
Definition applicationOf (perms : ApplicationPermissions) (callerPid : Z) : QString :=
  if applicationIsPlatformApplication perms callerPid
  then platformApplicationId perms
  else applicationId perms callerPid.

Definition callerApplicationIdOf (callerPid : Z) : M QString :=
  gets (fun p => applicationOf (m_appPermissions p) callerPid).

Definition parkRequest (requestId : Z) (pr : PendingRequest) : M unit :=
  modify (fun p => withPendingRequests p (<[requestId := pr]> (m_pendingRequests p))).

(** ** The request processor ([secretsrequestprocessor.cpp]) *)

Section Processor.

(** [QCryptographicHash::Sha3_256] of the Qt library: from the data fed
    to the hash to its digest. *)
Variable Sha3_256 : QByteArray -> QByteArray.

Definition rehashHash (hash : QByteArray) : QByteArray := Sha3_256 hash.

(** [for (int i = 0; i < 100; ++i) hashed = rehashHash(hashed);] *)
Fixpoint rehashTimes (n : nat) (hashed : QByteArray) : QByteArray :=
  match n with
  | O => hashed
  | S n' => rehashTimes n' (rehashHash hashed)
  end.

Definition generateHashedSecretName (collectionName secretName : QString) : QString :=
  let data := Qt.toUtf8 collectionName +:+ Qt.toUtf8 secretName in
  let hashed := Sha3_256 data in
  Qt.fromLatin1 (Qt.toBase64 (rehashTimes 100 hashed)).

Definition isReservedName (collectionName : QString) : bool :=
  Qt.equalsCaseInsensitive collectionName standaloneCollectionName.

(** The compensating transaction of the create and set operations:
    [prepare] the [DELETE], then run it in a transaction.  The result
    of the failed plugin call is returned when the row is gone, the
    database error otherwise. *)
Definition compensate (q : Database.Query) (pluginResult : Result) : M Result :=
  ok <- db Database.prepare ;;
  if negb ok then errorResult DatabaseQueryError
  else
    failure <- inTransaction q ;;
    match failure with
    | Some e => errorResult e
    | None => ret pluginResult
    end.

Definition createDeviceLockCollection (callerPid requestId : Z)
    (collectionName storagePluginName encryptionPluginName : QString)
    (unlockSemantic : DeviceLockUnlockSemantic)
    (accessControlMode : AccessControlMode) : M Result :=
  this <- gets (fun p => p) ;;
  if isReservedName collectionName then errorResult InvalidCollectionError
  else if bool_decide (storagePluginName = encryptionPluginName)
          && negb (contains (m_encryptedStoragePlugins this) storagePluginName)
  then errorResult InvalidExtensionPluginError
  else if negb (contains (m_storagePlugins this) storagePluginName)
  then errorResult InvalidExtensionPluginError
  else if negb (contains (m_encryptionPlugins this) encryptionPluginName)
  then errorResult InvalidExtensionPluginError
  else
    callerApplicationId <- callerApplicationIdOf callerPid ;;
    counted <- select (Database.SelectCollection collectionName) ;;
    match counted with
    | None => errorResult DatabaseQueryError
    | Some (Some _) => errorResult CollectionAlreadyExistsError
    | Some None =>
        ok <- db Database.prepare ;;
        if negb ok then errorResult DatabaseQueryError
        else
          failure <- inTransaction
            (Database.InsertCollection collectionName
               (mkRow callerApplicationId 1 storagePluginName encryptionPluginName
                  DefaultAuthenticationPluginName
                  (intOfDeviceLockUnlockSemantic unlockSemantic) 0
                  (intOfAccessControlMode accessControlMode))) ;;
          match failure with
          | Some e => errorResult e
          | None =>
              pluginResult <-
                (if bool_decide (storagePluginName = encryptionPluginName) then
                   r <- callEncryptedStorage storagePluginName
                          (EncryptedCreateCollection storagePluginName collectionName DeviceLockKey)
                          (EncryptedStoragePlugin.createCollection collectionName DeviceLockKey) ;;
                   ret (fst r)
                 else
                   r <- callStorage storagePluginName
                          (StorageCreateCollection storagePluginName collectionName)
                          (StoragePlugin.createCollection collectionName) ;;
                   modify (fun p => withCollectionAuthenticationKeys p
                             (<[collectionName := DeviceLockKey]>
                                (m_collectionAuthenticationKeys p))) ;;;
                   ret (fst r)) ;;
              if negb (isSucceeded pluginResult)
              then compensate (Database.DeleteCollection collectionName) pluginResult
              else ret pluginResult
          end
    end.

Definition createCustomLockCollection (callerPid requestId : Z)
    (collectionName storagePluginName encryptionPluginName authenticationPluginName : QString)
    (unlockSemantic : CustomLockUnlockSemantic) (customLockTimeoutMs : Z)
    (accessControlMode : AccessControlMode)
    (userInteractionMode : UserInteractionMode) (uiServiceAddress : QString) : M Result :=
  this <- gets (fun p => p) ;;
  if isReservedName collectionName then errorResult InvalidCollectionError
  else if bool_decide (storagePluginName = encryptionPluginName)
          && negb (contains (m_encryptedStoragePlugins this) storagePluginName)
  then errorResult InvalidExtensionPluginError
  else if negb (contains (m_storagePlugins this) storagePluginName)
  then errorResult InvalidExtensionPluginError
  else if negb (contains (m_encryptionPlugins this) encryptionPluginName)
  then errorResult InvalidExtensionPluginError
  else if negb (contains (m_authenticationPlugins this) authenticationPluginName)
  then errorResult InvalidExtensionPluginError
  else
    authenticationType <- authenticationTypeOf authenticationPluginName ;;
    if isApplicationSpecific authenticationType
       && (negb (isInProcessUserInteractionMode userInteractionMode)
           || Qt.isEmpty uiServiceAddress)
    then errorResult OperationRequiresInProcessUserInteraction
    else if isPreventUserInteractionMode userInteractionMode
    then errorResult OperationRequiresUserInteraction
    else
      callerApplicationId <- callerApplicationIdOf callerPid ;;
      counted <- select (Database.SelectCollection collectionName) ;;
      match counted with
      | None => errorResult DatabaseQueryError
      | Some (Some _) => errorResult CollectionAlreadyExistsError
      | Some None =>
          authenticationResult <- beginAuthentication authenticationPluginName
            (AuthenticationPlugin.mkBegun callerPid requestId callerApplicationId
               collectionName EmptyString uiServiceAddress) ;;
          if isFailed authenticationResult then ret authenticationResult
          else
            parkRequest requestId
              (mkPendingRequest callerPid requestId CreateCustomLockCollectionRequest
                 [VString collectionName; VString storagePluginName;
                  VString encryptionPluginName; VString authenticationPluginName;
                  VInt (intOfCustomLockUnlockSemantic unlockSemantic);
                  VInt customLockTimeoutMs;
                  VInt (intOfAccessControlMode accessControlMode);
                  VInt (intOfUserInteractionMode userInteractionMode);
                  VString uiServiceAddress]) ;;;
            ret (ResultOfCode Pending)
      end.

Definition createCustomLockCollectionWithAuthenticationKey (callerPid requestId : Z)
    (collectionName storagePluginName encryptionPluginName authenticationPluginName : QString)
    (unlockSemantic customLockTimeoutMs accessControlMode : Z)
    (userInteractionMode : UserInteractionMode) (uiServiceAddress : QString)
    (authenticationKey : QByteArray) : M Result :=
  callerApplicationId <- callerApplicationIdOf callerPid ;;
  counted <- select (Database.SelectCollection collectionName) ;;
  match counted with
  | None => errorResult DatabaseQueryError
  | Some (Some _) => errorResult CollectionAlreadyExistsError
  | Some None =>
      ok <- db Database.prepare ;;
      if negb ok then errorResult DatabaseQueryError
      else
        failure <- inTransaction
          (Database.InsertCollection collectionName
             (mkRow callerApplicationId 0 storagePluginName encryptionPluginName
                authenticationPluginName unlockSemantic customLockTimeoutMs
                accessControlMode)) ;;
        match failure with
        | Some e => errorResult e
        | None =>
            pluginResult <-
              (if bool_decide (storagePluginName = encryptionPluginName) then
                 r <- callEncryptedStorage storagePluginName
                        (EncryptedCreateCollection storagePluginName collectionName
                           authenticationKey)
                        (EncryptedStoragePlugin.createCollection collectionName
                           authenticationKey) ;;
                 ret (fst r)
               else
                 r <- callStorage storagePluginName
                        (StorageCreateCollection storagePluginName collectionName)
                        (StoragePlugin.createCollection collectionName) ;;
                 modify (fun p => withCollectionAuthenticationKeys p
                           (<[collectionName := authenticationKey]>
                              (m_collectionAuthenticationKeys p))) ;;;
                 ret (fst r)) ;;
            if isFailed pluginResult
            then compensate (Database.DeleteCollection collectionName) pluginResult
            else ret pluginResult
        end
  end.

Definition deleteCollection (callerPid requestId : Z) (collectionName : QString)
    (userInteractionMode : UserInteractionMode) : M Result :=
  if isReservedName collectionName then errorResult InvalidCollectionError
  else if Qt.isEmpty collectionName then errorResult InvalidCollectionError
  else
    callerApplicationId <- callerApplicationIdOf callerPid ;;
    this <- gets (fun p => p) ;;
    selection <- select (Database.SelectCollection collectionName) ;;
    match selection with
    | None => errorResult DatabaseQueryError
    | Some None => ret (ResultOfCode Succeeded)
    | Some (Some row) =>
        let collectionStoragePluginName := rowStoragePluginName row in
        let collectionEncryptionPluginName := rowEncryptionPluginName row in
        if bool_decide (collectionStoragePluginName = collectionEncryptionPluginName)
           && negb (contains (m_encryptedStoragePlugins this) collectionStoragePluginName)
        then errorResult InvalidExtensionPluginError
        else if Qt.isEmpty collectionStoragePluginName
                || negb (contains (m_storagePlugins this) collectionStoragePluginName)
        then errorResult InvalidExtensionPluginError
        else
          pluginResult <-
            (if bool_decide (collectionStoragePluginName = collectionEncryptionPluginName)
             then callEncryptedStorage collectionStoragePluginName
                    (EncryptedRemoveCollection collectionStoragePluginName collectionName)
                    (EncryptedStoragePlugin.removeCollection collectionName)
             else callStorage collectionStoragePluginName
                    (StorageRemoveCollection collectionStoragePluginName collectionName)
                    (StoragePlugin.removeCollection collectionName)) ;;
          if isFailed (fst pluginResult) then ret (fst pluginResult)
          else
            modify (fun p => withCollectionAuthenticationKeys p
                      (delete collectionName (m_collectionAuthenticationKeys p))) ;;;
            modify (fun p => withCollectionLockTimers p
                      (delete collectionName (m_collectionLockTimers p))
                      (timersAllocated p)) ;;;
            ok <- db Database.prepare ;;
            if negb ok then errorResult DatabaseQueryError
            else
              failure <- inTransaction (Database.DeleteCollection collectionName) ;;
              match failure with
              | Some e => errorResult e
              | None => ret (ResultOfCode Succeeded)
              end
    end.

(** The key-application block shared by the set, get and delete
    continuations on an encrypted-storage collection:

    [if (locked) { setEncryptionKey(c, key); ...; isLocked(c, &locked); ... }]
    [if (locked) { setEncryptionKey(c, QByteArray()); return IncorrectAuthenticationKeyError; }]

    [Some r] is the early [return r]; [None] means the collection is
    unlocked and the function goes on. *)
Definition relock (plugin collectionName : QString) : M unit :=
  callEncryptedStorage plugin
    (EncryptedSetEncryptionKey plugin collectionName EmptyString)
    (EncryptedStoragePlugin.setEncryptionKey collectionName EmptyString) ;;;
  ret tt.

Definition applyAuthenticationKey (plugin collectionName : QString)
    (authenticationKey : QByteArray) (locked : bool) : M (option Result) :=
  stillLocked <-
    (if locked then
       applied <- callEncryptedStorage plugin
         (EncryptedSetEncryptionKey plugin collectionName authenticationKey)
         (EncryptedStoragePlugin.setEncryptionKey collectionName authenticationKey) ;;
       if negb (isSucceeded (fst applied)) then
         relock plugin collectionName ;;;
         ret (inl (ResultOfError SecretsPluginDecryptionError))
       else
         checked <- callEncryptedStorage plugin
           (EncryptedIsLocked plugin collectionName)
           (EncryptedStoragePlugin.isLocked collectionName) ;;
         if negb (isSucceeded (fst checked)) then
           relock plugin collectionName ;;;
           ret (inl (ResultOfError SecretsPluginDecryptionError))
         else ret (inr (snd checked))
     else ret (inr false)) ;;
  match stillLocked with
  | inl r => ret (Some r)
  | inr true =>
      relock plugin collectionName ;;;
      ret (Some (ResultOfError IncorrectAuthenticationKeyError))
  | inr false => ret None
  end.

Definition cacheCollectionKeyIfAbsent (collectionName : QString)
    (authenticationKey : QByteArray) : M unit :=
  modify (fun p =>
    if contains (m_collectionAuthenticationKeys p) collectionName then p
    else withCollectionAuthenticationKeys p
           (<[collectionName := authenticationKey]> (m_collectionAuthenticationKeys p))).

(** [m_collectionAuthenticationKeys.value(collectionName)] *)
Definition cachedCollectionKey (collectionName : QString) : M QByteArray :=
  gets (fun p =>
    match m_collectionAuthenticationKeys p !! collectionName with
    | Some k => k
    | None => EmptyString
    end).

Definition setCollectionSecretWithAuthenticationKey (callerPid requestId : Z)
    (collectionName secretName : QString) (secret : QByteArray)
    (userInteractionMode : UserInteractionMode) (uiServiceAddress : QString)
    (collectionUsesDeviceLockKey : bool)
    (collectionApplicationId collectionStoragePluginName collectionEncryptionPluginName
       collectionAuthenticationPluginName : QString)
    (collectionUnlockSemantic collectionCustomLockTimeoutMs collectionAccessControlMode : Z)
    (authenticationKey : QByteArray) : M Result :=
  let hashedSecretName := generateHashedSecretName collectionName secretName in
  counted <- select (Database.SelectSecret collectionName hashedSecretName) ;;
  match counted with
  | None => errorResult DatabaseQueryError
  | Some existing =>
      let secretAlreadyExists := match existing with Some _ => true | None => false end in
      inserted <-
        (if negb secretAlreadyExists then
           ok <- db Database.prepare ;;
           if negb ok then ret (Some DatabaseQueryError)
           else
             inTransaction
               (Database.InsertSecret collectionName hashedSecretName
                  (mkRow collectionApplicationId
                     (if collectionUsesDeviceLockKey then 1 else 0)
                     collectionStoragePluginName collectionEncryptionPluginName
                     collectionAuthenticationPluginName collectionUnlockSemantic
                     collectionCustomLockTimeoutMs collectionAccessControlMode))
         else ret None) ;;
      match inserted with
      | Some e => errorResult e
      | None =>
          outcome <-
            (if bool_decide (collectionStoragePluginName = collectionEncryptionPluginName) then
               checked <- callEncryptedStorage collectionStoragePluginName
                 (EncryptedIsLocked collectionStoragePluginName collectionName)
                 (EncryptedStoragePlugin.isLocked collectionName) ;;
               if isSucceeded (fst checked) then
                 early <- applyAuthenticationKey collectionStoragePluginName collectionName
                            authenticationKey (snd checked) ;;
                 match early with
                 | Some r => ret (inl r)
                 | None =>
                     r <- callEncryptedStorage collectionStoragePluginName
                       (EncryptedSetSecret collectionStoragePluginName collectionName
                          hashedSecretName secret)
                       (EncryptedStoragePlugin.setSecret collectionName hashedSecretName secret) ;;
                     ret (inr (fst r))
                 end
               else ret (inr (fst checked))
             else
               cacheCollectionKeyIfAbsent collectionName authenticationKey ;;;
               key <- cachedCollectionKey collectionName ;;
               encrypted <- callEncrypt collectionEncryptionPluginName secret key ;;
               if isSucceeded (fst encrypted) then
                 r <- callStorage collectionStoragePluginName
                   (StorageSetSecret collectionStoragePluginName collectionName
                      hashedSecretName (snd encrypted))
                   (StoragePlugin.setSecret collectionName hashedSecretName (snd encrypted)) ;;
                 ret (inr (fst r))
               else ret (inr (fst encrypted))) ;;
          match outcome with
          | inl r => ret r
          | inr pluginResult =>
              if isFailed pluginResult && negb secretAlreadyExists
              then compensate (Database.DeleteSecret collectionName hashedSecretName)
                     pluginResult
              else ret pluginResult
          end
      end
  end.

(** The tail shared by the two branches of [setCollectionSecret] on a
    locked collection: refuse, or begin the authentication flow and
    park the request. *)
Definition parkSetCollectionSecret (callerPid requestId : Z)
    (callerApplicationId collectionName secretName : QString) (secret : QByteArray)
    (userInteractionMode : UserInteractionMode) (uiServiceAddress : QString)
    (row : Row) : M Result :=
  if 0 <? rowUsesDeviceLockKey row then errorResult CollectionIsLockedError
  else if isPreventUserInteractionMode userInteractionMode
  then errorResult OperationRequiresUserInteraction
  else
    authenticationResult <- beginAuthentication (rowAuthenticationPluginName row)
      (AuthenticationPlugin.mkBegun callerPid requestId callerApplicationId
         collectionName secretName uiServiceAddress) ;;
    if isFailed authenticationResult then ret authenticationResult
    else
      parkRequest requestId
        (mkPendingRequest callerPid requestId SetCollectionSecretRequest
           [VString collectionName; VString secretName; VBytes secret;
            VInt (intOfUserInteractionMode userInteractionMode);
            VString uiServiceAddress;
            VBool (0 <? rowUsesDeviceLockKey row);
            VString (rowApplicationId row);
            VString (rowStoragePluginName row);
            VString (rowEncryptionPluginName row);
            VString (rowAuthenticationPluginName row);
            VInt (rowUnlockSemantic row);
            VInt (rowCustomLockTimeoutMs row);
            VInt (rowAccessControlMode row)]) ;;;
      ret (ResultOfCode Pending).

Definition setCollectionSecret (callerPid requestId : Z)
    (collectionName secretName : QString) (secret : QByteArray)
    (userInteractionMode : UserInteractionMode) (uiServiceAddress : QString) : M Result :=
  if Qt.isEmpty secretName then errorResult InvalidSecretError
  else if Qt.isEmpty collectionName then errorResult InvalidCollectionError
  else if isReservedName collectionName then errorResult InvalidCollectionError
  else
    callerApplicationId <- callerApplicationIdOf callerPid ;;
    this <- gets (fun p => p) ;;
    selection <- select (Database.SelectCollection collectionName) ;;
    match selection with
    | None => errorResult DatabaseQueryError
    | Some None => errorResult InvalidCollectionError
    | Some (Some row) =>
        let collectionStoragePluginName := rowStoragePluginName row in
        let collectionEncryptionPluginName := rowEncryptionPluginName row in
        let continue (authenticationKey : QByteArray) :=
          setCollectionSecretWithAuthenticationKey callerPid requestId
            collectionName secretName secret userInteractionMode uiServiceAddress
            (0 <? rowUsesDeviceLockKey row) (rowApplicationId row)
            collectionStoragePluginName collectionEncryptionPluginName
            (rowAuthenticationPluginName row) (rowUnlockSemantic row)
            (rowCustomLockTimeoutMs row) (rowAccessControlMode row) authenticationKey in
        if negb (rowAccessControlMode row =? intOfAccessControlMode OwnerOnlyMode)
        then errorResult OperationNotSupportedError
        else if negb (bool_decide (rowApplicationId row = callerApplicationId))
        then errorResult PermissionsError
        else if bool_decide (collectionStoragePluginName = collectionEncryptionPluginName)
                && negb (contains (m_encryptedStoragePlugins this) collectionStoragePluginName)
        then errorResult InvalidExtensionPluginError
        else if negb (bool_decide (collectionStoragePluginName = collectionEncryptionPluginName))
                && (Qt.isEmpty collectionStoragePluginName
                    || negb (contains (m_storagePlugins this) collectionStoragePluginName))
        then errorResult InvalidExtensionPluginError
        else if negb (bool_decide (collectionStoragePluginName = collectionEncryptionPluginName))
                && (Qt.isEmpty collectionEncryptionPluginName
                    || negb (contains (m_encryptionPlugins this) collectionEncryptionPluginName))
        then errorResult InvalidExtensionPluginError
        else if bool_decide (collectionStoragePluginName = collectionEncryptionPluginName) then
          checked <- callEncryptedStorage collectionStoragePluginName
            (EncryptedIsLocked collectionStoragePluginName collectionName)
            (EncryptedStoragePlugin.isLocked collectionName) ;;
          if negb (isSucceeded (fst checked)) then ret (fst checked)
          else if negb (snd checked) then continue EmptyString
          else parkSetCollectionSecret callerPid requestId callerApplicationId
                 collectionName secretName secret userInteractionMode uiServiceAddress row
        else if contains (m_collectionAuthenticationKeys this) collectionName then
          key <- cachedCollectionKey collectionName ;;
          continue key
        else parkSetCollectionSecret callerPid requestId callerApplicationId
               collectionName secretName secret userInteractionMode uiServiceAddress row
    end.

(** The checks the standalone set operations make on an existing row;
    [deviceLock] tells which of the two operations is asking. *)
Definition refuseStandaloneUpdate (deviceLock : bool) (existing : option Row)
    (callerApplicationId storagePluginName : QString) : option ErrorCode :=
  match existing with
  | None => None
  | Some row =>
      if negb (rowAccessControlMode row =? intOfAccessControlMode OwnerOnlyMode)
      then Some OperationNotSupportedError
      else if negb (bool_decide (rowApplicationId row = callerApplicationId))
      then Some PermissionsError
      else if Bool.eqb (0 <? rowUsesDeviceLockKey row) (negb deviceLock)
      then Some OperationNotSupportedError
      else if negb (Qt.equalsCaseInsensitive (rowStoragePluginName row) storagePluginName)
      then Some OperationNotSupportedError
      else None
  end.

(** The statement that writes a standalone secret's row: an [UPDATE]
    of the row found, an [INSERT] otherwise. *)
Definition upsertSecret (found : bool) (hashedSecretName : QString) (row : Row)
    : Database.Query :=
  if found then Database.UpdateSecret standaloneCollectionName hashedSecretName row
  else Database.InsertSecret standaloneCollectionName hashedSecretName row.

(** The plugin part of the standalone set operations. *)
Definition storeStandaloneSecret (storagePluginName encryptionPluginName : QString)
    (hashedSecretName : QString) (secret key : QByteArray) : M Result :=
  if bool_decide (storagePluginName = encryptionPluginName) then
    r <- callEncryptedStorage storagePluginName
      (EncryptedSetSecretWithKey storagePluginName standaloneCollectionName
         hashedSecretName secret key)
      (EncryptedStoragePlugin.setSecretWithKey standaloneCollectionName
         hashedSecretName secret key) ;;
    ret (fst r)
  else
    encrypted <- callEncrypt encryptionPluginName secret key ;;
    if isSucceeded (fst encrypted) then
      r <- callStorage storagePluginName
        (StorageSetSecret storagePluginName standaloneCollectionName
           hashedSecretName (snd encrypted))
        (StoragePlugin.setSecret standaloneCollectionName hashedSecretName (snd encrypted)) ;;
      if isSucceeded (fst r) then
        modify (fun p => withStandaloneSecretAuthenticationKeys p
                  (<[hashedSecretName := key]> (m_standaloneSecretAuthenticationKeys p))) ;;;
        ret (fst r)
      else ret (fst r)
    else ret (fst encrypted).

Definition setStandaloneDeviceLockSecret (callerPid requestId : Z)
    (storagePluginName encryptionPluginName secretName : QString) (secret : QByteArray)
    (unlockSemantic : DeviceLockUnlockSemantic) (accessControlMode : AccessControlMode)
    (userInteractionMode : UserInteractionMode) : M Result :=
  this <- gets (fun p => p) ;;
  if Qt.isEmpty secretName then errorResult InvalidSecretError
  else if bool_decide (storagePluginName = encryptionPluginName)
          && negb (contains (m_encryptedStoragePlugins this) storagePluginName)
  then errorResult InvalidExtensionPluginError
  else if negb (bool_decide (storagePluginName = encryptionPluginName))
          && negb (contains (m_storagePlugins this) storagePluginName)
  then errorResult InvalidExtensionPluginError
  else if negb (bool_decide (storagePluginName = encryptionPluginName))
          && negb (contains (m_encryptionPlugins this) encryptionPluginName)
  then errorResult InvalidExtensionPluginError
  else
    callerApplicationId <- callerApplicationIdOf callerPid ;;
    let hashedSecretName := generateHashedSecretName standaloneCollectionName secretName in
    selection <- select (Database.SelectSecret standaloneCollectionName hashedSecretName) ;;
    match selection with
    | None => errorResult DatabaseQueryError
    | Some existing =>
        let found := match existing with Some _ => true | None => false end in
        match refuseStandaloneUpdate true existing callerApplicationId storagePluginName with
        | Some e => errorResult e
        | None =>
            ok <- db Database.prepare ;;
            if negb ok then rollbackTransaction ;;; errorResult DatabaseQueryError
            else
              failure <- inTransaction
                (upsertSecret found hashedSecretName
                   (mkRow callerApplicationId 1 storagePluginName encryptionPluginName
                      DefaultAuthenticationPluginName
                      (intOfDeviceLockUnlockSemantic unlockSemantic) 0
                      (intOfAccessControlMode accessControlMode))) ;;
              match failure with
              | Some e => errorResult e
              | None =>
                  pluginResult <- storeStandaloneSecret storagePluginName
                    encryptionPluginName hashedSecretName secret DeviceLockKey ;;
                  if isFailed pluginResult && negb found
                  then compensate
                         (Database.DeleteSecret standaloneCollectionName hashedSecretName)
                         pluginResult
                  else ret pluginResult
              end
        end
    end.

Definition setStandaloneCustomLockSecret (callerPid requestId : Z)
    (storagePluginName encryptionPluginName authenticationPluginName secretName : QString)
    (secret : QByteArray) (unlockSemantic : CustomLockUnlockSemantic)
    (customLockTimeoutMs : Z) (accessControlMode : AccessControlMode)
    (userInteractionMode : UserInteractionMode) (uiServiceAddress : QString) : M Result :=
  this <- gets (fun p => p) ;;
  if Qt.isEmpty secretName then errorResult InvalidSecretError
  else if bool_decide (storagePluginName = encryptionPluginName)
          && negb (contains (m_encryptedStoragePlugins this) storagePluginName)
  then errorResult InvalidExtensionPluginError
  else if negb (bool_decide (storagePluginName = encryptionPluginName))
          && negb (contains (m_storagePlugins this) storagePluginName)
  then errorResult InvalidExtensionPluginError
  else if negb (bool_decide (storagePluginName = encryptionPluginName))
          && negb (contains (m_encryptionPlugins this) encryptionPluginName)
  then errorResult InvalidExtensionPluginError
  else
    callerApplicationId <- callerApplicationIdOf callerPid ;;
    let hashedSecretName := generateHashedSecretName standaloneCollectionName secretName in
    selection <- select (Database.SelectSecret standaloneCollectionName hashedSecretName) ;;
    match selection with
    | None => errorResult DatabaseQueryError
    | Some existing =>
        match refuseStandaloneUpdate false existing callerApplicationId storagePluginName with
        | Some e => errorResult e
        | None =>
            authenticationType <- authenticationTypeOf authenticationPluginName ;;
            if isApplicationSpecific authenticationType
               && (negb (isInProcessUserInteractionMode userInteractionMode)
                   || Qt.isEmpty uiServiceAddress)
            then errorResult OperationRequiresInProcessUserInteraction
            else if isPreventUserInteractionMode userInteractionMode
            then errorResult OperationRequiresUserInteraction
            else
              authenticationResult <- beginAuthentication authenticationPluginName
                (AuthenticationPlugin.mkBegun callerPid requestId callerApplicationId
                   EmptyString secretName uiServiceAddress) ;;
              if isFailed authenticationResult then ret authenticationResult
              else
                parkRequest requestId
                  (mkPendingRequest callerPid requestId SetStandaloneCustomLockSecretRequest
                     [VString storagePluginName; VString encryptionPluginName;
                      VString authenticationPluginName; VString secretName;
                      VBytes secret;
                      VInt (intOfCustomLockUnlockSemantic unlockSemantic);
                      VInt customLockTimeoutMs;
                      VInt (intOfAccessControlMode accessControlMode);
                      VInt (intOfUserInteractionMode userInteractionMode);
                      VString uiServiceAddress]) ;;;
                ret (ResultOfCode Pending)
        end
    end.

Definition setStandaloneCustomLockSecretWithAuthenticationKey (callerPid requestId : Z)
    (storagePluginName encryptionPluginName authenticationPluginName secretName : QString)
    (secret : QByteArray) (unlockSemantic customLockTimeoutMs accessControlMode : Z)
    (userInteractionMode : UserInteractionMode) (uiServiceAddress : QString)
    (authenticationKey : QByteArray) : M Result :=
  callerApplicationId <- callerApplicationIdOf callerPid ;;
  let hashedSecretName := generateHashedSecretName standaloneCollectionName secretName in
  selection <- select (Database.SelectSecret standaloneCollectionName hashedSecretName) ;;
  match selection with
  | None => errorResult DatabaseQueryError
  | Some existing =>
      let found := match existing with Some _ => true | None => false end in
      match refuseStandaloneUpdate false existing callerApplicationId storagePluginName with
      | Some e => errorResult e
      | None =>
          ok <- db Database.prepare ;;
          if negb ok then errorResult DatabaseQueryError
          else
            failure <- inTransaction
              (upsertSecret found hashedSecretName
                 (mkRow callerApplicationId 1 storagePluginName encryptionPluginName
                    authenticationPluginName unlockSemantic customLockTimeoutMs
                    accessControlMode)) ;;
            match failure with
            | Some e => errorResult e
            | None =>
                pluginResult <- storeStandaloneSecret storagePluginName
                  encryptionPluginName hashedSecretName secret authenticationKey ;;
                if isFailed pluginResult && negb found
                then compensate
                       (Database.DeleteSecret standaloneCollectionName hashedSecretName)
                       pluginResult
                else ret pluginResult
            end
      end
  end.

(** [new QTimer(this)] with its interval, single shot, started. *)
Definition armCollectionLockTimer (collectionName : QString) (timeoutMs : Z) : M unit :=
  modify (fun p =>
    if contains (m_collectionLockTimers p) collectionName then p
    else withCollectionLockTimers p
           (<[collectionName := mkQTimer (timersAllocated p) timeoutMs]>
              (m_collectionLockTimers p))
           (S (timersAllocated p))).

Definition armStandaloneSecretLockTimer (secretName : QString) (timeoutMs : Z) : M unit :=
  modify (fun p =>
    if contains (m_standaloneSecretLockTimers p) secretName then p
    else withStandaloneSecretLockTimers p
           (<[secretName := mkQTimer (timersAllocated p) timeoutMs]>
              (m_standaloneSecretLockTimers p))
           (S (timersAllocated p))).

Definition getCollectionSecretWithAuthenticationKey (callerPid requestId : Z)
    (collectionName secretName : QString)
    (userInteractionMode : UserInteractionMode) (uiServiceAddress : QString)
    (storagePluginName encryptionPluginName : QString)
    (collectionUnlockSemantic collectionCustomLockTimeoutMs : Z)
    (authenticationKey : QByteArray) : M (Result * QByteArray) :=
  (if collectionUnlockSemantic =? intOfCustomLockUnlockSemantic CustomLockTimoutRelock
   then armCollectionLockTimer collectionName collectionCustomLockTimeoutMs
   else ret tt) ;;;
  let hashedSecretName := generateHashedSecretName collectionName secretName in
  if bool_decide (storagePluginName = encryptionPluginName) then
    checked <- callEncryptedStorage storagePluginName
      (EncryptedIsLocked storagePluginName collectionName)
      (EncryptedStoragePlugin.isLocked collectionName) ;;
    if negb (isSucceeded (fst checked)) then ret (fst checked, EmptyString)
    else
      early <- applyAuthenticationKey storagePluginName collectionName
                 authenticationKey (snd checked) ;;
      match early with
      | Some r => ret (r, EmptyString)
      | None =>
          callEncryptedStorage storagePluginName
            (EncryptedGetSecret storagePluginName collectionName hashedSecretName)
            (EncryptedStoragePlugin.getSecret collectionName hashedSecretName)
      end
  else
    cacheCollectionKeyIfAbsent collectionName authenticationKey ;;;
    encrypted <- callStorage storagePluginName
      (StorageGetSecret storagePluginName collectionName hashedSecretName)
      (StoragePlugin.getSecret collectionName hashedSecretName) ;;
    if isSucceeded (fst encrypted) then
      key <- cachedCollectionKey collectionName ;;
      callDecrypt encryptionPluginName (snd encrypted) key
    else ret (fst encrypted, EmptyString).

(** The tail shared by the two branches of [getCollectionSecret] on a
    locked collection. *)
Definition parkGetCollectionSecret (callerPid requestId : Z)
    (callerApplicationId collectionName secretName : QString)
    (userInteractionMode : UserInteractionMode) (uiServiceAddress : QString)
    (row : Row) : M (Result * QByteArray) :=
  if 0 <? rowUsesDeviceLockKey row
  then ret (ResultOfError CollectionIsLockedError, EmptyString)
  else if isPreventUserInteractionMode userInteractionMode
  then ret (ResultOfError OperationRequiresUserInteraction, EmptyString)
  else
    authenticationResult <- beginAuthentication (rowAuthenticationPluginName row)
      (AuthenticationPlugin.mkBegun callerPid requestId callerApplicationId
         collectionName secretName uiServiceAddress) ;;
    if isFailed authenticationResult then ret (authenticationResult, EmptyString)
    else
      parkRequest requestId
        (mkPendingRequest callerPid requestId GetCollectionSecretRequest
           [VString collectionName; VString secretName;
            VInt (intOfUserInteractionMode userInteractionMode);
            VString uiServiceAddress;
            VString (rowStoragePluginName row);
            VString (rowEncryptionPluginName row);
            VInt (rowUnlockSemantic row);
            VInt (rowCustomLockTimeoutMs row)]) ;;;
      ret (ResultOfCode Pending, EmptyString).

Definition getCollectionSecret (callerPid requestId : Z)
    (collectionName secretName : QString)
    (userInteractionMode : UserInteractionMode) (uiServiceAddress : QString)
    : M (Result * QByteArray) :=
  let fail (e : ErrorCode) : M (Result * QByteArray) :=
    ret (ResultOfError e, EmptyString) in
  if Qt.isEmpty secretName then fail InvalidSecretError
  else if Qt.isEmpty collectionName then fail InvalidCollectionError
  else if isReservedName collectionName then fail InvalidCollectionError
  else
    callerApplicationId <- callerApplicationIdOf callerPid ;;
    this <- gets (fun p => p) ;;
    selection <- select (Database.SelectCollection collectionName) ;;
    match selection with
    | None => fail DatabaseQueryError
    | Some None => fail InvalidCollectionError
    | Some (Some row) =>
        let collectionStoragePluginName := rowStoragePluginName row in
        let collectionEncryptionPluginName := rowEncryptionPluginName row in
        let collectionAuthenticationPluginName := rowAuthenticationPluginName row in
        let continue (authenticationKey : QByteArray) :=
          getCollectionSecretWithAuthenticationKey callerPid requestId
            collectionName secretName userInteractionMode uiServiceAddress
            collectionStoragePluginName collectionEncryptionPluginName
            (rowUnlockSemantic row) (rowCustomLockTimeoutMs row) authenticationKey in
        if bool_decide (collectionStoragePluginName = collectionEncryptionPluginName)
           && negb (contains (m_encryptedStoragePlugins this) collectionStoragePluginName)
        then fail InvalidExtensionPluginError
        else if negb (bool_decide (collectionStoragePluginName = collectionEncryptionPluginName))
                && negb (contains (m_storagePlugins this) collectionStoragePluginName)
        then fail InvalidExtensionPluginError
        else if negb (bool_decide (collectionStoragePluginName = collectionEncryptionPluginName))
                && negb (contains (m_encryptionPlugins this) collectionEncryptionPluginName)
        then fail InvalidExtensionPluginError
        else if negb (rowAccessControlMode row =? intOfAccessControlMode OwnerOnlyMode)
        then fail OperationNotSupportedError
        else if negb (bool_decide (rowApplicationId row = callerApplicationId))
        then fail PermissionsError
        else if negb (contains (m_authenticationPlugins this) collectionAuthenticationPluginName)
        then fail InvalidExtensionPluginError
        else
          authenticationType <- authenticationTypeOf collectionAuthenticationPluginName ;;
          if isApplicationSpecific authenticationType
             && (negb (isInProcessUserInteractionMode userInteractionMode)
                 || Qt.isEmpty uiServiceAddress)
          then fail OperationRequiresInProcessUserInteraction
          else if bool_decide (collectionStoragePluginName = collectionEncryptionPluginName) then
            checked <- callEncryptedStorage collectionStoragePluginName
              (EncryptedIsLocked collectionStoragePluginName collectionName)
              (EncryptedStoragePlugin.isLocked collectionName) ;;
            if negb (isSucceeded (fst checked)) then ret (fst checked, EmptyString)
            else if snd checked then
              parkGetCollectionSecret callerPid requestId callerApplicationId
                collectionName secretName userInteractionMode uiServiceAddress row
            else continue EmptyString
          else if negb (contains (m_collectionAuthenticationKeys this) collectionName) then
            parkGetCollectionSecret callerPid requestId callerApplicationId
              collectionName secretName userInteractionMode uiServiceAddress row
          else
            key <- cachedCollectionKey collectionName ;;
            continue key
    end.

Definition getStandaloneSecretWithAuthenticationKey (callerPid requestId : Z)
    (secretName : QString)
    (userInteractionMode : UserInteractionMode) (uiServiceAddress : QString)
    (storagePluginName encryptionPluginName : QString)
    (secretUnlockSemantic secretCustomLockTimeoutMs : Z)
    (authenticationKey : QByteArray) : M (Result * QByteArray) :=
  (if secretUnlockSemantic =? intOfCustomLockUnlockSemantic CustomLockTimoutRelock
   then armStandaloneSecretLockTimer secretName secretCustomLockTimeoutMs
   else ret tt) ;;;
  let hashedSecretName := generateHashedSecretName standaloneCollectionName secretName in
  if bool_decide (storagePluginName = encryptionPluginName) then
    callEncryptedStorage storagePluginName
      (EncryptedAccessSecret storagePluginName standaloneCollectionName
         hashedSecretName authenticationKey)
      (EncryptedStoragePlugin.accessSecret standaloneCollectionName
         hashedSecretName authenticationKey)
  else
    encrypted <- callStorage storagePluginName
      (StorageGetSecret storagePluginName standaloneCollectionName hashedSecretName)
      (StoragePlugin.getSecret standaloneCollectionName hashedSecretName) ;;
    if isSucceeded (fst encrypted)
    then callDecrypt encryptionPluginName (snd encrypted) authenticationKey
    else ret (fst encrypted, EmptyString).

Definition getStandaloneSecret (callerPid requestId : Z) (secretName : QString)
    (userInteractionMode : UserInteractionMode) (uiServiceAddress : QString)
    : M (Result * QByteArray) :=
  let fail (e : ErrorCode) : M (Result * QByteArray) :=
    ret (ResultOfError e, EmptyString) in
  if Qt.isEmpty secretName then fail InvalidSecretError
  else
    callerApplicationId <- callerApplicationIdOf callerPid ;;
    this <- gets (fun p => p) ;;
    let hashedSecretName := generateHashedSecretName standaloneCollectionName secretName in
    selection <- select (Database.SelectSecret standaloneCollectionName hashedSecretName) ;;
    match selection with
    | None => fail DatabaseQueryError
    | Some None => fail InvalidSecretError
    | Some (Some row) =>
        let secretStoragePluginName := rowStoragePluginName row in
        let secretEncryptionPluginName := rowEncryptionPluginName row in
        let secretAuthenticationPluginName := rowAuthenticationPluginName row in
        if bool_decide (secretStoragePluginName = secretEncryptionPluginName)
           && negb (contains (m_encryptedStoragePlugins this) secretStoragePluginName)
        then fail InvalidExtensionPluginError
        else if negb (bool_decide (secretStoragePluginName = secretEncryptionPluginName))
                && negb (contains (m_storagePlugins this) secretStoragePluginName)
        then fail InvalidExtensionPluginError
        else if negb (bool_decide (secretStoragePluginName = secretEncryptionPluginName))
                && negb (contains (m_encryptionPlugins this) secretEncryptionPluginName)
        then fail InvalidExtensionPluginError
        else if negb (rowAccessControlMode row =? intOfAccessControlMode OwnerOnlyMode)
        then fail OperationNotSupportedError
        else if negb (bool_decide (rowApplicationId row = callerApplicationId))
        then fail PermissionsError
        else
          authenticationType <- authenticationTypeOf secretAuthenticationPluginName ;;
          if isApplicationSpecific authenticationType
             && (negb (isInProcessUserInteractionMode userInteractionMode)
                 || Qt.isEmpty uiServiceAddress)
          then fail OperationRequiresInProcessUserInteraction
          else
            match m_standaloneSecretAuthenticationKeys this !! hashedSecretName with
            | Some key =>
                getStandaloneSecretWithAuthenticationKey callerPid requestId secretName
                  userInteractionMode uiServiceAddress
                  secretStoragePluginName secretEncryptionPluginName
                  (rowUnlockSemantic row) (rowCustomLockTimeoutMs row) key
            | None =>
                if 0 <? rowUsesDeviceLockKey row then fail CollectionIsLockedError
                else if isPreventUserInteractionMode userInteractionMode
                then fail OperationRequiresUserInteraction
                else
                  authenticationResult <- beginAuthentication secretAuthenticationPluginName
                    (AuthenticationPlugin.mkBegun callerPid requestId callerApplicationId
                       EmptyString secretName uiServiceAddress) ;;
                  if isFailed authenticationResult
                  then ret (authenticationResult, EmptyString)
                  else
                    parkRequest requestId
                      (mkPendingRequest callerPid requestId GetStandaloneSecretRequest
                         [VString standaloneCollectionName; VString secretName;
                          VInt (intOfUserInteractionMode userInteractionMode);
                          VString uiServiceAddress;
                          VString secretStoragePluginName;
                          VString secretEncryptionPluginName;
                          VInt (rowUnlockSemantic row);
                          VInt (rowCustomLockTimeoutMs row)]) ;;;
                    ret (ResultOfCode Pending, EmptyString)
            end
    end.

Definition deleteCollectionSecretWithAuthenticationKey (callerPid requestId : Z)
    (collectionName secretName : QString)
    (userInteractionMode : UserInteractionMode) (uiServiceAddress : QString)
    (authenticationKey : QByteArray) : M Result :=
  callerApplicationId <- callerApplicationIdOf callerPid ;;
  selection <- select (Database.SelectCollection collectionName) ;;
  match selection with
  | None => errorResult DatabaseQueryError
  | Some None => errorResult InvalidCollectionError
  | Some (Some row) =>
      let collectionStoragePluginName := rowStoragePluginName row in
      let collectionEncryptionPluginName := rowEncryptionPluginName row in
      if (0 <? rowUsesDeviceLockKey row)
         && negb (bool_decide (authenticationKey = DeviceLockKey))
      then errorResult IncorrectAuthenticationKeyError
      else if negb (rowAccessControlMode row =? intOfAccessControlMode OwnerOnlyMode)
      then errorResult OperationNotSupportedError
      else if negb (bool_decide (rowApplicationId row = callerApplicationId))
      then errorResult PermissionsError
      else
        let hashedSecretName := generateHashedSecretName collectionName secretName in
        outcome <-
          (if bool_decide (collectionStoragePluginName = collectionEncryptionPluginName) then
             checked <- callEncryptedStorage collectionStoragePluginName
               (EncryptedIsLocked collectionStoragePluginName collectionName)
               (EncryptedStoragePlugin.isLocked collectionName) ;;
             if negb (isSucceeded (fst checked)) then ret (inl (fst checked))
             else
               early <- applyAuthenticationKey collectionStoragePluginName collectionName
                          authenticationKey (snd checked) ;;
               match early with
               | Some r => ret (inl r)
               | None =>
                   r <- callEncryptedStorage collectionStoragePluginName
                     (EncryptedRemoveSecret collectionStoragePluginName collectionName
                        hashedSecretName)
                     (EncryptedStoragePlugin.removeSecret collectionName hashedSecretName) ;;
                   ret (inr (fst r))
               end
           else
             cacheCollectionKeyIfAbsent collectionName authenticationKey ;;;
             r <- callStorage collectionStoragePluginName
               (StorageRemoveSecret collectionStoragePluginName collectionName
                  hashedSecretName)
               (StoragePlugin.removeSecret collectionName hashedSecretName) ;;
             ret (inr (fst r))) ;;
        match outcome with
        | inl r => ret r
        | inr pluginResult =>
            if isSucceeded pluginResult then
              ok <- db Database.prepare ;;
              if negb ok then errorResult DatabaseQueryError
              else
                failure <- inTransaction
                  (Database.DeleteSecret collectionName hashedSecretName) ;;
                match failure with
                | Some e => errorResult e
                | None => ret pluginResult
                end
            else ret pluginResult
        end
  end.

(** The tail shared by the two branches of [deleteCollectionSecret] on
    a locked collection. *)
Definition parkDeleteCollectionSecret (callerPid requestId : Z)
    (callerApplicationId collectionName secretName : QString)
    (userInteractionMode : UserInteractionMode) (uiServiceAddress : QString)
    (row : Row) : M Result :=
  if 0 <? rowUsesDeviceLockKey row then errorResult CollectionIsLockedError
  else if isPreventUserInteractionMode userInteractionMode
  then errorResult OperationRequiresUserInteraction
  else
    authenticationResult <- beginAuthentication (rowAuthenticationPluginName row)
      (AuthenticationPlugin.mkBegun callerPid requestId callerApplicationId
         collectionName secretName uiServiceAddress) ;;
    if isFailed authenticationResult then ret authenticationResult
    else
      parkRequest requestId
        (mkPendingRequest callerPid requestId DeleteCollectionSecretRequest
           [VString collectionName; VString secretName;
            VInt (intOfUserInteractionMode userInteractionMode);
            VString uiServiceAddress]) ;;;
      ret (ResultOfCode Pending).

Definition deleteCollectionSecret (callerPid requestId : Z)
    (collectionName secretName : QString)
    (userInteractionMode : UserInteractionMode) (uiServiceAddress : QString) : M Result :=
  if Qt.isEmpty secretName then errorResult InvalidSecretError
  else if Qt.isEmpty collectionName then errorResult InvalidCollectionError
  else if isReservedName collectionName then errorResult InvalidCollectionError
  else
    callerApplicationId <- callerApplicationIdOf callerPid ;;
    this <- gets (fun p => p) ;;
    selection <- select (Database.SelectCollection collectionName) ;;
    match selection with
    | None => errorResult DatabaseQueryError
    | Some None => errorResult InvalidCollectionError
    | Some (Some row) =>
        let collectionStoragePluginName := rowStoragePluginName row in
        let collectionEncryptionPluginName := rowEncryptionPluginName row in
        let continue (authenticationKey : QByteArray) :=
          deleteCollectionSecretWithAuthenticationKey callerPid requestId
            collectionName secretName userInteractionMode uiServiceAddress
            authenticationKey in
        if negb (rowAccessControlMode row =? intOfAccessControlMode OwnerOnlyMode)
        then errorResult OperationNotSupportedError
        else if negb (bool_decide (rowApplicationId row = callerApplicationId))
        then errorResult PermissionsError
        else if bool_decide (collectionStoragePluginName = collectionEncryptionPluginName)
                && negb (contains (m_encryptedStoragePlugins this) collectionStoragePluginName)
        then errorResult InvalidExtensionPluginError
        else if negb (bool_decide (collectionStoragePluginName = collectionEncryptionPluginName))
                && (Qt.isEmpty collectionStoragePluginName
                    || negb (contains (m_storagePlugins this) collectionStoragePluginName))
        then errorResult InvalidExtensionPluginError
        else if negb (bool_decide (collectionStoragePluginName = collectionEncryptionPluginName))
                && (Qt.isEmpty collectionEncryptionPluginName
                    || negb (contains (m_encryptionPlugins this) collectionEncryptionPluginName))
        then errorResult InvalidExtensionPluginError
        else if bool_decide (collectionStoragePluginName = collectionEncryptionPluginName) then
          checked <- callEncryptedStorage collectionStoragePluginName
            (EncryptedIsLocked collectionStoragePluginName collectionName)
            (EncryptedStoragePlugin.isLocked collectionName) ;;
          if negb (isSucceeded (fst checked)) then ret (fst checked)
          else if snd checked then
            parkDeleteCollectionSecret callerPid requestId callerApplicationId
              collectionName secretName userInteractionMode uiServiceAddress row
          else continue EmptyString
        else if negb (contains (m_collectionAuthenticationKeys this) collectionName) then
          parkDeleteCollectionSecret callerPid requestId callerApplicationId
            collectionName secretName userInteractionMode uiServiceAddress row
        else
          key <- cachedCollectionKey collectionName ;;
          continue key
    end.

Definition deleteStandaloneSecret (callerPid requestId : Z) (secretName : QString)
    (userInteractionMode : UserInteractionMode) : M Result :=
  callerApplicationId <- callerApplicationIdOf callerPid ;;
  this <- gets (fun p => p) ;;
  let collectionName := standaloneCollectionName in
  let hashedSecretName := generateHashedSecretName collectionName secretName in
  selection <- select (Database.SelectSecret collectionName hashedSecretName) ;;
  match selection with
  | None => errorResult DatabaseQueryError
  | Some None => ret (ResultOfCode Succeeded)
  | Some (Some row) =>
      let secretStoragePluginName := rowStoragePluginName row in
      let secretEncryptionPluginName := rowEncryptionPluginName row in
      if negb (rowAccessControlMode row =? intOfAccessControlMode OwnerOnlyMode)
      then errorResult OperationNotSupportedError
      else if negb (bool_decide (rowApplicationId row = callerApplicationId))
      then errorResult PermissionsError
      else if bool_decide (secretStoragePluginName = secretEncryptionPluginName)
              && negb (contains (m_encryptedStoragePlugins this) secretStoragePluginName)
      then errorResult InvalidExtensionPluginError
      else if negb (bool_decide (secretStoragePluginName = secretEncryptionPluginName))
              && negb (contains (m_storagePlugins this) secretStoragePluginName)
      then errorResult InvalidExtensionPluginError
      else if negb (bool_decide (secretStoragePluginName = secretEncryptionPluginName))
              && negb (contains (m_encryptionPlugins this) secretEncryptionPluginName)
      then errorResult InvalidExtensionPluginError
      else
        outcome <-
          (if bool_decide (secretStoragePluginName = secretEncryptionPluginName) then
             checked <- callEncryptedStorage secretStoragePluginName
               (EncryptedIsLocked secretStoragePluginName collectionName)
               (EncryptedStoragePlugin.isLocked collectionName) ;;
             if isFailed (fst checked) then ret (inl (fst checked))
             else
               applied <-
                 (if snd checked && (0 <? rowUsesDeviceLockKey row) then
                    r <- callEncryptedStorage secretStoragePluginName
                      (EncryptedSetEncryptionKey secretStoragePluginName collectionName
                         DeviceLockKey)
                      (EncryptedStoragePlugin.setEncryptionKey collectionName DeviceLockKey) ;;
                    ret (fst r)
                  else ret (fst checked)) ;;
               if (snd checked && (0 <? rowUsesDeviceLockKey row)) && isFailed applied
               then ret (inl applied)
               else
                 r <- callEncryptedStorage secretStoragePluginName
                   (EncryptedRemoveSecret secretStoragePluginName collectionName
                      hashedSecretName)
                   (EncryptedStoragePlugin.removeSecret collectionName hashedSecretName) ;;
                 (if snd checked then relock secretStoragePluginName collectionName
                  else ret tt) ;;;
                 ret (inr (fst r))
           else
             r <- callStorage secretStoragePluginName
               (StorageRemoveSecret secretStoragePluginName collectionName hashedSecretName)
               (StoragePlugin.removeSecret collectionName hashedSecretName) ;;
             (if isSucceeded (fst r) then
                modify (fun p => withStandaloneSecretAuthenticationKeys p
                          (delete hashedSecretName
                             (m_standaloneSecretAuthenticationKeys p))) ;;;
                modify (fun p => withStandaloneSecretLockTimers p
                          (delete hashedSecretName (m_standaloneSecretLockTimers p))
                          (timersAllocated p))
              else ret tt) ;;;
             ret (inr (fst r))) ;;
        match outcome with
        | inl r => ret r
        | inr pluginResult =>
            if isSucceeded pluginResult then
              ok <- db Database.prepare ;;
              if negb ok then errorResult DatabaseQueryError
              else
                failure <- inTransaction
                  (Database.DeleteSecret collectionName hashedSecretName) ;;
                match failure with
                | Some e => errorResult e
                | None => ret (ResultOfCode Succeeded)
                end
            else ret (ResultOfCode Succeeded)
        end
  end.

(** The continuation of a parked request.  A vector of another length
    than the continuation expects is an internal error. *)
Definition internalError : M (Result * QByteArray) :=
  ret (ResultOfError UnknownError, EmptyString).

Definition withoutSecret (m : M Result) : M (Result * QByteArray) :=
  r <- m ;; ret (r, EmptyString).

(** The stored argument vector is read back with
    [pr.parameters.takeFirst()], once per argument of the continuation,
    and all of these calls stand in the argument list of the one call
    of the continuation.  The language leaves open in which order the
    arguments of a call are evaluated, so which element an argument
    receives depends on the compiler.  [evaluationOrder t] is the order
    that the compiled daemon uses in the [case] of request type [t]:
    the positions of the [takeFirst] arguments as written, counted from
    0, listed in the order in which they are evaluated. *)
Variable evaluationOrder : RequestType -> list nat.

(** The turn at which the argument written at [position] is evaluated. *)
Fixpoint turnOf (position : nat) (order : list nat) : option nat :=
  match order with
  | [] => None
  | evaluated :: rest =>
      if Nat.eqb evaluated position then Some O
      else option_map S (turnOf position rest)
  end.

(** The vector as the arguments see it, by position as written: the
    argument evaluated at turn [k] takes the element [k] of the parked
    vector.  (A list that names no turn for a position is no order of
    evaluation; the model reads an empty string there.) *)
Definition argumentsAsWritten (order : list nat) (parameters : list QVariant)
    : list QVariant :=
  map (fun position =>
         match turnOf position order with
         | Some k => nth k parameters (VString EmptyString)
         | None => VString EmptyString
         end)
      (seq 0 (length parameters)).

(** [QVariant::value<T>()] gives the stored value when the variant
    stores a [T], and otherwise what the library converts the stored
    value to (a number to its decimal text, a text to the number it
    spells, and so on).  An argument meets a value of another type than
    its own only when the arguments are not evaluated in the order
    written.  The conversions are the library's and are not modelled:
    [convert t v] stands for the variant of type [t] that [v] is
    converted to. *)
Variable convert : QMetaType -> QVariant -> QVariant.

Definition valueAs (t : QMetaType) (v : QVariant) : QVariant :=
  if holds t v then v else convert t v.

Definition asQString (v : QVariant) : QString := toQString (valueAs QStringType v).
Definition asQByteArray (v : QVariant) : QByteArray :=
  toQByteArray (valueAs QByteArrayType v).
Definition asInt (v : QVariant) : Z := toInt (valueAs IntType v).
Definition asBool (v : QVariant) : bool := toBool (valueAs BoolType v).

Definition resume (pr : PendingRequest) (authenticationKey : QByteArray)
    : M (Result * QByteArray) :=
  let arguments :=
    argumentsAsWritten (evaluationOrder (prRequestType pr)) (prParameters pr) in
  match prRequestType pr with
  | CreateCustomLockCollectionRequest =>
      match arguments with
      | [a1; a2; a3; a4; a5; a6; a7; a8; a9] =>
          withoutSecret
            (createCustomLockCollectionWithAuthenticationKey
               (prCallerPid pr) (prRequestId pr)
               (asQString a1) (asQString a2) (asQString a3) (asQString a4)
               (asInt a5) (asInt a6) (asInt a7)
               (userInteractionModeOfInt (asInt a8)) (asQString a9)
               authenticationKey)
      | _ => internalError
      end
  | SetCollectionSecretRequest =>
      match arguments with
      | [a1; a2; a3; a4; a5; a6; a7; a8; a9; a10; a11; a12; a13] =>
          withoutSecret
            (setCollectionSecretWithAuthenticationKey
               (prCallerPid pr) (prRequestId pr)
               (asQString a1) (asQString a2) (asQByteArray a3)
               (userInteractionModeOfInt (asInt a4)) (asQString a5)
               (asBool a6) (asQString a7) (asQString a8) (asQString a9) (asQString a10)
               (asInt a11) (asInt a12) (asInt a13)
               authenticationKey)
      | _ => internalError
      end
  | SetStandaloneCustomLockSecretRequest =>
      match arguments with
      | [a1; a2; a3; a4; a5; a6; a7; a8; a9; a10] =>
          withoutSecret
            (setStandaloneCustomLockSecretWithAuthenticationKey
               (prCallerPid pr) (prRequestId pr)
               (asQString a1) (asQString a2) (asQString a3) (asQString a4)
               (asQByteArray a5) (asInt a6) (asInt a7) (asInt a8)
               (userInteractionModeOfInt (asInt a9)) (asQString a10)
               authenticationKey)
      | _ => internalError
      end
  | GetCollectionSecretRequest =>
      match arguments with
      | [a1; a2; a3; a4; a5; a6; a7; a8] =>
          getCollectionSecretWithAuthenticationKey
            (prCallerPid pr) (prRequestId pr)
            (asQString a1) (asQString a2)
            (userInteractionModeOfInt (asInt a3)) (asQString a4)
            (asQString a5) (asQString a6) (asInt a7) (asInt a8)
            authenticationKey
      | _ => internalError
      end
  | GetStandaloneSecretRequest =>
      match arguments with
      | [a1; a2; a3; a4; a5; a6; a7] =>
          getStandaloneSecretWithAuthenticationKey
            (prCallerPid pr) (prRequestId pr)
            (asQString a1)
            (userInteractionModeOfInt (asInt a2)) (asQString a3)
            (asQString a4) (asQString a5) (asInt a6) (asInt a7)
            authenticationKey
      | _ => internalError
      end
  | DeleteCollectionSecretRequest =>
      match arguments with
      | [a1; a2; a3; a4] =>
          withoutSecret
            (deleteCollectionSecretWithAuthenticationKey
               (prCallerPid pr) (prRequestId pr)
               (asQString a1) (asQString a2)
               (userInteractionModeOfInt (asInt a3)) (asQString a4)
               authenticationKey)
      | _ => internalError
      end
  | _ => internalError
  end.

Definition authenticationCompleted (callerPid requestId : Z)
    (callerApplicationId collectionName secretName uiServiceAddress : QString)
    (result : Result) (authenticationKey : QByteArray) : M unit :=
  finished <-
    (if isSucceeded result then
       parked <- gets (fun p => m_pendingRequests p !! requestId) ;;
       match parked with
       | Some pr =>
           modify (fun p => withPendingRequests p (delete requestId (m_pendingRequests p))) ;;;
           resume pr authenticationKey
       | None => internalError
       end
     else ret (result, EmptyString)) ;;
  modify (fun p =>
    withRequestQueue p
      (RequestQueue.requestFinished requestId
         [VResult (fst finished); VBytes (snd finished)] (m_requestQueue p))).

(** The key of the first entry, in the map's key order, whose timer is
    [timer]. *)
Definition timerOwner (timer : nat) (timers : gmap string QTimer) : option QString :=
  foldr (fun k found =>
           match found with
           | Some k' => if String.ltb k' k then Some k' else Some k
           | None => Some k
           end)
    None
    (map fst (map_to_list (filter (fun kv => timerId (snd kv) = timer) timers))).

(** The timeout slots; [timer] is the [sender()]. *)
Definition timeoutRelockCollection (timer : nat) : M unit :=
  modify (fun p =>
    match timerOwner timer (m_collectionLockTimers p) with
    | Some key =>
        withCollectionLockTimers
          (withCollectionAuthenticationKeys p
             (delete key (m_collectionAuthenticationKeys p)))
          (delete key (m_collectionLockTimers p)) (timersAllocated p)
    | None => p
    end).

Definition timeoutRelockSecret (timer : nat) : M unit :=
  modify (fun p =>
    match timerOwner timer (m_standaloneSecretLockTimers p) with
    | Some key =>
        withStandaloneSecretLockTimers
          (withStandaloneSecretAuthenticationKeys p
             (delete key (m_standaloneSecretAuthenticationKeys p)))
          (delete key (m_standaloneSecretLockTimers p)) (timersAllocated p)
    | None => p
    end).

(** The constructor: the notional row of the reserved collection. *)
Definition standaloneRow : Row :=
  mkRow standaloneCollectionName 0 standaloneCollectionName standaloneCollectionName
    standaloneCollectionName 0 0 0.

Definition construct : M unit :=
  db Database.prepare ;;;
  ok <- db Database.beginTransaction ;;
  if ok then
    executed <- db (Database.execute
                      (Database.InsertCollection standaloneCollectionName standaloneRow)) ;;
    if fst executed then db Database.commitTransaction ;;; ret tt
    else rollbackTransaction
  else ret tt.

End Processor.

Arguments generateHashedSecretName Sha3_256 collectionName secretName : simpl never.

(** Running a member function: its value and the members afterwards. *)
Definition valueOf {A : Type} (o : option (A * RequestProcessor)) : option A :=
  match o with Some (a, _) => Some a | None => None end.

Definition membersAfter {A : Type} (o : option (A * RequestProcessor)) : option RequestProcessor :=
  match o with Some (_, p) => Some p | None => None end.

(** * The secrets request queue

    The callers of the request processor: [handleRequest] and
    [handleRequests] of [daemon/requestqueue.cpp], the D-Bus slots and
    the request handlers of [daemon/SecretsImpl/secrets.cpp], and the
    helpers of [daemon/SecretsImpl/secretscryptohelpers.cpp]. *)

(** [enum RequestType] as the [int] a request record carries. *)
Definition intOfRequestType (t : RequestType) : Z :=
  match t with
  | InvalidRequest => 0
  | GetPluginInfoRequest => 1
  | CreateDeviceLockCollectionRequest => 2
  | CreateCustomLockCollectionRequest => 3
  | DeleteCollectionRequest => 4
  | SetCollectionSecretRequest => 5
  | SetStandaloneDeviceLockSecretRequest => 6
  | SetStandaloneCustomLockSecretRequest => 7
  | GetCollectionSecretRequest => 8
  | GetStandaloneSecretRequest => 9
  | DeleteCollectionSecretRequest => 10
  | DeleteStandaloneSecretRequest => 11
  end.

(** The [case] that [switch (request->type)] selects.  A value that is
    no enumerator goes to the [default] branch, and so does
    [InvalidRequest], which has no [case] of its own. *)
Definition requestTypeOfInt (i : Z) : RequestType :=
  if i =? 1 then GetPluginInfoRequest
  else if i =? 2 then CreateDeviceLockCollectionRequest
  else if i =? 3 then CreateCustomLockCollectionRequest
  else if i =? 4 then DeleteCollectionRequest
  else if i =? 5 then SetCollectionSecretRequest
  else if i =? 6 then SetStandaloneDeviceLockSecretRequest
  else if i =? 7 then SetStandaloneCustomLockSecretRequest
  else if i =? 8 then GetCollectionSecretRequest
  else if i =? 9 then GetStandaloneSecretRequest
  else if i =? 10 then DeleteCollectionSecretRequest
  else if i =? 11 then DeleteStandaloneSecretRequest
  else InvalidRequest.

(** An enumerator held by a [QVariant] is modelled by [VInt] of its
    value.  [value<E>()] gives back the enumerator of the value held;
    the model's enumerations have no room for a value that is none of
    their enumerators, and read such a variant (which no caller below
    builds) as the enumerator of value zero, or as the first one. *)
Definition deviceLockUnlockSemanticOfInt (i : Z) : DeviceLockUnlockSemantic :=
  if i =? 1 then DeviceLockRelock else DeviceLockKeepUnlocked.

Definition customLockUnlockSemanticOfInt (i : Z) : CustomLockUnlockSemantic :=
  if i =? 9 then CustomLockDeviceLockRelock
  else if i =? 10 then CustomLockTimoutRelock
  else if i =? 11 then CustomLockAccessRelock
  else CustomLockKeepUnlocked.

Definition accessControlModeOfInt (i : Z) : AccessControlMode :=
  if i =? 1 then SystemAccessControlMode else OwnerOnlyMode.

Definition VDeviceLockUnlockSemantic (s : DeviceLockUnlockSemantic) : QVariant :=
  VInt (intOfDeviceLockUnlockSemantic s).
Definition VCustomLockUnlockSemantic (s : CustomLockUnlockSemantic) : QVariant :=
  VInt (intOfCustomLockUnlockSemantic s).
Definition VAccessControlMode (m : AccessControlMode) : QVariant :=
  VInt (intOfAccessControlMode m).
Definition VUserInteractionMode (m : UserInteractionMode) : QVariant :=
  VInt (intOfUserInteractionMode m).

Definition toDeviceLockUnlockSemantic (v : QVariant) : DeviceLockUnlockSemantic :=
  deviceLockUnlockSemanticOfInt (toInt v).
Definition toCustomLockUnlockSemantic (v : QVariant) : CustomLockUnlockSemantic :=
  customLockUnlockSemanticOfInt (toInt v).
Definition toAccessControlMode (v : QVariant) : AccessControlMode :=
  accessControlModeOfInt (toInt v).
Definition toUserInteractionMode (v : QVariant) : UserInteractionMode :=
  userInteractionModeOfInt (toInt v).

(** [value<Result>()]: the result held; for a variant that holds none
    (no caller below builds one) a default-constructed result, read
    here as [Succeeded]. *)
Definition toResult (v : QVariant) : Result :=
  match v with VResult r => r | _ => ResultOfCode Succeeded end.

(** [QMap::keys()]: the keys in ascending order. *)
Fixpoint insertKey (k : QString) (sorted : list QString) : list QString :=
  match sorted with
  | [] => [k]
  | k' :: rest => if String.ltb k' k then k' :: insertKey k rest else k :: sorted
  end.

Definition keys {V : Type} (m : gmap string V) : list QString :=
  foldr insertKey [] (map fst (map_to_list m)).

(** ** Plugin loading and plugin information ([secretsrequestprocessor.cpp]) *)

(** What [QPluginLoader::instance()] gives for a file of the plugin
    directory: the first of the four plugin interfaces that the
    [qobject_cast]s find in it, or none. *)
Inductive PluginInstance :=
| StorageInstance (plugin : StoragePlugin.t)
| EncryptionInstance (plugin : EncryptionPlugin.t)
| EncryptedStorageInstance (plugin : EncryptedStoragePlugin.t)
| AuthenticationInstance (plugin : AuthenticationPlugin.t)
| NotASecretsPlugin.

(** A file of the plugin directory: the instance it loads, and what the
    instance answers to [name()] and [isTestPlugin()]. *)
Record PluginFile := mkPluginFile {
  instance : PluginInstance;
  pluginName : QString;
  isTestPlugin : bool
}.

Definition withEncryptionPlugins (p : RequestProcessor)
    (x : gmap string EncryptionPlugin.t) : RequestProcessor :=
  mkRequestProcessor (m_requestQueue p) (m_db p) (m_appPermissions p) (m_storagePlugins p)
    x (m_encryptedStoragePlugins p) (m_authenticationPlugins p)
    (m_collectionAuthenticationKeys p) (m_standaloneSecretAuthenticationKeys p)
    (m_collectionLockTimers p) (m_standaloneSecretLockTimers p) (m_pendingRequests p)
    (timersAllocated p) (pluginCalls p).

(** One turn of the [Q_FOREACH] of [loadPlugins]. *)
Definition loadPlugin (autotestMode : bool) (file : PluginFile) (p : RequestProcessor)
    : RequestProcessor :=
  let name := pluginName file in
  match instance file with
  | StorageInstance plugin =>
      if negb (Bool.eqb (isTestPlugin file) autotestMode) then p
      else if Qt.isEmpty name || contains (m_storagePlugins p) name then p
      else withStoragePlugins p (<[name := plugin]> (m_storagePlugins p))
  | EncryptionInstance plugin =>
      if negb (Bool.eqb (isTestPlugin file) autotestMode) then p
      else if Qt.isEmpty name || contains (m_storagePlugins p) name then p
      else withEncryptionPlugins p (<[name := plugin]> (m_encryptionPlugins p))
  | EncryptedStorageInstance plugin =>
      if negb (Bool.eqb (isTestPlugin file) autotestMode) then p
      else if Qt.isEmpty name || contains (m_encryptedStoragePlugins p) name then p
      else withEncryptedStoragePlugins p (<[name := plugin]> (m_encryptedStoragePlugins p))
  | AuthenticationInstance plugin =>
      if negb (Bool.eqb (isTestPlugin file) autotestMode) then p
      else if Qt.isEmpty name || contains (m_authenticationPlugins p) name then p
      else withAuthenticationPlugins p (<[name := plugin]> (m_authenticationPlugins p))
  | NotASecretsPlugin => p
  end.

(** [loadPlugins]; [files] are the files of the directory in the order
    of their file names. *)
Definition loadPlugins (files : list PluginFile) (autotestMode : bool) : M bool :=
  fun p => Some (true, fold_left (fun p file => loadPlugin autotestMode file p) files p).

(** The plugin information vectors: one entry per registered plugin, in
    the order of the registry's keys.  An entry is modelled by the name
    of its plugin. *)
Record PluginInfo := mkPluginInfo {
  storagePluginInfo : list QString;
  encryptionPluginInfo : list QString;
  encryptedStoragePluginInfo : list QString;
  authenticationPluginInfo : list QString
}.

Definition getPluginInfo (callerPid requestId : Z) : M (Result * PluginInfo) :=
  gets (fun p =>
    (ResultOfCode Succeeded,
     mkPluginInfo (keys (m_storagePlugins p)) (keys (m_encryptionPlugins p))
       (keys (m_encryptedStoragePlugins p)) (keys (m_authenticationPlugins p)))).

(** [RequestProcessor::storagePluginNames] *)
Definition storagePluginNames : M (list QString) :=
  gets (fun p => keys (m_storagePlugins p)).

(** ** The queue object *)

(** [enum CryptoApiHelperRequestType] of [secrets_p.h]. *)
Inductive CryptoApiHelperRequestType :=
| InvalidCryptoApiHelperRequest
| StoragePluginNamesCryptoApiHelperRequest
| KeyEntryIdentifiers
| KeyEntryCryptoApiHelperRequest
| AddKeyEntryCryptoApiHelperRequest
| RemoveKeyEntryCryptoApiHelperRequest
| StoredKeyCryptoApiHelperRequest
| DeleteStoredKeyCryptoApiHelperRequest
| StoreKeyCryptoApiHelperRequest.

(** What leaves the queue: the replies sent on the connection of a
    request, named here by the id of the request, and the signals of
    the crypto helpers. *)
Inductive Sent :=
| Reply (requestId : Z) (arguments : list QVariant)
| PluginInfoReply (requestId : Z) (result : Result) (info : PluginInfo)
| ErrorReply
| StoredKeyCompleted (cryptoRequestId : Z) (result : Result) (serialisedKey : QByteArray)
| DeleteStoredKeyCompleted (cryptoRequestId : Z) (result : Result)
| StoreKeyCompleted (cryptoRequestId : Z) (result : Result).

Module SecretsRequestQueue.

(** The members of the queue.  The list of requests and the id counter
    of the base class are those of [m_requestQueue] in the processor,
    which holds the pointer back to its queue; [sent] records what the
    queue has sent, in order. *)
Record t := mk {
  m_requestProcessor : RequestProcessor;
  m_cryptoApiHelperRequests : gmap Z CryptoApiHelperRequestType;
  sent : list Sent
}.

Definition withRequestProcessor (q : t) (p : RequestProcessor) : t :=
  mk p (m_cryptoApiHelperRequests q) (sent q).

Definition withCryptoApiHelperRequests (q : t)
    (x : gmap Z CryptoApiHelperRequestType) : t :=
  mk (m_requestProcessor q) x (sent q).

Definition m_requests (q : t) : list RequestQueue.RequestData :=
  RequestQueue.m_requests (m_requestQueue (m_requestProcessor q)).

Definition withRequests (q : t) (reqs : list RequestQueue.RequestData) : t :=
  withRequestProcessor q
    (withRequestQueue (m_requestProcessor q)
       (RequestQueue.mk
          (RequestQueue.requestIdCounter (m_requestQueue (m_requestProcessor q))) reqs)).

End SecretsRequestQueue.

(** Member functions of the queue: computations over its members. *)
Definition Q (A : Type) : Type :=
  SecretsRequestQueue.t -> option (A * SecretsRequestQueue.t).

Definition retQ {A : Type} (a : A) : Q A := fun q => Some (a, q).

Definition bindQ {A B : Type} (m : Q A) (k : A -> Q B) : Q B :=
  fun q => match m q with Some (a, q') => k a q' | None => None end.

Declare Scope queue_scope.
Delimit Scope queue_scope with queue.
Notation "x <- c ;; k" := (bindQ c (fun x => k))
  (at level 100, c at next level, right associativity) : queue_scope.
Notation "c ;;; k" := (bindQ c (fun _ => k))
  (at level 100, right associativity) : queue_scope.

(** A call of a member function of the processor. *)
Definition processor {A : Type} (m : M A) : Q A :=
  fun q =>
    match m (SecretsRequestQueue.m_requestProcessor q) with
    | Some (a, p) => Some (a, SecretsRequestQueue.withRequestProcessor q p)
    | None => None
    end.

Definition send (s : Sent) : Q unit :=
  fun q =>
    Some (tt, SecretsRequestQueue.mk (SecretsRequestQueue.m_requestProcessor q)
                (SecretsRequestQueue.m_cryptoApiHelperRequests q)
                (SecretsRequestQueue.sent q ++ [s])).

Section Queue.
Import RequestQueue.
Local Open Scope queue_scope.

Variable Sha3_256 : QByteArray -> QByteArray.

(** [asynchronousCryptoRequestCompleted] *)
Definition asynchronousCryptoRequestCompleted (cryptoRequestId : Z) (result : Result)
    (parameters : list QVariant) : Q unit :=
  fun q =>
    match SecretsRequestQueue.m_cryptoApiHelperRequests q !! cryptoRequestId with
    | None => Some (tt, q)
    | Some type =>
        let q := SecretsRequestQueue.withCryptoApiHelperRequests q
                   (delete cryptoRequestId (SecretsRequestQueue.m_cryptoApiHelperRequests q)) in
        match type with
        | StoredKeyCryptoApiHelperRequest =>
            send (StoredKeyCompleted cryptoRequestId result
                    (match parameters with
                     | v :: _ => toQByteArray v
                     | [] => EmptyString
                     end)) q
        | DeleteStoredKeyCryptoApiHelperRequest =>
            send (DeleteStoredKeyCompleted cryptoRequestId result) q
        | StoreKeyCryptoApiHelperRequest =>
            send (StoreKeyCompleted cryptoRequestId result) q
        | _ => Some (tt, q)
        end
    end.

(** The request that the iterator of [handleRequests] points at, by its
    position in [m_requests]. *)
Definition requestAt (i : nat) : Q RequestData :=
  fun q =>
    match SecretsRequestQueue.m_requests q !! i with
    | Some request => Some (request, q)
    | None => None
    end.

Definition setRequestAt (i : nat) (request : RequestData) : Q unit :=
  fun q =>
    Some (tt, SecretsRequestQueue.withRequests q
                (<[i := request]> (SecretsRequestQueue.m_requests q))).

Definition withStatus (s : RequestStatus) (r : RequestData) : RequestData :=
  mkRequestData (remotePid r) s (type r) (inParams r) (outParams r)
    (requestId r) (isSecretsCryptoRequest r) (cryptoRequestId r).

Definition withInParams (params : list QVariant) (r : RequestData) : RequestData :=
  mkRequestData (remotePid r) (status r) (type r) params (outParams r)
    (requestId r) (isSecretsCryptoRequest r) (cryptoRequestId r).

Definition withOutParams (params : list QVariant) (r : RequestData) : RequestData :=
  mkRequestData (remotePid r) (status r) (type r) (inParams r) params
    (requestId r) (isSecretsCryptoRequest r) (cryptoRequestId r).

(** [request->inParams.size() ? request->inParams.takeFirst().value<T>() : dflt] *)
Definition takeInParam {A : Type} (i : nat) (read : QVariant -> A) (dflt : A) : Q A :=
  request <- requestAt i ;;
  match inParams request with
  | [] => retQ dflt
  | v :: rest => setRequestAt i (withInParams rest request) ;;; retQ (read v)
  end.

(** [request->outParams.size() ? request->outParams.takeFirst().value<T>() : dflt] *)
Definition takeOutParam {A : Type} (i : nat) (read : QVariant -> A) (dflt : A) : Q A :=
  request <- requestAt i ;;
  match outParams request with
  | [] => retQ dflt
  | v :: rest => setRequestAt i (withOutParams rest request) ;;; retQ (read v)
  end.

(** The end of every [case] of the two handlers: a result other than
    [Pending] goes to the crypto helpers or into a reply, and completes
    the request. *)
Definition answer (i : nat) (reply : Sent) (parameters : list QVariant)
    (result : Result) : Q unit :=
  request <- requestAt i ;;
  if isSecretsCryptoRequest request
  then asynchronousCryptoRequestCompleted (cryptoRequestId request) result parameters
  else send reply.

Definition isPending (r : Result) : bool :=
  match code r with Pending => true | _ => false end.

Definition replyOrWait (i : nat) (result : Result) (outputs : list QVariant) : Q bool :=
  if isPending result then retQ false
  else
    request <- requestAt i ;;
    answer i (Reply (requestId request) (VResult result :: outputs)) outputs result ;;;
    retQ true.

(** [handlePendingRequest]; the value is [*completed]. *)
Definition handlePendingRequest (i : nat) : Q bool :=
  request <- requestAt i ;;
  let callerPid := remotePid request in
  let id := requestId request in
  match requestTypeOfInt (type request) with
  | GetPluginInfoRequest =>
      r <- processor (getPluginInfo callerPid id) ;;
      if isPending (fst r) then retQ false
      else
        answer i (PluginInfoReply id (fst r) (snd r)) [] (fst r) ;;;
        retQ true
  | CreateDeviceLockCollectionRequest =>
      collectionName <- takeInParam i toQString EmptyString ;;
      storagePluginName <- takeInParam i toQString EmptyString ;;
      encryptionPluginName <- takeInParam i toQString EmptyString ;;
      unlockSemantic <- takeInParam i toDeviceLockUnlockSemantic DeviceLockKeepUnlocked ;;
      accessControlMode <- takeInParam i toAccessControlMode OwnerOnlyMode ;;
      result <- processor
        (createDeviceLockCollection callerPid id collectionName storagePluginName
           encryptionPluginName unlockSemantic accessControlMode) ;;
      replyOrWait i result []
  | CreateCustomLockCollectionRequest =>
      collectionName <- takeInParam i toQString EmptyString ;;
      storagePluginName <- takeInParam i toQString EmptyString ;;
      encryptionPluginName <- takeInParam i toQString EmptyString ;;
      authenticationPluginName <- takeInParam i toQString EmptyString ;;
      unlockSemantic <- takeInParam i toCustomLockUnlockSemantic CustomLockKeepUnlocked ;;
      customLockTimeoutMs <- takeInParam i toInt 0%Z ;;
      accessControlMode <- takeInParam i toAccessControlMode OwnerOnlyMode ;;
      userInteractionMode <- takeInParam i toUserInteractionMode PreventUserInteractionMode ;;
      uiServiceAddress <- takeInParam i toQString EmptyString ;;
      result <- processor
        (createCustomLockCollection callerPid id collectionName storagePluginName
           encryptionPluginName authenticationPluginName unlockSemantic customLockTimeoutMs
           accessControlMode userInteractionMode uiServiceAddress) ;;
      replyOrWait i result []
  | DeleteCollectionRequest =>
      collectionName <- takeInParam i toQString EmptyString ;;
      userInteractionMode <- takeInParam i toUserInteractionMode PreventUserInteractionMode ;;
      result <- processor (deleteCollection callerPid id collectionName userInteractionMode) ;;
      replyOrWait i result []
  | SetCollectionSecretRequest =>
      collectionName <- takeInParam i toQString EmptyString ;;
      secretName <- takeInParam i toQString EmptyString ;;
      secret <- takeInParam i toQByteArray EmptyString ;;
      userInteractionMode <- takeInParam i toUserInteractionMode PreventUserInteractionMode ;;
      uiServiceAddress <- takeInParam i toQString EmptyString ;;
      result <- processor
        (setCollectionSecret Sha3_256 callerPid id collectionName secretName secret
           userInteractionMode uiServiceAddress) ;;
      replyOrWait i result []
  | SetStandaloneDeviceLockSecretRequest =>
      storagePluginName <- takeInParam i toQString EmptyString ;;
      encryptionPluginName <- takeInParam i toQString EmptyString ;;
      secretName <- takeInParam i toQString EmptyString ;;
      secret <- takeInParam i toQByteArray EmptyString ;;
      unlockSemantic <- takeInParam i toDeviceLockUnlockSemantic DeviceLockKeepUnlocked ;;
      accessControlMode <- takeInParam i toAccessControlMode OwnerOnlyMode ;;
      userInteractionMode <- takeInParam i toUserInteractionMode PreventUserInteractionMode ;;
      result <- processor
        (setStandaloneDeviceLockSecret Sha3_256 callerPid id storagePluginName
           encryptionPluginName secretName secret unlockSemantic accessControlMode
           userInteractionMode) ;;
      replyOrWait i result []
  | SetStandaloneCustomLockSecretRequest =>
      storagePluginName <- takeInParam i toQString EmptyString ;;
      encryptionPluginName <- takeInParam i toQString EmptyString ;;
      authenticationPluginName <- takeInParam i toQString EmptyString ;;
      secretName <- takeInParam i toQString EmptyString ;;
      secret <- takeInParam i toQByteArray EmptyString ;;
      unlockSemantic <- takeInParam i toCustomLockUnlockSemantic CustomLockKeepUnlocked ;;
      customLockTimeoutMs <- takeInParam i toInt 0%Z ;;
      accessControlMode <- takeInParam i toAccessControlMode OwnerOnlyMode ;;
      userInteractionMode <- takeInParam i toUserInteractionMode PreventUserInteractionMode ;;
      uiServiceAddress <- takeInParam i toQString EmptyString ;;
      result <- processor
        (setStandaloneCustomLockSecret Sha3_256 callerPid id storagePluginName
           encryptionPluginName authenticationPluginName secretName secret unlockSemantic
           customLockTimeoutMs accessControlMode userInteractionMode uiServiceAddress) ;;
      replyOrWait i result []
  | GetCollectionSecretRequest =>
      collectionName <- takeInParam i toQString EmptyString ;;
      secretName <- takeInParam i toQString EmptyString ;;
      userInteractionMode <- takeInParam i toUserInteractionMode PreventUserInteractionMode ;;
      uiServiceAddress <- takeInParam i toQString EmptyString ;;
      r <- processor
        (getCollectionSecret Sha3_256 callerPid id collectionName secretName
           userInteractionMode uiServiceAddress) ;;
      replyOrWait i (fst r) [VBytes (snd r)]
  | GetStandaloneSecretRequest =>
      secretName <- takeInParam i toQString EmptyString ;;
      userInteractionMode <- takeInParam i toUserInteractionMode PreventUserInteractionMode ;;
      uiServiceAddress <- takeInParam i toQString EmptyString ;;
      r <- processor
        (getStandaloneSecret Sha3_256 callerPid id secretName userInteractionMode
           uiServiceAddress) ;;
      replyOrWait i (fst r) [VBytes (snd r)]
  | DeleteCollectionSecretRequest =>
      collectionName <- takeInParam i toQString EmptyString ;;
      secretName <- takeInParam i toQString EmptyString ;;
      userInteractionMode <- takeInParam i toUserInteractionMode PreventUserInteractionMode ;;
      uiServiceAddress <- takeInParam i toQString EmptyString ;;
      result <- processor
        (deleteCollectionSecret Sha3_256 callerPid id collectionName secretName
           userInteractionMode uiServiceAddress) ;;
      replyOrWait i result []
  | DeleteStandaloneSecretRequest =>
      secretName <- takeInParam i toQString EmptyString ;;
      userInteractionMode <- takeInParam i toUserInteractionMode PreventUserInteractionMode ;;
      result <- processor
        (deleteStandaloneSecret Sha3_256 callerPid id secretName userInteractionMode) ;;
      replyOrWait i result []
  | InvalidRequest => retQ false
  end.

(** [handleFinishedRequest]; the value is [*completed].  A request that
    finished as [Pending] is completed without any answer. *)
Definition handleFinishedRequest (i : nat) : Q bool :=
  request <- requestAt i ;;
  let id := requestId request in
  match requestTypeOfInt (type request) with
  | InvalidRequest => retQ false
  | GetPluginInfoRequest | GetCollectionSecretRequest | GetStandaloneSecretRequest =>
      result <- takeOutParam i toResult (ResultOfError UnknownError) ;;
      if isPending result then retQ true
      else
        secret <- takeOutParam i toQByteArray EmptyString ;;
        answer i (Reply id [VResult result; VBytes secret]) [VBytes secret] result ;;;
        retQ true
  | _ =>
      result <- takeOutParam i toResult (ResultOfError UnknownError) ;;
      if isPending result then retQ true
      else
        answer i (Reply id [VResult result]) [] result ;;;
        retQ true
  end.

(** [it = m_requests.erase(it)] *)
Definition eraseAt (i : nat) : Q unit :=
  fun q =>
    Some (tt, SecretsRequestQueue.withRequests q
                (take i (SecretsRequestQueue.m_requests q)
                 ++ drop (S i) (SecretsRequestQueue.m_requests q))%list).

(** The [while] loop of [handleRequests] from position [i] on.  The
    clock is read once per turn: [elapsed] says, turn by turn, whether
    [yieldTimer.elapsed() > 100] holds at the end of the turn, and is
    [false] once the list is used up.  The value tells whether the loop
    has queued another [handleRequests] and left.  [turns] bounds the
    number of turns; the loop of the sources needs at most as many as
    the list has requests, since no handler adds one. *)
Fixpoint handleRequestsFrom (turns : nat) (i : nat) (elapsed : list bool) : Q bool :=
  match turns with
  | O => fun q => if decide (i < length (SecretsRequestQueue.m_requests q))%nat
                  then None else Some (false, q)
  | S turns' =>
      fun q =>
        match SecretsRequestQueue.m_requests q !! i with
        | None => Some (false, q)
        | Some request =>
            (next <-
               match status request with
               | RequestPending =>
                   setRequestAt i (withStatus RequestInProgress request) ;;;
                   completed <- handlePendingRequest i ;;
                   if completed then eraseAt i ;;; retQ i else retQ (S i)
               | RequestFinished =>
                   completed <- handleFinishedRequest i ;;
                   if completed then eraseAt i ;;; retQ i else retQ (S i)
               | RequestInProgress => retQ (S i)
               end ;;
             fun q' =>
               let yield := match elapsed with e :: _ => e | [] => false end in
               if negb (Nat.eqb (length (SecretsRequestQueue.m_requests q')) 0) && yield
               then Some (true, q')
               else handleRequestsFrom turns' next (tl elapsed) q') q
        end
  end.

Definition handleRequests (elapsed : list bool) : Q bool :=
  fun q => handleRequestsFrom (length (SecretsRequestQueue.m_requests q)) O elapsed q.

(** [handleRequest] of a request that arrives over D-Bus.  [remotePid]
    is what [dbus_connection_get_unix_process_id] finds, if anything.
    The value is the result handed back to the slot at once; there is
    none when the reply is delayed, or an error reply has been sent.

    Modelled from the spec: the declaration of [RequestData] is not
    part of the sources at hand, and the function leaves
    [isSecretsCryptoRequest] and [cryptoRequestId] as the constructor
    sets them.  By section 4.4 the reply channel of a record is either
    the connection and message of a client or the id of a crypto
    helper: the record of a client is no crypto request. *)
Definition handleRequest (requestType : RequestType) (inParams : list QVariant)
    (remotePid : option Z) : Q (option Result) :=
  match remotePid with
  | None => send ErrorReply ;;; retQ None
  | Some pid =>
      result <- processor (fun p =>
        let '(result, queue) :=
          enqueueRequest
            (mkRequestData pid RequestPending (intOfRequestType requestType) inParams []
               0 false 0)
            (m_requestQueue p) in
        Some (result, withRequestQueue p queue)) ;;
      if isSucceeded result then retQ None else retQ (Some result)
  end.

(** [handleRequest] of a request made on behalf of the crypto daemon. *)
Definition handleCryptoRequest (callerPid cryptoRequestId : Z) (requestType : RequestType)
    (inParams : list QVariant) : Q Result :=
  processor (fun p =>
    let '(result, queue) :=
      enqueueRequest
        (mkRequestData callerPid RequestPending (intOfRequestType requestType) inParams []
           0 true cryptoRequestId)
        (m_requestQueue p) in
    Some (result, withRequestQueue p queue)).

(** The possibly asynchronous crypto helpers.  A key is named by its
    collection and its own name. *)
Definition storeKey (callerPid cryptoRequestId : Z) (collectionName name : QString)
    (serialisedKey : QByteArray) (storagePluginName : QString) : Q Result :=
  enqueueResult <- handleCryptoRequest callerPid cryptoRequestId SetCollectionSecretRequest
    [VString collectionName; VString name; VBytes serialisedKey;
     VUserInteractionMode PreventUserInteractionMode; VString EmptyString] ;;
  if isFailed enqueueResult then retQ enqueueResult else retQ (ResultOfCode Pending).

Definition deleteStoredKey (callerPid cryptoRequestId : Z) (collectionName name : QString)
    : Q Result :=
  enqueueResult <- handleCryptoRequest callerPid cryptoRequestId
    DeleteCollectionSecretRequest
    [VString collectionName; VString name;
     VUserInteractionMode PreventUserInteractionMode; VString EmptyString] ;;
  if isFailed enqueueResult then retQ enqueueResult else retQ (ResultOfCode Pending).

Definition storedKey (callerPid cryptoRequestId : Z) (collectionName name : QString)
    : Q Result :=
  enqueueResult <- handleCryptoRequest callerPid cryptoRequestId GetCollectionSecretRequest
    [VString collectionName; VString name;
     VUserInteractionMode PreventUserInteractionMode; VString EmptyString] ;;
  if isFailed enqueueResult then retQ enqueueResult else retQ (ResultOfCode Pending).

(** [SecretsRequestQueue::storagePluginNames] *)
Definition queueStoragePluginNames (callerPid cryptoRequestId : Z)
    : Q (Result * list QString) :=
  names <- processor storagePluginNames ;;
  retQ (ResultOfCode Succeeded, names).

End Queue.

(** ** The D-Bus object ([SecretsDBusObject]) *)

Module SecretsDBusObject.

Definition getPluginInfo : option Z -> Q (option Result) :=
  handleRequest GetPluginInfoRequest [].

(** [createCollection], device lock *)
Definition createDeviceLockCollection (collectionName storagePluginName
    encryptionPluginName : QString) (unlockSemantic : DeviceLockUnlockSemantic)
    (accessControlMode : AccessControlMode) : option Z -> Q (option Result) :=
  handleRequest CreateDeviceLockCollectionRequest
    [VString collectionName; VString storagePluginName; VString encryptionPluginName;
     VDeviceLockUnlockSemantic unlockSemantic; VAccessControlMode accessControlMode].

(** [createCollection], custom lock *)
Definition createCustomLockCollection (collectionName storagePluginName
    encryptionPluginName authenticationPluginName : QString)
    (unlockSemantic : CustomLockUnlockSemantic) (customLockTimeoutMs : Z)
    (accessControlMode : AccessControlMode) (userInteractionMode : UserInteractionMode)
    (uiServiceAddress : QString) : option Z -> Q (option Result) :=
  handleRequest CreateCustomLockCollectionRequest
    [VString collectionName; VString storagePluginName; VString encryptionPluginName;
     VString authenticationPluginName; VCustomLockUnlockSemantic unlockSemantic;
     VInt customLockTimeoutMs; VAccessControlMode accessControlMode;
     VUserInteractionMode userInteractionMode; VString uiServiceAddress].

Definition deleteCollection (collectionName : QString)
    (userInteractionMode : UserInteractionMode) : option Z -> Q (option Result) :=
  handleRequest DeleteCollectionRequest
    [VString collectionName; VUserInteractionMode userInteractionMode].

(** [setSecret], in a collection *)
Definition setCollectionSecret (collectionName secretName : QString) (secret : QByteArray)
    (userInteractionMode : UserInteractionMode) (uiServiceAddress : QString)
    : option Z -> Q (option Result) :=
  handleRequest SetCollectionSecretRequest
    [VString collectionName; VString secretName; VBytes secret;
     VUserInteractionMode userInteractionMode; VString uiServiceAddress].

(** [setSecret], standalone with the device lock *)
Definition setStandaloneDeviceLockSecret (storagePluginName encryptionPluginName
    secretName : QString) (secret : QByteArray) (unlockSemantic : DeviceLockUnlockSemantic)
    (accessControlMode : AccessControlMode) (userInteractionMode : UserInteractionMode)
    : option Z -> Q (option Result) :=
  handleRequest SetStandaloneDeviceLockSecretRequest
    [VString storagePluginName; VString encryptionPluginName; VString secretName;
     VBytes secret; VDeviceLockUnlockSemantic unlockSemantic;
     VAccessControlMode accessControlMode; VUserInteractionMode userInteractionMode].

(** [setSecret], standalone with a custom lock *)
Definition setStandaloneCustomLockSecret (storagePluginName encryptionPluginName
    authenticationPluginName secretName : QString) (secret : QByteArray)
    (unlockSemantic : CustomLockUnlockSemantic) (customLockTimeoutMs : Z)
    (accessControlMode : AccessControlMode) (userInteractionMode : UserInteractionMode)
    (uiServiceAddress : QString) : option Z -> Q (option Result) :=
  handleRequest SetStandaloneCustomLockSecretRequest
    [VString storagePluginName; VString encryptionPluginName;
     VString authenticationPluginName; VString secretName; VBytes secret;
     VCustomLockUnlockSemantic unlockSemantic; VInt customLockTimeoutMs;
     VAccessControlMode accessControlMode; VUserInteractionMode userInteractionMode;
     VString uiServiceAddress].

(** [getSecret], of a collection *)
Definition getCollectionSecret (collectionName secretName : QString)
    (userInteractionMode : UserInteractionMode) (uiServiceAddress : QString)
    : option Z -> Q (option Result) :=
  handleRequest GetCollectionSecretRequest
    [VString collectionName; VString secretName;
     VUserInteractionMode userInteractionMode; VString uiServiceAddress].

(** [getSecret], standalone *)
Definition getStandaloneSecret (secretName : QString)
    (userInteractionMode : UserInteractionMode) (uiServiceAddress : QString)
    : option Z -> Q (option Result) :=
  handleRequest GetStandaloneSecretRequest
    [VString secretName; VUserInteractionMode userInteractionMode;
     VString uiServiceAddress].

(** [deleteSecret], of a collection *)
Definition deleteCollectionSecret (collectionName secretName : QString)
    (userInteractionMode : UserInteractionMode) (uiServiceAddress : QString)
    : option Z -> Q (option Result) :=
  handleRequest DeleteCollectionSecretRequest
    [VString collectionName; VString secretName;
     VUserInteractionMode userInteractionMode; VString uiServiceAddress].

(** [deleteSecret], standalone *)
Definition deleteStandaloneSecret (secretName : QString)
    (userInteractionMode : UserInteractionMode) : option Z -> Q (option Result) :=
  handleRequest DeleteStandaloneSecretRequest
    [VString secretName; VUserInteractionMode userInteractionMode].

End SecretsDBusObject.

(** [authenticationCompleted] and the timeout slots, as the queue's
    processor receives them. *)
Definition deliverAuthentication (Sha3_256 : QByteArray -> QByteArray)
    (evaluationOrder : RequestType -> list nat)
    (convert : QMetaType -> QVariant -> QVariant) (callerPid requestId : Z)
    (callerApplicationId collectionName secretName uiServiceAddress : QString)
    (result : Result) (authenticationKey : QByteArray) : Q unit :=
  processor (authenticationCompleted Sha3_256 evaluationOrder convert callerPid requestId
               callerApplicationId
               collectionName secretName uiServiceAddress result authenticationKey).

(** * The OpenSSL wrappers ([plugins/opensslcryptoplugin/evp_p.h]) *)

Module Evp.

(** The calls into OpenSSL, which is not part of these sources.  A
    context is set up from a key of 32 bytes and an initialisation
    vector; [update] and [final] give the bytes that
    [EVP_EncryptUpdate] and [EVP_EncryptFinal_ex] (or their decryption
    counterparts) write for the input, or nothing when they fail. *)
Record Cipher := mkCipher {
  init : list Byte.byte -> list Byte.byte -> bool;
  update : list Byte.byte -> list Byte.byte -> list Byte.byte -> option (list Byte.byte);
  final : list Byte.byte -> list Byte.byte -> list Byte.byte -> option (list Byte.byte)
}.

(** The [for] loop that fills [padded_key].  The C code reads [key[i]]
    for [i < key_length]; the callers pass the size of the buffer, and
    the model reads a zero byte beyond it. *)
Definition padded_key (key : list Byte.byte) (key_length : Z) : list Byte.byte :=
  map (fun i => if Z.of_nat i <? key_length then nth i key Byte.x00 else Byte.x00)
      (seq 0 32).

(** The value returned and the buffer stored through the out
    parameter, if any. *)
Definition transform (cipher : Cipher) (init_vector key : list Byte.byte) (key_length : Z)
    (input : list Byte.byte) (input_length : Z) : Z * option (list Byte.byte) :=
  if (input_length <=? 0) || (key_length <=? 0) then (-1, None)
  else
    let padded := padded_key key key_length in
    if negb (init cipher padded init_vector) then (-1, None)
    else
      match update cipher padded init_vector input with
      | None => (-1, None)
      | Some updated =>
          match final cipher padded init_vector input with
          | None => (-1, None)
          | Some finished =>
              (Z.of_nat (length updated) + Z.of_nat (length finished),
               Some (updated ++ finished)%list)
          end
      end.

Section Wrappers.
Variables (EVP_Encrypt EVP_Decrypt : Cipher).

Definition osslevp_aes_encrypt_plaintext (init_vector key : list Byte.byte)
    (key_length : Z) (plaintext : list Byte.byte) (plaintext_length : Z)
    : Z * option (list Byte.byte) :=
  transform EVP_Encrypt init_vector key key_length plaintext plaintext_length.

Definition osslevp_aes_decrypt_ciphertext (init_vector key : list Byte.byte)
    (key_length : Z) (ciphertext : list Byte.byte) (ciphertext_length : Z)
    : Z * option (list Byte.byte) :=
  transform EVP_Decrypt init_vector key key_length ciphertext ciphertext_length.

End Wrappers.

End Evp.

(** * Reference configuration

    A small daemon used to exercise the model: a stand-in digest, a
    cipher that honours the encryption contract, one plugin of each
    kind, and two client applications. *)

Module Sample.

(** A stand-in for the library's digest.  No property below depends on
    which function it is. *)
Definition digest (data : QByteArray) : QByteArray := data.

(** A stand-in for the library's conversions between variant types.
    No property below depends on the choice. *)
Definition unconverted (t : QMetaType) (v : QVariant) : QVariant := v.

(** A compiler that evaluates the arguments of a call in the order
    written. *)
Definition leftToRight (t : RequestType) : list nat :=
  seq 0 (match t with
         | CreateCustomLockCollectionRequest => 9
         | SetCollectionSecretRequest => 13
         | SetStandaloneCustomLockSecretRequest => 10
         | GetCollectionSecretRequest => 8
         | GetStandaloneSecretRequest => 7
         | DeleteCollectionSecretRequest => 4
         | _ => 0
         end).

Fixpoint stripPrefix (prefix s : string) : option string :=
  match prefix, s with
  | EmptyString, _ => Some s
  | String a prefix', String b s' =>
      if Ascii.eqb a b then stripPrefix prefix' s' else None
  | String _ _, EmptyString => None
  end.

(** The cipher text is the key followed by the plain text. *)
Definition cipher : EncryptionPlugin.t :=
  EncryptionPlugin.mk
    (fun plain key => (ResultOfCode Succeeded, key +:+ plain))
    (fun cipherText key =>
       match stripPrefix key cipherText with
       | Some plain => (ResultOfCode Succeeded, plain)
       | None => (ResultOfError SecretsPluginDecryptionError, EmptyString)
       end).

(** Process 1 is application A, every other process application B. *)
Definition permissions : ApplicationPermissions :=
  mkApplicationPermissions (fun _ => false) "platform"
    (fun pid => if pid =? 1 then "appA" else "appB").

Definition storage : StoragePlugin.t :=
  StoragePlugin.mk {[ standaloneCollectionName := ∅ ]} [].

Definition encryptedStorage : EncryptedStoragePlugin.t :=
  EncryptedStoragePlugin.mk ∅ ∅ [].

Definition inApp : AuthenticationPlugin.t :=
  AuthenticationPlugin.mk AuthenticationPlugin.ApplicationSpecificAuthentication [] [].

Definition systemAuthentication : AuthenticationPlugin.t :=
  AuthenticationPlugin.mk AuthenticationPlugin.SystemDefaultAuthentication [] [].

(** The processor before its constructor has run.  The name
    [sqlcipher] is registered in the three registries that the create
    operations consult for an encrypted-storage collection. *)
Definition blank : RequestProcessor :=
  mkRequestProcessor (RequestQueue.mk 0 [])
    (Database.mk (Database.mkTables ∅ ∅) None [])
    permissions
    {[ "sqlite" := storage; "sqlcipher" := storage ]}
    {[ "openssl" := cipher; "sqlcipher" := cipher ]}
    {[ "sqlcipher" := encryptedStorage ]}
    {[ "inapp" := inApp; DefaultAuthenticationPluginName := systemAuthentication ]}
    ∅ ∅ ∅ ∅ ∅ 0%nat [].

(** Running one member function after another. *)
Definition andThen {A B : Type} (o : option (A * RequestProcessor)) (m : M B)
    : option (B * RequestProcessor) :=
  match o with Some (_, p) => m p | None => None end.

(** The members after a run; a run that dereferenced a null pointer
    leaves the blank processor. *)
Definition after {A : Type} (o : option (A * RequestProcessor)) : RequestProcessor :=
  match o with Some (_, p) => p | None => blank end.

(** The daemon after start-up. *)
Definition ready : RequestProcessor := after (construct blank).

(** Application A has created the device-lock collection [vault] on
    plain storage with separate encryption. *)
Definition withVault : RequestProcessor :=
  after (createDeviceLockCollection 1 1 "vault" "sqlite" "openssl"
           DeviceLockKeepUnlocked OwnerOnlyMode ready).

(** Application A has asked for the custom-lock collection [diary]
    behind the in-application authentication plugin; request 5 is
    parked until the authentication flow completes. *)
Definition parkedCreate : RequestProcessor :=
  after (createCustomLockCollection 1 5 "diary" "sqlite" "openssl" "inapp"
           CustomLockTimoutRelock 50 OwnerOnlyMode InProcessUserInteractionMode "ui"
           ready).

(** Application A owns two device-lock collections, [ab] and [a]. *)
Definition twoCollections : RequestProcessor :=
  after
    (createDeviceLockCollection 1 2 "a" "sqlite" "openssl" DeviceLockKeepUnlocked OwnerOnlyMode
       (after
          (createDeviceLockCollection 1 1 "ab" "sqlite" "openssl" DeviceLockKeepUnlocked
             OwnerOnlyMode ready))).

(** ... and has stored the secret [c] in [ab]. *)
Definition twoCollectionsOneSecret : RequestProcessor :=
  after (setCollectionSecret digest 1 3 "ab" "c" "pass"
           PreventUserInteractionMode EmptyString twoCollections).

(** Application A has stored the standalone custom-lock secret [pin]
    with the timeout-relock semantic (value 10) and a 50 ms window; the
    authentication flow delivered the key [k1]. *)
Definition withPin : RequestProcessor :=
  after
    (setStandaloneCustomLockSecretWithAuthenticationKey digest 1 1
       "sqlite" "openssl" "inapp" "pin" "1234" 10 50 0
       InProcessUserInteractionMode "ui" "k1" ready).

(** ... has read it once, which arms timer 0 ... *)
Definition pinRead : RequestProcessor :=
  after (getStandaloneSecret digest 1 2 "pin" InProcessUserInteractionMode "ui" withPin).

(** ... and the timer has fired. *)
Definition pinTimedOut : RequestProcessor := after (timeoutRelockSecret 0 pinRead).

(** The daemon after start-up, with a storage plugin [sqlite] that will
    refuse its next call. *)
Definition refusingSqlite : RequestProcessor :=
  withStoragePlugins ready
    (<["sqlite" := StoragePlugin.mk {[ standaloneCollectionName := ∅ ]}
                     [Some (ResultOfError UnknownError)]]>
       (m_storagePlugins ready)).

(** ... and a database whose eighth call will fail. *)
Definition refusingSqliteFaultyDatabase : RequestProcessor :=
  withDb refusingSqlite
    (Database.mk (Database.stored (m_db refusingSqlite)) None
       [false; false; false; false; false; false; false; true]).

(** The storage plugin [sqlite] holds [vault], and the master database
    has no row for it. *)
Definition orphanedVault : RequestProcessor :=
  withDb withVault (Database.mk (Database.stored (m_db ready)) None []).

(** Application A has created the custom-lock collection [safe] in the
    encrypted-storage plugin [sqlcipher] with the key [k1]; the plugin
    holds it locked, as it does after a restart of the daemon. *)
Definition lockedSafe : RequestProcessor :=
  after
    (relock "sqlcipher" "safe"
       (after
          (createCustomLockCollectionWithAuthenticationKey 1 1 "safe" "sqlcipher" "sqlcipher"
             "inapp" 8 0 0 InProcessUserInteractionMode "ui" "k1" ready))).


(** Application A has created the custom-lock collection [diary] on
    plain storage behind the in-application authentication plugin; the
    authentication flow delivered the key [k1], which is cached. *)
Definition diary : RequestProcessor :=
  after
    (createCustomLockCollectionWithAuthenticationKey 1 1 "diary" "sqlite" "openssl"
       "inapp" 8 0 0 InProcessUserInteractionMode "ui" "k1" ready).

(** The daemon holding [diary] after the authentication plugin [inapp]
    has been uninstalled. *)
Definition diaryWithoutInApp : RequestProcessor :=
  withAuthenticationPlugins diary (delete "inapp" (m_authenticationPlugins diary)).

(** ... and has stored the secret [pwd] in it. *)
Definition diaryWithSecret : RequestProcessor :=
  after (setCollectionSecret digest 1 2 "diary" "pwd" "pass"
           PreventUserInteractionMode EmptyString diary).

(** ... and has deleted it again. *)
Definition diaryAfterDelete : RequestProcessor :=
  after (deleteCollectionSecret digest 1 3 "diary" "pwd"
           PreventUserInteractionMode EmptyString diaryWithSecret).

(** Application A has stored the secret [pwd] in [vault]. *)
Definition vaultWithSecret : RequestProcessor :=
  after (setCollectionSecret digest 1 2 "vault" "pwd" "pass"
           PreventUserInteractionMode EmptyString withVault).

(** ... and the standalone device-lock secret [pin]. *)
Definition vaultAndPin : RequestProcessor :=
  after
    (setStandaloneDeviceLockSecret digest 1 3 "sqlite" "openssl" "pin" "1234"
       DeviceLockKeepUnlocked OwnerOnlyMode PreventUserInteractionMode vaultWithSecret).

(** The same, with a storage plugin that will refuse its next call. *)
Definition pinRefusingRemoval : RequestProcessor :=
  withStoragePlugins vaultAndPin
    (<["sqlite" := StoragePlugin.mk
                     (match m_storagePlugins vaultAndPin !! "sqlite" with
                      | Some plugin => StoragePlugin.collections plugin
                      | None => ∅
                      end)
                     [Some (ResultOfError UnknownError)]]>
       (m_storagePlugins vaultAndPin)).

(** Application A has created the device-lock collection [strongbox] in
    the encrypted-storage plugin [sqlcipher] ... *)
Definition strongbox : RequestProcessor :=
  after (createDeviceLockCollection 1 1 "strongbox" "sqlcipher" "sqlcipher"
           DeviceLockKeepUnlocked OwnerOnlyMode ready).

(** ... and has stored the secret [pwd] in it. *)
Definition strongboxWithSecret : RequestProcessor :=
  after (setCollectionSecret digest 1 2 "strongbox" "pwd" "pass"
           PreventUserInteractionMode EmptyString strongbox).

(** The daemon holding [diary] after a restart: no collection key is
    cached. *)
Definition lockedDiary : RequestProcessor :=
  withCollectionAuthenticationKeys diary ∅.

(** Application A has created the custom-lock collection [journal] in
    the encrypted-storage plugin [sqlcipher] with the timeout-relock
    semantic (value 10) and a 50 ms window, has stored the secret [pwd]
    in it ... *)
Definition journal : RequestProcessor :=
  after
    (setCollectionSecret digest 1 2 "journal" "pwd" "pass"
       PreventUserInteractionMode EmptyString
       (after
          (createCustomLockCollectionWithAuthenticationKey 1 1 "journal" "sqlcipher"
             "sqlcipher" "inapp" 10 50 0 InProcessUserInteractionMode "ui" "k1" ready))).

(** ... and has read it once. *)
Definition journalRead : RequestProcessor :=
  after (getCollectionSecret digest 1 3 "journal" "pwd" InProcessUserInteractionMode "ui"
           journal).

(** The daemon holding [diary] with its secret after a restart. *)
Definition lockedDiaryWithSecret : RequestProcessor :=
  withCollectionAuthenticationKeys diaryWithSecret ∅.

(** The processor before [loadPlugins], and the files of a plugin
    directory: one plugin of each kind, each under its own name. *)
Definition bare : RequestProcessor :=
  mkRequestProcessor (RequestQueue.mk 0 [])
    (Database.mk (Database.mkTables ∅ ∅) None [])
    permissions ∅ ∅ ∅ ∅ ∅ ∅ ∅ ∅ ∅ 0%nat [].

Definition pluginFiles : list PluginFile :=
  [ mkPluginFile (EncryptionInstance cipher) "openssl" false;
    mkPluginFile (AuthenticationInstance inApp) "inapp" false;
    mkPluginFile (EncryptedStorageInstance encryptedStorage) "sqlcipher" false;
    mkPluginFile (StorageInstance storage) "sqlite" false ].

(** A request of process 1 that is being handled under the id [id]. *)
Definition tracked (id : Z) : RequestQueue.RequestData :=
  RequestQueue.mkRequestData 1 RequestQueue.RequestInProgress 8 [] [] id false 0.

(** The queue of a daemon: nothing recorded for the crypto helpers,
    nothing sent. *)
Definition queueWith (p : RequestProcessor) : SecretsRequestQueue.t :=
  SecretsRequestQueue.mk p ∅ [].

Definition afterQueue {A : Type} (o : option (A * SecretsRequestQueue.t))
    : SecretsRequestQueue.t :=
  match o with Some (_, q) => q | None => queueWith blank end.

(** Application A has asked for the secret [pwd] of the locked [diary];
    the request has been handled once and waits for the
    authentication flow. *)
Definition asked : SecretsRequestQueue.t :=
  afterQueue
    (handleRequests digest []
       (afterQueue
          (SecretsDBusObject.getCollectionSecret "diary" "pwd" InProcessUserInteractionMode
             "ui" (Some 1) (queueWith lockedDiaryWithSecret)))).

(** The daemon holding [vault], with a database whose third call will
    fail. *)
Definition vaultFailingDelete : RequestProcessor :=
  withDb withVault
    (Database.mk (Database.stored (m_db withVault)) None [false; false; true]).

End Sample.

(** * Properties *)

(** ** Vocabulary of the statements *)

Definition databaseHealthy (p : RequestProcessor) : Prop :=
  Database.faults (m_db p) = [] /\ Database.transaction (m_db p) = None.

Definition collectionRow (p : RequestProcessor) (collectionName : QString) : option Row :=
  Database.Collections (Database.stored (m_db p)) !! collectionName.

Definition secretRow (p : RequestProcessor) (collectionName hashedSecretName : QString)
    : option Row :=
  Database.Secrets (Database.stored (m_db p)) !! (collectionName, hashedSecretName).

Definition callerOf (p : RequestProcessor) (callerPid : Z) : QString :=
  applicationOf (m_appPermissions p) callerPid.

(** Does the plugin that stores a collection with these plugin names
    hold a collection of this name? *)
Definition pluginSideCollection (p : RequestProcessor)
    (storagePluginName encryptionPluginName collectionName : QString) : bool :=
  if bool_decide (storagePluginName = encryptionPluginName) then
    match m_encryptedStoragePlugins p !! storagePluginName with
    | Some plugin => contains (EncryptedStoragePlugin.collections plugin) collectionName
    | None => false
    end
  else
    match m_storagePlugins p !! storagePluginName with
    | Some plugin => contains (StoragePlugin.collections plugin) collectionName
    | None => false
    end.

(** The script of that plugin, when it is registered: [Some []] says the
    plugin is there and will answer every call in the normal way. *)
Definition pluginScript (p : RequestProcessor)
    (storagePluginName encryptionPluginName : QString) : option (list (option Result)) :=
  if bool_decide (storagePluginName = encryptionPluginName) then
    EncryptedStoragePlugin.script <$> m_encryptedStoragePlugins p !! storagePluginName
  else
    StoragePlugin.script <$> m_storagePlugins p !! storagePluginName.

(** What the plugin that stores a collection with these plugin names
    answers, as it is now, to the create call for [collectionName]. *)
Definition pluginCreateAnswer (p : RequestProcessor)
    (storagePluginName encryptionPluginName collectionName : QString)
    (key : QByteArray) : option Result :=
  if bool_decide (storagePluginName = encryptionPluginName) then
    (fun plugin =>
       fst (fst (EncryptedStoragePlugin.createCollection collectionName key plugin)))
      <$> m_encryptedStoragePlugins p !! storagePluginName
  else
    (fun plugin => fst (fst (StoragePlugin.createCollection collectionName plugin)))
      <$> m_storagePlugins p !! storagePluginName.

(** That call, as it is logged. *)
Definition pluginCreateCall (storagePluginName encryptionPluginName collectionName : QString)
    (key : QByteArray) : PluginCall :=
  if bool_decide (storagePluginName = encryptionPluginName)
  then EncryptedCreateCollection storagePluginName collectionName key
  else StorageCreateCollection storagePluginName collectionName.

(** What a create whose plugin call failed leaves, from [p] to [p']:
    the create call was the one call made on a plugin, the plugin holds
    a collection of the name exactly if it held one before, and no
    transaction is open. *)
Definition afterFailedCreate (p p' : RequestProcessor) (s e c : QString) (key : QByteArray)
    : Prop :=
  pluginCalls p' = (pluginCalls p ++ [pluginCreateCall s e c key])%list
  /\ pluginSideCollection p' s e c = pluginSideCollection p s e c
  /\ Database.transaction (m_db p') = None.

(** [t] is the timer armed for [name], and for no other entry of the map. *)
Definition timerIsOnlyFor (timers : gmap string QTimer) (name : QString) (t : QTimer) : Prop :=
  timers !! name = Some t
  /\ forall other t', timers !! other = Some t' -> timerId t' = timerId t -> other = name.

(** What a refused key leaves behind, from [p] to [p']: the plugin [s]
    was asked whether [c] is locked, given the key, asked again, and
    given the empty key; its collection [c] has no key applied and
    holds the secrets it held. *)
Definition relockedAfterWrongKey (p p' : RequestProcessor) (s c : QString)
    (key : QByteArray) (col : EncryptedStoragePlugin.Collection) : Prop :=
  pluginCalls p'
  = (pluginCalls p
     ++ [EncryptedIsLocked s c; EncryptedSetEncryptionKey s c key;
         EncryptedIsLocked s c; EncryptedSetEncryptionKey s c EmptyString])%list
  /\ exists plugin',
       m_encryptedStoragePlugins p' !! s = Some plugin'
       /\ EncryptedStoragePlugin.collections plugin' !! c
          = Some (EncryptedStoragePlugin.mkCollection
                    (EncryptedStoragePlugin.collectionKey col) None
                    (EncryptedStoragePlugin.secrets col)).

(** What a caller who is not the owner is told: [PermissionsError] for
    an owner-only row, [OperationNotSupportedError] otherwise. *)
Definition refusal (row : Row) : Result :=
  if rowAccessControlMode row =? intOfAccessControlMode OwnerOnlyMode
  then ResultOfError PermissionsError
  else ResultOfError OperationNotSupportedError.

(** The plugin checks of the get and standalone-set operations pass for
    these plugin names. *)
Definition pluginsRegistered (p : RequestProcessor)
    (storagePluginName encryptionPluginName : QString) : bool :=
  if bool_decide (storagePluginName = encryptionPluginName)
  then contains (m_encryptedStoragePlugins p) storagePluginName
  else contains (m_storagePlugins p) storagePluginName
       && contains (m_encryptionPlugins p) encryptionPluginName.

(** What the get and standalone-set operations answer a caller who is
    not the owner: their plugin checks come before the owner check. *)
Definition ownerCheck (p : RequestProcessor) (storagePluginName encryptionPluginName : QString)
    (row : Row) : Result :=
  if pluginsRegistered p storagePluginName encryptionPluginName
  then refusal row
  else ResultOfError InvalidExtensionPluginError.

(** What the custom-lock set operation answers for a standalone secret
    that it may not update: its plugin checks come first. *)
Definition updateRefusal (p : RequestProcessor)
    (storagePluginName encryptionPluginName : QString) : ErrorCode :=
  if pluginsRegistered p storagePluginName encryptionPluginName
  then OperationNotSupportedError
  else InvalidExtensionPluginError.

(** The in-process check of the get operations. *)
Definition requiresInProcess (plugin : AuthenticationPlugin.t)
    (mode : UserInteractionMode) (ui : QString) : bool :=
  isApplicationSpecific (AuthenticationPlugin.authenticationType plugin)
  && (negb (isInProcessUserInteractionMode mode) || Qt.isEmpty ui).

(** The caller owns the owner-only collection [c], whose master row is
    [row], and the database answers. *)
Definition ownedBy (p : RequestProcessor) (callerPid : Z) (c : QString) (row : Row) : Prop :=
  databaseHealthy p
  /\ collectionRow p c = Some row
  /\ rowAccessControlMode row = intOfAccessControlMode OwnerOnlyMode
  /\ rowApplicationId row = callerOf p callerPid.

(** The authentication plugin of the row is registered and lets a
    request with this interaction mode through. *)
Definition interactionAllowed (p : RequestProcessor) (row : Row)
    (mode : UserInteractionMode) (ui : QString) : Prop :=
  exists plugin,
    m_authenticationPlugins p !! rowAuthenticationPluginName row = Some plugin
    /\ requiresInProcess plugin mode ui = false.

(** A collection on plain storage is unlocked: its key is cached; the
    storage plugin holds [held] for it. *)
Definition plainUnlocked (p : RequestProcessor) (c : QString) (row : Row)
    (held : gmap string QByteArray) (encryption : EncryptionPlugin.t)
    (key : QByteArray) : Prop :=
  rowStoragePluginName row <> rowEncryptionPluginName row
  /\ Qt.isEmpty (rowStoragePluginName row) = false
  /\ Qt.isEmpty (rowEncryptionPluginName row) = false
  /\ (exists storage,
        m_storagePlugins p !! rowStoragePluginName row = Some storage
        /\ StoragePlugin.script storage = []
        /\ StoragePlugin.collections storage !! c = Some held)
  /\ m_encryptionPlugins p !! rowEncryptionPluginName row = Some encryption
  /\ m_collectionAuthenticationKeys p !! c = Some key.

(** A collection on encrypted storage is unlocked in its plugin, which
    holds [held] for it. *)
Definition encryptedUnlocked (p : RequestProcessor) (c : QString) (row : Row)
    (held : gmap string QByteArray) : Prop :=
  rowStoragePluginName row = rowEncryptionPluginName row
  /\ exists plugin col,
       m_encryptedStoragePlugins p !! rowStoragePluginName row = Some plugin
       /\ EncryptedStoragePlugin.script plugin = []
       /\ EncryptedStoragePlugin.collections plugin !! c = Some col
       /\ EncryptedStoragePlugin.locked col = false
       /\ EncryptedStoragePlugin.secrets col = held.

(** The plugin that stores the standalone secrets of [row] is
    registered and takes its calls in the normal way. *)
Definition standalonePluginReady (p : RequestProcessor) (row : Row) : Prop :=
  if bool_decide (rowStoragePluginName row = rowEncryptionPluginName row) then
    exists plugin,
      m_encryptedStoragePlugins p !! rowStoragePluginName row = Some plugin
      /\ EncryptedStoragePlugin.script plugin = []
      /\ EncryptedStoragePlugin.collections plugin !! standaloneCollectionName = None
  else
    (exists storage,
        m_storagePlugins p !! rowStoragePluginName row = Some storage
        /\ StoragePlugin.script storage = [])
    /\ contains (m_encryptionPlugins p) (rowEncryptionPluginName row) = true.

(** The scan loop of [enqueueRequest] with its turns counted in unary:
    [inl] when the turns are used up. *)
Fixpoint loopFuel {S R : Type} (k : nat) (body : S -> S + R) (s : S) : S + R :=
  match k with
  | O => inl s
  | Datatypes.S k' =>
      match body s with
      | inl s' => loopFuel k' body s'
      | inr r => inr r
      end
  end.

(** The [j]-th id the scan of [enqueueRequest] looks at. *)
Definition scanCandidate (bits : nat) (prevId j : Z) : Z :=
  RequestQueue.wrap bits (prevId + 1 + j).


(** The registry checks of the create operations pass for these plugin
    names. *)
Definition pluginsRegisteredForCreate (p : RequestProcessor)
    (storagePluginName encryptionPluginName : QString) : bool :=
  (negb (bool_decide (storagePluginName = encryptionPluginName))
   || contains (m_encryptedStoragePlugins p) storagePluginName)
  && contains (m_storagePlugins p) storagePluginName
  && contains (m_encryptionPlugins p) encryptionPluginName.

(** The encrypted-storage plugin named by [row] is registered, takes its
    calls in the normal way, and reports [c] as locked or not. *)
Definition encryptedReports (p : RequestProcessor) (c : QString) (row : Row)
    (locked : bool) : Prop :=
  rowStoragePluginName row = rowEncryptionPluginName row
  /\ exists plugin,
       m_encryptedStoragePlugins p !! rowStoragePluginName row = Some plugin
       /\ EncryptedStoragePlugin.script plugin = []
       /\ match EncryptedStoragePlugin.collections plugin !! c with
          | Some col => EncryptedStoragePlugin.locked col
          | None => false
          end = locked.

(** A collection on plain storage is locked: its plugins are registered
    and no key is cached for it. *)
Definition plainLocked (p : RequestProcessor) (c : QString) (row : Row) : Prop :=
  rowStoragePluginName row <> rowEncryptionPluginName row
  /\ Qt.isEmpty (rowStoragePluginName row) = false
  /\ Qt.isEmpty (rowEncryptionPluginName row) = false
  /\ contains (m_storagePlugins p) (rowStoragePluginName row) = true
  /\ contains (m_encryptionPlugins p) (rowEncryptionPluginName row) = true
  /\ m_collectionAuthenticationKeys p !! c = None.

(** What a locked collection answers when no authentication flow may be
    started for it. *)
Definition lockedRefusal (row : Row) : Result :=
  if 0 <? rowUsesDeviceLockKey row then ResultOfError CollectionIsLockedError
  else ResultOfError OperationRequiresUserInteraction.

(** The authentication plugin of [row] is registered and will begin the
    next flow it is asked for. *)
Definition authenticationReady (p : RequestProcessor) (row : Row)
    (plugin : AuthenticationPlugin.t) : Prop :=
  m_authenticationPlugins p !! rowAuthenticationPluginName row = Some plugin
  /\ AuthenticationPlugin.script plugin = [].

(** From [p] to [p']: the plugin [name] has begun the flow [b]; no row
    has been written and no key cached. *)
Definition flowBegun (p p' : RequestProcessor) (name : QString)
    (plugin : AuthenticationPlugin.t) (b : AuthenticationPlugin.Begun) : Prop :=
  m_authenticationPlugins p' !! name
  = Some (AuthenticationPlugin.mk (AuthenticationPlugin.authenticationType plugin)
            (AuthenticationPlugin.begun plugin ++ [b]) [])
  /\ m_db p' = m_db p
  /\ m_collectionAuthenticationKeys p' = m_collectionAuthenticationKeys p
  /\ m_standaloneSecretAuthenticationKeys p' = m_standaloneSecretAuthenticationKeys p.

(** The members once the entry of a parked request has been taken out. *)
Definition unparked (requestId : Z) (p : RequestProcessor) : RequestProcessor :=
  withPendingRequests p (delete requestId (m_pendingRequests p)).

(** Running a continuation and handing its result to the queue. *)
Definition finishWith (requestId : Z) (m : M (Result * QByteArray)) : M unit :=
  bind m (fun finished =>
    modify (fun p =>
      withRequestQueue p
        (RequestQueue.requestFinished requestId
           [VResult (fst finished); VBytes (snd finished)] (m_requestQueue p)))).

(** A collection is locked: on plain storage no key is cached for it,
    on encrypted storage its plugin reports it locked. *)
Definition collectionLocked (p : RequestProcessor) (c : QString) (row : Row) : Prop :=
  plainLocked p c row \/ encryptedReports p c row true.

(** The plugins named [s] and [e] will store a standalone secret: the
    encrypted-storage plugin takes its calls in the normal way, or the
    storage plugin does and holds the reserved collection, and the
    encryption plugin encrypts [secret] under [key]. *)
Definition standaloneStoreReady (p : RequestProcessor) (s e : QString)
    (secret key : QByteArray) : Prop :=
  if bool_decide (s = e) then
    exists plugin,
      m_encryptedStoragePlugins p !! s = Some plugin
      /\ EncryptedStoragePlugin.script plugin = []
  else
    (exists storage held,
        m_storagePlugins p !! s = Some storage
        /\ StoragePlugin.script storage = []
        /\ StoragePlugin.collections storage !! standaloneCollectionName = Some held)
    /\ exists encryption cipher,
         m_encryptionPlugins p !! e = Some encryption
         /\ EncryptionPlugin.encryptSecret encryption secret key
            = (ResultOfCode Succeeded, cipher).

(** From [p] to [p']: the standalone secret is held by the
    encrypted-storage plugin [s] under [key], its row names [s] twice
    and the device lock, and no key has been cached. *)
Definition storedEncrypted (Sha3_256 : QByteArray -> QByteArray) (p p' : RequestProcessor)
    (callerPid : Z) (s a secretName : QString) (secret key : QByteArray) : Prop :=
  let hashedSecretName :=
    generateHashedSecretName Sha3_256 standaloneCollectionName secretName in
  (exists plugin',
      m_encryptedStoragePlugins p' !! s = Some plugin'
      /\ EncryptedStoragePlugin.standaloneSecrets plugin' !! hashedSecretName
         = Some (key, secret))
  /\ (exists row,
        secretRow p' standaloneCollectionName hashedSecretName = Some row
        /\ rowApplicationId row = callerOf p' callerPid
        /\ rowUsesDeviceLockKey row = 1
        /\ rowStoragePluginName row = s
        /\ rowEncryptionPluginName row = s
        /\ rowAuthenticationPluginName row = a
        /\ rowAccessControlMode row = intOfAccessControlMode OwnerOnlyMode)
  /\ databaseHealthy p'
  /\ m_authenticationPlugins p' = m_authenticationPlugins p
  /\ m_standaloneSecretAuthenticationKeys p' = m_standaloneSecretAuthenticationKeys p.

(** A member function that neither reads nor writes the queue: run
    with another queue in place, it does the same and leaves that
    queue. *)
Definition independentOfQueue {A : Type} (m : M A) : Prop :=
  forall (p : RequestProcessor) (x : RequestQueue.t),
    m (withRequestQueue p x)
    = match m p with
      | Some (a, p') => Some (a, withRequestQueue p' x)
      | None => None
      end.

(** The calls a client makes over D-Bus, each with the arguments of its
    slot. *)
Inductive Call :=
| CreateDeviceLockCollection (collectionName storagePluginName encryptionPluginName : QString)
    (unlockSemantic : DeviceLockUnlockSemantic) (accessControlMode : AccessControlMode)
| CreateCustomLockCollection (collectionName storagePluginName encryptionPluginName
    authenticationPluginName : QString) (unlockSemantic : CustomLockUnlockSemantic)
    (customLockTimeoutMs : Z) (accessControlMode : AccessControlMode)
    (userInteractionMode : UserInteractionMode) (uiServiceAddress : QString)
| DeleteCollection (collectionName : QString) (userInteractionMode : UserInteractionMode)
| SetCollectionSecret (collectionName secretName : QString) (secret : QByteArray)
    (userInteractionMode : UserInteractionMode) (uiServiceAddress : QString)
| SetStandaloneDeviceLockSecret (storagePluginName encryptionPluginName secretName : QString)
    (secret : QByteArray) (unlockSemantic : DeviceLockUnlockSemantic)
    (accessControlMode : AccessControlMode) (userInteractionMode : UserInteractionMode)
| SetStandaloneCustomLockSecret (storagePluginName encryptionPluginName
    authenticationPluginName secretName : QString) (secret : QByteArray)
    (unlockSemantic : CustomLockUnlockSemantic) (customLockTimeoutMs : Z)
    (accessControlMode : AccessControlMode) (userInteractionMode : UserInteractionMode)
    (uiServiceAddress : QString)
| GetCollectionSecret (collectionName secretName : QString)
    (userInteractionMode : UserInteractionMode) (uiServiceAddress : QString)
| GetStandaloneSecret (secretName : QString) (userInteractionMode : UserInteractionMode)
    (uiServiceAddress : QString)
| DeleteCollectionSecret (collectionName secretName : QString)
    (userInteractionMode : UserInteractionMode) (uiServiceAddress : QString)
| DeleteStandaloneSecret (secretName : QString) (userInteractionMode : UserInteractionMode).

(** The slot of the D-Bus object that takes the call. *)
Definition slot (call : Call) : option Z -> Q (option Result) :=
  match call with
  | CreateDeviceLockCollection c s e semantic acm =>
      SecretsDBusObject.createDeviceLockCollection c s e semantic acm
  | CreateCustomLockCollection c s e a semantic timeoutMs acm mode ui =>
      SecretsDBusObject.createCustomLockCollection c s e a semantic timeoutMs acm mode ui
  | DeleteCollection c mode => SecretsDBusObject.deleteCollection c mode
  | SetCollectionSecret c name secret mode ui =>
      SecretsDBusObject.setCollectionSecret c name secret mode ui
  | SetStandaloneDeviceLockSecret s e name secret semantic acm mode =>
      SecretsDBusObject.setStandaloneDeviceLockSecret s e name secret semantic acm mode
  | SetStandaloneCustomLockSecret s e a name secret semantic timeoutMs acm mode ui =>
      SecretsDBusObject.setStandaloneCustomLockSecret s e a name secret semantic timeoutMs
        acm mode ui
  | GetCollectionSecret c name mode ui => SecretsDBusObject.getCollectionSecret c name mode ui
  | GetStandaloneSecret name mode ui => SecretsDBusObject.getStandaloneSecret name mode ui
  | DeleteCollectionSecret c name mode ui =>
      SecretsDBusObject.deleteCollectionSecret c name mode ui
  | DeleteStandaloneSecret name mode => SecretsDBusObject.deleteStandaloneSecret name mode
  end.

(** The argument vector that the slot of a call hands to the queue. *)
Definition argumentsOf (call : Call) : list QVariant :=
  match call with
  | CreateDeviceLockCollection c s e semantic acm =>
      [VString c; VString s; VString e; VDeviceLockUnlockSemantic semantic;
       VAccessControlMode acm]
  | CreateCustomLockCollection c s e a semantic timeoutMs acm mode ui =>
      [VString c; VString s; VString e; VString a; VCustomLockUnlockSemantic semantic;
       VInt timeoutMs; VAccessControlMode acm; VUserInteractionMode mode; VString ui]
  | DeleteCollection c mode => [VString c; VUserInteractionMode mode]
  | SetCollectionSecret c name secret mode ui =>
      [VString c; VString name; VBytes secret; VUserInteractionMode mode; VString ui]
  | SetStandaloneDeviceLockSecret s e name secret semantic acm mode =>
      [VString s; VString e; VString name; VBytes secret;
       VDeviceLockUnlockSemantic semantic; VAccessControlMode acm;
       VUserInteractionMode mode]
  | SetStandaloneCustomLockSecret s e a name secret semantic timeoutMs acm mode ui =>
      [VString s; VString e; VString a; VString name; VBytes secret;
       VCustomLockUnlockSemantic semantic; VInt timeoutMs; VAccessControlMode acm;
       VUserInteractionMode mode; VString ui]
  | GetCollectionSecret c name mode ui =>
      [VString c; VString name; VUserInteractionMode mode; VString ui]
  | GetStandaloneSecret name mode ui =>
      [VString name; VUserInteractionMode mode; VString ui]
  | DeleteCollectionSecret c name mode ui =>
      [VString c; VString name; VUserInteractionMode mode; VString ui]
  | DeleteStandaloneSecret name mode => [VString name; VUserInteractionMode mode]
  end.

(** The member function of the processor that the call names, applied
    to the arguments of the call: its result, and the values that
    follow the result in the reply. *)
Definition perform (Sha3_256 : QByteArray -> QByteArray) (call : Call)
    (callerPid requestId : Z) : M (Result * list QVariant) :=
  match call with
  | CreateDeviceLockCollection c s e semantic acm =>
      bind (createDeviceLockCollection callerPid requestId c s e semantic acm)
        (fun r => ret (r, []))
  | CreateCustomLockCollection c s e a semantic timeoutMs acm mode ui =>
      bind (createCustomLockCollection callerPid requestId c s e a semantic timeoutMs
              acm mode ui)
        (fun r => ret (r, []))
  | DeleteCollection c mode =>
      bind (deleteCollection callerPid requestId c mode) (fun r => ret (r, []))
  | SetCollectionSecret c name secret mode ui =>
      bind (setCollectionSecret Sha3_256 callerPid requestId c name secret mode ui)
        (fun r => ret (r, []))
  | SetStandaloneDeviceLockSecret s e name secret semantic acm mode =>
      bind (setStandaloneDeviceLockSecret Sha3_256 callerPid requestId s e name secret
              semantic acm mode)
        (fun r => ret (r, []))
  | SetStandaloneCustomLockSecret s e a name secret semantic timeoutMs acm mode ui =>
      bind (setStandaloneCustomLockSecret Sha3_256 callerPid requestId s e a name secret
              semantic timeoutMs acm mode ui)
        (fun r => ret (r, []))
  | GetCollectionSecret c name mode ui =>
      bind (getCollectionSecret Sha3_256 callerPid requestId c name mode ui)
        (fun r => ret (fst r, [VBytes (snd r)]))
  | GetStandaloneSecret name mode ui =>
      bind (getStandaloneSecret Sha3_256 callerPid requestId name mode ui)
        (fun r => ret (fst r, [VBytes (snd r)]))
  | DeleteCollectionSecret c name mode ui =>
      bind (deleteCollectionSecret Sha3_256 callerPid requestId c name mode ui)
        (fun r => ret (r, []))
  | DeleteStandaloneSecret name mode =>
      bind (deleteStandaloneSecret Sha3_256 callerPid requestId name mode)
        (fun r => ret (r, []))
  end.

(** The members of a queue: those of its processor, the processor's
    view of the queue, and what the queue has sent. *)
Definition queueOf (q : SecretsRequestQueue.t) (p : RequestProcessor)
    (counter : Z) (requests : list RequestQueue.RequestData) (sent : list Sent)
    : SecretsRequestQueue.t :=
  SecretsRequestQueue.mk (withRequestQueue p (RequestQueue.mk counter requests))
    (SecretsRequestQueue.m_cryptoApiHelperRequests q) sent.

Definition idCounter (q : SecretsRequestQueue.t) : Z :=
  RequestQueue.requestIdCounter (m_requestQueue (SecretsRequestQueue.m_requestProcessor q)).

(** Every request of the list is being worked on. *)
Definition allInProgress (requests : list RequestQueue.RequestData) : Prop :=
  Forall (fun r => RequestQueue.status r = RequestQueue.RequestInProgress) requests.

(** The kind of request that the slot of the call enqueues. *)
Definition requestTypeOf (call : Call) : RequestType :=
  match call with
  | CreateDeviceLockCollection _ _ _ _ _ => CreateDeviceLockCollectionRequest
  | CreateCustomLockCollection _ _ _ _ _ _ _ _ _ => CreateCustomLockCollectionRequest
  | DeleteCollection _ _ => DeleteCollectionRequest
  | SetCollectionSecret _ _ _ _ _ => SetCollectionSecretRequest
  | SetStandaloneDeviceLockSecret _ _ _ _ _ _ _ => SetStandaloneDeviceLockSecretRequest
  | SetStandaloneCustomLockSecret _ _ _ _ _ _ _ _ _ _ => SetStandaloneCustomLockSecretRequest
  | GetCollectionSecret _ _ _ _ => GetCollectionSecretRequest
  | GetStandaloneSecret _ _ _ => GetStandaloneSecretRequest
  | DeleteCollectionSecret _ _ _ _ => DeleteCollectionSecretRequest
  | DeleteStandaloneSecret _ _ => DeleteStandaloneSecretRequest
  end.

(** A request of a client that is being worked on: its arguments have
    been taken out. *)
Definition inProgress (call : Call) (callerPid requestId : Z) : RequestQueue.RequestData :=
  RequestQueue.mkRequestData callerPid RequestQueue.RequestInProgress
    (intOfRequestType (requestTypeOf call)) [] [] requestId false 0.

(** The id that [enqueueRequest] tries first. *)
Definition nextRequestId (q : SecretsRequestQueue.t) : Z :=
  RequestQueue.wrap 64 (idCounter q + 1).

(** The clock of [handleRequests] stays within the 100 ms: no turn of
    the loop finds them elapsed. *)
Definition clockStaysUnder (elapsed : list bool) : Prop :=
  Forall (fun late => late = false) elapsed.

(** The kinds of request whose delayed reply carries a secret after the
    result. *)
Definition repliesWithSecret (t : RequestType) : bool :=
  match t with
  | GetPluginInfoRequest | GetCollectionSecretRequest | GetStandaloneSecretRequest => true
  | _ => false
  end.

(** The signals of the crypto helpers among what the queue has sent. *)
Definition isCompletionSignal (s : Sent) : bool :=
  match s with
  | StoredKeyCompleted _ _ _ | DeleteStoredKeyCompleted _ _ | StoreKeyCompleted _ _ => true
  | _ => false
  end.

Definition signals (sent : list Sent) : list Sent := List.filter isCompletionSignal sent.

(** A member function of the queue that, run while no crypto helper
    request is on record, records none and emits none of the signals. *)
Definition silentForCrypto {A : Type} (m : Q A) : Prop :=
  forall (q : SecretsRequestQueue.t) (a : A) (q' : SecretsRequestQueue.t),
    SecretsRequestQueue.m_cryptoApiHelperRequests q = ∅ ->
    m q = Some (a, q') ->
    SecretsRequestQueue.m_cryptoApiHelperRequests q' = ∅
    /\ signals (SecretsRequestQueue.sent q') = signals (SecretsRequestQueue.sent q).

(** The four registries are empty, as they are before [loadPlugins]. *)
Definition noPlugins (p : RequestProcessor) : Prop :=
  m_storagePlugins p = ∅ /\ m_encryptionPlugins p = ∅
  /\ m_encryptedStoragePlugins p = ∅ /\ m_authenticationPlugins p = ∅.

(** Some registry holds a plugin under [name]. *)
Definition isRegistered (p : RequestProcessor) (name : QString) : bool :=
  contains (m_storagePlugins p) name || contains (m_encryptionPlugins p) name
  || contains (m_encryptedStoragePlugins p) name
  || contains (m_authenticationPlugins p) name.

(** The error that [deleteCollection] reports when the [n]-th database
    call of its DELETE fails: [prepare], [beginTransaction], [execute],
    [commitTransaction]. *)
Definition deleteFailure (n : nat) : ErrorCode :=
  match n with
  | 0%nat | 2%nat => DatabaseQueryError
  | _ => DatabaseTransactionError
  end.

(** ** Symbolic execution of member functions

    [run] brings the left-hand side of the goal to weak-head normal form,
    stopping at every access to a map or to a compared name; rewriting
    with what is known about the members then lets it go on. *)

Ltac whnf :=
  match goal with
  | |- ?l = _ =>
      let l' := eval lazy head beta iota zeta delta
                  -[withRequestQueue withDb withStoragePlugins withEncryptedStoragePlugins
                    withAuthenticationPlugins withCollectionAuthenticationKeys
                    withStandaloneSecretAuthenticationKeys withCollectionLockTimers
                    withStandaloneSecretLockTimers withPendingRequests logCall
                    lookup insert delete filter bool_decide isReservedName
                    Qt.equalsCaseInsensitive Qt.isEmpty generateHashedSecretName
                    applicationOf timerOwner RequestQueue.requestFinished
                    cacheCollectionKeyIfAbsent armCollectionLockTimer
                    armStandaloneSecretLockTimer
                    Z.eqb Z.ltb String.eqb app] in l in
      change l with l'
  end.

Ltac tidy :=
  cbn [withRequestQueue withDb withStoragePlugins withEncryptedStoragePlugins
     withAuthenticationPlugins withCollectionAuthenticationKeys
     withStandaloneSecretAuthenticationKeys withCollectionLockTimers
     withStandaloneSecretLockTimers withPendingRequests logCall
     m_requestQueue m_db m_appPermissions m_storagePlugins m_encryptionPlugins
     m_encryptedStoragePlugins m_authenticationPlugins m_collectionAuthenticationKeys
     m_standaloneSecretAuthenticationKeys m_collectionLockTimers
     m_standaloneSecretLockTimers m_pendingRequests timersAllocated pluginCalls
     Database.stored Database.transaction Database.faults Database.current
     Database.Collections Database.Secrets Database.rollbackTransaction
     StoragePlugin.collections StoragePlugin.script
     EncryptedStoragePlugin.collections EncryptedStoragePlugin.standaloneSecrets
     EncryptedStoragePlugin.script EncryptedStoragePlugin.setCollections
     EncryptedStoragePlugin.setStandaloneSecrets
     EncryptedStoragePlugin.collectionKey EncryptedStoragePlugin.appliedKey
     EncryptedStoragePlugin.secrets
     AuthenticationPlugin.authenticationType AuthenticationPlugin.begun
     AuthenticationPlugin.script
     EncryptionPlugin.encryptSecret EncryptionPlugin.decryptSecret
     rowApplicationId rowUsesDeviceLockKey rowStoragePluginName rowEncryptionPluginName
     rowAuthenticationPluginName rowUnlockSemantic rowCustomLockTimeoutMs
     rowAccessControlMode code errorCode fst snd
     intOfAccessControlMode intOfCustomLockUnlockSemantic intOfDeviceLockUnlockSemantic
     intOfUserInteractionMode negb andb orb
     prCallerPid prRequestId prRequestType prParameters].

Ltac run := repeat progress (whnf; tidy).

(** Naming the members of a processor, of its database and tables. *)
Ltac explode p :=
  destruct p as [queue d perms storagePlugins encryptionPlugins encryptedPlugins
                 authenticationPlugins collectionKeys standaloneKeys collectionTimers
                 standaloneTimers parked allocated calls];
  destruct d as [tables inTransaction faults];
  destruct tables as [collections secrets].

(** Rewriting with what the context knows about the scrutinee the
    execution stopped at. *)
Ltac known :=
  match goal with
  | H : ?a = _ |- context [?a] => rewrite H
  | |- context [bool_decide (?x = ?x)] =>
      rewrite (bool_decide_eq_true_2 (x = x)) by reflexivity
  | H : ?x <> ?y |- context [bool_decide (?x = ?y)] =>
      rewrite (bool_decide_eq_false_2 (x = y)) by exact H
  | H : ?y <> ?x |- context [bool_decide (?x = ?y)] =>
      rewrite (bool_decide_eq_false_2 (x = y)) by (intros ?; apply H; congruence)
  end.

Ltac exec := run; repeat (known; run).

Lemma contains_true {V : Type} (m : gmap string V) (k : QString) :
  contains m k = true -> exists v, m !! k = Some v.
Proof. unfold contains. destruct (m !! k); [eauto | discriminate]. Qed.

Lemma contains_none {V : Type} (m : gmap string V) (k : QString) :
  contains m k = false -> m !! k = None.
Proof. unfold contains. destruct (m !! k); [discriminate | reflexivity]. Qed.

Lemma contains_false {V : Type} (m : gmap string V) (k : QString) :
  m !! k = None -> contains m k = false.
Proof. intros H. unfold contains. by rewrite H. Qed.

Lemma wrong_key_is_not_the_key (key ck : QByteArray) :
  key <> ck -> (if Qt.isEmpty key then None else Some key) <> Some ck.
Proof. intros H. destruct key; cbn; congruence. Qed.

Ltac wrongKey :=
  match goal with
  | H : ?key <> ?ck |- context [bool_decide (?P)] =>
      match P with
      | context [Qt.isEmpty key] =>
          rewrite (bool_decide_eq_false_2 P) by (exact (wrong_key_is_not_the_key key ck H))
      end
  end.

(** The three members that act only when an entry is missing. *)
Lemma cacheCollectionKeyIfAbsent_cached (c : QString) (key cached : QByteArray)
    (p : RequestProcessor) :
  m_collectionAuthenticationKeys p !! c = Some cached ->
  cacheCollectionKeyIfAbsent c key p = Some (tt, p).
Proof. intros H. unfold cacheCollectionKeyIfAbsent, modify, contains. by rewrite H. Qed.

Lemma cacheCollectionKeyIfAbsent_absent (c : QString) (key : QByteArray)
    (p : RequestProcessor) :
  m_collectionAuthenticationKeys p !! c = None ->
  cacheCollectionKeyIfAbsent c key p
  = Some (tt, withCollectionAuthenticationKeys p
                (<[c := key]> (m_collectionAuthenticationKeys p))).
Proof. intros H. unfold cacheCollectionKeyIfAbsent, modify, contains. by rewrite H. Qed.

Lemma armCollectionLockTimer_armed (c : QString) (timeoutMs : Z) (t : QTimer)
    (p : RequestProcessor) :
  m_collectionLockTimers p !! c = Some t ->
  armCollectionLockTimer c timeoutMs p = Some (tt, p).
Proof. intros H. unfold armCollectionLockTimer, modify, contains. by rewrite H. Qed.

Lemma armCollectionLockTimer_unarmed (c : QString) (timeoutMs : Z) (p : RequestProcessor) :
  m_collectionLockTimers p !! c = None ->
  armCollectionLockTimer c timeoutMs p
  = Some (tt, withCollectionLockTimers p
                (<[c := mkQTimer (timersAllocated p) timeoutMs]> (m_collectionLockTimers p))
                (S (timersAllocated p))).
Proof. intros H. unfold armCollectionLockTimer, modify, contains. by rewrite H. Qed.

Lemma armStandaloneSecretLockTimer_armed (name : QString) (timeoutMs : Z) (t : QTimer)
    (p : RequestProcessor) :
  m_standaloneSecretLockTimers p !! name = Some t ->
  armStandaloneSecretLockTimer name timeoutMs p = Some (tt, p).
Proof. intros H. unfold armStandaloneSecretLockTimer, modify, contains. by rewrite H. Qed.

Lemma armStandaloneSecretLockTimer_unarmed (name : QString) (timeoutMs : Z)
    (p : RequestProcessor) :
  m_standaloneSecretLockTimers p !! name = None ->
  armStandaloneSecretLockTimer name timeoutMs p
  = Some (tt, withStandaloneSecretLockTimers p
                (<[name := mkQTimer (timersAllocated p) timeoutMs]>
                   (m_standaloneSecretLockTimers p))
                (S (timersAllocated p))).
Proof. intros H. unfold armStandaloneSecretLockTimer, modify, contains. by rewrite H. Qed.

Ltac entry := tidy; first [eassumption | apply lookup_insert_eq].

Ltac conditional :=
  first
    [ erewrite cacheCollectionKeyIfAbsent_cached by entry
    | rewrite cacheCollectionKeyIfAbsent_absent by entry
    | erewrite armCollectionLockTimer_armed by entry
    | rewrite armCollectionLockTimer_unarmed by entry
    | erewrite armStandaloneSecretLockTimer_armed by entry
    | rewrite armStandaloneSecretLockTimer_unarmed by entry ].

(** [exec], also through repeated calls of the same plugin. *)
Ltac replay :=
  exec; repeat (first [conditional | rewrite lookup_insert_eq | rewrite Z.eqb_refl | wrongKey
                      | known | progress unfold contains];
                run).

Ltac registered H :=
  unfold pluginsRegistered in H; cbn in H;
  match type of H with
  | (if bool_decide (?s = ?e) then _ else _) = true =>
      let Hse := fresh "Hse" in
      destruct (decide (s = e)) as [Hse|Hse];
      [ rewrite (bool_decide_eq_true_2 _ Hse) in H;
        apply contains_true in H as [? H]
      | rewrite (bool_decide_eq_false_2 _ Hse) in H;
        apply andb_true_iff in H as [H ?H];
        apply contains_true in H as [? H];
        match goal with H' : contains _ _ = true |- _ => apply contains_true in H' as [? H'] end ]
  end.

Ltac interaction H :=
  unfold requiresInProcess in H;
  match type of H with
  | context [AuthenticationPlugin.authenticationType ?ap] =>
      let kind := fresh "kind" in
      destruct ap as [kind ? ?]; destruct kind; cbn in H;
      [ match type of H with
        | context [isInProcessUserInteractionMode ?mode] =>
            destruct mode; cbn in H; try discriminate H
        end
      | clear H ]
  end.

Ltac timers sem armed c :=
  let Hsem := fresh "Hsem" in
  let Ht := fresh "Htimer" in
  destruct (sem =? 10) eqn:Hsem; [destruct (armed !! c) eqn:Ht|].

Ltac settle :=
  lazy beta iota delta
    [withRequestQueue withDb withStoragePlugins withEncryptedStoragePlugins
     withAuthenticationPlugins withCollectionAuthenticationKeys
     withStandaloneSecretAuthenticationKeys withCollectionLockTimers
     withStandaloneSecretLockTimers withPendingRequests logCall
     m_requestQueue m_db m_appPermissions m_storagePlugins m_encryptionPlugins
     m_encryptedStoragePlugins m_authenticationPlugins m_collectionAuthenticationKeys
     m_standaloneSecretAuthenticationKeys m_collectionLockTimers
     m_standaloneSecretLockTimers m_pendingRequests timersAllocated pluginCalls].

(** [run], with the members written out after every step: the states
    that the following steps compare are then records of plain fields. *)
Ltac advance := repeat progress (whnf; tidy; settle).

Ltac pursue :=
  advance;
  repeat (first [conditional | rewrite lookup_insert_eq | rewrite Z.eqb_refl | wrongKey
                | known | progress unfold contains];
          advance).

(** The completion of a flow whose request is parked: up to the call of
    the continuation, whose arguments are evaluated in the order
    [Horder]. *)
Ltac resumed Horder :=
  unfold authenticationCompleted, finishWith, unparked, bind, gets, modify;
  cbn [isSucceeded code ResultOfCode]; tidy;
  rewrite lookup_insert_eq;
  unfold resume; cbn [prRequestType prParameters];
  rewrite Horder;
  reflexivity.

Ltac begun :=
  split; [cbn; apply lookup_insert_eq | repeat (apply conj); reflexivity].

(** ** Creating a collection *)

(** The ways in which the create call of a plugin can fail: by its
    script, or because it holds a collection of the name. *)
Ltac failing Hanswer :=
  match type of Hanswer with
  | context [nextScripted ?script] =>
      destruct script as [|[scripted|] script]; cbn in Hanswer
  end;
  repeat match type of Hanswer with
  | context [?cols !! ?c] =>
      let Hc := fresh "Hcol" in destruct (cols !! c) eqn:Hc; cbn in Hanswer
  end;
  injection Hanswer as Hanswer; subst.

(** The compensating DELETE, whose database calls all succeed, or whose
    [n]-th call fails. *)
Ltac compensated :=
  split;
  [ intros Hf; cbn in Hf; subst
  | intros n later Hn Hf; cbn in Hf; subst;
    destruct n as [|[|[|[|n]]]]; [..|lia]; cbn [replicate app deleteFailure] ];
  (eexists; split; [pursue; reflexivity|]);
  cbn; rewrite ?lookup_insert_eq, ?lookup_delete_eq; cbn; unfold contains;
  repeat match goal with H : _ !! _ = _ |- _ => rewrite H end;
  repeat (apply conj); reflexivity.

(** C1 (as the code has it).  The master row is absent and the create
    call of the plugin fails with [r], whether by a failure of its own
    or because the plugin already holds a collection of the name.
    [createDeviceLockCollection] (once its checks of the name and of
    the plugin registries have passed) and
    [createCustomLockCollectionWithAuthenticationKey] insert the row,
    call the plugin once and run the compensating DELETE.  When every
    database call succeeds they return [r] and the master row is
    absent again.  When the six calls of the SELECT and of the INSERT
    succeed and call [n] of the compensating DELETE fails ([prepare],
    [beginTransaction], [execute], [commitTransaction]), they return
    the database error and the row stays.  Either way the plugin is
    not called again: it holds a collection of the name exactly if it
    held one before. *)
Theorem failed_create_removes_master_row (p : RequestProcessor)
    (callerPid requestId : Z) (c s e : QString) (r : Result) :
  Database.transaction (m_db p) = None ->
  collectionRow p c = None ->
  code r = Failed ->
  (forall (unlockSemantic : DeviceLockUnlockSemantic) (accessControlMode : AccessControlMode),
      isReservedName c = false ->
      pluginsRegisteredForCreate p s e = true ->
      pluginCreateAnswer p s e c DeviceLockKey = Some r ->
      (Database.faults (m_db p) = [] ->
       exists p',
         createDeviceLockCollection callerPid requestId c s e unlockSemantic
           accessControlMode p
         = Some (r, p')
         /\ collectionRow p' c = None
         /\ afterFailedCreate p p' s e c DeviceLockKey
         /\ Database.faults (m_db p') = [])
      /\ (forall (n : nat) (later : list bool),
          (n <= 3)%nat ->
          Database.faults (m_db p)
          = (replicate 6 false ++ replicate n false ++ true :: later)%list ->
          exists p',
            createDeviceLockCollection callerPid requestId c s e unlockSemantic
              accessControlMode p
            = Some (ResultOfError (deleteFailure n), p')
            /\ collectionRow p' c
               = Some (mkRow (callerOf p callerPid) 1 s e DefaultAuthenticationPluginName
                         (intOfDeviceLockUnlockSemantic unlockSemantic) 0
                         (intOfAccessControlMode accessControlMode))
            /\ afterFailedCreate p p' s e c DeviceLockKey
            /\ Database.faults (m_db p') = later))
  /\ (forall (a : QString) (unlockSemantic timeoutMs accessControlMode : Z)
        (mode : UserInteractionMode) (ui : QString) (key : QByteArray),
      pluginCreateAnswer p s e c key = Some r ->
      (Database.faults (m_db p) = [] ->
       exists p',
         createCustomLockCollectionWithAuthenticationKey callerPid requestId c s e a
           unlockSemantic timeoutMs accessControlMode mode ui key p
         = Some (r, p')
         /\ collectionRow p' c = None
         /\ afterFailedCreate p p' s e c key
         /\ Database.faults (m_db p') = [])
      /\ (forall (n : nat) (later : list bool),
          (n <= 3)%nat ->
          Database.faults (m_db p)
          = (replicate 6 false ++ replicate n false ++ true :: later)%list ->
          exists p',
            createCustomLockCollectionWithAuthenticationKey callerPid requestId c s e a
              unlockSemantic timeoutMs accessControlMode mode ui key p
            = Some (ResultOfError (deleteFailure n), p')
            /\ collectionRow p' c
               = Some (mkRow (callerOf p callerPid) 0 s e a unlockSemantic timeoutMs
                         accessControlMode)
            /\ afterFailedCreate p p' s e c key
            /\ Database.faults (m_db p') = later)).
Proof.
  intros Ht Hrow Hr.
  unfold afterFailedCreate.
  unfold pluginCreateAnswer, pluginCreateCall, pluginSideCollection,
    collectionRow, callerOf, pluginsRegisteredForCreate in *.
  destruct r as [rc ec]. explode p. cbn in Ht, Hrow, Hr |- *. subst.
  destruct (decide (s = e)) as [->|Hse].
  - rewrite !bool_decide_eq_true_2 by done.
    destruct (encryptedPlugins !! e) as [[cols ss script]|] eqn:Hes;
      [|split; intros; cbn in *; discriminate].
    split.
    + intros us acm Hres Hreg Hanswer.
      cbn in Hreg. apply andb_true_iff in Hreg as [Hreg Hep].
      apply andb_true_iff in Hreg as [_ Hsp].
      apply contains_true in Hsp as [sp Hsp]. apply contains_true in Hep as [ep Hep].
      cbn in Hanswer. unfold EncryptedStoragePlugin.createCollection,
        EncryptedStoragePlugin.scripted in Hanswer. cbn in Hanswer.
      failing Hanswer; try discriminate.
      all: compensated.
    + intros a us timeout acm mode ui key Hanswer.
      cbn in Hanswer. unfold EncryptedStoragePlugin.createCollection,
        EncryptedStoragePlugin.scripted in Hanswer. cbn in Hanswer.
      failing Hanswer; try discriminate.
      all: compensated.
  - rewrite !bool_decide_eq_false_2 by done.
    destruct (storagePlugins !! s) as [[cols script]|] eqn:Hss;
      [|split; intros; cbn in *; discriminate].
    split.
    + intros us acm Hres Hreg Hanswer.
      cbn in Hreg. apply andb_true_iff in Hreg as [_ Hep].
      apply contains_true in Hep as [ep Hep].
      cbn in Hanswer. unfold StoragePlugin.createCollection, StoragePlugin.scripted in Hanswer.
      cbn in Hanswer.
      failing Hanswer; try discriminate.
      all: compensated.
    + intros a us timeout acm mode ui key Hanswer.
      cbn in Hanswer. unfold StoragePlugin.createCollection, StoragePlugin.scripted in Hanswer.
      cbn in Hanswer.
      failing Hanswer; try discriminate.
      all: compensated.
Qed.

Lemma failed_create_removes_master_row_witness :
  pluginSideCollection Sample.orphanedVault "sqlite" "openssl" "vault" = true
  /\ (exists p',
        createDeviceLockCollection 1 1 "vault" "sqlite" "openssl" DeviceLockKeepUnlocked
          OwnerOnlyMode Sample.orphanedVault
        = Some (ResultOfError CollectionAlreadyExistsError, p')
        /\ collectionRow p' "vault" = None
        /\ afterFailedCreate Sample.orphanedVault p' "sqlite" "openssl" "vault" DeviceLockKey
        /\ Database.faults (m_db p') = [])
  /\ (exists p',
        createCustomLockCollectionWithAuthenticationKey 1 1 "vault" "sqlite" "openssl"
          "inapp" 8 0 0 InProcessUserInteractionMode "ui" "k1" Sample.orphanedVault
        = Some (ResultOfError CollectionAlreadyExistsError, p')
        /\ collectionRow p' "vault" = None
        /\ afterFailedCreate Sample.orphanedVault p' "sqlite" "openssl" "vault" "k1"
        /\ Database.faults (m_db p') = [])
  /\ (exists p',
        createDeviceLockCollection 1 1 "vault" "sqlite" "openssl" DeviceLockKeepUnlocked
          OwnerOnlyMode Sample.refusingSqliteFaultyDatabase
        = Some (ResultOfError DatabaseTransactionError, p')
        /\ collectionRow p' "vault"
           = Some (mkRow "appA" 1 "sqlite" "openssl" DefaultAuthenticationPluginName 0 0 0)
        /\ afterFailedCreate Sample.refusingSqliteFaultyDatabase p' "sqlite" "openssl"
             "vault" DeviceLockKey
        /\ Database.faults (m_db p') = []).
Proof.
  split; [vm_compute; reflexivity|].
  destruct (failed_create_removes_master_row Sample.orphanedVault 1 1 "vault" "sqlite"
              "openssl" (ResultOfError CollectionAlreadyExistsError))
    as [HdeviceLock HcustomLock].
  - reflexivity.
  - vm_compute; reflexivity.
  - reflexivity.
  - destruct (failed_create_removes_master_row Sample.refusingSqliteFaultyDatabase 1 1
                "vault" "sqlite" "openssl" (ResultOfError UnknownError))
      as [Hfaulty _].
    + reflexivity.
    + vm_compute; reflexivity.
    + reflexivity.
    + split; [|split].
      * apply (HdeviceLock DeviceLockKeepUnlocked OwnerOnlyMode);
          vm_compute; reflexivity.
      * apply (HcustomLock "inapp" 8 0 0 InProcessUserInteractionMode "ui" "k1");
          vm_compute; reflexivity.
      * apply (Hfaulty DeviceLockKeepUnlocked OwnerOnlyMode) with (n := 1%nat);
          [vm_compute; reflexivity..|lia|vm_compute; reflexivity].
Defined.

(** C1, the claim as worded fails, in two ways.  The compensating
    transaction can itself fail, and the code then returns the database
    error and leaves the row behind: here the storage plugin refuses
    the create call and the eighth database call, the
    [beginTransaction] of the compensating DELETE, fails; the create
    returns [DatabaseTransactionError] and the master row of [vault]
    stays.  And the plugin can fail because it holds a collection of
    the name already: the master row is deleted again, and the
    plugin-side collection exists after the failed create as it did
    before. *)
Lemma failed_create_leaves_row_or_plugin_collection :
  (databaseHealthy Sample.refusingSqlite
   /\ Database.stored (m_db Sample.refusingSqliteFaultyDatabase)
      = Database.stored (m_db Sample.refusingSqlite)
   /\ collectionRow Sample.refusingSqliteFaultyDatabase "vault" = None
   /\ pluginSideCollection Sample.refusingSqliteFaultyDatabase "sqlite" "openssl" "vault"
      = false
   /\ exists p',
        createDeviceLockCollection 1 1 "vault" "sqlite" "openssl" DeviceLockKeepUnlocked
          OwnerOnlyMode Sample.refusingSqliteFaultyDatabase
        = Some (ResultOfError DatabaseTransactionError, p')
        /\ pluginCalls p'
           = (pluginCalls Sample.refusingSqliteFaultyDatabase
              ++ [StorageCreateCollection "sqlite" "vault"])%list
        /\ collectionRow p' "vault"
           = Some (mkRow "appA" 1 "sqlite" "openssl" DefaultAuthenticationPluginName 0 0 0)
        /\ pluginSideCollection p' "sqlite" "openssl" "vault" = false)
  /\ (databaseHealthy Sample.orphanedVault
      /\ collectionRow Sample.orphanedVault "vault" = None
      /\ pluginSideCollection Sample.orphanedVault "sqlite" "openssl" "vault" = true
      /\ exists p',
           createDeviceLockCollection 1 1 "vault" "sqlite" "openssl" DeviceLockKeepUnlocked
             OwnerOnlyMode Sample.orphanedVault
           = Some (ResultOfError CollectionAlreadyExistsError, p')
           /\ collectionRow p' "vault" = None
           /\ pluginSideCollection p' "sqlite" "openssl" "vault" = true).
Proof.
  split.
  - split; [split; vm_compute; reflexivity|].
    split; [reflexivity|].
    split; [vm_compute; reflexivity|].
    split; [vm_compute; reflexivity|].
    eexists. split; [vm_compute; reflexivity|].
    split; [vm_compute; reflexivity|].
    split; vm_compute; reflexivity.
  - split; [split; vm_compute; reflexivity|].
    split; [vm_compute; reflexivity|].
    split; [vm_compute; reflexivity|].
    eexists. split; [vm_compute; reflexivity|].
    split; vm_compute; reflexivity.
Qed.

(** ** A wrong key for an encrypted-storage collection *)

Ltac relocked :=
  split; [cbn; rewrite <- ?app_assoc; reflexivity |
          eexists; split; [cbn; rewrite ?lookup_insert_eq; reflexivity |
                           cbn; rewrite ?lookup_insert_eq; reflexivity]].

(** C2.  An encrypted-storage collection is locked and the key
    presented does not unlock it.  Each of the three continuations that
    present a key (set, get and delete of a collection secret) asks the
    plugin whether the collection is locked, applies the key, asks
    again, and on finding it still locked applies the empty key and
    returns [IncorrectAuthenticationKeyError]: the plugin is left with
    no key applied to the collection. *)
Theorem wrong_key_relocks_encrypted_collection (Sha3_256 : QByteArray -> QByteArray)
    (p : RequestProcessor) (s c : QString) (plugin : EncryptedStoragePlugin.t)
    (col : EncryptedStoragePlugin.Collection) (key : QByteArray) :
  m_encryptedStoragePlugins p !! s = Some plugin ->
  EncryptedStoragePlugin.script plugin = [] ->
  EncryptedStoragePlugin.collections plugin !! c = Some col ->
  EncryptedStoragePlugin.locked col = true ->
  key <> EncryptedStoragePlugin.collectionKey col ->
  (forall (callerPid requestId : Z) (secretName : QString) (secret : QByteArray)
       (mode : UserInteractionMode) (ui : QString) (usesDeviceLockKey : bool)
       (owner authentication : QString) (semantic timeoutMs accessControlMode : Z),
      databaseHealthy p ->
      is_Some (collectionRow p c) ->
      exists p',
        setCollectionSecretWithAuthenticationKey Sha3_256 callerPid requestId c secretName
          secret mode ui usesDeviceLockKey owner s s authentication semantic timeoutMs
          accessControlMode key p
        = Some (ResultOfError IncorrectAuthenticationKeyError, p')
        /\ relockedAfterWrongKey p p' s c key col)
  /\ (forall (callerPid requestId : Z) (secretName : QString)
        (mode : UserInteractionMode) (ui : QString) (semantic timeoutMs : Z),
      exists p',
        getCollectionSecretWithAuthenticationKey Sha3_256 callerPid requestId c secretName
          mode ui s s semantic timeoutMs key p
        = Some ((ResultOfError IncorrectAuthenticationKeyError, EmptyString), p')
        /\ relockedAfterWrongKey p p' s c key col)
  /\ (forall (callerPid requestId : Z) (secretName : QString)
        (mode : UserInteractionMode) (ui : QString) (row : Row),
      databaseHealthy p ->
      collectionRow p c = Some row ->
      rowStoragePluginName row = s ->
      rowEncryptionPluginName row = s ->
      (0 <? rowUsesDeviceLockKey row) && negb (bool_decide (key = DeviceLockKey)) = false ->
      rowAccessControlMode row = intOfAccessControlMode OwnerOnlyMode ->
      rowApplicationId row = callerOf p callerPid ->
      exists p',
        deleteCollectionSecretWithAuthenticationKey Sha3_256 callerPid requestId c secretName
          mode ui key p
        = Some (ResultOfError IncorrectAuthenticationKeyError, p')
        /\ relockedAfterWrongKey p p' s c key col).
Proof.
  intros Hplugin Hscript Hcol Hlocked Hkey.
  unfold relockedAfterWrongKey, EncryptedStoragePlugin.locked, databaseHealthy,
    collectionRow, callerOf in *.
  destruct plugin as [cols ss script]. destruct col as [ck applied held].
  explode p. cbn in Hplugin, Hscript, Hcol, Hlocked, Hkey. subst.
  apply negb_true_iff in Hlocked.
  split; [|split].
  - intros callerPid requestId secretName secret mode ui uses owner auth semantic timeoutMs
      acm [Hf Ht] [row Hrow]. cbn in Hf, Ht, Hrow. subst.
    destruct (secrets !! (c, generateHashedSecretName Sha3_256 c secretName)) as [old|] eqn:Hold.
    + eexists. split; [replay; reflexivity | relocked].
    + eexists. split; [replay; reflexivity | relocked].
  - intros callerPid requestId secretName mode ui semantic timeoutMs.
    destruct (semantic =? 10) eqn:Hsem.
    + destruct (collectionTimers !! c) as [t|] eqn:Htimer.
      * eexists. split; [replay; reflexivity | relocked].
      * eexists. split; [replay; reflexivity | relocked].
    + eexists. split; [replay; reflexivity | relocked].
  - intros callerPid requestId secretName mode ui row [Hf Ht] Hrow Hs He Hdev Hacm Howner.
    destruct row as [owner uses s' e' auth sem timeout acm].
    cbn in Hf, Ht, Hrow, Hs, He, Hdev, Hacm, Howner. subst.
    destruct (0 <? uses) eqn:Huses; cbn in Hdev.
    + apply negb_false_iff in Hdev.
      eexists. split; [replay; reflexivity | relocked].
    + eexists. split; [replay; reflexivity | relocked].
Qed.

Lemma wrong_key_relocks_encrypted_collection_witness :
  (exists p',
      setCollectionSecretWithAuthenticationKey Sample.digest 1 2 "safe" "pwd" "pass"
        InProcessUserInteractionMode "ui" false "appA" "sqlcipher" "sqlcipher" "inapp"
        8 0 0 "bad" Sample.lockedSafe
      = Some (ResultOfError IncorrectAuthenticationKeyError, p')
      /\ relockedAfterWrongKey Sample.lockedSafe p' "sqlcipher" "safe" "bad"
           (EncryptedStoragePlugin.mkCollection "k1" None ∅))
  /\ (exists p',
        getCollectionSecretWithAuthenticationKey Sample.digest 1 3 "safe" "pwd"
          InProcessUserInteractionMode "ui" "sqlcipher" "sqlcipher" 8 0 "bad"
          Sample.lockedSafe
        = Some ((ResultOfError IncorrectAuthenticationKeyError, EmptyString), p')
        /\ relockedAfterWrongKey Sample.lockedSafe p' "sqlcipher" "safe" "bad"
             (EncryptedStoragePlugin.mkCollection "k1" None ∅))
  /\ (exists p',
        deleteCollectionSecretWithAuthenticationKey Sample.digest 1 4 "safe" "pwd"
          InProcessUserInteractionMode "ui" "bad" Sample.lockedSafe
        = Some (ResultOfError IncorrectAuthenticationKeyError, p')
        /\ relockedAfterWrongKey Sample.lockedSafe p' "sqlcipher" "safe" "bad"
             (EncryptedStoragePlugin.mkCollection "k1" None ∅)).
Proof.
  destruct (wrong_key_relocks_encrypted_collection Sample.digest Sample.lockedSafe
              "sqlcipher" "safe"
              (EncryptedStoragePlugin.mk
                 {[ "safe" := EncryptedStoragePlugin.mkCollection "k1" None ∅ ]} ∅ [])
              (EncryptedStoragePlugin.mkCollection "k1" None ∅) "bad")
    as (Hset & Hget & Hdelete).
  - vm_compute; reflexivity.
  - reflexivity.
  - vm_compute; reflexivity.
  - vm_compute; reflexivity.
  - cbn. discriminate.
  - split; [|split].
    + apply (Hset 1 2 "pwd" "pass" InProcessUserInteractionMode "ui" false "appA" "inapp"
               8 0 0).
      * split; vm_compute; reflexivity.
      * vm_compute. eauto.
    + apply (Hget 1 3 "pwd" InProcessUserInteractionMode "ui" 8 0).
    + apply (Hdelete 1 4 "pwd" InProcessUserInteractionMode "ui"
               (mkRow "appA" 0 "sqlcipher" "sqlcipher" "inapp" 8 0 0)).
      * split; vm_compute; reflexivity.
      * vm_compute; reflexivity.
      * reflexivity.
      * reflexivity.
      * reflexivity.
      * reflexivity.
      * vm_compute; reflexivity.
Defined.

(** The three operations on [safe] with the key [bad], run. *)
Example wrong_key_runs :
  valueOf (setCollectionSecretWithAuthenticationKey Sample.digest 1 2 "safe" "pwd" "pass"
             InProcessUserInteractionMode "ui" false "appA" "sqlcipher" "sqlcipher" "inapp"
             8 0 0 "bad" Sample.lockedSafe)
  = Some (ResultOfError IncorrectAuthenticationKeyError)
  /\ valueOf (getCollectionSecretWithAuthenticationKey Sample.digest 1 3 "safe" "pwd"
                InProcessUserInteractionMode "ui" "sqlcipher" "sqlcipher" 8 0 "bad"
                Sample.lockedSafe)
     = Some (ResultOfError IncorrectAuthenticationKeyError, EmptyString)
  /\ valueOf (deleteCollectionSecretWithAuthenticationKey Sample.digest 1 4 "safe" "pwd"
                InProcessUserInteractionMode "ui" "bad" Sample.lockedSafe)
     = Some (ResultOfError IncorrectAuthenticationKeyError).
Proof. repeat (apply conj); vm_compute; reflexivity. Qed.

(** ** Callers who do not own the secret *)

(** The plugin checks of the get and standalone-set operations, case by
    case, for a caller who is not the owner. *)
Ltac checked s e :=
  unfold ownerCheck, updateRefusal, pluginsRegistered, refusal; tidy;
  try match goal with H : (_ =? _) = _ |- _ => rewrite H end;
  let Hse := fresh "Hse" in
  destruct (decide (s = e)) as [Hse|Hse];
  [ rewrite (bool_decide_eq_true_2 _ Hse); try subst;
    match goal with
    | |- context [contains ?m ?k] =>
        let H := fresh "Hplugin" in
        destruct (contains m k) eqn:H;
        [apply contains_true in H as [? H] | apply contains_none in H]
    end
  | rewrite (bool_decide_eq_false_2 _ Hse);
    match goal with
    | |- context [contains ?m ?k && contains ?m' ?k'] =>
        let H := fresh "Hplugin" in
        let H' := fresh "Hplugin" in
        destruct (contains m k) eqn:H;
        [apply contains_true in H as [? H] | apply contains_none in H];
        (destruct (contains m' k') eqn:H';
         [apply contains_true in H' as [? H'] | apply contains_none in H'])
    end ];
  cbn [andb];
  replay; reflexivity.




(** ** Set, get and delete on an unlocked collection

    One lemma per operation and kind of storage: what the operation
    returns, and what it leaves behind for the next one. *)

Section CollectionSecrets.

Variable Sha3_256 : QByteArray -> QByteArray.
Variables (callerPid : Z) (c secretName : QString).
Hypothesis secretNamed : Qt.isEmpty secretName = false.
Hypothesis collectionNamed : Qt.isEmpty c = false.
Hypothesis notReserved : isReservedName c = false.

Lemma get_plain (p : RequestProcessor) (requestId : Z) (row : Row)
    (mode : UserInteractionMode) (ui : QString)
    (held : gmap string QByteArray) (encryption : EncryptionPlugin.t) (key : QByteArray) :
  ownedBy p callerPid c row ->
  interactionAllowed p row mode ui ->
  plainUnlocked p c row held encryption key ->
  exists p',
    getCollectionSecret Sha3_256 callerPid requestId c secretName mode ui p
    = Some (match held !! generateHashedSecretName Sha3_256 c secretName with
            | Some cipher => EncryptionPlugin.decryptSecret encryption cipher key
            | None => (ResultOfError InvalidSecretError, EmptyString)
            end, p').
Proof.
  intros ((Hf & Ht) & Hrow & Hacm & Howner) (ap & Hauth & Hallowed)
    (Hse & Hrs & Hre & (sp & Hsp & Hscript & Hheld) & Hep & Hkey).
  unfold collectionRow, callerOf in *.
  destruct row as [owner uses rs re auth sem timeout acm].
  destruct sp as [cols script]. destruct encryption as [enc dec].
  explode p.
  cbn in Hf, Ht, Hrow, Hacm, Howner, Hauth, Hse, Hrs, Hre, Hsp, Hscript, Hheld, Hep, Hkey.
  subst.
  destruct (held !! generateHashedSecretName Sha3_256 c secretName) as [cipher|] eqn:Hcipher.
  - destruct (dec cipher key) as [r plain] eqn:Hdec.
    interaction Hallowed; timers sem collectionTimers c.
    all: eexists; replay; reflexivity.
  - interaction Hallowed; timers sem collectionTimers c.
    all: eexists; replay; reflexivity.
Qed.

Lemma get_encrypted (p : RequestProcessor) (requestId : Z) (row : Row)
    (mode : UserInteractionMode) (ui : QString) (held : gmap string QByteArray) :
  ownedBy p callerPid c row ->
  interactionAllowed p row mode ui ->
  encryptedUnlocked p c row held ->
  exists p',
    getCollectionSecret Sha3_256 callerPid requestId c secretName mode ui p
    = Some (match held !! generateHashedSecretName Sha3_256 c secretName with
            | Some secret => (ResultOfCode Succeeded, secret)
            | None => (ResultOfError InvalidSecretError, EmptyString)
            end, p').
Proof.
  intros ((Hf & Ht) & Hrow & Hacm & Howner) (ap & Hauth & Hallowed)
    (Hse & plugin & col & Hplugin & Hscript & Hcol & Hlocked & Hheld).
  unfold collectionRow, callerOf, EncryptedStoragePlugin.locked in *.
  destruct row as [owner uses rs re auth sem timeout acm].
  destruct plugin as [cols ss script]. destruct col as [ck applied secrets'].
  explode p.
  cbn in Hf, Ht, Hrow, Hacm, Howner, Hauth, Hse, Hplugin, Hscript, Hcol, Hlocked, Hheld.
  subst. apply negb_false_iff in Hlocked.
  destruct (held !! generateHashedSecretName Sha3_256 c secretName) as [secret|] eqn:Hsecret.
  - interaction Hallowed; timers sem collectionTimers c.
    all: eexists; replay; reflexivity.
  - interaction Hallowed; timers sem collectionTimers c.
    all: eexists; replay; reflexivity.
Qed.

(** The checks of the authentication plugin, which come before the lock
    state is looked at. *)
Lemma get_without_authentication_plugin (p : RequestProcessor) (requestId : Z) (row : Row)
    (mode : UserInteractionMode) (ui : QString) :
  ownedBy p callerPid c row ->
  pluginsRegistered p (rowStoragePluginName row) (rowEncryptionPluginName row) = true ->
  m_authenticationPlugins p !! rowAuthenticationPluginName row = None ->
  getCollectionSecret Sha3_256 callerPid requestId c secretName mode ui p
  = Some ((ResultOfError InvalidExtensionPluginError, EmptyString), p).
Proof.
  intros ((Hf & Ht) & Hrow & Hacm & Howner) Hreg Hauth.
  unfold collectionRow, callerOf in *.
  destruct row as [owner uses rs re auth sem timeout acm].
  explode p. cbn in Hf, Ht, Hrow, Hacm, Howner, Hauth. subst.
  registered Hreg; subst; replay; reflexivity.
Qed.

Lemma get_requires_in_process (p : RequestProcessor) (requestId : Z) (row : Row)
    (mode : UserInteractionMode) (ui : QString) (plugin : AuthenticationPlugin.t) :
  ownedBy p callerPid c row ->
  pluginsRegistered p (rowStoragePluginName row) (rowEncryptionPluginName row) = true ->
  m_authenticationPlugins p !! rowAuthenticationPluginName row = Some plugin ->
  requiresInProcess plugin mode ui = true ->
  getCollectionSecret Sha3_256 callerPid requestId c secretName mode ui p
  = Some ((ResultOfError OperationRequiresInProcessUserInteraction, EmptyString), p).
Proof.
  intros ((Hf & Ht) & Hrow & Hacm & Howner) Hreg Hauth Hgate.
  unfold collectionRow, callerOf, requiresInProcess in *.
  destruct row as [owner uses rs re auth sem timeout acm].
  destruct plugin as [kind begun script].
  explode p. cbn in Hf, Ht, Hrow, Hacm, Howner, Hauth, Hgate. subst.
  destruct kind; [|discriminate]. destruct mode; cbn in Hgate.
  all: registered Hreg; subst; replay; reflexivity.
Qed.

Lemma set_plain (p : RequestProcessor) (requestId : Z) (row : Row)
    (secret : QByteArray) (mode : UserInteractionMode) (ui : QString)
    (held : gmap string QByteArray) (encryption : EncryptionPlugin.t)
    (key cipher : QByteArray) :
  ownedBy p callerPid c row ->
  plainUnlocked p c row held encryption key ->
  EncryptionPlugin.encryptSecret encryption secret key = (ResultOfCode Succeeded, cipher) ->
  exists p',
    setCollectionSecret Sha3_256 callerPid requestId c secretName secret mode ui p
    = Some (ResultOfCode Succeeded, p')
    /\ ownedBy p' callerPid c row
    /\ m_authenticationPlugins p' = m_authenticationPlugins p
    /\ plainUnlocked p' c row
         (<[generateHashedSecretName Sha3_256 c secretName := cipher]> held) encryption key.
Proof.
  intros ((Hf & Ht) & Hrow & Hacm & Howner)
    (Hse & Hrs & Hre & (sp & Hsp & Hscript & Hheld) & Hep & Hkey) Henc.
  unfold ownedBy, plainUnlocked, databaseHealthy, collectionRow, callerOf in *.
  destruct row as [owner uses rs re auth sem timeout acm].
  destruct sp as [cols script]. destruct encryption as [enc dec].
  explode p.
  cbn in Hf, Ht, Hrow, Hacm, Howner, Hse, Hrs, Hre, Hsp, Hscript, Hheld, Hep, Hkey, Henc.
  subst.
  cbn [rowStoragePluginName rowEncryptionPluginName rowAccessControlMode rowApplicationId].
  destruct (secrets !! (c, generateHashedSecretName Sha3_256 c secretName)) as [old|] eqn:Hold.
  - eexists. split; [replay; settle; reflexivity|]. cbn.
    repeat (apply conj); try done.
    all: eexists; rewrite lookup_insert_eq; split; [reflexivity|]; cbn;
      split; [reflexivity|]; apply lookup_insert_eq.
  - eexists. split; [replay; settle; reflexivity|]. cbn.
    repeat (apply conj); try done.
    all: eexists; rewrite lookup_insert_eq; split; [reflexivity|]; cbn;
      split; [reflexivity|]; apply lookup_insert_eq.
Qed.

Lemma set_encrypted (p : RequestProcessor) (requestId : Z) (row : Row)
    (secret : QByteArray) (mode : UserInteractionMode) (ui : QString)
    (held : gmap string QByteArray) :
  ownedBy p callerPid c row ->
  encryptedUnlocked p c row held ->
  exists p',
    setCollectionSecret Sha3_256 callerPid requestId c secretName secret mode ui p
    = Some (ResultOfCode Succeeded, p')
    /\ ownedBy p' callerPid c row
    /\ m_authenticationPlugins p' = m_authenticationPlugins p
    /\ encryptedUnlocked p' c row
         (<[generateHashedSecretName Sha3_256 c secretName := secret]> held).
Proof.
  intros ((Hf & Ht) & Hrow & Hacm & Howner)
    (Hse & plugin & col & Hplugin & Hscript & Hcol & Hlocked & Hheld).
  unfold ownedBy, encryptedUnlocked, databaseHealthy, collectionRow, callerOf,
    EncryptedStoragePlugin.locked in *.
  destruct row as [owner uses rs re auth sem timeout acm].
  destruct plugin as [cols ss script]. destruct col as [ck applied secrets'].
  explode p.
  cbn in Hf, Ht, Hrow, Hacm, Howner, Hse, Hplugin, Hscript, Hcol, Hlocked, Hheld.
  subst. pose proof Hlocked as Hlocked'. apply negb_false_iff in Hlocked.
  cbn [rowStoragePluginName rowEncryptionPluginName rowAccessControlMode rowApplicationId].
  destruct (secrets !! (c, generateHashedSecretName Sha3_256 c secretName)) as [old|] eqn:Hold.
  - eexists. split; [replay; settle; reflexivity|]. cbn.
    repeat (apply conj); try done.
    do 2 eexists. rewrite lookup_insert_eq. split; [reflexivity|]. cbn.
    split; [reflexivity|]. rewrite lookup_insert_eq. split; [reflexivity|]. cbn.
    split; [exact Hlocked' | reflexivity].
  - eexists. split; [replay; settle; reflexivity|]. cbn.
    repeat (apply conj); try done.
    do 2 eexists. rewrite lookup_insert_eq. split; [reflexivity|]. cbn.
    split; [reflexivity|]. rewrite lookup_insert_eq. split; [reflexivity|]. cbn.
    split; [exact Hlocked' | reflexivity].
Qed.

Lemma delete_plain (p : RequestProcessor) (requestId : Z) (row : Row)
    (mode : UserInteractionMode) (ui : QString)
    (held : gmap string QByteArray) (encryption : EncryptionPlugin.t) (key : QByteArray) :
  ownedBy p callerPid c row ->
  plainUnlocked p c row held encryption key ->
  (0 <? rowUsesDeviceLockKey row) && negb (bool_decide (key = DeviceLockKey)) = false ->
  exists p',
    deleteCollectionSecret Sha3_256 callerPid requestId c secretName mode ui p
    = Some (ResultOfCode Succeeded, p')
    /\ ownedBy p' callerPid c row
    /\ m_authenticationPlugins p' = m_authenticationPlugins p
    /\ plainUnlocked p' c row
         (delete (generateHashedSecretName Sha3_256 c secretName) held) encryption key.
Proof.
  intros ((Hf & Ht) & Hrow & Hacm & Howner)
    (Hse & Hrs & Hre & (sp & Hsp & Hscript & Hheld) & Hep & Hkey) Hdev.
  unfold ownedBy, plainUnlocked, databaseHealthy, collectionRow, callerOf in *.
  destruct row as [owner uses rs re auth sem timeout acm].
  destruct sp as [cols script]. destruct encryption as [enc dec].
  explode p.
  cbn in Hf, Ht, Hrow, Hacm, Howner, Hse, Hrs, Hre, Hsp, Hscript, Hheld, Hep, Hkey, Hdev.
  subst.
  cbn [rowStoragePluginName rowEncryptionPluginName rowAccessControlMode rowApplicationId].
  destruct (0 <? uses) eqn:Huses; cbn in Hdev; [apply negb_false_iff in Hdev|].
  - eexists. split; [replay; settle; reflexivity|]. cbn.
    repeat (apply conj); try done.
    all: eexists; rewrite lookup_insert_eq; split; [reflexivity|]; cbn;
      split; [reflexivity|]; apply lookup_insert_eq.
  - eexists. split; [replay; settle; reflexivity|]. cbn.
    repeat (apply conj); try done.
    all: eexists; rewrite lookup_insert_eq; split; [reflexivity|]; cbn;
      split; [reflexivity|]; apply lookup_insert_eq.
Qed.

Lemma delete_encrypted (p : RequestProcessor) (requestId : Z) (row : Row)
    (mode : UserInteractionMode) (ui : QString) (held : gmap string QByteArray) :
  ownedBy p callerPid c row ->
  encryptedUnlocked p c row held ->
  (0 <? rowUsesDeviceLockKey row) = false ->
  exists p',
    deleteCollectionSecret Sha3_256 callerPid requestId c secretName mode ui p
    = Some (ResultOfCode Succeeded, p')
    /\ ownedBy p' callerPid c row
    /\ m_authenticationPlugins p' = m_authenticationPlugins p
    /\ encryptedUnlocked p' c row
         (delete (generateHashedSecretName Sha3_256 c secretName) held).
Proof.
  intros ((Hf & Ht) & Hrow & Hacm & Howner)
    (Hse & plugin & col & Hplugin & Hscript & Hcol & Hlocked & Hheld) Hdev.
  unfold ownedBy, encryptedUnlocked, databaseHealthy, collectionRow, callerOf,
    EncryptedStoragePlugin.locked in *.
  destruct row as [owner uses rs re auth sem timeout acm].
  destruct plugin as [cols ss script]. destruct col as [ck applied secrets'].
  explode p.
  cbn in Hf, Ht, Hrow, Hacm, Howner, Hse, Hplugin, Hscript, Hcol, Hlocked, Hheld, Hdev.
  subst. pose proof Hlocked as Hlocked'. apply negb_false_iff in Hlocked.
  cbn [rowStoragePluginName rowEncryptionPluginName rowAccessControlMode rowApplicationId].
  eexists. split; [replay; settle; reflexivity|]. cbn.
  repeat (apply conj); try done.
  all: do 2 eexists; rewrite lookup_insert_eq; split; [reflexivity|]; cbn;
    split; [reflexivity|]; rewrite lookup_insert_eq; split; [reflexivity|]; cbn;
    split; [exact Hlocked' | reflexivity].
Qed.

End CollectionSecrets.

(** Standalone secrets. *)

Section StandaloneSecrets.

Variable Sha3_256 : QByteArray -> QByteArray.
Variables (callerPid : Z) (secretName : QString).

Lemma delete_standalone (p : RequestProcessor) (requestId : Z) (row : Row)
    (mode : UserInteractionMode) :
  databaseHealthy p ->
  secretRow p standaloneCollectionName
    (generateHashedSecretName Sha3_256 standaloneCollectionName secretName) = Some row ->
  rowAccessControlMode row = intOfAccessControlMode OwnerOnlyMode ->
  rowApplicationId row = callerOf p callerPid ->
  standalonePluginReady p row ->
  exists p',
    deleteStandaloneSecret Sha3_256 callerPid requestId secretName mode p
    = Some (ResultOfCode Succeeded, p')
    /\ databaseHealthy p'
    /\ secretRow p' standaloneCollectionName
         (generateHashedSecretName Sha3_256 standaloneCollectionName secretName) = None.
Proof.
  intros (Hf & Ht) Hrow Hacm Howner Hready.
  unfold standalonePluginReady, databaseHealthy, secretRow, callerOf in *.
  destruct row as [owner uses rs re auth sem timeout acm].
  explode p.
  cbn in Hf, Ht, Hrow, Hacm, Howner, Hready. subst.
  destruct (decide (rs = re)) as [->|Hse].
  - rewrite bool_decide_eq_true_2 in Hready by done.
    destruct Hready as ([cols ss script] & Hplugin & Hscript & Hnone).
    cbn in Hscript, Hnone. subst.
    eexists. split; [replay; settle; reflexivity|]. cbn.
    repeat (apply conj); try done. apply lookup_delete_eq.
  - rewrite bool_decide_eq_false_2 in Hready by done.
    destruct Hready as (([cols script] & Hsp & Hscript) & Hep).
    apply contains_true in Hep as [ep Hep].
    cbn in Hscript. subst.
    destruct (cols !! standaloneCollectionName) as [held|] eqn:Hheld.
    + eexists. split; [replay; settle; reflexivity|]. cbn.
      repeat (apply conj); try done. apply lookup_delete_eq.
    + eexists. split; [replay; settle; reflexivity|]. cbn.
      repeat (apply conj); try done. apply lookup_delete_eq.
Qed.

Lemma get_standalone_absent (p : RequestProcessor) (requestId : Z)
    (mode : UserInteractionMode) (ui : QString) :
  Qt.isEmpty secretName = false ->
  databaseHealthy p ->
  secretRow p standaloneCollectionName
    (generateHashedSecretName Sha3_256 standaloneCollectionName secretName) = None ->
  getStandaloneSecret Sha3_256 callerPid requestId secretName mode ui p
  = Some ((ResultOfError InvalidSecretError, EmptyString), p).
Proof.
  intros Hname (Hf & Ht) Hrow.
  unfold databaseHealthy, secretRow in *.
  explode p. cbn in Hf, Ht, Hrow. subst.
  replay. reflexivity.
Qed.

End StandaloneSecrets.

Lemma stripPrefix_append (key plain : string) :
  Sample.stripPrefix key (key +:+ plain) = Some plain.
Proof.
  induction key as [|k key IH]; [by destruct plain|].
  change (Sample.stripPrefix (String k key) (String k (key +:+ plain)) = Some plain).
  cbn. rewrite Ascii.eqb_refl. exact IH.
Qed.

Lemma cipher_honours_contract : EncryptionPlugin.honoursContract Sample.cipher.
Proof.
  intros plain key. exists (key +:+ plain). split; [reflexivity|].
  cbn. by rewrite stripPrefix_append.
Qed.

Lemma interactionAllowed_frame (p p' : RequestProcessor) (row : Row)
    (mode : UserInteractionMode) (ui : QString) :
  m_authenticationPlugins p' = m_authenticationPlugins p ->
  interactionAllowed p row mode ui -> interactionAllowed p' row mode ui.
Proof. intros H. unfold interactionAllowed. by rewrite H. Qed.

Lemma plainUnlocked_registered (p : RequestProcessor) (c : QString) (row : Row)
    (held : gmap string QByteArray) (encryption : EncryptionPlugin.t) (key : QByteArray) :
  plainUnlocked p c row held encryption key ->
  pluginsRegistered p (rowStoragePluginName row) (rowEncryptionPluginName row) = true.
Proof.
  intros (Hse & _ & _ & (sp & Hsp & _) & Hep & _).
  unfold pluginsRegistered, contains.
  rewrite bool_decide_eq_false_2 by exact Hse. by rewrite Hsp, Hep.
Qed.

Lemma encryptedUnlocked_registered (p : RequestProcessor) (c : QString) (row : Row)
    (held : gmap string QByteArray) :
  encryptedUnlocked p c row held ->
  pluginsRegistered p (rowStoragePluginName row) (rowEncryptionPluginName row) = true.
Proof.
  intros (Hse & plugin & col & Hplugin & _).
  unfold pluginsRegistered, contains.
  rewrite bool_decide_eq_true_2 by exact Hse. by rewrite Hplugin.
Qed.

(** C4 (as the code has it).  The caller owns the owner-only
    collection, the collection is unlocked (on plain storage its key is
    cached and the encryption plugin honours its contract; on encrypted
    storage the plugin holds it unlocked), the plugins take their calls
    in the normal way and the database answers.  Then [Set(C, S, V)]
    succeeds, and what the following [Get(C, S)] returns depends on the
    authentication plugin of the collection.  When it is registered and
    lets the request through (it is not an application-specific plugin,
    or the request is made in in-process mode with a service address),
    [Get] returns exactly [V].  When it is registered and does not let
    the request through, [Get] fails with
    [OperationRequiresInProcessUserInteraction], and when it is not
    registered, with [InvalidExtensionPluginError]; the members are
    then as [Set] left them. *)
Theorem set_then_get_returns_secret (Sha3_256 : QByteArray -> QByteArray)
    (p : RequestProcessor) (callerPid setId getId : Z) (c secretName : QString)
    (secret : QByteArray) (setMode mode : UserInteractionMode) (setUi ui : QString)
    (row : Row) :
  Qt.isEmpty secretName = false ->
  Qt.isEmpty c = false ->
  isReservedName c = false ->
  ownedBy p callerPid c row ->
  (exists held encryption key,
      plainUnlocked p c row held encryption key
      /\ EncryptionPlugin.honoursContract encryption)
  \/ (exists held, encryptedUnlocked p c row held) ->
  exists p',
    setCollectionSecret Sha3_256 callerPid setId c secretName secret setMode setUi p
    = Some (ResultOfCode Succeeded, p')
    /\ (interactionAllowed p row mode ui ->
        exists p'',
          getCollectionSecret Sha3_256 callerPid getId c secretName mode ui p'
          = Some ((ResultOfCode Succeeded, secret), p''))
    /\ (forall plugin : AuthenticationPlugin.t,
        m_authenticationPlugins p !! rowAuthenticationPluginName row = Some plugin ->
        requiresInProcess plugin mode ui = true ->
        getCollectionSecret Sha3_256 callerPid getId c secretName mode ui p'
        = Some ((ResultOfError OperationRequiresInProcessUserInteraction, EmptyString), p'))
    /\ (m_authenticationPlugins p !! rowAuthenticationPluginName row = None ->
        getCollectionSecret Sha3_256 callerPid getId c secretName mode ui p'
        = Some ((ResultOfError InvalidExtensionPluginError, EmptyString), p')).
Proof.
  intros Hs Hc Hres Howned [(held & encryption & key & Hplain & Hcontract)|(held & Henc)].
  - destruct (Hcontract secret key) as (cipher & Hencrypt & Hdecrypt).
    destruct (set_plain Sha3_256 callerPid c secretName Hs Hc Hres p setId row secret
                setMode setUi held encryption key cipher Howned Hplain Hencrypt)
      as (p' & Hset & Howned' & Hauth & Hplain').
    pose proof (plainUnlocked_registered _ _ _ _ _ _ Hplain') as Hreg.
    exists p'. split; [exact Hset|]. rewrite <- Hauth. split; [|split].
    + intros Hallowed.
      destruct (get_plain Sha3_256 callerPid c secretName Hs Hc Hres p' getId row mode ui _
                  encryption key Howned'
                  (interactionAllowed_frame _ _ _ _ _ Hauth Hallowed) Hplain')
        as (p'' & Hget).
      exists p''. rewrite Hget, lookup_insert_eq, Hdecrypt. reflexivity.
    + intros plugin Hplugin Hgate.
      exact (get_requires_in_process Sha3_256 callerPid c secretName Hs Hc Hres p' getId row
               mode ui plugin Howned' Hreg Hplugin Hgate).
    + intros Hnone.
      exact (get_without_authentication_plugin Sha3_256 callerPid c secretName Hs Hc Hres p'
               getId row mode ui Howned' Hreg Hnone).
  - destruct (set_encrypted Sha3_256 callerPid c secretName Hs Hc Hres p setId row secret
                setMode setUi held Howned Henc)
      as (p' & Hset & Howned' & Hauth & Henc').
    pose proof (encryptedUnlocked_registered _ _ _ _ Henc') as Hreg.
    exists p'. split; [exact Hset|]. rewrite <- Hauth. split; [|split].
    + intros Hallowed.
      destruct (get_encrypted Sha3_256 callerPid c secretName Hs Hc Hres p' getId row mode ui _
                  Howned' (interactionAllowed_frame _ _ _ _ _ Hauth Hallowed) Henc')
        as (p'' & Hget).
      exists p''. rewrite Hget, lookup_insert_eq. reflexivity.
    + intros plugin Hplugin Hgate.
      exact (get_requires_in_process Sha3_256 callerPid c secretName Hs Hc Hres p' getId row
               mode ui plugin Howned' Hreg Hplugin Hgate).
    + intros Hnone.
      exact (get_without_authentication_plugin Sha3_256 callerPid c secretName Hs Hc Hres p'
               getId row mode ui Howned' Hreg Hnone).
Qed.

Lemma set_then_get_returns_secret_witness :
  (exists p' p'',
      setCollectionSecret Sample.digest 1 2 "vault" "pwd" "pass"
        PreventUserInteractionMode EmptyString Sample.withVault
      = Some (ResultOfCode Succeeded, p')
      /\ getCollectionSecret Sample.digest 1 3 "vault" "pwd"
           PreventUserInteractionMode EmptyString p'
         = Some ((ResultOfCode Succeeded, "pass"), p''))
  /\ (exists p',
        setCollectionSecret Sample.digest 1 2 "diary" "pwd" "pass"
          PreventUserInteractionMode EmptyString Sample.diary
        = Some (ResultOfCode Succeeded, p')
        /\ getCollectionSecret Sample.digest 1 3 "diary" "pwd"
             PreventUserInteractionMode EmptyString p'
           = Some ((ResultOfError OperationRequiresInProcessUserInteraction, EmptyString),
                   p'))
  /\ (exists p',
        setCollectionSecret Sample.digest 1 2 "diary" "pwd" "pass"
          PreventUserInteractionMode EmptyString Sample.diaryWithoutInApp
        = Some (ResultOfCode Succeeded, p')
        /\ getCollectionSecret Sample.digest 1 3 "diary" "pwd"
             InProcessUserInteractionMode "ui" p'
           = Some ((ResultOfError InvalidExtensionPluginError, EmptyString), p')).
Proof.
  split; [|split].
  - destruct (set_then_get_returns_secret Sample.digest Sample.withVault 1 2 3 "vault"
                "pwd" "pass" PreventUserInteractionMode PreventUserInteractionMode
                EmptyString EmptyString
                (mkRow "appA" 1 "sqlite" "openssl" DefaultAuthenticationPluginName 0 0 0))
      as (p' & Hset & Hget & _).
    + reflexivity.
    + reflexivity.
    + vm_compute; reflexivity.
    + repeat (apply conj); vm_compute; reflexivity.
    + left. exists ∅, Sample.cipher, DeviceLockKey. split; [|exact cipher_honours_contract].
      split; [vm_compute; discriminate|].
      split; [reflexivity|]. split; [reflexivity|].
      split; [|split; vm_compute; reflexivity].
      exists (StoragePlugin.mk {[ "vault" := ∅; standaloneCollectionName := ∅ ]} []).
      repeat (apply conj); vm_compute; reflexivity.
    + destruct Hget as [p'' Hget].
      * exists Sample.systemAuthentication. split; vm_compute; reflexivity.
      * exists p', p''. split; [exact Hset | exact Hget].
  - destruct (set_then_get_returns_secret Sample.digest Sample.diary 1 2 3 "diary"
                "pwd" "pass" PreventUserInteractionMode PreventUserInteractionMode
                EmptyString EmptyString (mkRow "appA" 0 "sqlite" "openssl" "inapp" 8 0 0))
      as (p' & Hset & _ & Hgate & _).
    + reflexivity.
    + reflexivity.
    + vm_compute; reflexivity.
    + repeat (apply conj); vm_compute; reflexivity.
    + left. exists ∅, Sample.cipher, "k1". split; [|exact cipher_honours_contract].
      split; [vm_compute; discriminate|].
      split; [reflexivity|]. split; [reflexivity|].
      split; [|split; vm_compute; reflexivity].
      exists (StoragePlugin.mk {[ "diary" := ∅; standaloneCollectionName := ∅ ]} []).
      repeat (apply conj); vm_compute; reflexivity.
    + exists p'. split; [exact Hset|].
      apply (Hgate Sample.inApp); vm_compute; reflexivity.
  - destruct (set_then_get_returns_secret Sample.digest Sample.diaryWithoutInApp 1 2 3 "diary"
                "pwd" "pass" PreventUserInteractionMode InProcessUserInteractionMode
                EmptyString "ui" (mkRow "appA" 0 "sqlite" "openssl" "inapp" 8 0 0))
      as (p' & Hset & _ & _ & Hnone).
    + reflexivity.
    + reflexivity.
    + vm_compute; reflexivity.
    + repeat (apply conj); vm_compute; reflexivity.
    + left. exists ∅, Sample.cipher, "k1". split; [|exact cipher_honours_contract].
      split; [vm_compute; discriminate|].
      split; [reflexivity|]. split; [reflexivity|].
      split; [|split; vm_compute; reflexivity].
      exists (StoragePlugin.mk {[ "diary" := ∅; standaloneCollectionName := ∅ ]} []).
      repeat (apply conj); vm_compute; reflexivity.
    + exists p'. split; [exact Hset|].
      apply Hnone. vm_compute; reflexivity.
Defined.

(** C4, the claim as worded fails: [diary] is unlocked (its key is
    cached) and [Set] succeeds, but the collection sits behind an
    application-specific authentication plugin, and a [Get] that is not
    made in in-process mode is refused before the lock state is looked
    at.  The same [Get] in in-process mode returns the secret. *)
Lemma get_of_unlocked_collection_requires_in_process_mode :
  collectionRow Sample.diary "diary" = Some (mkRow "appA" 0 "sqlite" "openssl" "inapp" 8 0 0)
  /\ m_collectionAuthenticationKeys Sample.diary !! "diary" = Some "k1"
  /\ setCollectionSecret Sample.digest 1 2 "diary" "pwd" "pass"
       PreventUserInteractionMode EmptyString Sample.diary
     = Some (ResultOfCode Succeeded, Sample.diaryWithSecret)
  /\ m_collectionAuthenticationKeys Sample.diaryWithSecret !! "diary" = Some "k1"
  /\ getCollectionSecret Sample.digest 1 3 "diary" "pwd"
       PreventUserInteractionMode EmptyString Sample.diaryWithSecret
     = Some ((ResultOfError OperationRequiresInProcessUserInteraction, EmptyString),
             Sample.diaryWithSecret)
  /\ valueOf (getCollectionSecret Sample.digest 1 3 "diary" "pwd"
                InProcessUserInteractionMode "ui" Sample.diaryWithSecret)
     = Some (ResultOfCode Succeeded, "pass").
Proof. repeat (apply conj); vm_compute; reflexivity. Qed.

(** ** Relock timers *)

Lemma timerOwner_unique (timers : gmap string QTimer) (name : QString) (t : QTimer) :
  timerIsOnlyFor timers name t -> timerOwner (timerId t) timers = Some name.
Proof.
  intros [Hname Honly]. unfold timerOwner.
  assert (Hfilter : filter (fun kv : string * QTimer => timerId (snd kv) = timerId t) timers
                    = {[name := t]}).
  { apply map_eq. intros k. destruct (decide (k = name)) as [->|Hk].
    - rewrite lookup_singleton_eq. apply map_lookup_filter_Some. by split.
    - rewrite lookup_singleton_ne by congruence.
      apply map_lookup_filter_None. right. intros t' Hk' Hid. cbn in Hid.
      apply Hk. by apply (Honly k t'). }
  rewrite Hfilter, map_to_list_singleton. reflexivity.
Qed.

(** A read inside the window finds the timer armed and leaves it alone. *)
Lemma armed_timer_is_kept (name : QString) (timeoutMs : Z) (p : RequestProcessor) (t : QTimer) :
  m_standaloneSecretLockTimers p !! name = Some t ->
  armStandaloneSecretLockTimer name timeoutMs p = Some (tt, p).
Proof.
  intros H. unfold armStandaloneSecretLockTimer, modify, contains. by rewrite H.
Qed.

(** The first read arms a fresh timer of the requested interval. *)
Lemma timer_is_armed_once (name : QString) (timeoutMs : Z) (p : RequestProcessor) :
  m_standaloneSecretLockTimers p !! name = None ->
  exists p',
    armStandaloneSecretLockTimer name timeoutMs p = Some (tt, p')
    /\ m_standaloneSecretLockTimers p' !! name = Some (mkQTimer (timersAllocated p) timeoutMs)
    /\ armStandaloneSecretLockTimer name timeoutMs p' = Some (tt, p').
Proof.
  intros H. destruct p. cbn in H. eexists. split.
  - unfold armStandaloneSecretLockTimer, modify, contains. cbn. rewrite H. reflexivity.
  - split.
    + cbn. apply lookup_insert_eq.
    + eapply armed_timer_is_kept. cbn. apply lookup_insert_eq.
Qed.

(** For a collection the timer and the cached key share their key, the
    collection name, and the timeout drops both. *)
Lemma collection_timeout_drops_cached_key (p : RequestProcessor) (name : QString) (t : QTimer) :
  timerIsOnlyFor (m_collectionLockTimers p) name t ->
  exists p',
    timeoutRelockCollection (timerId t) p = Some (tt, p')
    /\ m_collectionLockTimers p' !! name = None
    /\ m_collectionAuthenticationKeys p' !! name = None.
Proof.
  intros H. eexists. split.
  - unfold timeoutRelockCollection, modify. rewrite (timerOwner_unique _ _ _ H). reflexivity.
  - destruct p. cbn. split; apply lookup_delete_eq.
Qed.

(** The hashed name is base64 text, so its length is a multiple of
    four: whatever the digest, it differs from every name whose length
    is not. *)
Lemma toBase64_length_upto (n : nat) : forall ba : QByteArray,
  (String.length ba <= n)%nat ->
  exists k : nat, String.length (Qt.toBase64 ba) = (4 * k)%nat.
Proof.
  induction n as [|n IH]; intros ba Hlen.
  - destruct ba; [exists 0%nat; reflexivity | cbn in Hlen; lia].
  - destruct ba as [|a [|b [|c rest]]].
    + exists 0%nat. reflexivity.
    + exists 1%nat. reflexivity.
    + exists 1%nat. reflexivity.
    + destruct (IH rest) as [k Hk]; [cbn in Hlen; lia|].
      exists (S k). cbn [Qt.toBase64 String.length]. rewrite Hk. lia.
Qed.

Lemma hashed_name_has_length_multiple_of_four (Sha3_256 : QByteArray -> QByteArray)
    (collectionName secretName : QString) :
  exists k : nat,
    String.length (generateHashedSecretName Sha3_256 collectionName secretName) = (4 * k)%nat.
Proof.
  unfold generateHashedSecretName, Qt.fromLatin1. eapply toBase64_length_upto. reflexivity.
Qed.

Lemma hashed_name_differs_from_name (Sha3_256 : QByteArray -> QByteArray)
    (collectionName secretName : QString) :
  (String.length secretName mod 4 <> 0)%nat ->
  generateHashedSecretName Sha3_256 collectionName secretName <> secretName.
Proof.
  intros Hmod Heq.
  destruct (hashed_name_has_length_multiple_of_four Sha3_256 collectionName secretName)
    as [k Hk].
  rewrite Heq in Hk. apply Hmod. rewrite Hk, Nat.mul_comm. apply Nat.Div0.mod_mul.
Qed.

(** C5 (what the code does for a standalone secret).  The timer of a
    standalone secret is filed under the secret's clear name, its cached
    authentication key under the hashed name.  When the timer fires,
    [timeoutRelockSecret] removes the timer and asks the key cache to
    drop the entry of the clear name: whenever the hashed name differs
    from the clear name (as it does, for one, whenever the length of
    the name is not a multiple of four) the cached key survives the
    timeout. *)
Theorem standalone_timeout_keeps_cached_key (Sha3_256 : QByteArray -> QByteArray)
    (p : RequestProcessor) (secretName : QString) (t : QTimer) (key : QByteArray) :
  timerIsOnlyFor (m_standaloneSecretLockTimers p) secretName t ->
  m_standaloneSecretAuthenticationKeys p
    !! generateHashedSecretName Sha3_256 standaloneCollectionName secretName = Some key ->
  generateHashedSecretName Sha3_256 standaloneCollectionName secretName <> secretName ->
  exists p',
    timeoutRelockSecret (timerId t) p = Some (tt, p')
    /\ m_standaloneSecretLockTimers p' !! secretName = None
    /\ m_standaloneSecretAuthenticationKeys p'
         !! generateHashedSecretName Sha3_256 standaloneCollectionName secretName = Some key.
Proof.
  intros Htimer Hkey Hne. eexists. split.
  - unfold timeoutRelockSecret, modify. rewrite (timerOwner_unique _ _ _ Htimer). reflexivity.
  - destruct p. cbn in *. split; [apply lookup_delete_eq|].
    rewrite lookup_delete_ne by congruence. exact Hkey.
Qed.

Lemma standalone_timeout_keeps_cached_key_witness :
  exists p',
    timeoutRelockSecret (timerId (mkQTimer 0 50)) Sample.pinRead = Some (tt, p')
    /\ m_standaloneSecretLockTimers p' !! "pin" = None
    /\ m_standaloneSecretAuthenticationKeys p'
         !! generateHashedSecretName Sample.digest standaloneCollectionName "pin" = Some "k1".
Proof.
  apply (standalone_timeout_keeps_cached_key Sample.digest Sample.pinRead "pin"
           (mkQTimer 0 50) "k1").
  - split; [vm_compute; reflexivity|].
    intros other t'.
    change (m_standaloneSecretLockTimers Sample.pinRead)
      with (<["pin" := mkQTimer 0 50]> (∅ : gmap string QTimer)).
    intros Hother _. destruct (decide (other = "pin")) as [->|Hne]; [reflexivity|].
    rewrite lookup_insert_ne in Hother by congruence. rewrite lookup_empty in Hother.
    discriminate.
  - vm_compute; reflexivity.
  - apply hashed_name_differs_from_name. cbn. lia.
Defined.

(** The run behind it: the first read returns the secret and arms timer
    0 under the name [pin]; the timeout removes the timer; the cached
    key is still filed under the hashed name, and the next read returns
    the secret again without any authentication flow. *)
Example standalone_secret_stays_unlocked_after_timeout :
  valueOf (getStandaloneSecret Sample.digest 1 2 "pin" InProcessUserInteractionMode "ui"
             Sample.withPin)
  = Some (ResultOfCode Succeeded, "1234")
  /\ m_standaloneSecretLockTimers Sample.pinRead !! "pin" = Some (mkQTimer 0 50)
  /\ m_standaloneSecretLockTimers Sample.pinTimedOut !! "pin" = None
  /\ m_standaloneSecretAuthenticationKeys Sample.pinTimedOut
       !! generateHashedSecretName Sample.digest standaloneCollectionName "pin" = Some "k1"
  /\ valueOf (getStandaloneSecret Sample.digest 1 3 "pin" InProcessUserInteractionMode "ui"
                Sample.pinTimedOut)
     = Some (ResultOfCode Succeeded, "1234").
Proof. repeat (apply conj); vm_compute; reflexivity. Qed.

(** ** Completion of an authentication flow *)

(** C6.  When the authentication plugin reports anything but success for
    a parked request, [authenticationCompleted] hands that result and an
    empty payload to [requestFinished], once, and changes nothing else:
    the entry of the request is still in [m_pendingRequests]. *)
Theorem failed_authentication_keeps_parked_request
    (Sha3_256 : QByteArray -> QByteArray) (evaluationOrder : RequestType -> list nat)
    (convert : QMetaType -> QVariant -> QVariant) (p : RequestProcessor)
    (callerPid requestId : Z)
    (callerApplicationId collectionName secretName uiServiceAddress : QString)
    (result : Result) (authenticationKey : QByteArray) (pr : PendingRequest) :
  m_pendingRequests p !! requestId = Some pr ->
  isSucceeded result = false ->
  exists p',
    authenticationCompleted Sha3_256 evaluationOrder convert callerPid requestId
      callerApplicationId collectionName secretName uiServiceAddress result
      authenticationKey p
    = Some (tt, p')
    /\ p' = withRequestQueue p
              (RequestQueue.requestFinished requestId
                 [VResult result; VBytes EmptyString] (m_requestQueue p))
    /\ m_pendingRequests p' !! requestId = Some pr.
Proof.
  intros Hpr Hfail. eexists. split; [|split; [reflexivity|exact Hpr]].
  unfold authenticationCompleted, bind. rewrite Hfail. reflexivity.
Qed.

(** The flow of the parked request 5 fails. *)
Lemma failed_authentication_keeps_parked_request_witness :
  exists p',
    authenticationCompleted Sample.digest Sample.leftToRight Sample.unconverted 1 5
      "appA" "diary" "" "ui"
      (ResultOfCode Failed) "" Sample.parkedCreate
    = Some (tt, p')
    /\ p' = withRequestQueue Sample.parkedCreate
              (RequestQueue.requestFinished 5
                 [VResult (ResultOfCode Failed); VBytes EmptyString]
                 (m_requestQueue Sample.parkedCreate))
    /\ m_pendingRequests p' !! 5
       = Some (mkPendingRequest 1 5 CreateCustomLockCollectionRequest
                 [VString "diary"; VString "sqlite"; VString "openssl"; VString "inapp";
                  VInt 10; VInt 50; VInt 0; VInt 2; VString "ui"]).
Proof.
  apply (failed_authentication_keeps_parked_request Sample.digest Sample.leftToRight
           Sample.unconverted Sample.parkedCreate 1 5 "appA" "diary" "" "ui" (ResultOfCode Failed) "").
  - vm_compute. reflexivity.
  - reflexivity.
Defined.

(** ** Allocation of request ids *)

Module QueueFacts.
Import RequestQueue.

Lemma loopFuel_add {S R : Type} (body : S -> S + R) (a b : nat) (s : S) :
  loopFuel (a + b) body s
  = match loopFuel a body s with
    | inl s' => loopFuel b body s'
    | inr r => inr r
    end.
Proof.
  revert s. induction a as [|a IH]; intros s; [reflexivity|].
  cbn [Nat.add loopFuel]. destruct (body s) as [s'|r]; [apply IH | reflexivity].
Qed.

Lemma loopPow2_fuel {S R : Type} (body : S -> S + R) (n : nat) (s : S) :
  loopPow2 n body s = loopFuel (2 ^ n) body s.
Proof.
  revert s. induction n as [|n IH]; intros s.
  - cbn. destruct (body s); reflexivity.
  - cbn [loopPow2]. replace (2 ^ Datatypes.S n)%nat with (2 ^ n + 2 ^ n)%nat
      by (cbn [Nat.pow]; lia).
    rewrite loopFuel_add, IH. destruct (loopFuel (2 ^ n) body s); [apply IH | reflexivity].
Qed.

Section Scan.
Variable bits : nat.
Variable reqs : list RequestData.
Variable prevId : Z.
Hypothesis bits_pos : (0 < bits)%nat.
Hypothesis prev_range : 0 <= prevId < modulus bits.

Local Abbreviation candidate := (scanCandidate bits prevId).

Lemma modulus_ge_2 : 2 <= modulus bits.
Proof.
  unfold modulus. destruct bits as [|b]; [lia|].
  rewrite Nat2Z.inj_succ, Z.pow_succ_r by lia.
  pose proof (Z.pow_pos_nonneg 2 (Z.of_nat b)). lia.
Qed.

Lemma candidate_range j : 0 <= candidate j < modulus bits.
Proof. unfold scanCandidate, wrap. apply Z.mod_pos_bound. pose proof modulus_ge_2. lia. Qed.

Lemma candidate_is_prev j :
  0 <= j <= modulus bits - 1 -> (candidate j = prevId <-> j = modulus bits - 1).
Proof.
  intros Hj. pose proof modulus_ge_2 as Hm. unfold scanCandidate, wrap. split.
  - intros H.
    destruct (Z.eq_dec j (modulus bits - 1)) as [|Hne]; [assumption|exfalso].
    destruct (Z_lt_le_dec (prevId + 1 + j) (modulus bits)) as [Hlt|Hge].
    + rewrite Z.mod_small in H by lia. lia.
    + replace (prevId + 1 + j) with ((prevId + 1 + j - modulus bits) + 1 * modulus bits) in H
        by lia.
      rewrite Z.mod_add in H by lia. rewrite Z.mod_small in H by lia. lia.
  - intros ->. replace (prevId + 1 + (modulus bits - 1)) with (prevId + 1 * modulus bits)
      by lia.
    rewrite Z.mod_add by lia. apply Z.mod_small. lia.
Qed.

Lemma candidate_succ j : wrap bits (candidate j + 1) = candidate (j + 1).
Proof.
  pose proof modulus_ge_2 as Hm. unfold scanCandidate, wrap.
  rewrite Z.add_mod_idemp_l by lia. f_equal. lia.
Qed.

Lemma every_other_id_is_a_candidate id :
  0 <= id < modulus bits -> id <> prevId ->
  exists j, 0 <= j < modulus bits - 1 /\ candidate j = id.
Proof.
  intros Hid Hne. pose proof modulus_ge_2 as Hm.
  exists ((id - prevId - 1) mod modulus bits). 
  assert (Hr : 0 <= (id - prevId - 1) mod modulus bits < modulus bits)
    by (apply Z.mod_pos_bound; lia).
  assert (Hc : candidate ((id - prevId - 1) mod modulus bits) = id).
  { unfold scanCandidate, wrap. rewrite Z.add_mod_idemp_r by lia.
    replace (prevId + 1 + (id - prevId - 1)) with id by lia.
    apply Z.mod_small. lia. }
  split; [|exact Hc].
  destruct (Z.eq_dec ((id - prevId - 1) mod modulus bits) (modulus bits - 1)) as [E|]; [|lia].
  exfalso. apply Hne. rewrite <- Hc. apply candidate_is_prev; lia.
Qed.

(** What the scan returns from its [j]-th candidate on, given turns
    enough to reach the end of the id space. *)
Lemma scan_from (k : nat) : forall (j : Z) (found : bool),
  0 <= j <= modulus bits - 1 ->
  modulus bits - j <= Z.of_nat k ->
  (exists i, j <= i < modulus bits - 1
             /\ idInUse reqs (candidate i) = false
             /\ loopFuel k (scanBody bits reqs prevId) (candidate j, found)
                = inr (candidate i, false))
  \/ ((forall i, j <= i < modulus bits - 1 -> idInUse reqs (candidate i) = true)
      /\ loopFuel k (scanBody bits reqs prevId) (candidate j, found)
         = inr (prevId, if j =? modulus bits - 1 then found else true)).
Proof.
  induction k as [|k IH]; intros j found Hj Hk; [lia|].
  cbn [loopFuel]. unfold scanBody at 1 3.
  destruct (Z.eqb_spec (candidate j) prevId) as [E|E].
  - apply candidate_is_prev in E; [|assumption]. right. split; [intros; lia|].
    rewrite (proj2 (Z.eqb_eq _ _) E). f_equal. f_equal.
    subst j. apply candidate_is_prev; lia.
  - assert (Hlt : j < modulus bits - 1).
    { destruct (Z.eq_dec j (modulus bits - 1)) as [E'|]; [|lia].
      exfalso. apply E. apply candidate_is_prev; assumption. }
    destruct (idInUse reqs (candidate j)) eqn:Huse.
    + rewrite candidate_succ.
      assert (Hj' : 0 <= j + 1 <= modulus bits - 1) by lia.
      assert (Hk' : modulus bits - (j + 1) <= Z.of_nat k) by lia.
      destruct (IH (j + 1) true Hj' Hk') as [(i & Hi & Hfree & Hrun)|[Hall Hrun]].
      * left. exists i. repeat split; [lia|lia|assumption|assumption].
      * right. split.
        -- intros i Hi. destruct (Z.eq_dec i j) as [->|]; [assumption|apply Hall; lia].
        -- rewrite Hrun. f_equal. f_equal.
           rewrite (proj2 (Z.eqb_neq j (modulus bits - 1))) by lia.
           destruct (j + 1 =? modulus bits - 1); reflexivity.
    + left. exists j. repeat split; [lia|lia|assumption].
Qed.

Lemma modulus_of_nat : Z.of_nat (2 ^ bits) = modulus bits.
Proof. unfold modulus. rewrite Nat2Z.inj_pow. reflexivity. Qed.

Lemma scanFreeId_spec :
  (exists id, 0 <= id < modulus bits /\ id <> prevId
              /\ idInUse reqs id = false
              /\ scanFreeId bits reqs prevId = (id, false))
  \/ ((forall id, 0 <= id < modulus bits -> id <> prevId -> idInUse reqs id = true)
      /\ scanFreeId bits reqs prevId = (prevId, true)).
Proof.
  pose proof modulus_ge_2 as Hm.
  unfold scanFreeId. rewrite loopPow2_fuel.
  replace (wrap bits (prevId + 1)) with (candidate 0)
    by (unfold scanCandidate; f_equal; lia).
  assert (H0 : 0 <= 0 <= modulus bits - 1) by lia.
  assert (Hk : modulus bits - 0 <= Z.of_nat (2 ^ bits)) by (rewrite modulus_of_nat; lia).
  destruct (scan_from (2 ^ bits) 0 false H0 Hk) as [(i & Hi & Hfree & Hrun)|[Hall Hrun]].
  - left. exists (candidate i). rewrite Hrun.
    split; [apply candidate_range|]. split; [|split; [assumption|reflexivity]].
    intros E. apply candidate_is_prev in E; lia.
  - right. rewrite Hrun. split.
    + intros id Hid Hne. destruct (every_other_id_is_a_candidate id Hid Hne) as (j & Hj & <-).
      apply Hall. lia.
    + rewrite (proj2 (Z.eqb_neq 0 (modulus bits - 1))) by lia. reflexivity.
Qed.
End Scan.




End QueueFacts.

Section Enqueue.
Import RequestQueue.



(** The ids 1 and 2 are in use and the counter stands at 0: the request
    gets the id 3. *)
Example enqueue_skips_ids_in_use :
  enqueueRequest (Sample.tracked 0) (mk 0 [Sample.tracked 1; Sample.tracked 2])
  = (ResultOfCode Succeeded,
     mk 1 [Sample.tracked 1; Sample.tracked 2; Sample.tracked 3]).
Proof. vm_compute. reflexivity. Qed.

End Enqueue.

(** ** Reading a deleted secret *)

(** C8 (what the code does for a standalone secret).  The caller owns
    the owner-only standalone secret and the database answers.  When
    the plugin takes the removal in the normal way,
    [deleteStandaloneSecret] succeeds, the row of the secret is gone,
    and the following [Get] reports [InvalidSecretError].  When the
    storage plugin refuses the removal, [deleteStandaloneSecret] still
    answers [Succeeded]: the row and the stored bytes stay, the key
    stays cached, and the following [Get] returns the secret. *)
Theorem refused_removal_is_reported_as_deleted (Sha3_256 : QByteArray -> QByteArray)
    (p : RequestProcessor) (callerPid deleteId getId : Z) (secretName : QString)
    (deleteMode mode : UserInteractionMode) (ui : QString) (row : Row) :
  Qt.isEmpty secretName = false ->
  databaseHealthy p ->
  secretRow p standaloneCollectionName
    (generateHashedSecretName Sha3_256 standaloneCollectionName secretName) = Some row ->
  rowAccessControlMode row = intOfAccessControlMode OwnerOnlyMode ->
  rowApplicationId row = callerOf p callerPid ->
  (standalonePluginReady p row ->
   exists p',
     deleteStandaloneSecret Sha3_256 callerPid deleteId secretName deleteMode p
     = Some (ResultOfCode Succeeded, p')
     /\ secretRow p' standaloneCollectionName
          (generateHashedSecretName Sha3_256 standaloneCollectionName secretName) = None
     /\ getStandaloneSecret Sha3_256 callerPid getId secretName mode ui p'
        = Some ((ResultOfError InvalidSecretError, EmptyString), p'))
  /\ (forall (storage : StoragePlugin.t) (held : gmap string QByteArray)
        (encryption : EncryptionPlugin.t) (cipher key secret : QByteArray) (r : Result),
      rowStoragePluginName row <> rowEncryptionPluginName row ->
      m_storagePlugins p !! rowStoragePluginName row = Some storage ->
      StoragePlugin.script storage = [Some r] ->
      isSucceeded r = false ->
      StoragePlugin.collections storage !! standaloneCollectionName = Some held ->
      held !! generateHashedSecretName Sha3_256 standaloneCollectionName secretName
      = Some cipher ->
      m_encryptionPlugins p !! rowEncryptionPluginName row = Some encryption ->
      m_standaloneSecretAuthenticationKeys p
        !! generateHashedSecretName Sha3_256 standaloneCollectionName secretName
      = Some key ->
      EncryptionPlugin.decryptSecret encryption cipher key
      = (ResultOfCode Succeeded, secret) ->
      interactionAllowed p row mode ui ->
      exists p' p'',
        deleteStandaloneSecret Sha3_256 callerPid deleteId secretName deleteMode p
        = Some (ResultOfCode Succeeded, p')
        /\ secretRow p' standaloneCollectionName
             (generateHashedSecretName Sha3_256 standaloneCollectionName secretName)
           = Some row
        /\ getStandaloneSecret Sha3_256 callerPid getId secretName mode ui p'
           = Some ((ResultOfCode Succeeded, secret), p'')).
Proof.
  intros Hs Hdb Hrow Hacm Howner. split.
  - intros Hready.
    destruct (delete_standalone Sha3_256 callerPid secretName p deleteId row deleteMode
                Hdb Hrow Hacm Howner Hready) as (p' & Hdelete & Hdb' & Hgone).
    exists p'. split; [exact Hdelete|]. split; [exact Hgone|].
    exact (get_standalone_absent Sha3_256 callerPid secretName p' getId mode ui Hs Hdb' Hgone).
  - intros storage held encryption cipher key secret r Hse Hsp Hscript Hr Hheld Hcipher
      Hep Hkey Hdec (ap & Hauth & Hallowed).
    destruct Hdb as (Hf & Ht).
    unfold databaseHealthy, secretRow, callerOf in *.
    destruct row as [owner uses rs re auth sem timeout acm].
    destruct storage as [cols script]. destruct encryption as [enc dec].
    destruct r as [rc ec].
    explode p.
    cbn in Hf, Ht, Hrow, Hacm, Howner, Hse, Hsp, Hscript, Hr, Hheld, Hep, Hkey, Hdec, Hauth.
    subst.
    assert (Hrefused : rc = Failed \/ rc = Pending) by (destruct rc; [discriminate|auto..]).
    interaction Hallowed; timers sem standaloneTimers secretName.
    all: destruct Hrefused as [-> | ->].
    all: do 2 eexists; split; [replay; settle; reflexivity|]; split; [cbn; exact Hrow|].
    all: replay; reflexivity.
Qed.

Lemma refused_removal_is_reported_as_deleted_witness :
  (exists p',
      deleteStandaloneSecret Sample.digest 1 4 "pin" PreventUserInteractionMode
        Sample.vaultAndPin
      = Some (ResultOfCode Succeeded, p')
      /\ getStandaloneSecret Sample.digest 1 5 "pin" PreventUserInteractionMode
           EmptyString p'
         = Some ((ResultOfError InvalidSecretError, EmptyString), p'))
  /\ (exists p' p'',
        deleteStandaloneSecret Sample.digest 1 4 "pin" PreventUserInteractionMode
          Sample.pinRefusingRemoval
        = Some (ResultOfCode Succeeded, p')
        /\ getStandaloneSecret Sample.digest 1 5 "pin" PreventUserInteractionMode
             EmptyString p'
           = Some ((ResultOfCode Succeeded, "1234"), p'')).
Proof.
  pose (hashed := generateHashedSecretName Sample.digest standaloneCollectionName "pin").
  pose (cols := match m_storagePlugins Sample.vaultAndPin !! "sqlite" with
                | Some plugin => StoragePlugin.collections plugin
                | None => ∅
                end).
  pose (held := default ∅ (cols !! standaloneCollectionName)).
  pose (cipher := default EmptyString (held !! hashed)).
  pose (key := default EmptyString
                 (m_standaloneSecretAuthenticationKeys Sample.pinRefusingRemoval !! hashed)).
  split.
  - destruct (refused_removal_is_reported_as_deleted Sample.digest Sample.vaultAndPin
                1 4 5 "pin" PreventUserInteractionMode PreventUserInteractionMode
                EmptyString
                (mkRow "appA" 1 "sqlite" "openssl" DefaultAuthenticationPluginName 0 0 0))
      as [Hremoved _].
    + reflexivity.
    + split; vm_compute; reflexivity.
    + vm_compute; reflexivity.
    + reflexivity.
    + vm_compute; reflexivity.
    + destruct Hremoved as (p' & Hdelete & _ & Hget).
      * unfold standalonePluginReady. rewrite bool_decide_eq_false_2 by (cbn; discriminate).
        split; [|vm_compute; reflexivity].
        eexists. split; [vm_compute; reflexivity|]. reflexivity.
      * exists p'. split; [exact Hdelete | exact Hget].
  - destruct (refused_removal_is_reported_as_deleted Sample.digest
                Sample.pinRefusingRemoval 1 4 5 "pin" PreventUserInteractionMode
                PreventUserInteractionMode EmptyString
                (mkRow "appA" 1 "sqlite" "openssl" DefaultAuthenticationPluginName 0 0 0))
      as [_ Hrefused].
    + reflexivity.
    + split; vm_compute; reflexivity.
    + vm_compute; reflexivity.
    + reflexivity.
    + vm_compute; reflexivity.
    + destruct (Hrefused (StoragePlugin.mk cols [Some (ResultOfError UnknownError)]) held
                  Sample.cipher cipher key "1234" (ResultOfError UnknownError))
        as (p' & p'' & Hdelete & _ & Hget).
      * discriminate.
      * vm_compute; reflexivity.
      * reflexivity.
      * reflexivity.
      * vm_compute; reflexivity.
      * vm_compute; reflexivity.
      * vm_compute; reflexivity.
      * vm_compute; reflexivity.
      * vm_compute; reflexivity.
      * exists Sample.systemAuthentication. split; vm_compute; reflexivity.
      * exists p', p''. split; [exact Hdelete | exact Hget].
Defined.

(** ** Deleting a collection *)

(** C9.  [deleteCollection] never compares the caller with the owner: for
    an existing collection under a name that is not reserved, the call
    made by one process is the call made by any other.  So a process of
    an application that does not own the collection, given a working
    database and plugin, deletes it: the master row, the plugin-side
    collection and the cached key are gone. *)
Theorem deleteCollection_ignores_caller (p : RequestProcessor) (c : QString) (row : Row)
    (requestId pidA pidB : Z) (mode : UserInteractionMode) :
  collectionRow p c = Some row ->
  isReservedName c = false ->
  deleteCollection pidA requestId c mode p = deleteCollection pidB requestId c mode p
  /\ (rowApplicationId row <> callerOf p pidB ->
      Qt.isEmpty c = false ->
      databaseHealthy p ->
      Qt.isEmpty (rowStoragePluginName row) = false ->
      contains (m_storagePlugins p) (rowStoragePluginName row) = true ->
      pluginScript p (rowStoragePluginName row) (rowEncryptionPluginName row) = Some [] ->
      exists p',
        deleteCollection pidB requestId c mode p = Some (ResultOfCode Succeeded, p')
        /\ collectionRow p' c = None
        /\ pluginSideCollection p' (rowStoragePluginName row) (rowEncryptionPluginName row) c
           = false
        /\ m_collectionAuthenticationKeys p' !! c = None).
Proof.
  intros Hrow Hres. split; [reflexivity|].
  intros _ Hne [Hf Ht] Hs Hsp Hscript.
  apply contains_true in Hsp as [sp Hsp].
  unfold pluginScript, pluginSideCollection, collectionRow in *.
  destruct row as [owner uses s e auth sem timeout acm].
  explode p. cbn in *. subst.
  destruct (decide (s = e)) as [->|Hse].
  - rewrite bool_decide_eq_true_2 in * by done.
    destruct (encryptedPlugins !! e) as [[cols ss script]|] eqn:Hes; [|done].
    cbn in Hscript. injection Hscript as ->.
    eexists. split; [|split; [|split]].
    + exec. reflexivity.
    + cbn. apply lookup_delete_eq.
    + cbn. rewrite lookup_insert_eq. cbn. unfold contains. by rewrite lookup_delete_eq.
    + cbn. apply lookup_delete_eq.
  - rewrite bool_decide_eq_false_2 in * by done.
    rewrite Hsp in Hscript. destruct sp as [cols script].
    cbn in Hscript. injection Hscript as ->.
    eexists. split; [|split; [|split]].
    + exec. reflexivity.
    + cbn. apply lookup_delete_eq.
    + cbn. rewrite lookup_insert_eq. cbn. unfold contains. by rewrite lookup_delete_eq.
    + cbn. apply lookup_delete_eq.
Qed.

(** Application B (process 2) deletes the collection [vault] that
    application A created. *)
Lemma deleteCollection_ignores_caller_witness :
  deleteCollection 1 9 "vault" PreventUserInteractionMode Sample.withVault
  = deleteCollection 2 9 "vault" PreventUserInteractionMode Sample.withVault
  /\ exists p',
       deleteCollection 2 9 "vault" PreventUserInteractionMode Sample.withVault
       = Some (ResultOfCode Succeeded, p')
       /\ collectionRow p' "vault" = None
       /\ pluginSideCollection p' "sqlite" "openssl" "vault" = false
       /\ m_collectionAuthenticationKeys p' !! "vault" = None.
Proof.
  pose proof (deleteCollection_ignores_caller Sample.withVault "vault"
                (mkRow "appA" 1 "sqlite" "openssl" DefaultAuthenticationPluginName 0 0 0)
                9 1 2 PreventUserInteractionMode) as H.
  destruct H as [Hsame Hdeleted]; [vm_compute; reflexivity | reflexivity |].
  split; [exact Hsame|].
  apply Hdeleted.
  - vm_compute. discriminate.
  - reflexivity.
  - split; vm_compute; reflexivity.
  - reflexivity.
  - vm_compute. reflexivity.
  - vm_compute. reflexivity.
Defined.

(** ** Hashed secret names *)

Lemma append_assoc (a b c : string) : (a +:+ b) +:+ c = a +:+ (b +:+ c).
Proof.
  induction a as [|x a IH]; [reflexivity|].
  change (String x ((a +:+ b) +:+ c) = String x (a +:+ (b +:+ c))). by rewrite IH.
Qed.

Lemma toUtf8_append (a b : QString) :
  Qt.toUtf8 (a +:+ b) = Qt.toUtf8 a +:+ Qt.toUtf8 b.
Proof.
  induction a as [|x a IH]; [reflexivity|].
  change (Qt.utf8OfChar x +:+ Qt.toUtf8 (a +:+ b)
          = (Qt.utf8OfChar x +:+ Qt.toUtf8 a) +:+ Qt.toUtf8 b).
  rewrite IH. symmetry. apply append_assoc.
Qed.

(** C10 (as the code has it).  Two (collection, secret) pairs whose
    concatenations are equal have equal UTF-8 concatenations and hence
    the same hashed secret name.  They do not address the same
    persisted row: if the pairs are distinct their collection names
    differ, a row of the Secrets table is addressed by the collection
    name together with the hashed name, and inserting the row of one
    pair leaves what a SELECT for the other pair finds unchanged. *)
Theorem hashed_name_depends_on_concatenation (Sha3_256 : QByteArray -> QByteArray)
    (c1 s1 c2 s2 : QString) :
  c1 +:+ s1 = c2 +:+ s2 ->
  Qt.toUtf8 c1 +:+ Qt.toUtf8 s1 = Qt.toUtf8 c2 +:+ Qt.toUtf8 s2
  /\ generateHashedSecretName Sha3_256 c1 s1 = generateHashedSecretName Sha3_256 c2 s2
  /\ ((c1, s1) <> (c2, s2) ->
      c1 <> c2
      /\ forall (tb tb' : Database.Tables) (row : Row),
           Database.apply
             (Database.InsertSecret c1 (generateHashedSecretName Sha3_256 c1 s1) row) tb
           = Some tb' ->
           Database.selected
             (Database.SelectSecret c2 (generateHashedSecretName Sha3_256 c2 s2)) tb'
           = Database.selected
               (Database.SelectSecret c2 (generateHashedSecretName Sha3_256 c2 s2)) tb).
Proof.
  intros Hcat.
  assert (Hutf : Qt.toUtf8 c1 +:+ Qt.toUtf8 s1 = Qt.toUtf8 c2 +:+ Qt.toUtf8 s2)
    by (rewrite <- !toUtf8_append; by rewrite Hcat).
  split; [exact Hutf|]. split.
  - unfold generateHashedSecretName. by rewrite Hutf.
  - intros Hpairs.
    assert (Hc : c1 <> c2).
    { intros ->. apply Hpairs. f_equal. by apply (String.app_inj c2). }
    split; [exact Hc|].
    generalize (generateHashedSecretName Sha3_256 c1 s1) as h1.
    generalize (generateHashedSecretName Sha3_256 c2 s2) as h2.
    intros h2 h1 tb tb' row Happly.
    cbn [Database.apply Database.selected] in *.
    destruct (Database.Collections tb !! c1); [|discriminate].
    destruct (Database.Secrets tb !! (c1, h1)); [discriminate|].
    injection Happly as <-. cbn [Database.Secrets].
    apply lookup_insert_ne. congruence.
Qed.

Lemma hashed_name_depends_on_concatenation_witness :
  Qt.toUtf8 "ab" +:+ Qt.toUtf8 "c" = Qt.toUtf8 "a" +:+ Qt.toUtf8 "bc"
  /\ generateHashedSecretName Sample.digest "ab" "c"
     = generateHashedSecretName Sample.digest "a" "bc"
  /\ (("ab", "c") <> ("a", "bc") ->
      "ab" <> "a"
      /\ forall (tb tb' : Database.Tables) (row : Row),
           Database.apply
             (Database.InsertSecret "ab" (generateHashedSecretName Sample.digest "ab" "c") row)
             tb
           = Some tb' ->
           Database.selected
             (Database.SelectSecret "a" (generateHashedSecretName Sample.digest "a" "bc")) tb'
           = Database.selected
               (Database.SelectSecret "a" (generateHashedSecretName Sample.digest "a" "bc")) tb).
Proof.
  apply (hashed_name_depends_on_concatenation Sample.digest "ab" "c" "a" "bc").
  reflexivity.
Defined.

(** C10, the claim as worded fails: [("ab", "c")] and [("a", "bc")] get
    the same hashed name, yet after [Set("ab", "c", "pass")] the Secrets
    table holds a row for the first pair and none for the second, and
    [Get("a", "bc")] does not find the secret that [Get("ab", "c")]
    returns. *)
Lemma concatenation_collision_rows_differ :
  ("ab", "c") <> ("a", "bc")
  /\ generateHashedSecretName Sample.digest "ab" "c"
     = generateHashedSecretName Sample.digest "a" "bc"
  /\ valueOf (setCollectionSecret Sample.digest 1 3 "ab" "c" "pass"
               PreventUserInteractionMode EmptyString Sample.twoCollections)
     = Some (ResultOfCode Succeeded)
  /\ is_Some (secretRow Sample.twoCollectionsOneSecret "ab"
                (generateHashedSecretName Sample.digest "ab" "c"))
  /\ secretRow Sample.twoCollectionsOneSecret "a"
       (generateHashedSecretName Sample.digest "a" "bc") = None
  /\ valueOf (getCollectionSecret Sample.digest 1 4 "ab" "c"
               PreventUserInteractionMode EmptyString Sample.twoCollectionsOneSecret)
     = Some (ResultOfCode Succeeded, "pass")
  /\ valueOf (getCollectionSecret Sample.digest 1 5 "a" "bc"
               PreventUserInteractionMode EmptyString Sample.twoCollectionsOneSecret)
     = Some (ResultOfError InvalidSecretError, EmptyString).
Proof.
  split; [discriminate|].
  split; [reflexivity|].
  split; [vm_compute; reflexivity|].
  split; [vm_compute; eauto|].
  split; [vm_compute; reflexivity|].
  split; vm_compute; reflexivity.
Qed.

(** ** Creating and finding collections *)

(** X1.  A device-lock create whose name is free, whose plugins are
    registered and whose storage side takes its calls in the normal way
    succeeds: the collection has its row, with the caller as owner and
    the device-lock flag set, the plugin holds the collection, on plain
    storage the device-lock key is cached, and no transaction is left
    open. *)
Theorem successful_create_records_collection (p : RequestProcessor)
    (callerPid requestId : Z) (c s e : QString)
    (unlockSemantic : DeviceLockUnlockSemantic) (accessControlMode : AccessControlMode) :
  databaseHealthy p ->
  collectionRow p c = None ->
  pluginSideCollection p s e c = false ->
  pluginScript p s e = Some [] ->
  isReservedName c = false ->
  pluginsRegisteredForCreate p s e = true ->
  exists p',
    createDeviceLockCollection callerPid requestId c s e unlockSemantic accessControlMode p
    = Some (ResultOfCode Succeeded, p')
    /\ collectionRow p' c
       = Some (mkRow (callerOf p callerPid) 1 s e DefaultAuthenticationPluginName
                 (intOfDeviceLockUnlockSemantic unlockSemantic) 0
                 (intOfAccessControlMode accessControlMode))
    /\ pluginSideCollection p' s e c = true
    /\ (s <> e -> m_collectionAuthenticationKeys p' !! c = Some DeviceLockKey)
    /\ databaseHealthy p'.
Proof.
  intros [Hf Ht] Hrow Hside Hscript Hres Hreg.
  unfold pluginScript, pluginSideCollection, collectionRow, databaseHealthy, callerOf,
    pluginsRegisteredForCreate in *.
  explode p. cbn in Hf, Ht, Hrow, Hside, Hscript, Hreg. subst.
  apply andb_true_iff in Hreg as [Hreg Hep].
  apply andb_true_iff in Hreg as [_ Hsp].
  apply contains_true in Hsp as [sp Hsp]. apply contains_true in Hep as [ep Hep].
  destruct (decide (s = e)) as [->|Hse].
  - rewrite bool_decide_eq_true_2 in * by done.
    destruct (encryptedPlugins !! e) as [[cols ss script]|] eqn:Hes; [|done].
    cbn in Hscript, Hside. injection Hscript as ->.
    unfold contains in Hside. destruct (cols !! c) eqn:Hcol; [discriminate|].
    eexists. split; [pursue; reflexivity|].
    split; [cbn; apply lookup_insert_eq|].
    split; [cbn; rewrite lookup_insert_eq; cbn; unfold contains;
            by rewrite lookup_insert_eq|].
    split; [done|]. cbn; done.
  - rewrite bool_decide_eq_false_2 in * by done.
    rewrite Hsp in Hscript, Hside. destruct sp as [cols script].
    cbn in Hscript, Hside. injection Hscript as ->.
    unfold contains in Hside. destruct (cols !! c) eqn:Hcol; [discriminate|].
    eexists. split; [pursue; reflexivity|].
    split; [cbn; apply lookup_insert_eq|].
    split; [cbn; rewrite lookup_insert_eq; cbn; unfold contains;
            by rewrite lookup_insert_eq|].
    split; [intros _; cbn; apply lookup_insert_eq|]. cbn; done.
Qed.

Lemma successful_create_records_collection_witness :
  exists p',
    createDeviceLockCollection 1 1 "vault" "sqlite" "openssl" DeviceLockKeepUnlocked
      OwnerOnlyMode Sample.ready
    = Some (ResultOfCode Succeeded, p')
    /\ collectionRow p' "vault"
       = Some (mkRow (callerOf Sample.ready 1) 1 "sqlite" "openssl"
                 DefaultAuthenticationPluginName
                 (intOfDeviceLockUnlockSemantic DeviceLockKeepUnlocked) 0
                 (intOfAccessControlMode OwnerOnlyMode))
    /\ pluginSideCollection p' "sqlite" "openssl" "vault" = true
    /\ ("sqlite" <> "openssl" -> m_collectionAuthenticationKeys p' !! "vault" = Some DeviceLockKey)
    /\ databaseHealthy p'.
Proof.
  apply (successful_create_records_collection Sample.ready 1 1 "vault" "sqlite" "openssl"
           DeviceLockKeepUnlocked OwnerOnlyMode).
  - split; vm_compute; reflexivity.
  - vm_compute; reflexivity.
  - vm_compute; reflexivity.
  - vm_compute; reflexivity.
  - reflexivity.
  - vm_compute; reflexivity.
Defined.

(** X2.  A collection that has a row is not created again: the
    device-lock create and the continuation of the custom-lock create
    answer [CollectionAlreadyExistsError] and change nothing, whoever
    calls and whatever plugins are named. *)
Theorem existing_collection_is_not_created_again (p : RequestProcessor) (c : QString) (row : Row) :
  databaseHealthy p ->
  collectionRow p c = Some row ->
  (forall (callerPid requestId : Z) (s e : QString)
       (unlockSemantic : DeviceLockUnlockSemantic) (accessControlMode : AccessControlMode),
      isReservedName c = false ->
      pluginsRegisteredForCreate p s e = true ->
      createDeviceLockCollection callerPid requestId c s e unlockSemantic accessControlMode p
      = Some (ResultOfError CollectionAlreadyExistsError, p))
  /\ (forall (callerPid requestId : Z) (s e a : QString)
        (unlockSemantic timeoutMs accessControlMode : Z)
        (mode : UserInteractionMode) (ui : QString) (key : QByteArray),
      createCustomLockCollectionWithAuthenticationKey callerPid requestId c s e a
        unlockSemantic timeoutMs accessControlMode mode ui key p
      = Some (ResultOfError CollectionAlreadyExistsError, p)).
Proof.
  intros [Hf Ht] Hrow.
  unfold collectionRow, databaseHealthy, pluginsRegisteredForCreate in *.
  explode p. cbn in Hf, Ht, Hrow. subst.
  split.
  - intros callerPid requestId s e us acm Hres Hreg. cbn in Hreg.
    apply andb_true_iff in Hreg as [Hreg Hep].
    apply andb_true_iff in Hreg as [Hes Hsp].
    apply contains_true in Hsp as [sp Hsp]. apply contains_true in Hep as [ep Hep].
    destruct (decide (s = e)) as [->|Hse].
    + rewrite bool_decide_eq_true_2 in Hes by done. cbn in Hes.
      apply contains_true in Hes as [es Hes].
      replay. reflexivity.
    + replay. reflexivity.
  - intros. replay. reflexivity.
Qed.

Lemma existing_collection_is_not_created_again_witness :
  (forall (callerPid requestId : Z) (s e : QString)
       (unlockSemantic : DeviceLockUnlockSemantic) (accessControlMode : AccessControlMode),
      isReservedName "vault" = false ->
      pluginsRegisteredForCreate Sample.withVault s e = true ->
      createDeviceLockCollection callerPid requestId "vault" s e unlockSemantic
        accessControlMode Sample.withVault
      = Some (ResultOfError CollectionAlreadyExistsError, Sample.withVault))
  /\ (forall (callerPid requestId : Z) (s e a : QString)
        (unlockSemantic timeoutMs accessControlMode : Z)
        (mode : UserInteractionMode) (ui : QString) (key : QByteArray),
      createCustomLockCollectionWithAuthenticationKey callerPid requestId "vault" s e a
        unlockSemantic timeoutMs accessControlMode mode ui key Sample.withVault
      = Some (ResultOfError CollectionAlreadyExistsError, Sample.withVault)).
Proof.
  apply (existing_collection_is_not_created_again Sample.withVault "vault"
           (mkRow "appA" 1 "sqlite" "openssl" DefaultAuthenticationPluginName 0 0 0)).
  - split; vm_compute; reflexivity.
  - vm_compute; reflexivity.
Defined.

(** X3.  For a name that has no row, setting, reading and deleting a
    secret, and the continuation of the delete, answer
    [InvalidCollectionError] and change nothing; deleting the
    collection itself succeeds and changes nothing. *)
Theorem missing_collection_is_reported
    (Sha3_256 : QByteArray -> QByteArray) (p : RequestProcessor)
    (callerPid requestId : Z) (c secretName : QString)
    (mode : UserInteractionMode) (ui : QString) :
  Qt.isEmpty secretName = false ->
  Qt.isEmpty c = false ->
  isReservedName c = false ->
  databaseHealthy p ->
  collectionRow p c = None ->
  (forall secret : QByteArray,
      setCollectionSecret Sha3_256 callerPid requestId c secretName secret mode ui p
      = Some (ResultOfError InvalidCollectionError, p))
  /\ getCollectionSecret Sha3_256 callerPid requestId c secretName mode ui p
     = Some ((ResultOfError InvalidCollectionError, EmptyString), p)
  /\ deleteCollectionSecret Sha3_256 callerPid requestId c secretName mode ui p
     = Some (ResultOfError InvalidCollectionError, p)
  /\ (forall key : QByteArray,
      deleteCollectionSecretWithAuthenticationKey Sha3_256 callerPid requestId c secretName
        mode ui key p
      = Some (ResultOfError InvalidCollectionError, p))
  /\ deleteCollection callerPid requestId c mode p = Some (ResultOfCode Succeeded, p).
Proof.
  intros Hs Hc Hres [Hf Ht] Hrow.
  unfold collectionRow in *. explode p. cbn in Hf, Ht, Hrow. subst.
  repeat (apply conj); intros; pursue; reflexivity.
Qed.

Lemma missing_collection_is_reported_witness :
  (forall secret : QByteArray,
      setCollectionSecret Sample.digest 1 2 "nowhere" "pwd" secret
        PreventUserInteractionMode EmptyString Sample.ready
      = Some (ResultOfError InvalidCollectionError, Sample.ready))
  /\ getCollectionSecret Sample.digest 1 2 "nowhere" "pwd" PreventUserInteractionMode
       EmptyString Sample.ready
     = Some ((ResultOfError InvalidCollectionError, EmptyString), Sample.ready)
  /\ deleteCollectionSecret Sample.digest 1 2 "nowhere" "pwd" PreventUserInteractionMode
       EmptyString Sample.ready
     = Some (ResultOfError InvalidCollectionError, Sample.ready)
  /\ (forall key : QByteArray,
      deleteCollectionSecretWithAuthenticationKey Sample.digest 1 2 "nowhere" "pwd"
        PreventUserInteractionMode EmptyString key Sample.ready
      = Some (ResultOfError InvalidCollectionError, Sample.ready))
  /\ deleteCollection 1 2 "nowhere" PreventUserInteractionMode Sample.ready
     = Some (ResultOfCode Succeeded, Sample.ready).
Proof.
  apply (missing_collection_is_reported Sample.digest Sample.ready 1 2 "nowhere" "pwd"
           PreventUserInteractionMode EmptyString).
  - reflexivity.
  - reflexivity.
  - reflexivity.
  - split; vm_compute; reflexivity.
  - vm_compute; reflexivity.
Defined.

(** X4.  The reserved name [standalone], in any letter case, is refused
    by every operation on collections with [InvalidCollectionError],
    before any plugin or table is consulted; nothing changes. *)
Theorem reserved_collection_name_is_refused
    (Sha3_256 : QByteArray -> QByteArray) (p : RequestProcessor)
    (callerPid requestId : Z) (c secretName : QString)
    (mode : UserInteractionMode) (ui : QString) :
  Qt.foldCaseString c = standaloneCollectionName ->
  (forall (s e : QString) (semantic : DeviceLockUnlockSemantic) (acm : AccessControlMode),
      createDeviceLockCollection callerPid requestId c s e semantic acm p
      = Some (ResultOfError InvalidCollectionError, p))
  /\ (forall (s e a : QString) (semantic : CustomLockUnlockSemantic) (timeoutMs : Z)
        (acm : AccessControlMode),
      createCustomLockCollection callerPid requestId c s e a semantic timeoutMs acm mode ui p
      = Some (ResultOfError InvalidCollectionError, p))
  /\ deleteCollection callerPid requestId c mode p
     = Some (ResultOfError InvalidCollectionError, p)
  /\ (Qt.isEmpty secretName = false ->
      (forall secret : QByteArray,
          setCollectionSecret Sha3_256 callerPid requestId c secretName secret mode ui p
          = Some (ResultOfError InvalidCollectionError, p))
      /\ getCollectionSecret Sha3_256 callerPid requestId c secretName mode ui p
         = Some ((ResultOfError InvalidCollectionError, EmptyString), p)
      /\ deleteCollectionSecret Sha3_256 callerPid requestId c secretName mode ui p
         = Some (ResultOfError InvalidCollectionError, p)).
Proof.
  intros Hfold.
  assert (Hres : isReservedName c = true).
  { unfold isReservedName, Qt.equalsCaseInsensitive. rewrite Hfold. reflexivity. }
  assert (Hc : Qt.isEmpty c = false) by (destruct c; [discriminate Hfold | reflexivity]).
  repeat (apply conj); intros; repeat (apply conj); intros; pursue; reflexivity.
Qed.

Lemma reserved_collection_name_is_refused_witness :
  (forall (s e : QString) (semantic : DeviceLockUnlockSemantic) (acm : AccessControlMode),
      createDeviceLockCollection 1 2 "StandAlone" s e semantic acm Sample.ready
      = Some (ResultOfError InvalidCollectionError, Sample.ready))
  /\ deleteCollection 1 2 "StandAlone" PreventUserInteractionMode Sample.ready
     = Some (ResultOfError InvalidCollectionError, Sample.ready).
Proof.
  destruct (reserved_collection_name_is_refused Sample.digest Sample.ready 1 2
              "StandAlone" "pwd" PreventUserInteractionMode EmptyString)
    as (Hcreate & _ & Hdelete & _).
  - vm_compute; reflexivity.
  - split; [exact Hcreate | exact Hdelete].
Defined.

(** ** Locked collections *)

(** X5.  A collection on plain storage for which no key is cached,
    asked for without a way to authenticate (it uses the device lock,
    or the caller forbids user interaction), refuses to set, delete and
    read a secret of it: with [CollectionIsLockedError] for the device
    lock, with [OperationRequiresUserInteraction] otherwise; nothing
    changes. *)
Theorem locked_collection_refuses_without_interaction
    (Sha3_256 : QByteArray -> QByteArray) (p : RequestProcessor)
    (callerPid requestId : Z) (c secretName : QString) (row : Row)
    (mode : UserInteractionMode) (ui : QString) :
  Qt.isEmpty secretName = false ->
  Qt.isEmpty c = false ->
  isReservedName c = false ->
  ownedBy p callerPid c row ->
  plainLocked p c row ->
  0 < rowUsesDeviceLockKey row \/ mode = PreventUserInteractionMode ->
  (forall secret : QByteArray,
      setCollectionSecret Sha3_256 callerPid requestId c secretName secret mode ui p
      = Some (lockedRefusal row, p))
  /\ deleteCollectionSecret Sha3_256 callerPid requestId c secretName mode ui p
     = Some (lockedRefusal row, p)
  /\ (interactionAllowed p row mode ui ->
      getCollectionSecret Sha3_256 callerPid requestId c secretName mode ui p
      = Some ((lockedRefusal row, EmptyString), p)).
Proof.
  intros Hs Hc Hres ((Hf & Ht) & Hrow & Hacm & Howner)
    (Hse & Hrs & Hre & Hsp & Hep & Hkey) Hwhy.
  unfold collectionRow, callerOf, lockedRefusal, interactionAllowed in *.
  destruct row as [owner uses rs re auth sem timeout acm].
  explode p.
  cbn in Hf, Ht, Hrow, Hacm, Howner, Hse, Hrs, Hre, Hsp, Hep, Hkey, Hwhy.
  subst.
  apply contains_true in Hsp as [sp Hsp]. apply contains_true in Hep as [ep Hep].
  cbn [rowUsesDeviceLockKey rowAuthenticationPluginName].
  destruct (0 <? uses) eqn:Huses.
  - split; [|split].
    + intros secret. pursue. reflexivity.
    + pursue. reflexivity.
    + intros (ap & Hauth & Hallowed). cbn in Hauth.
      interaction Hallowed; pursue; reflexivity.
  - destruct Hwhy as [Hlt | ->]; [apply Z.ltb_lt in Hlt; congruence|].
    split; [|split].
    + intros secret. pursue. reflexivity.
    + pursue. reflexivity.
    + intros (ap & Hauth & Hallowed). cbn in Hauth.
      unfold requiresInProcess in Hallowed.
      destruct ap as [kind ? ?]; destruct kind; cbn in Hallowed; [discriminate|].
      pursue. reflexivity.
Qed.

Lemma locked_collection_refuses_without_interaction_witness :
  (forall secret : QByteArray,
      setCollectionSecret Sample.digest 1 4 "diary" "pwd" secret
        PreventUserInteractionMode EmptyString Sample.lockedDiary
      = Some (ResultOfError OperationRequiresUserInteraction, Sample.lockedDiary))
  /\ deleteCollectionSecret Sample.digest 1 4 "diary" "pwd" PreventUserInteractionMode
       EmptyString Sample.lockedDiary
     = Some (ResultOfError OperationRequiresUserInteraction, Sample.lockedDiary).
Proof.
  destruct (locked_collection_refuses_without_interaction Sample.digest Sample.lockedDiary
              1 4 "diary" "pwd" (mkRow "appA" 0 "sqlite" "openssl" "inapp" 8 0 0)
              PreventUserInteractionMode EmptyString)
    as (Hset & Hdelete & _).
  - reflexivity.
  - reflexivity.
  - reflexivity.
  - repeat (apply conj); vm_compute; reflexivity.
  - repeat (apply conj); try (vm_compute; reflexivity). vm_compute; discriminate.
  - right; reflexivity.
  - split; [exact Hset | exact Hdelete].
Defined.

(** X6.  On a locked custom-lock collection, setting, deleting and
    reading a secret with user interaction allowed answer [Pending]:
    the authentication plugin of the collection begins one flow for the
    caller, no row is written and no key cached.  When that flow
    succeeds with a key and the compiled daemon evaluates the arguments
    of the continuation call in the order written,
    [authenticationCompleted] runs the continuation of the same
    operation with the arguments of the original call and that key,
    whatever the plugin reports about the caller, and hands the result
    to the queue. *)
Theorem parked_request_resumes_with_its_arguments
    (Sha3_256 : QByteArray -> QByteArray) (evaluationOrder : RequestType -> list nat)
    (convert : QMetaType -> QVariant -> QVariant) (p : RequestProcessor)
    (callerPid requestId : Z) (c secretName : QString) (row : Row)
    (mode : UserInteractionMode) (ui : QString) (plugin : AuthenticationPlugin.t) :
  Qt.isEmpty secretName = false ->
  Qt.isEmpty c = false ->
  isReservedName c = false ->
  ownedBy p callerPid c row ->
  collectionLocked p c row ->
  rowUsesDeviceLockKey row <= 0 ->
  mode <> PreventUserInteractionMode ->
  authenticationReady p row plugin ->
  let flow :=
    AuthenticationPlugin.mkBegun callerPid requestId (callerOf p callerPid)
      c secretName ui in
  (forall secret : QByteArray,
      exists p1,
        setCollectionSecret Sha3_256 callerPid requestId c secretName secret mode ui p
        = Some (ResultOfCode Pending, p1)
        /\ flowBegun p p1 (rowAuthenticationPluginName row) plugin flow
        /\ forall (pid : Z) (app c' s' ui' : QString) (key : QByteArray),
             evaluationOrder SetCollectionSecretRequest = seq 0 13 ->
             authenticationCompleted Sha3_256 evaluationOrder convert pid requestId
               app c' s' ui'
               (ResultOfCode Succeeded) key p1
             = finishWith requestId
                 (withoutSecret
                    (setCollectionSecretWithAuthenticationKey Sha3_256 callerPid requestId
                       c secretName secret mode ui (0 <? rowUsesDeviceLockKey row)
                       (rowApplicationId row) (rowStoragePluginName row)
                       (rowEncryptionPluginName row) (rowAuthenticationPluginName row)
                       (rowUnlockSemantic row) (rowCustomLockTimeoutMs row)
                       (rowAccessControlMode row) key))
                 (unparked requestId p1))
  /\ (exists p1,
        deleteCollectionSecret Sha3_256 callerPid requestId c secretName mode ui p
        = Some (ResultOfCode Pending, p1)
        /\ flowBegun p p1 (rowAuthenticationPluginName row) plugin flow
        /\ forall (pid : Z) (app c' s' ui' : QString) (key : QByteArray),
             evaluationOrder DeleteCollectionSecretRequest = seq 0 4 ->
             authenticationCompleted Sha3_256 evaluationOrder convert pid requestId
               app c' s' ui'
               (ResultOfCode Succeeded) key p1
             = finishWith requestId
                 (withoutSecret
                    (deleteCollectionSecretWithAuthenticationKey Sha3_256 callerPid
                       requestId c secretName mode ui key))
                 (unparked requestId p1))
  /\ (requiresInProcess plugin mode ui = false ->
      exists p1,
        getCollectionSecret Sha3_256 callerPid requestId c secretName mode ui p
        = Some ((ResultOfCode Pending, EmptyString), p1)
        /\ flowBegun p p1 (rowAuthenticationPluginName row) plugin flow
        /\ forall (pid : Z) (app c' s' ui' : QString) (key : QByteArray),
             evaluationOrder GetCollectionSecretRequest = seq 0 8 ->
             authenticationCompleted Sha3_256 evaluationOrder convert pid requestId
               app c' s' ui'
               (ResultOfCode Succeeded) key p1
             = finishWith requestId
                 (getCollectionSecretWithAuthenticationKey Sha3_256 callerPid requestId
                    c secretName mode ui (rowStoragePluginName row)
                    (rowEncryptionPluginName row) (rowUnlockSemantic row)
                    (rowCustomLockTimeoutMs row) key)
                 (unparked requestId p1)).
Proof.
  intros Hs Hc Hres ((Hf & Ht) & Hrow & Hacm & Howner) Hlocked Huses Hmode
    (Hauth & Hscript) flow. subst flow.
  unfold collectionRow, callerOf, flowBegun, collectionLocked, plainLocked,
    encryptedReports, requiresInProcess in *.
  destruct row as [owner uses rs re auth sem timeout acm].
  destruct plugin as [kind begun script].
  explode p.
  cbn in Hf, Ht, Hrow, Hacm, Howner, Hlocked, Huses, Hauth, Hscript.
  subst.
  assert (Hnot : (0 <? uses) = false) by (apply Z.ltb_ge; lia).
  cbn [rowUsesDeviceLockKey rowAuthenticationPluginName rowApplicationId
       rowStoragePluginName rowEncryptionPluginName rowUnlockSemantic
       rowCustomLockTimeoutMs rowAccessControlMode
       AuthenticationPlugin.authenticationType].
  destruct Hlocked as [(Hse & Hrs & Hre & Hsp & Hep & Hkey)
                      |(Hse & [cols ss script] & Hplugin & Hscript & Hlocked)].
  - apply contains_true in Hsp as [sp Hsp]. apply contains_true in Hep as [ep Hep].
    destruct mode; [done| |].
    + split; [|split].
      * intros secret. eexists. split; [pursue; reflexivity|]. split; [begun|].
        intros pid app c' s' ui' key Horder. rewrite Hnot. resumed Horder.
      * eexists. split; [pursue; reflexivity|]. split; [begun|].
        intros pid app c' s' ui' key Horder. resumed Horder.
      * intros Hallowed. destruct kind; cbn in Hallowed; [discriminate|].
        eexists. split; [pursue; reflexivity|]. split; [begun|].
        intros pid app c' s' ui' key Horder. resumed Horder.
    + split; [|split].
      * intros secret. eexists. split; [pursue; reflexivity|]. split; [begun|].
        intros pid app c' s' ui' key Horder. rewrite Hnot. resumed Horder.
      * eexists. split; [pursue; reflexivity|]. split; [begun|].
        intros pid app c' s' ui' key Horder. resumed Horder.
      * intros Hallowed.
        destruct kind; cbn in Hallowed.
        -- eexists. split; [pursue; reflexivity|]. split; [begun|].
           intros pid app c' s' ui' key Horder. resumed Horder.
        -- eexists. split; [pursue; reflexivity|]. split; [begun|].
           intros pid app c' s' ui' key Horder. resumed Horder.
  - cbn in Hse, Hplugin, Hscript, Hlocked. subst.
    destruct (cols !! c) as [[ck applied held]|] eqn:Hcol; [|discriminate].
    unfold EncryptedStoragePlugin.locked in Hlocked. cbn in Hlocked.
    apply negb_true_iff in Hlocked.
    destruct mode; [done| |].
    + split; [|split].
      * intros secret. eexists. split; [pursue; reflexivity|]. split; [begun|].
        intros pid app c' s' ui' key Horder. rewrite Hnot. resumed Horder.
      * eexists. split; [pursue; reflexivity|]. split; [begun|].
        intros pid app c' s' ui' key Horder. resumed Horder.
      * intros Hallowed. destruct kind; cbn in Hallowed; [discriminate|].
        eexists. split; [pursue; reflexivity|]. split; [begun|].
        intros pid app c' s' ui' key Horder. resumed Horder.
    + split; [|split].
      * intros secret. eexists. split; [pursue; reflexivity|]. split; [begun|].
        intros pid app c' s' ui' key Horder. rewrite Hnot. resumed Horder.
      * eexists. split; [pursue; reflexivity|]. split; [begun|].
        intros pid app c' s' ui' key Horder. resumed Horder.
      * intros Hallowed.
        destruct kind; cbn in Hallowed.
        -- eexists. split; [pursue; reflexivity|]. split; [begun|].
           intros pid app c' s' ui' key Horder. resumed Horder.
        -- eexists. split; [pursue; reflexivity|]. split; [begun|].
           intros pid app c' s' ui' key Horder. resumed Horder.
Qed.

Lemma parked_request_resumes_with_its_arguments_witness :
  exists p1,
    deleteCollectionSecret Sample.digest 1 4 "diary" "pwd" InProcessUserInteractionMode "ui"
      Sample.lockedDiary
    = Some (ResultOfCode Pending, p1)
    /\ forall (pid : Z) (app c' s' ui' : QString) (key : QByteArray),
         authenticationCompleted Sample.digest Sample.leftToRight Sample.unconverted
           pid 4 app c' s' ui'
           (ResultOfCode Succeeded) key p1
         = finishWith 4
             (withoutSecret
                (deleteCollectionSecretWithAuthenticationKey Sample.digest 1 4 "diary" "pwd"
                   InProcessUserInteractionMode "ui" key))
             (unparked 4 p1).
Proof.
  destruct (parked_request_resumes_with_its_arguments Sample.digest Sample.leftToRight
              Sample.unconverted Sample.lockedDiary
              1 4 "diary" "pwd" (mkRow "appA" 0 "sqlite" "openssl" "inapp" 8 0 0)
              InProcessUserInteractionMode "ui" Sample.inApp)
    as (_ & (p1 & Hrun & _ & Hresume) & _).
  - reflexivity.
  - reflexivity.
  - reflexivity.
  - repeat (apply conj); vm_compute; reflexivity.
  - left. repeat (apply conj); try (vm_compute; reflexivity). vm_compute; discriminate.
  - cbn; lia.
  - discriminate.
  - split; vm_compute; reflexivity.
  - exists p1. split; [exact Hrun|].
    intros pid app c' s' ui' key. apply Hresume. reflexivity.
Defined.

(** X7.  A custom-lock create for a free name with registered plugins
    and user interaction allowed answers [Pending]: the named
    authentication plugin begins one flow, no row is written.  When the
    flow succeeds with a key and the compiled daemon evaluates the
    arguments of the continuation call in the order written,
    [authenticationCompleted] runs
    [createCustomLockCollectionWithAuthenticationKey] with the
    arguments of the original call and that key. *)
Theorem custom_lock_create_resumes_with_its_arguments
    (p : RequestProcessor) (Sha3_256 : QByteArray -> QByteArray)
    (evaluationOrder : RequestType -> list nat)
    (convert : QMetaType -> QVariant -> QVariant)
    (callerPid requestId : Z) (c s e a : QString)
    (unlockSemantic : CustomLockUnlockSemantic) (timeoutMs : Z)
    (accessControlMode : AccessControlMode) (mode : UserInteractionMode) (ui : QString)
    (plugin : AuthenticationPlugin.t) :
  databaseHealthy p ->
  collectionRow p c = None ->
  isReservedName c = false ->
  pluginsRegisteredForCreate p s e = true ->
  m_authenticationPlugins p !! a = Some plugin ->
  AuthenticationPlugin.script plugin = [] ->
  requiresInProcess plugin mode ui = false ->
  mode <> PreventUserInteractionMode ->
  exists p1,
    createCustomLockCollection callerPid requestId c s e a unlockSemantic timeoutMs
      accessControlMode mode ui p
    = Some (ResultOfCode Pending, p1)
    /\ flowBegun p p1 a plugin
         (AuthenticationPlugin.mkBegun callerPid requestId (callerOf p callerPid)
            c EmptyString ui)
    /\ forall (pid : Z) (app c' s' ui' : QString) (key : QByteArray),
         evaluationOrder CreateCustomLockCollectionRequest = seq 0 9 ->
         authenticationCompleted Sha3_256 evaluationOrder convert pid requestId
           app c' s' ui'
           (ResultOfCode Succeeded) key p1
         = finishWith requestId
             (withoutSecret
                (createCustomLockCollectionWithAuthenticationKey callerPid requestId
                   c s e a (intOfCustomLockUnlockSemantic unlockSemantic) timeoutMs
                   (intOfAccessControlMode accessControlMode) mode ui key))
             (unparked requestId p1).
Proof.
  intros [Hf Ht] Hrow Hres Hreg Hauth Hscript Hallowed Hmode.
  unfold collectionRow, callerOf, flowBegun, pluginsRegisteredForCreate,
    requiresInProcess in *.
  destruct plugin as [kind begun script].
  explode p.
  cbn in Hf, Ht, Hrow, Hreg, Hauth, Hscript, Hallowed. subst.
  apply andb_true_iff in Hreg as [Hreg Hep].
  apply andb_true_iff in Hreg as [Hes Hsp].
  apply contains_true in Hsp as [sp Hsp]. apply contains_true in Hep as [ep Hep].
  destruct (decide (s = e)) as [->|Hse].
  - rewrite bool_decide_eq_true_2 in Hes by done. cbn in Hes.
    apply contains_true in Hes as [es Hes].
    destruct mode; [done| |]; destruct kind; cbn in Hallowed; try discriminate.
    all: eexists; (split; [pursue; reflexivity|]); (split; [begun|]);
      intros pid app c' s' ui' key Horder; resumed Horder.
  - clear Hes.
    destruct mode; [done| |]; destruct kind; cbn in Hallowed; try discriminate.
    all: eexists; (split; [pursue; reflexivity|]); (split; [begun|]);
      intros pid app c' s' ui' key Horder; resumed Horder.
Qed.

Lemma custom_lock_create_resumes_with_its_arguments_witness :
  exists p1,
    createCustomLockCollection 1 5 "diary" "sqlite" "openssl" "inapp"
      CustomLockTimoutRelock 50 OwnerOnlyMode InProcessUserInteractionMode "ui" Sample.ready
    = Some (ResultOfCode Pending, p1)
    /\ flowBegun Sample.ready p1 "inapp" Sample.inApp
         (AuthenticationPlugin.mkBegun 1 5 (callerOf Sample.ready 1) "diary" EmptyString "ui")
    /\ forall (pid : Z) (app c' s' ui' : QString) (key : QByteArray),
         authenticationCompleted Sample.digest Sample.leftToRight Sample.unconverted
           pid 5 app c' s' ui'
           (ResultOfCode Succeeded) key p1
         = finishWith 5
             (withoutSecret
                (createCustomLockCollectionWithAuthenticationKey 1 5 "diary" "sqlite"
                   "openssl" "inapp" (intOfCustomLockUnlockSemantic CustomLockTimoutRelock) 50
                   (intOfAccessControlMode OwnerOnlyMode) InProcessUserInteractionMode "ui"
                   key))
             (unparked 5 p1).
Proof.
  destruct (custom_lock_create_resumes_with_its_arguments Sample.ready Sample.digest
              Sample.leftToRight Sample.unconverted 1 5 "diary" "sqlite" "openssl" "inapp"
              CustomLockTimoutRelock 50 OwnerOnlyMode InProcessUserInteractionMode "ui"
              Sample.inApp)
    as (p1 & Hrun & Hbegun & Hresume).
  - split; vm_compute; reflexivity.
  - vm_compute; reflexivity.
  - reflexivity.
  - vm_compute; reflexivity.
  - vm_compute; reflexivity.
  - reflexivity.
  - reflexivity.
  - discriminate.
  - exists p1. split; [exact Hrun|]. split; [exact Hbegun|].
    intros pid app c' s' ui' key. apply Hresume. reflexivity.
Defined.

(** ** Collections in an encrypted-storage plugin *)

(** X8.  Deleting a secret of a device-lock collection held by an
    encrypted-storage plugin never succeeds: a locked collection
    answers [CollectionIsLockedError], and an unlocked one is handed
    the empty key and answers [IncorrectAuthenticationKeyError].  The
    tables, the plugin and the parked requests are as before. *)
Theorem device_lock_encrypted_collection_refuses_delete
    (Sha3_256 : QByteArray -> QByteArray) (p : RequestProcessor)
    (callerPid requestId : Z) (c secretName : QString) (row : Row)
    (mode : UserInteractionMode) (ui : QString) (locked : bool) :
  Qt.isEmpty secretName = false ->
  Qt.isEmpty c = false ->
  isReservedName c = false ->
  ownedBy p callerPid c row ->
  0 < rowUsesDeviceLockKey row ->
  encryptedReports p c row locked ->
  exists p',
    deleteCollectionSecret Sha3_256 callerPid requestId c secretName mode ui p
    = Some (ResultOfError (if locked then CollectionIsLockedError
                           else IncorrectAuthenticationKeyError), p')
    /\ m_db p' = m_db p
    /\ m_encryptedStoragePlugins p' = m_encryptedStoragePlugins p
    /\ m_pendingRequests p' = m_pendingRequests p.
Proof.
  intros Hs Hc Hres ((Hf & Ht) & Hrow & Hacm & Howner) Huses
    (Hse & plugin & Hplugin & Hscript & Hlocked).
  unfold collectionRow, callerOf in *.
  destruct row as [owner uses rs re auth sem timeout acm].
  destruct plugin as [cols ss script].
  explode p.
  cbn in Hf, Ht, Hrow, Hacm, Howner, Huses, Hse, Hplugin, Hscript, Hlocked.
  subst.
  apply Z.ltb_lt in Huses.
  destruct (cols !! c) as [[ck applied held]|] eqn:Hcol.
  - unfold EncryptedStoragePlugin.locked. cbn.
    destruct (bool_decide (applied = Some ck)) eqn:Hl; cbn.
    + eexists. split; [replay; settle; reflexivity|]. cbn.
      repeat (apply conj); try done. by apply insert_id.
    + eexists. split; [replay; settle; reflexivity|]. cbn.
      repeat (apply conj); try done. by apply insert_id.
  - eexists. split; [replay; settle; reflexivity|]. cbn.
    repeat (apply conj); try done. by apply insert_id.
Qed.

Lemma device_lock_encrypted_collection_refuses_delete_witness :
  exists p',
    deleteCollectionSecret Sample.digest 1 3 "strongbox" "pwd"
      PreventUserInteractionMode EmptyString Sample.strongboxWithSecret
    = Some (ResultOfError IncorrectAuthenticationKeyError, p')
    /\ m_db p' = m_db Sample.strongboxWithSecret
    /\ m_encryptedStoragePlugins p' = m_encryptedStoragePlugins Sample.strongboxWithSecret
    /\ m_pendingRequests p' = m_pendingRequests Sample.strongboxWithSecret.
Proof.
  apply (device_lock_encrypted_collection_refuses_delete Sample.digest
           Sample.strongboxWithSecret 1 3 "strongbox" "pwd"
           (mkRow "appA" 1 "sqlcipher" "sqlcipher" DefaultAuthenticationPluginName 0 0 0)
           PreventUserInteractionMode EmptyString false).
  - reflexivity.
  - reflexivity.
  - reflexivity.
  - repeat (apply conj); vm_compute; reflexivity.
  - cbn. lia.
  - split; [reflexivity|]. eexists. repeat (apply conj); vm_compute; reflexivity.
Defined.

(** The secret that the collection keeps. *)
Example strongbox_holds_secret :
  valueOf (getCollectionSecret Sample.digest 1 3 "strongbox" "pwd"
             PreventUserInteractionMode EmptyString Sample.strongboxWithSecret)
  = Some (ResultOfCode Succeeded, "pass").
Proof. vm_compute. reflexivity. Qed.

(** X9.  The continuation of the set operation, given a key other than
    the one of a locked collection in an encrypted-storage plugin,
    answers [IncorrectAuthenticationKeyError] after it has written the
    row of the secret: the row stays in the [Secrets] table, although
    the plugin, locked again, holds no such secret. *)
Theorem refused_key_leaves_secret_row (Sha3_256 : QByteArray -> QByteArray)
    (p : RequestProcessor) (s c : QString) (plugin : EncryptedStoragePlugin.t)
    (col : EncryptedStoragePlugin.Collection) (key : QByteArray)
    (callerPid requestId : Z) (secretName : QString) (secret : QByteArray)
    (mode : UserInteractionMode) (ui : QString) (usesDeviceLockKey : bool)
    (owner authentication : QString) (semantic timeoutMs accessControlMode : Z) :
  m_encryptedStoragePlugins p !! s = Some plugin ->
  EncryptedStoragePlugin.script plugin = [] ->
  EncryptedStoragePlugin.collections plugin !! c = Some col ->
  EncryptedStoragePlugin.locked col = true ->
  key <> EncryptedStoragePlugin.collectionKey col ->
  databaseHealthy p ->
  is_Some (collectionRow p c) ->
  secretRow p c (generateHashedSecretName Sha3_256 c secretName) = None ->
  exists p',
    setCollectionSecretWithAuthenticationKey Sha3_256 callerPid requestId c secretName
      secret mode ui usesDeviceLockKey owner s s authentication semantic timeoutMs
      accessControlMode key p
    = Some (ResultOfError IncorrectAuthenticationKeyError, p')
    /\ secretRow p' c (generateHashedSecretName Sha3_256 c secretName)
       = Some (mkRow owner (if usesDeviceLockKey then 1 else 0) s s authentication
                 semantic timeoutMs accessControlMode)
    /\ databaseHealthy p'
    /\ exists plugin',
         m_encryptedStoragePlugins p' !! s = Some plugin'
         /\ EncryptedStoragePlugin.collections plugin' !! c
            = Some (EncryptedStoragePlugin.mkCollection
                      (EncryptedStoragePlugin.collectionKey col) None
                      (EncryptedStoragePlugin.secrets col)).
Proof.
  intros Hplugin Hscript Hcol Hlocked Hkey [Hf Ht] [row Hrow] Hsecret.
  unfold EncryptedStoragePlugin.locked, databaseHealthy, collectionRow, secretRow in *.
  destruct plugin as [cols ss script]. destruct col as [ck applied held].
  explode p. cbn in Hplugin, Hscript, Hcol, Hlocked, Hkey, Hf, Ht, Hrow, Hsecret. subst.
  apply negb_true_iff in Hlocked.
  eexists. split; [replay; settle; reflexivity|]. cbn.
  split; [apply lookup_insert_eq|]. split; [done|].
  eexists. split; [rewrite ?lookup_insert_eq; reflexivity|].
  cbn. rewrite ?lookup_insert_eq. reflexivity.
Qed.

Lemma refused_key_leaves_secret_row_witness :
  exists p',
    setCollectionSecretWithAuthenticationKey Sample.digest 1 2 "safe" "pwd" "pass"
      InProcessUserInteractionMode "ui" false "appA" "sqlcipher" "sqlcipher" "inapp" 8 0 0
      "wrong" Sample.lockedSafe
    = Some (ResultOfError IncorrectAuthenticationKeyError, p')
    /\ secretRow p' "safe" (generateHashedSecretName Sample.digest "safe" "pwd")
       = Some (mkRow "appA" 0 "sqlcipher" "sqlcipher" "inapp" 8 0 0).
Proof.
  destruct (refused_key_leaves_secret_row Sample.digest Sample.lockedSafe "sqlcipher" "safe"
              (EncryptedStoragePlugin.mk
                 {[ "safe" := EncryptedStoragePlugin.mkCollection "k1" None ∅ ]} ∅ [])
              (EncryptedStoragePlugin.mkCollection "k1" None ∅) "wrong"
              1 2 "pwd" "pass" InProcessUserInteractionMode "ui" false "appA" "inapp" 8 0 0)
    as (p' & Hrun & Hrow & _).
  - vm_compute; reflexivity.
  - reflexivity.
  - vm_compute; reflexivity.
  - reflexivity.
  - discriminate.
  - split; vm_compute; reflexivity.
  - eexists; vm_compute; reflexivity.
  - vm_compute; reflexivity.
  - exists p'. split; [exact Hrun | exact Hrow].
Defined.

(** X10.  When the lock timer of an unlocked collection in an
    encrypted-storage plugin fires, [timeoutRelockCollection] drops the
    timer and nothing else: the plugin is not asked to lock the
    collection, and the next read still returns the secrets it
    holds. *)
Theorem timeout_leaves_encrypted_collection_unlocked
    (Sha3_256 : QByteArray -> QByteArray) (p : RequestProcessor)
    (callerPid requestId : Z) (c secretName : QString) (row : Row)
    (mode : UserInteractionMode) (ui : QString) (held : gmap string QByteArray)
    (t : QTimer) :
  Qt.isEmpty secretName = false ->
  Qt.isEmpty c = false ->
  isReservedName c = false ->
  ownedBy p callerPid c row ->
  interactionAllowed p row mode ui ->
  encryptedUnlocked p c row held ->
  timerIsOnlyFor (m_collectionLockTimers p) c t ->
  exists p1 p2,
    timeoutRelockCollection (timerId t) p = Some (tt, p1)
    /\ m_collectionLockTimers p1 !! c = None
    /\ getCollectionSecret Sha3_256 callerPid requestId c secretName mode ui p1
       = Some (match held !! generateHashedSecretName Sha3_256 c secretName with
               | Some secret => (ResultOfCode Succeeded, secret)
               | None => (ResultOfError InvalidSecretError, EmptyString)
               end, p2).
Proof.
  intros Hs Hc Hres Howned Hallowed Hunlocked Htimer.
  assert (Hstep : exists p1, timeoutRelockCollection (timerId t) p = Some (tt, p1)
            /\ m_collectionLockTimers p1 !! c = None
            /\ ownedBy p1 callerPid c row /\ interactionAllowed p1 row mode ui
            /\ encryptedUnlocked p1 c row held).
  { unfold timeoutRelockCollection, modify.
    rewrite (timerOwner_unique _ _ _ Htimer).
    eexists. split; [reflexivity|]. destruct p. cbn in *.
    split; [apply lookup_delete_eq|]. auto. }
  destruct Hstep as (p1 & Hrun & Hgone & Howned1 & Hallowed1 & Hunlocked1).
  destruct (get_encrypted Sha3_256 callerPid c secretName Hs Hc Hres p1 requestId row
              mode ui held Howned1 Hallowed1 Hunlocked1) as [p2 Hget].
  exists p1, p2. auto.
Qed.

Lemma timeout_leaves_encrypted_collection_unlocked_witness :
  exists p1 p2,
    timeoutRelockCollection (timerId (mkQTimer 0 50)) Sample.journalRead = Some (tt, p1)
    /\ m_collectionLockTimers p1 !! "journal" = None
    /\ getCollectionSecret Sample.digest 1 4 "journal" "pwd" InProcessUserInteractionMode
         "ui" p1
       = Some ((ResultOfCode Succeeded, "pass"), p2).
Proof.
  destruct (timeout_leaves_encrypted_collection_unlocked Sample.digest Sample.journalRead
              1 4 "journal" "pwd" (mkRow "appA" 0 "sqlcipher" "sqlcipher" "inapp" 10 50 0)
              InProcessUserInteractionMode "ui"
              {[ generateHashedSecretName Sample.digest "journal" "pwd" := "pass" ]}
              (mkQTimer 0 50))
    as (p1 & p2 & Hrun & Hgone & Hget).
  - reflexivity.
  - reflexivity.
  - reflexivity.
  - repeat (apply conj); vm_compute; reflexivity.
  - exists Sample.inApp. split; vm_compute; reflexivity.
  - split; [reflexivity|].
    exists (EncryptedStoragePlugin.mk
              {[ "journal" := EncryptedStoragePlugin.mkCollection "k1" (Some "k1")
                                {[ generateHashedSecretName Sample.digest "journal" "pwd"
                                   := "pass" ]} ]} ∅ []),
      (EncryptedStoragePlugin.mkCollection "k1" (Some "k1")
         {[ generateHashedSecretName Sample.digest "journal" "pwd" := "pass" ]}).
    repeat (apply conj); vm_compute; reflexivity.
  - split; [vm_compute; reflexivity|].
    intros other t'.
    change (m_collectionLockTimers Sample.journalRead)
      with (<["journal" := mkQTimer 0 50]> (∅ : gmap string QTimer)).
    intros Hother _. destruct (decide (other = "journal")) as [->|Hne]; [reflexivity|].
    rewrite lookup_insert_ne in Hother by congruence. rewrite lookup_empty in Hother.
    discriminate.
  - rewrite lookup_singleton_eq in Hget. exists p1, p2. auto.
Defined.

(** ** Standalone secrets *)

(** X11.  [deleteStandaloneSecret] answers [Succeeded] when the storage
    plugin has refused to remove the secret: the row of the secret and
    what the plugin holds are as before. *)
Theorem deleteStandaloneSecret_hides_plugin_failure
    (Sha3_256 : QByteArray -> QByteArray) (p : RequestProcessor)
    (callerPid requestId : Z) (secretName : QString) (mode : UserInteractionMode)
    (row : Row) (storage : StoragePlugin.t) (r : Result) (rest : list (option Result)) :
  databaseHealthy p ->
  secretRow p standaloneCollectionName
    (generateHashedSecretName Sha3_256 standaloneCollectionName secretName) = Some row ->
  rowAccessControlMode row = intOfAccessControlMode OwnerOnlyMode ->
  rowApplicationId row = callerOf p callerPid ->
  rowStoragePluginName row <> rowEncryptionPluginName row ->
  m_storagePlugins p !! rowStoragePluginName row = Some storage ->
  StoragePlugin.script storage = Some r :: rest ->
  contains (m_encryptionPlugins p) (rowEncryptionPluginName row) = true ->
  isSucceeded r = false ->
  exists p',
    deleteStandaloneSecret Sha3_256 callerPid requestId secretName mode p
    = Some (ResultOfCode Succeeded, p')
    /\ secretRow p' standaloneCollectionName
         (generateHashedSecretName Sha3_256 standaloneCollectionName secretName) = Some row
    /\ m_storagePlugins p' !! rowStoragePluginName row
       = Some (StoragePlugin.mk (StoragePlugin.collections storage) rest)
    /\ m_standaloneSecretAuthenticationKeys p' = m_standaloneSecretAuthenticationKeys p.
Proof.
  intros (Hf & Ht) Hrow Hacm Howner Hse Hsp Hscript Hep Hr.
  unfold databaseHealthy, secretRow, callerOf in *.
  destruct row as [owner uses rs re auth sem timeout acm].
  destruct storage as [cols script]. destruct r as [rc ec].
  explode p.
  cbn in Hf, Ht, Hrow, Hacm, Howner, Hse, Hsp, Hscript, Hep, Hr. subst.
  apply contains_true in Hep as [ep Hep].
  destruct rc; [discriminate Hr| |].
  - eexists. split; [replay; settle; reflexivity|]. cbn.
    repeat (apply conj); try done. apply lookup_insert_eq.
  - eexists. split; [replay; settle; reflexivity|]. cbn.
    repeat (apply conj); try done. apply lookup_insert_eq.
Qed.

Lemma deleteStandaloneSecret_hides_plugin_failure_witness :
  exists p',
    deleteStandaloneSecret Sample.digest 1 4 "pin" PreventUserInteractionMode
      Sample.pinRefusingRemoval
    = Some (ResultOfCode Succeeded, p')
    /\ secretRow p' standaloneCollectionName
         (generateHashedSecretName Sample.digest standaloneCollectionName "pin")
       = Some (mkRow "appA" 1 "sqlite" "openssl" DefaultAuthenticationPluginName 0 0 0).
Proof.
  destruct (m_storagePlugins Sample.pinRefusingRemoval !! "sqlite") as [storage|] eqn:Hsp;
    [|vm_compute in Hsp; discriminate Hsp].
  destruct (deleteStandaloneSecret_hides_plugin_failure Sample.digest
              Sample.pinRefusingRemoval 1 4 "pin" PreventUserInteractionMode
              (mkRow "appA" 1 "sqlite" "openssl" DefaultAuthenticationPluginName 0 0 0)
              storage (ResultOfError UnknownError) [])
    as (p' & Hrun & Hrow & _).
  - split; vm_compute; reflexivity.
  - vm_compute; reflexivity.
  - reflexivity.
  - vm_compute; reflexivity.
  - discriminate.
  - exact Hsp.
  - vm_compute in Hsp. injection Hsp as <-. reflexivity.
  - vm_compute; reflexivity.
  - reflexivity.
  - exists p'. split; [exact Hrun | exact Hrow].
Defined.

Lemma equalsCaseInsensitive_refl (s : QString) : Qt.equalsCaseInsensitive s s = true.
Proof. unfold Qt.equalsCaseInsensitive. apply String.eqb_refl. Qed.

(** The custom-lock set operation on a standalone secret whose row says
    it uses the device lock key. *)
Lemma standalone_custom_update_refused (Sha3_256 : QByteArray -> QByteArray)
    (p : RequestProcessor) (callerPid requestId : Z) (secretName : QString) (row : Row)
    (s e a : QString) (secret : QByteArray) (semantic : CustomLockUnlockSemantic)
    (timeoutMs : Z) (accessControlMode : AccessControlMode)
    (mode : UserInteractionMode) (ui : QString) :
  Qt.isEmpty secretName = false ->
  databaseHealthy p ->
  secretRow p standaloneCollectionName
    (generateHashedSecretName Sha3_256 standaloneCollectionName secretName) = Some row ->
  rowApplicationId row = callerOf p callerPid ->
  0 < rowUsesDeviceLockKey row ->
  setStandaloneCustomLockSecret Sha3_256 callerPid requestId s e a secretName secret
    semantic timeoutMs accessControlMode mode ui p
  = Some (ResultOfError (updateRefusal p s e), p).
Proof.
  intros Hs [Hf Ht] Hrow Howner Huses.
  unfold secretRow, callerOf, updateRefusal in *.
  destruct row as [owner uses rs re auth sem timeout acm].
  explode p. cbn in Hf, Ht, Hrow, Howner, Huses. subst.
  apply Z.ltb_lt in Huses.
  destruct (acm =? 0) eqn:Hacm.
  - checked s e.
  - checked s e.
Qed.

(** X12.  A standalone secret stored by the continuation of the
    custom-lock set operation gets a row that says it uses the device
    lock key; every later custom-lock set of that secret by the same
    caller, whatever plugins it names, is therefore refused and changes
    nothing: with [OperationNotSupportedError] when the storage and
    encryption plugins it names are registered, and with
    [InvalidExtensionPluginError], from the checks that come first,
    when they are not.  The secret cannot be updated. *)
Theorem custom_lock_standalone_secret_cannot_be_updated
    (Sha3_256 : QByteArray -> QByteArray) (p : RequestProcessor)
    (callerPid requestId : Z) (s e a secretName : QString) (secret : QByteArray)
    (unlockSemantic timeoutMs accessControlMode : Z)
    (mode : UserInteractionMode) (ui : QString) (key : QByteArray) :
  Qt.isEmpty secretName = false ->
  databaseHealthy p ->
  is_Some (collectionRow p standaloneCollectionName) ->
  secretRow p standaloneCollectionName
    (generateHashedSecretName Sha3_256 standaloneCollectionName secretName) = None ->
  standaloneStoreReady p s e secret key ->
  exists p',
    setStandaloneCustomLockSecretWithAuthenticationKey Sha3_256 callerPid requestId
      s e a secretName secret unlockSemantic timeoutMs accessControlMode mode ui key p
    = Some (ResultOfCode Succeeded, p')
    /\ secretRow p' standaloneCollectionName
         (generateHashedSecretName Sha3_256 standaloneCollectionName secretName)
       = Some (mkRow (callerOf p callerPid) 1 s e a unlockSemantic timeoutMs
                 accessControlMode)
    /\ forall (requestId' : Z) (s' e' a' : QString) (secret' : QByteArray)
         (semantic' : CustomLockUnlockSemantic) (timeoutMs' : Z)
         (accessControlMode' : AccessControlMode) (mode' : UserInteractionMode)
         (ui' : QString),
         setStandaloneCustomLockSecret Sha3_256 callerPid requestId' s' e' a' secretName
           secret' semantic' timeoutMs' accessControlMode' mode' ui' p'
         = Some (ResultOfError (updateRefusal p' s' e'), p').
Proof.
  intros Hs [Hf Ht] [standalone Hcol] Hrow Hready.
  assert (Hstep : exists p',
    setStandaloneCustomLockSecretWithAuthenticationKey Sha3_256 callerPid requestId
      s e a secretName secret unlockSemantic timeoutMs accessControlMode mode ui key p
    = Some (ResultOfCode Succeeded, p')
    /\ secretRow p' standaloneCollectionName
         (generateHashedSecretName Sha3_256 standaloneCollectionName secretName)
       = Some (mkRow (callerOf p callerPid) 1 s e a unlockSemantic timeoutMs
                 accessControlMode)
    /\ databaseHealthy p'
    /\ callerOf p' callerPid = callerOf p callerPid
    /\ pluginsRegistered p' s e = true).
  { unfold secretRow, collectionRow, callerOf, standaloneStoreReady, databaseHealthy,
      pluginsRegistered in *.
    explode p. cbn in Hf, Ht, Hcol, Hrow, Hready. subst.
    destruct (decide (s = e)) as [->|Hse].
    - rewrite bool_decide_eq_true_2 in Hready by done.
      destruct Hready as ([cols ss script] & Hplugin & Hscript).
      cbn in Hscript. subst.
      eexists. split; [pursue; reflexivity|].
      split; [cbn; apply lookup_insert_eq|].
      split; [cbn; done|]. split; [reflexivity|].
      cbn. rewrite bool_decide_eq_true_2 by done.
      unfold contains. by rewrite lookup_insert_eq.
    - rewrite bool_decide_eq_false_2 in Hready by done.
      destruct Hready as (([cols script] & held & Hsp & Hscript & Hheld)
                          & [enc dec] & cipher & Hep & Henc).
      cbn in Hscript, Hheld, Henc. subst.
      eexists. split; [pursue; reflexivity|].
      split; [cbn; apply lookup_insert_eq|].
      split; [cbn; done|]. split; [reflexivity|].
      cbn. rewrite bool_decide_eq_false_2 by done.
      unfold contains. rewrite lookup_insert_eq, Hep. reflexivity. }
  destruct Hstep as (p' & Hrun & Hrow' & Hhealthy & Hcaller & Hreg).
  exists p'. split; [exact Hrun|]. split; [exact Hrow'|].
  intros requestId' s' e' a' secret' semantic' timeoutMs' acm' mode' ui'.
  eapply standalone_custom_update_refused; eauto.
  cbn. lia.
Qed.

Lemma custom_lock_standalone_secret_cannot_be_updated_witness :
  exists p',
    setStandaloneCustomLockSecretWithAuthenticationKey Sample.digest 1 1
      "sqlite" "openssl" "inapp" "pin" "1234" 10 50 0 InProcessUserInteractionMode "ui" "k1"
      Sample.ready
    = Some (ResultOfCode Succeeded, p')
    /\ forall (requestId' : Z) (s' e' a' : QString) (secret' : QByteArray)
         (semantic' : CustomLockUnlockSemantic) (timeoutMs' : Z)
         (accessControlMode' : AccessControlMode) (mode' : UserInteractionMode)
         (ui' : QString),
         setStandaloneCustomLockSecret Sample.digest 1 requestId' s' e' a' "pin"
           secret' semantic' timeoutMs' accessControlMode' mode' ui' p'
         = Some (ResultOfError (updateRefusal p' s' e'), p').
Proof.
  destruct (custom_lock_standalone_secret_cannot_be_updated Sample.digest Sample.ready 1 1
              "sqlite" "openssl" "inapp" "pin" "1234" 10 50 0 InProcessUserInteractionMode
              "ui" "k1")
    as (p' & Hrun & _ & Hlater).
  - reflexivity.
  - split; vm_compute; reflexivity.
  - eexists; vm_compute; reflexivity.
  - vm_compute; reflexivity.
  - unfold standaloneStoreReady. rewrite bool_decide_eq_false_2 by discriminate.
    split.
    + exists Sample.storage, ∅. repeat (apply conj); vm_compute; reflexivity.
    + exists Sample.cipher, ("k1" +:+ "1234"). split; vm_compute; reflexivity.
  - exists p'. split; [exact Hrun | exact Hlater].
Defined.

(** Reading a standalone secret whose row says it uses the device lock
    key, when no key is cached for it. *)
Lemma standalone_get_without_cached_key (Sha3_256 : QByteArray -> QByteArray)
    (p : RequestProcessor) (callerPid requestId : Z) (secretName : QString) (row : Row)
    (mode : UserInteractionMode) (ui : QString) :
  Qt.isEmpty secretName = false ->
  databaseHealthy p ->
  secretRow p standaloneCollectionName
    (generateHashedSecretName Sha3_256 standaloneCollectionName secretName) = Some row ->
  rowAccessControlMode row = intOfAccessControlMode OwnerOnlyMode ->
  rowApplicationId row = callerOf p callerPid ->
  0 < rowUsesDeviceLockKey row ->
  pluginsRegistered p (rowStoragePluginName row) (rowEncryptionPluginName row) = true ->
  interactionAllowed p row mode ui ->
  m_standaloneSecretAuthenticationKeys p
    !! generateHashedSecretName Sha3_256 standaloneCollectionName secretName = None ->
  getStandaloneSecret Sha3_256 callerPid requestId secretName mode ui p
  = Some ((ResultOfError CollectionIsLockedError, EmptyString), p).
Proof.
  intros Hs [Hf Ht] Hrow Hacm Howner Huses Hreg (ap & Hauth & Hallowed) Hkey.
  unfold secretRow, callerOf in *.
  destruct row as [owner uses rs re auth sem timeout acm].
  explode p. cbn in Hf, Ht, Hrow, Hacm, Howner, Huses, Hauth, Hkey. subst.
  apply Z.ltb_lt in Huses.
  registered Hreg; subst; interaction Hallowed; pursue; reflexivity.
Qed.

Lemma stored_encrypted_is_locked (Sha3_256 : QByteArray -> QByteArray)
    (p p' : RequestProcessor) (callerPid requestId : Z) (s a secretName : QString)
    (secret key : QByteArray) (mode : UserInteractionMode) (ui : QString)
    (authentication : AuthenticationPlugin.t) :
  Qt.isEmpty secretName = false ->
  m_standaloneSecretAuthenticationKeys p
    !! generateHashedSecretName Sha3_256 standaloneCollectionName secretName = None ->
  storedEncrypted Sha3_256 p p' callerPid s a secretName secret key ->
  m_authenticationPlugins p !! a = Some authentication ->
  requiresInProcess authentication mode ui = false ->
  getStandaloneSecret Sha3_256 callerPid requestId secretName mode ui p'
  = Some ((ResultOfError CollectionIsLockedError, EmptyString), p').
Proof.
  intros Hs Hkey ((plugin' & Hplugin' & _) & (row & Hrow & Howner & Huses & Hrs & Hre
                   & Ha & Hacm) & Hhealthy & Hauth' & Hkeys') Hauth Hallowed.
  eapply standalone_get_without_cached_key; eauto.
  - lia.
  - rewrite Hrs, Hre. unfold pluginsRegistered. rewrite bool_decide_eq_true_2 by done.
    unfold contains. by rewrite Hplugin'.
  - exists authentication. rewrite Ha, Hauth'. split; [exact Hauth | exact Hallowed].
  - rewrite Hkeys'. exact Hkey.
Qed.

(** X13.  A standalone secret stored in an encrypted-storage plugin
    (by the device-lock set operation, or by the continuation of the
    custom-lock one) is stored, but no key is cached for it; its row
    says it uses the device lock key, so the same caller reading it
    back gets [CollectionIsLockedError], not the secret. *)
Theorem standalone_secret_on_encrypted_storage_cannot_be_read
    (Sha3_256 : QByteArray -> QByteArray) (p : RequestProcessor)
    (callerPid requestId : Z) (s secretName : QString) (secret : QByteArray)
    (mode : UserInteractionMode) (plugin : EncryptedStoragePlugin.t) :
  Qt.isEmpty secretName = false ->
  databaseHealthy p ->
  is_Some (collectionRow p standaloneCollectionName) ->
  secretRow p standaloneCollectionName
    (generateHashedSecretName Sha3_256 standaloneCollectionName secretName) = None ->
  m_encryptedStoragePlugins p !! s = Some plugin ->
  EncryptedStoragePlugin.script plugin = [] ->
  m_standaloneSecretAuthenticationKeys p
    !! generateHashedSecretName Sha3_256 standaloneCollectionName secretName = None ->
  (forall unlockSemantic : DeviceLockUnlockSemantic,
      exists p',
        setStandaloneDeviceLockSecret Sha3_256 callerPid requestId s s secretName secret
          unlockSemantic OwnerOnlyMode mode p
        = Some (ResultOfCode Succeeded, p')
        /\ storedEncrypted Sha3_256 p p' callerPid s DefaultAuthenticationPluginName
             secretName secret DeviceLockKey
        /\ forall (requestId' : Z) (mode' : UserInteractionMode) (ui' : QString)
             (authentication : AuthenticationPlugin.t),
             m_authenticationPlugins p !! DefaultAuthenticationPluginName
             = Some authentication ->
             requiresInProcess authentication mode' ui' = false ->
             getStandaloneSecret Sha3_256 callerPid requestId' secretName mode' ui' p'
             = Some ((ResultOfError CollectionIsLockedError, EmptyString), p'))
  /\ (forall (a : QString) (unlockSemantic timeoutMs : Z) (ui : QString)
         (key : QByteArray),
      exists p',
        setStandaloneCustomLockSecretWithAuthenticationKey Sha3_256 callerPid requestId
          s s a secretName secret unlockSemantic timeoutMs
          (intOfAccessControlMode OwnerOnlyMode) mode ui key p
        = Some (ResultOfCode Succeeded, p')
        /\ storedEncrypted Sha3_256 p p' callerPid s a secretName secret key
        /\ forall (requestId' : Z) (mode' : UserInteractionMode) (ui' : QString)
             (authentication : AuthenticationPlugin.t),
             m_authenticationPlugins p !! a = Some authentication ->
             requiresInProcess authentication mode' ui' = false ->
             getStandaloneSecret Sha3_256 callerPid requestId' secretName mode' ui' p'
             = Some ((ResultOfError CollectionIsLockedError, EmptyString), p')).
Proof.
  intros Hs Hhealthy [standalone Hcol] Hrow Hplugin Hscript Hkey.
  split.
  - intros unlockSemantic.
    assert (Hstep : exists p',
      setStandaloneDeviceLockSecret Sha3_256 callerPid requestId s s secretName secret
        unlockSemantic OwnerOnlyMode mode p
      = Some (ResultOfCode Succeeded, p')
      /\ storedEncrypted Sha3_256 p p' callerPid s DefaultAuthenticationPluginName
           secretName secret DeviceLockKey).
    { destruct Hhealthy as [Hf Ht].
      unfold storedEncrypted, secretRow, collectionRow, callerOf, databaseHealthy in *.
      destruct plugin as [cols ss script].
      explode p. cbn in Hf, Ht, Hcol, Hrow, Hplugin, Hscript, Hkey. subst.
      eexists. split; [pursue; reflexivity|].
      split; [eexists; split; [cbn; apply lookup_insert_eq | cbn; apply lookup_insert_eq]|].
      split; [eexists; split; [cbn; apply lookup_insert_eq | repeat (apply conj); reflexivity]|].
      repeat (apply conj); reflexivity. }
    destruct Hstep as (p' & Hrun & Hstored).
    exists p'. split; [exact Hrun|]. split; [exact Hstored|].
    intros requestId' mode' ui' authentication Hauth Hallowed.
    eapply stored_encrypted_is_locked; eauto.
  - intros a unlockSemantic timeoutMs ui key.
    assert (Hstep : exists p',
      setStandaloneCustomLockSecretWithAuthenticationKey Sha3_256 callerPid requestId
        s s a secretName secret unlockSemantic timeoutMs
        (intOfAccessControlMode OwnerOnlyMode) mode ui key p
      = Some (ResultOfCode Succeeded, p')
      /\ storedEncrypted Sha3_256 p p' callerPid s a secretName secret key).
    { destruct Hhealthy as [Hf Ht].
      unfold storedEncrypted, secretRow, collectionRow, callerOf, databaseHealthy in *.
      destruct plugin as [cols ss script].
      explode p. cbn in Hf, Ht, Hcol, Hrow, Hplugin, Hscript, Hkey. subst.
      eexists. split; [pursue; reflexivity|].
      split; [eexists; split; [cbn; apply lookup_insert_eq | cbn; apply lookup_insert_eq]|].
      split; [eexists; split; [cbn; apply lookup_insert_eq | repeat (apply conj); reflexivity]|].
      repeat (apply conj); reflexivity. }
    destruct Hstep as (p' & Hrun & Hstored).
    exists p'. split; [exact Hrun|]. split; [exact Hstored|].
    intros requestId' mode' ui' authentication Hauth Hallowed.
    eapply stored_encrypted_is_locked; eauto.
Qed.

Lemma standalone_secret_on_encrypted_storage_cannot_be_read_witness :
  exists p',
    setStandaloneDeviceLockSecret Sample.digest 1 1 "sqlcipher" "sqlcipher" "pin" "1234"
      DeviceLockKeepUnlocked OwnerOnlyMode PreventUserInteractionMode Sample.ready
    = Some (ResultOfCode Succeeded, p')
    /\ getStandaloneSecret Sample.digest 1 2 "pin" PreventUserInteractionMode EmptyString p'
       = Some ((ResultOfError CollectionIsLockedError, EmptyString), p').
Proof.
  destruct (standalone_secret_on_encrypted_storage_cannot_be_read Sample.digest Sample.ready
              1 1 "sqlcipher" "pin" "1234" PreventUserInteractionMode
              Sample.encryptedStorage)
    as (Hdevice & _).
  - reflexivity.
  - split; vm_compute; reflexivity.
  - eexists; vm_compute; reflexivity.
  - vm_compute; reflexivity.
  - vm_compute; reflexivity.
  - reflexivity.
  - vm_compute; reflexivity.
  - destruct (Hdevice DeviceLockKeepUnlocked) as (p' & Hrun & _ & Hget).
    exists p'. split; [exact Hrun|].
    apply (Hget 2 PreventUserInteractionMode EmptyString Sample.systemAuthentication).
    + vm_compute; reflexivity.
    + reflexivity.
Defined.

(** ** Deleting a collection when the database fails *)

(** X23.  [deleteCollection] removes the collection from its plugin and
    drops the cached key before it deletes the row.  When one of the
    four database calls of the DELETE fails, it reports the database
    error and stops: the row of the collection stays in the
    [Collections] table, for a collection that the plugin no longer
    holds; no transaction is left open. *)
Theorem failed_delete_leaves_master_row (p : RequestProcessor) (c : QString) (row : Row)
    (callerPid requestId : Z) (mode : UserInteractionMode) (n : nat)
    (later : list bool) :
  collectionRow p c = Some row ->
  isReservedName c = false ->
  Qt.isEmpty c = false ->
  Database.transaction (m_db p) = None ->
  Database.faults (m_db p) = ([false; false] ++ replicate n false ++ true :: later)%list ->
  (n <= 3)%nat ->
  Qt.isEmpty (rowStoragePluginName row) = false ->
  contains (m_storagePlugins p) (rowStoragePluginName row) = true ->
  pluginScript p (rowStoragePluginName row) (rowEncryptionPluginName row) = Some [] ->
  exists p',
    deleteCollection callerPid requestId c mode p
    = Some (ResultOfError (deleteFailure n), p')
    /\ collectionRow p' c = Some row
    /\ pluginSideCollection p' (rowStoragePluginName row) (rowEncryptionPluginName row) c
       = false
    /\ m_collectionAuthenticationKeys p' !! c = None
    /\ Database.transaction (m_db p') = None
    /\ Database.faults (m_db p') = later.
Proof.
  intros Hrow Hres Hc Ht Hf Hn Hs Hsp Hscript.
  apply contains_true in Hsp as [sp Hsp].
  unfold pluginScript, pluginSideCollection, collectionRow in *.
  destruct row as [owner uses s e auth sem timeout acm].
  explode p. cbn in *. subst.
  destruct (decide (s = e)) as [->|Hse].
  - rewrite bool_decide_eq_true_2 in * by done.
    destruct (encryptedPlugins !! e) as [[cols ss script]|] eqn:Hes; [|done].
    cbn in Hscript. injection Hscript as ->.
    destruct n as [|[|[|[|n]]]]; [..|lia]; cbn [replicate app deleteFailure].
    all: eexists; split; [pursue; reflexivity|].
    all: cbn; repeat (apply conj); try done; try (apply lookup_delete_eq).
    all: rewrite lookup_insert_eq; cbn; unfold contains; by rewrite lookup_delete_eq.
  - rewrite bool_decide_eq_false_2 in * by done.
    rewrite Hsp in Hscript. destruct sp as [cols script].
    cbn in Hscript. injection Hscript as ->.
    destruct n as [|[|[|[|n]]]]; [..|lia]; cbn [replicate app deleteFailure].
    all: eexists; split; [pursue; reflexivity|].
    all: cbn; repeat (apply conj); try done; try (apply lookup_delete_eq).
    all: rewrite lookup_insert_eq; cbn; unfold contains; by rewrite lookup_delete_eq.
Qed.

Lemma failed_delete_leaves_master_row_witness :
  exists p',
    deleteCollection 1 9 "vault" PreventUserInteractionMode Sample.vaultFailingDelete
    = Some (ResultOfError DatabaseQueryError, p')
    /\ collectionRow p' "vault"
       = Some (mkRow "appA" 1 "sqlite" "openssl" DefaultAuthenticationPluginName 0 0 0)
    /\ pluginSideCollection p' "sqlite" "openssl" "vault" = false.
Proof.
  destruct (failed_delete_leaves_master_row Sample.vaultFailingDelete "vault"
              (mkRow "appA" 1 "sqlite" "openssl" DefaultAuthenticationPluginName 0 0 0)
              1 9 PreventUserInteractionMode 0 [])
    as (p' & Hrun & Hrow & Hside & _).
  - vm_compute; reflexivity.
  - reflexivity.
  - reflexivity.
  - reflexivity.
  - reflexivity.
  - lia.
  - reflexivity.
  - vm_compute; reflexivity.
  - vm_compute; reflexivity.
  - exists p'. split; [exact Hrun|]. split; [exact Hrow | exact Hside].
Defined.

(** ** The operations and the queue *)

Module Independence.

Lemma of_ret {A : Type} (a : A) : independentOfQueue (ret a).
Proof. intros p x. reflexivity. Qed.

Lemma of_bind {A B : Type} (m : M A) (k : A -> M B) :
  independentOfQueue m -> (forall a, independentOfQueue (k a)) ->
  independentOfQueue (bind m k).
Proof.
  intros Hm Hk p x. unfold bind. rewrite Hm.
  destruct (m p) as [[a p']|]; [apply Hk | reflexivity].
Qed.

(** [this], of which the member functions read members other than the
    queue. *)
Lemma of_this {A : Type} (k : RequestProcessor -> M A) :
  (forall this, independentOfQueue (k this)) ->
  (forall this x, k (withRequestQueue this x) = k this) ->
  independentOfQueue (bind (gets (fun p => p)) k).
Proof.
  intros Hk Hthis p x. unfold bind, gets. rewrite Hthis. apply Hk.
Qed.

Lemma of_gets {A : Type} (f : RequestProcessor -> A) :
  (forall p x, f (withRequestQueue p x) = f p) -> independentOfQueue (gets f).
Proof. intros Hf p x. unfold gets. by rewrite Hf. Qed.

Lemma of_modify (f : RequestProcessor -> RequestProcessor) :
  (forall p x, f (withRequestQueue p x) = withRequestQueue (f p) x) ->
  independentOfQueue (modify f).
Proof. intros Hf p x. unfold modify. by rewrite Hf. Qed.

Lemma of_db {A : Type} (f : Database.t -> A * Database.t) : independentOfQueue (db f).
Proof. intros p x. unfold db. cbn. destruct (f (m_db p)). reflexivity. Qed.

Lemma of_callStorage {A : Type} (name : QString) (ev : PluginCall)
    (f : StoragePlugin.t -> (Result * A) * StoragePlugin.t) :
  independentOfQueue (callStorage name ev f).
Proof.
  intros p x. unfold callStorage. cbn.
  destruct (m_storagePlugins p !! name); [|reflexivity]. by destruct (f _).
Qed.

Lemma of_callEncryptedStorage {A : Type} (name : QString) (ev : PluginCall)
    (f : EncryptedStoragePlugin.t -> (Result * A) * EncryptedStoragePlugin.t) :
  independentOfQueue (callEncryptedStorage name ev f).
Proof.
  intros p x. unfold callEncryptedStorage. cbn.
  destruct (m_encryptedStoragePlugins p !! name); [|reflexivity]. by destruct (f _).
Qed.

Lemma of_callEncrypt (name : QString) (plain key : QByteArray) :
  independentOfQueue (callEncrypt name plain key).
Proof.
  intros p x. unfold callEncrypt. cbn. by destruct (m_encryptionPlugins p !! name).
Qed.

Lemma of_callDecrypt (name : QString) (cipher key : QByteArray) :
  independentOfQueue (callDecrypt name cipher key).
Proof.
  intros p x. unfold callDecrypt. cbn. by destruct (m_encryptionPlugins p !! name).
Qed.

Lemma of_authenticationTypeOf (name : QString) :
  independentOfQueue (authenticationTypeOf name).
Proof.
  intros p x. unfold authenticationTypeOf. cbn.
  by destruct (m_authenticationPlugins p !! name).
Qed.

Lemma of_beginAuthentication (name : QString) (b : AuthenticationPlugin.Begun) :
  independentOfQueue (beginAuthentication name b).
Proof.
  intros p x. unfold beginAuthentication. cbn.
  destruct (m_authenticationPlugins p !! name); [|reflexivity].
  by destruct (AuthenticationPlugin.beginAuthentication b _).
Qed.

Lemma of_cacheCollectionKeyIfAbsent (c : QString) (key : QByteArray) :
  independentOfQueue (cacheCollectionKeyIfAbsent c key).
Proof.
  intros p x. unfold cacheCollectionKeyIfAbsent, modify. cbn.
  by destruct (contains (m_collectionAuthenticationKeys p) c).
Qed.

Lemma of_armCollectionLockTimer (c : QString) (timeoutMs : Z) :
  independentOfQueue (armCollectionLockTimer c timeoutMs).
Proof.
  intros p x. unfold armCollectionLockTimer, modify. cbn.
  by destruct (contains (m_collectionLockTimers p) c).
Qed.

Lemma of_armStandaloneSecretLockTimer (name : QString) (timeoutMs : Z) :
  independentOfQueue (armStandaloneSecretLockTimer name timeoutMs).
Proof.
  intros p x. unfold armStandaloneSecretLockTimer, modify. cbn.
  by destruct (contains (m_standaloneSecretLockTimers p) name).
Qed.

Lemma of_timeoutRelockCollection (timer : nat) :
  independentOfQueue (timeoutRelockCollection timer).
Proof.
  intros p x. unfold timeoutRelockCollection, modify. cbn.
  by destruct (timerOwner timer (m_collectionLockTimers p)).
Qed.

Lemma of_timeoutRelockSecret (timer : nat) :
  independentOfQueue (timeoutRelockSecret timer).
Proof.
  intros p x. unfold timeoutRelockSecret, modify. cbn.
  by destruct (timerOwner timer (m_standaloneSecretLockTimers p)).
Qed.

End Independence.

Ltac headOf t := lazymatch t with ?f _ => headOf f | _ => t end.

(** Walking a member function along its binds and branches. *)
Ltac independent :=
  repeat
    (intros;
     lazymatch goal with
     | |- independentOfQueue (bind (gets (fun p => p)) _) =>
         apply Independence.of_this; [intros ? | intros; reflexivity]
     | |- independentOfQueue (bind _ _) => apply Independence.of_bind
     | |- independentOfQueue (ret _) => apply Independence.of_ret
     | |- independentOfQueue (errorResult _) => apply Independence.of_ret
     | |- independentOfQueue (gets _) => apply Independence.of_gets; intros; reflexivity
     | |- independentOfQueue (modify _) => apply Independence.of_modify; intros; reflexivity
     | |- independentOfQueue (db _) => apply Independence.of_db
     | |- independentOfQueue (callStorage _ _ _) => apply Independence.of_callStorage
     | |- independentOfQueue (callEncryptedStorage _ _ _) =>
         apply Independence.of_callEncryptedStorage
     | |- independentOfQueue (callEncrypt _ _ _) => apply Independence.of_callEncrypt
     | |- independentOfQueue (callDecrypt _ _ _) => apply Independence.of_callDecrypt
     | |- independentOfQueue (authenticationTypeOf _) =>
         apply Independence.of_authenticationTypeOf
     | |- independentOfQueue (beginAuthentication _ _) =>
         apply Independence.of_beginAuthentication
     | |- independentOfQueue (cacheCollectionKeyIfAbsent _ _) =>
         apply Independence.of_cacheCollectionKeyIfAbsent
     | |- independentOfQueue (armCollectionLockTimer _ _) =>
         apply Independence.of_armCollectionLockTimer
     | |- independentOfQueue (armStandaloneSecretLockTimer _ _) =>
         apply Independence.of_armStandaloneSecretLockTimer
     | |- independentOfQueue (if ?b then _ else _) => destruct b
     | |- independentOfQueue (match ?x with _ => _ end) => destruct x
     | |- independentOfQueue (let _ := _ in _) => cbv zeta
     | |- independentOfQueue ?m =>
         let h := headOf m in unfold h
     end).

Section OperationsAndQueue.
Variable Sha3_256 : QByteArray -> QByteArray.
Variables (callerPid requestId : Z).

(** X14.  No operation of the processor, no continuation of one and
    neither timeout slot reads or writes the request queue: run with
    any other queue in place, each gives the same result and the same
    members, and leaves that queue as it was. *)
Theorem operations_are_independent_of_the_queue :
  (forall (c s e : QString) (semantic : DeviceLockUnlockSemantic) (acm : AccessControlMode),
      independentOfQueue (createDeviceLockCollection callerPid requestId c s e semantic acm))
  /\ (forall (c s e a : QString) (semantic : CustomLockUnlockSemantic) (timeoutMs : Z)
         (acm : AccessControlMode) (mode : UserInteractionMode) (ui : QString),
      independentOfQueue
        (createCustomLockCollection callerPid requestId c s e a semantic timeoutMs acm mode ui))
  /\ (forall (c s e a : QString) (semantic timeoutMs acm : Z)
         (mode : UserInteractionMode) (ui : QString) (key : QByteArray),
      independentOfQueue
        (createCustomLockCollectionWithAuthenticationKey callerPid requestId c s e a
           semantic timeoutMs acm mode ui key))
  /\ (forall (c : QString) (mode : UserInteractionMode),
      independentOfQueue (deleteCollection callerPid requestId c mode))
  /\ (forall (c name : QString) (secret : QByteArray) (mode : UserInteractionMode)
         (ui : QString),
      independentOfQueue
        (setCollectionSecret Sha3_256 callerPid requestId c name secret mode ui))
  /\ (forall (c name : QString) (secret : QByteArray) (mode : UserInteractionMode)
         (ui : QString) (uses : bool) (owner s e a : QString) (semantic timeoutMs acm : Z)
         (key : QByteArray),
      independentOfQueue
        (setCollectionSecretWithAuthenticationKey Sha3_256 callerPid requestId c name secret
           mode ui uses owner s e a semantic timeoutMs acm key))
  /\ (forall (s e name : QString) (secret : QByteArray)
         (semantic : DeviceLockUnlockSemantic) (acm : AccessControlMode)
         (mode : UserInteractionMode),
      independentOfQueue
        (setStandaloneDeviceLockSecret Sha3_256 callerPid requestId s e name secret
           semantic acm mode))
  /\ (forall (s e a name : QString) (secret : QByteArray)
         (semantic : CustomLockUnlockSemantic) (timeoutMs : Z) (acm : AccessControlMode)
         (mode : UserInteractionMode) (ui : QString),
      independentOfQueue
        (setStandaloneCustomLockSecret Sha3_256 callerPid requestId s e a name secret
           semantic timeoutMs acm mode ui))
  /\ (forall (s e a name : QString) (secret : QByteArray) (semantic timeoutMs acm : Z)
         (mode : UserInteractionMode) (ui : QString) (key : QByteArray),
      independentOfQueue
        (setStandaloneCustomLockSecretWithAuthenticationKey Sha3_256 callerPid requestId
           s e a name secret semantic timeoutMs acm mode ui key))
  /\ (forall (c name : QString) (mode : UserInteractionMode) (ui : QString),
      independentOfQueue (getCollectionSecret Sha3_256 callerPid requestId c name mode ui))
  /\ (forall (c name : QString) (mode : UserInteractionMode) (ui s e : QString)
         (semantic timeoutMs : Z) (key : QByteArray),
      independentOfQueue
        (getCollectionSecretWithAuthenticationKey Sha3_256 callerPid requestId c name
           mode ui s e semantic timeoutMs key))
  /\ (forall (name : QString) (mode : UserInteractionMode) (ui : QString),
      independentOfQueue (getStandaloneSecret Sha3_256 callerPid requestId name mode ui))
  /\ (forall (name : QString) (mode : UserInteractionMode) (ui s e : QString)
         (semantic timeoutMs : Z) (key : QByteArray),
      independentOfQueue
        (getStandaloneSecretWithAuthenticationKey Sha3_256 callerPid requestId name
           mode ui s e semantic timeoutMs key))
  /\ (forall (c name : QString) (mode : UserInteractionMode) (ui : QString),
      independentOfQueue
        (deleteCollectionSecret Sha3_256 callerPid requestId c name mode ui))
  /\ (forall (c name : QString) (mode : UserInteractionMode) (ui : QString)
         (key : QByteArray),
      independentOfQueue
        (deleteCollectionSecretWithAuthenticationKey Sha3_256 callerPid requestId c name
           mode ui key))
  /\ (forall (name : QString) (mode : UserInteractionMode),
      independentOfQueue (deleteStandaloneSecret Sha3_256 callerPid requestId name mode))
  /\ (forall timer : nat, independentOfQueue (timeoutRelockCollection timer))
  /\ (forall timer : nat, independentOfQueue (timeoutRelockSecret timer)).
Proof.
  repeat (apply conj); intros.
  all: try (apply Independence.of_timeoutRelockCollection).
  all: try (apply Independence.of_timeoutRelockSecret).
  all: independent.
Qed.

End OperationsAndQueue.

(** ** The queue and its processor *)

Module QueueSteps.
Import RequestQueue.

Lemma deviceLockUnlockSemantic_held (s : DeviceLockUnlockSemantic) :
  toDeviceLockUnlockSemantic (VDeviceLockUnlockSemantic s) = s.
Proof. by destruct s. Qed.

Lemma customLockUnlockSemantic_held (s : CustomLockUnlockSemantic) :
  toCustomLockUnlockSemantic (VCustomLockUnlockSemantic s) = s.
Proof. by destruct s. Qed.

Lemma accessControlMode_held (m : AccessControlMode) :
  toAccessControlMode (VAccessControlMode m) = m.
Proof. by destruct m. Qed.

Lemma userInteractionMode_held (m : UserInteractionMode) :
  toUserInteractionMode (VUserInteractionMode m) = m.
Proof. by destruct m. Qed.

Lemma slot_enqueues (call : Call) :
  slot call = handleRequest (requestTypeOf call) (argumentsOf call).
Proof. by destruct call. Qed.

Section Steps.
Variable Sha3_256 : QByteArray -> QByteArray.
Variables (q : SecretsRequestQueue.t) (c : Z).

Lemma processor_run {A : Type} (m : M A) (p p' : RequestProcessor) (a : A)
    (l : list RequestData) (s : list Sent) :
  independentOfQueue m ->
  m p = Some (a, p') ->
  processor m (queueOf q p c l s) = Some (a, queueOf q p' c l s).
Proof.
  intros Hm Hrun. unfold processor, queueOf. cbn. rewrite Hm, Hrun. reflexivity.
Qed.

Lemma requestAt_middle (p : RequestProcessor) (done rest : list RequestData)
    (x : RequestData) (s : list Sent) :
  requestAt (length done) (queueOf q p c (done ++ x :: rest) s)
  = Some (x, queueOf q p c (done ++ x :: rest) s).
Proof.
  unfold requestAt, queueOf, SecretsRequestQueue.m_requests. cbn.
  by rewrite list_lookup_middle.
Qed.

Lemma setRequestAt_middle (p : RequestProcessor) (done rest : list RequestData)
    (x y : RequestData) (s : list Sent) :
  setRequestAt (length done) y (queueOf q p c (done ++ x :: rest) s)
  = Some (tt, queueOf q p c (done ++ y :: rest) s).
Proof.
  unfold setRequestAt, queueOf, SecretsRequestQueue.withRequests,
    SecretsRequestQueue.m_requests. cbn.
  rewrite insert_app_r_alt by lia. rewrite Nat.sub_diag. reflexivity.
Qed.

Lemma eraseAt_middle (p : RequestProcessor) (done rest : list RequestData)
    (x : RequestData) (s : list Sent) :
  eraseAt (length done) (queueOf q p c (done ++ x :: rest) s)
  = Some (tt, queueOf q p c (done ++ rest) s).
Proof.
  unfold eraseAt, queueOf, SecretsRequestQueue.withRequests,
    SecretsRequestQueue.m_requests. cbn.
  rewrite take_app_length.
  replace (drop (S (length done)) (done ++ x :: rest)) with rest; [reflexivity|].
  rewrite (cons_middle x done rest), app_assoc.
  symmetry. apply drop_app_length'. rewrite length_app. cbn. lia.
Qed.

Lemma takeInParam_middle {A : Type} (read : QVariant -> A) (dflt : A)
    (p : RequestProcessor) (done rest : list RequestData) (x : RequestData)
    (v : QVariant) (others : list QVariant) (s : list Sent) :
  inParams x = v :: others ->
  takeInParam (length done) read dflt (queueOf q p c (done ++ x :: rest) s)
  = Some (read v, queueOf q p c (done ++ withInParams others x :: rest) s).
Proof.
  intros Hparams. unfold takeInParam, bindQ.
  rewrite requestAt_middle, Hparams, setRequestAt_middle. reflexivity.
Qed.

Lemma takeOutParam_middle {A : Type} (read : QVariant -> A) (dflt : A)
    (p : RequestProcessor) (done rest : list RequestData) (x : RequestData)
    (v : QVariant) (others : list QVariant) (s : list Sent) :
  outParams x = v :: others ->
  takeOutParam (length done) read dflt (queueOf q p c (done ++ x :: rest) s)
  = Some (read v, queueOf q p c (done ++ withOutParams others x :: rest) s).
Proof.
  intros Hparams. unfold takeOutParam, bindQ.
  rewrite requestAt_middle, Hparams, setRequestAt_middle. reflexivity.
Qed.

Lemma answer_middle (p : RequestProcessor) (done rest : list RequestData)
    (x : RequestData) (reply : Sent) (parameters : list QVariant) (result : Result)
    (s : list Sent) :
  (isSecretsCryptoRequest x = true ->
   SecretsRequestQueue.m_cryptoApiHelperRequests q !! cryptoRequestId x = None) ->
  answer (length done) reply parameters result (queueOf q p c (done ++ x :: rest) s)
  = Some (tt, queueOf q p c (done ++ x :: rest)
                (if isSecretsCryptoRequest x then s else s ++ [reply])).
Proof.
  intros Hunknown. unfold answer, bindQ. rewrite requestAt_middle.
  destruct (isSecretsCryptoRequest x); [|reflexivity].
  unfold asynchronousCryptoRequestCompleted, queueOf.
  cbn [SecretsRequestQueue.m_cryptoApiHelperRequests]. by rewrite Hunknown.
Qed.

(** The end of a case of [handlePendingRequest]. *)
Lemma replyOrWait_middle (p : RequestProcessor) (done rest : list RequestData)
    (x : RequestData) (result : Result) (outputs : list QVariant) (s : list Sent) :
  (isSecretsCryptoRequest x = true ->
   SecretsRequestQueue.m_cryptoApiHelperRequests q !! cryptoRequestId x = None) ->
  replyOrWait (length done) result outputs (queueOf q p c (done ++ x :: rest) s)
  = Some (negb (isPending result),
          queueOf q p c (done ++ x :: rest)
            (if isPending result || isSecretsCryptoRequest x then s
             else s ++ [Reply (requestId x) (VResult result :: outputs)])%list).
Proof.
  intros Hunknown. unfold replyOrWait.
  destruct (isPending result); [reflexivity|].
  unfold bindQ. rewrite requestAt_middle, answer_middle by done. reflexivity.
Qed.

Lemma performed_plain (m : M Result) (p p' : RequestProcessor) (result : Result)
    (outputs : list QVariant) :
  bind m (fun r => ret (r, [])) p = Some ((result, outputs), p') ->
  m p = Some (result, p') /\ outputs = [].
Proof.
  unfold bind, ret. destruct (m p) as [[r p'']|]; [|discriminate].
  intros [= -> <- ->]. done.
Qed.

Lemma performed_get (m : M (Result * QByteArray)) (p p' : RequestProcessor)
    (result : Result) (outputs : list QVariant) :
  bind m (fun r => ret (fst r, [VBytes (snd r)])) p = Some ((result, outputs), p') ->
  exists secret, m p = Some ((result, secret), p') /\ outputs = [VBytes secret].
Proof.
  unfold bind, ret. destruct (m p) as [[[r secret] p'']|]; [|discriminate].
  cbn. intros [= -> <- ->]. by exists secret.
Qed.

Ltac taken :=
  repeat (unfold bindQ at 1; erewrite takeInParam_middle; [|reflexivity];
          cbn [withInParams remotePid status type inParams outParams requestId
               isSecretsCryptoRequest cryptoRequestId]);
  rewrite ?deviceLockUnlockSemantic_held, ?customLockUnlockSemantic_held,
    ?accessControlMode_held, ?userInteractionMode_held;
  cbn [toQString toQByteArray toInt].

(** [handlePendingRequest] on the request that has been enqueued for
    a call: the member function of the call runs with the arguments of
    the call. *)
Lemma handlePendingRequest_of_call (call : Call) (pid id : Z) (status : RequestStatus)
    (crypto : bool) (cid : Z)
    (p p' : RequestProcessor) (done rest : list RequestData) (s : list Sent)
    (result : Result) (outputs : list QVariant) :
  (crypto = true -> SecretsRequestQueue.m_cryptoApiHelperRequests q !! cid = None) ->
  perform Sha3_256 call pid id p = Some ((result, outputs), p') ->
  handlePendingRequest Sha3_256 (length done)
    (queueOf q p c
       (done ++ mkRequestData pid status (intOfRequestType (requestTypeOf call))
                  (argumentsOf call) [] id crypto cid :: rest) s)
  = Some (negb (isPending result),
          queueOf q p' c
            (done ++ mkRequestData pid status (intOfRequestType (requestTypeOf call))
                       [] [] id crypto cid :: rest)
            (if isPending result || crypto then s
             else s ++ [Reply id (VResult result :: outputs)])%list).
Proof.
  intros Hunknown Hrun.
  destruct call;
    unfold handlePendingRequest; unfold bindQ at 1; rewrite requestAt_middle;
    cbn [type requestTypeOf intOfRequestType requestTypeOfInt Z.eqb Pos.eqb
         remotePid requestId argumentsOf];
    taken; unfold perform in Hrun.
  all: first
    [ apply performed_plain in Hrun as [Hrun ->]
    | apply performed_get in Hrun as (secret & Hrun & ->) ].
  all: unfold bindQ at 1; erewrite processor_run; [| |exact Hrun]; [|independent].
  all: cbn [fst snd]; rewrite replyOrWait_middle by exact Hunknown; reflexivity.
Qed.

Lemma finishFirst_middle (id : Z) (out : list QVariant) (done rest : list RequestData)
    (x : RequestData) :
  idInUse done id = false ->
  requestId x = id ->
  finishFirst id out (done ++ x :: rest) = (done ++ finish out x :: rest)%list.
Proof.
  intros Hfree Hid. induction done as [|r done IH]; cbn in *.
  - by rewrite Hid, Z.eqb_refl.
  - apply orb_false_iff in Hfree as [-> Hfree]. by rewrite IH.
Qed.

(** The completion of an operation reaches the queue. *)
Lemma finishWith_run (m : M (Result * QByteArray)) (id : Z) (p p' : RequestProcessor)
    (finished : Result * QByteArray) (l : list RequestData) (s : list Sent) :
  independentOfQueue m ->
  m p = Some (finished, p') ->
  processor (finishWith id m) (queueOf q p c l s)
  = Some (tt, queueOf q p' c
                (finishFirst id [VResult (fst finished); VBytes (snd finished)] l) s).
Proof.
  intros Hm Hrun. unfold processor, finishWith, bind, modify, queueOf. cbn.
  rewrite Hm, Hrun. cbn. destruct p'. reflexivity.
Qed.

(** [handleFinishedRequest] on a request of a client that has been
    finished with a result and a secret. *)
Lemma handleFinishedRequest_of_client (t : RequestType) (x : RequestData)
    (p : RequestProcessor) (done rest : list RequestData) (s : list Sent)
    (result : Result) (secret : QByteArray) :
  t <> InvalidRequest ->
  type x = intOfRequestType t ->
  isSecretsCryptoRequest x = false ->
  outParams x = [VResult result; VBytes secret] ->
  exists x',
    handleFinishedRequest (length done) (queueOf q p c (done ++ x :: rest) s)
    = Some (true,
            queueOf q p c (done ++ x' :: rest)
              (if isPending result then s
               else s ++ [Reply (requestId x)
                            (VResult result
                             :: if repliesWithSecret t then [VBytes secret] else [])])%list).
Proof.
  intros Hvalid Htype Hclient Hout.
  destruct x as [xpid xstatus xtype xins xouts xid xcrypto xcid].
  cbn in Htype, Hclient, Hout. subst.
  destruct t; [done|..];
    unfold handleFinishedRequest; unfold bindQ at 1; rewrite requestAt_middle;
    cbn [type requestTypeOf intOfRequestType requestTypeOfInt Z.eqb Pos.eqb
         remotePid requestId repliesWithSecret];
    (unfold bindQ at 1; erewrite takeOutParam_middle; [|reflexivity]);
    cbn [withOutParams remotePid status type inParams outParams requestId
         isSecretsCryptoRequest cryptoRequestId toResult];
    (destruct (isPending result); [eexists; reflexivity|]);
    repeat (unfold bindQ at 1; erewrite takeOutParam_middle; [|reflexivity];
            cbn [withOutParams remotePid status type inParams outParams requestId
                 isSecretsCryptoRequest cryptoRequestId toQByteArray]);
    unfold bindQ at 1; rewrite answer_middle by discriminate;
    eexists; reflexivity.
Qed.

(** The loop of [handleRequests] passes the requests in progress. *)
Lemma skip_in_progress (reqs : list RequestData) :
  forall (turns : nat) (done rest : list RequestData) (elapsed : list bool)
         (p : RequestProcessor) (s : list Sent),
    allInProgress reqs ->
    clockStaysUnder elapsed ->
    handleRequestsFrom Sha3_256 (length reqs + turns) (length done) elapsed
      (queueOf q p c (done ++ reqs ++ rest) s)
    = handleRequestsFrom Sha3_256 turns (length done + length reqs)
        (drop (length reqs) elapsed) (queueOf q p c (done ++ reqs ++ rest) s).
Proof.
  induction reqs as [|r reqs IH]; intros turns done rest elapsed p s Hall Hclock.
  - cbn. rewrite Nat.add_0_r. reflexivity.
  - inversion Hall as [|? ? Hr Hall']; subst.
    cbn [length Nat.add handleRequestsFrom].
    unfold queueOf at 1. unfold SecretsRequestQueue.m_requests at 1.
    cbn [SecretsRequestQueue.m_requestProcessor].
    cbn [m_requestQueue withRequestQueue RequestQueue.m_requests].
    change ((r :: reqs) ++ rest)%list with (r :: (reqs ++ rest))%list.
    rewrite list_lookup_middle by reflexivity.
    rewrite Hr. unfold bindQ, retQ.
    assert (Hyield : match elapsed with e :: _ => e | [] => false end = false).
    { destruct elapsed; [reflexivity|]. by inversion Hclock. }
    rewrite Hyield, andb_false_r.
    assert (Htl : clockStaysUnder (tl elapsed)).
    { destruct elapsed; [done|]. by inversion Hclock. }
    replace (done ++ r :: reqs ++ rest)%list with ((done ++ [r]) ++ reqs ++ rest)%list
      by (rewrite <- app_assoc; reflexivity).
    replace (S (length done)) with (length (done ++ [r]))
      by (rewrite length_app; cbn; lia).
    rewrite IH by done.
    rewrite length_app. cbn [length].
    replace (length done + 1 + length reqs)%nat with (length done + S (length reqs))%nat by lia.
    destruct elapsed; [cbn; by rewrite drop_nil | reflexivity].
Qed.

Lemma skip_from_start (reqs rest : list RequestData) (turns : nat) (elapsed : list bool)
    (p : RequestProcessor) (s : list Sent) :
  allInProgress reqs ->
  clockStaysUnder elapsed ->
  handleRequestsFrom Sha3_256 (length reqs + turns) 0 elapsed
    (queueOf q p c (reqs ++ rest) s)
  = handleRequestsFrom Sha3_256 turns (length reqs) (drop (length reqs) elapsed)
      (queueOf q p c (reqs ++ rest) s).
Proof. apply (skip_in_progress reqs turns [] rest). Qed.

(** ... and stops at the end of the list. *)
Lemma handleRequestsFrom_end (turns i : nat) (elapsed : list bool) (p : RequestProcessor)
    (l : list RequestData) (s : list Sent) :
  i = length l ->
  handleRequestsFrom Sha3_256 turns i elapsed (queueOf q p c l s)
  = Some (false, queueOf q p c l s).
Proof.
  intros ->. destruct turns; cbn.
  - unfold SecretsRequestQueue.m_requests. cbn. rewrite decide_False by lia. reflexivity.
  - unfold SecretsRequestQueue.m_requests. cbn.
    rewrite lookup_ge_None_2 by lia. reflexivity.
Qed.

Lemma clock_head (elapsed : list bool) :
  clockStaysUnder elapsed ->
  match elapsed with e :: _ => e | [] => false end = false /\ clockStaysUnder (tl elapsed).
Proof.
  intros Hclock. destruct elapsed; [done|]. by inversion Hclock.
Qed.

Lemma clock_drop (n : nat) (elapsed : list bool) :
  clockStaysUnder elapsed -> clockStaysUnder (drop n elapsed).
Proof. apply Forall_drop. Qed.

(** The loop from a position after which every request is in progress. *)
Lemma skip_to_end (done rest : list RequestData) (elapsed : list bool)
    (p : RequestProcessor) (s : list Sent) :
  allInProgress rest ->
  clockStaysUnder elapsed ->
  handleRequestsFrom Sha3_256 (length rest) (length done) elapsed
    (queueOf q p c (done ++ rest) s)
  = Some (false, queueOf q p c (done ++ rest) s).
Proof.
  intros Hall Hclock.
  pose proof (skip_in_progress rest 0 done [] elapsed p s Hall Hclock) as Hskip.
  rewrite Nat.add_0_r, app_nil_r in Hskip. rewrite Hskip.
  apply handleRequestsFrom_end. by rewrite length_app.
Qed.

(** One turn of the loop on a request that is new. *)
Lemma pending_turn (turns : nat) (elapsed : list bool) (p p' : RequestProcessor)
    (done rest : list RequestData) (x x' : RequestData) (s s' : list Sent)
    (completed : bool) :
  status x = RequestPending ->
  clockStaysUnder elapsed ->
  handlePendingRequest Sha3_256 (length done)
    (queueOf q p c (done ++ withStatus RequestInProgress x :: rest) s)
  = Some (completed, queueOf q p' c (done ++ x' :: rest) s') ->
  handleRequestsFrom Sha3_256 (S turns) (length done) elapsed
    (queueOf q p c (done ++ x :: rest) s)
  = handleRequestsFrom Sha3_256 turns
      (if completed then length done else S (length done)) (tl elapsed)
      (queueOf q p' c (if completed then done ++ rest else done ++ x' :: rest) s').
Proof.
  intros Hstatus Hclock Hhandle.
  destruct (clock_head _ Hclock) as [Hyield _].
  cbn [handleRequestsFrom].
  unfold queueOf at 1. unfold SecretsRequestQueue.m_requests at 1.
  cbn [SecretsRequestQueue.m_requestProcessor].
  cbn [m_requestQueue withRequestQueue RequestQueue.m_requests].
  rewrite list_lookup_middle by reflexivity.
  rewrite Hstatus. unfold bindQ at 1. unfold bindQ at 1.
  rewrite setRequestAt_middle. unfold bindQ at 1. rewrite Hhandle.
  rewrite Hyield.
  destruct completed.
  - unfold bindQ, retQ. rewrite eraseAt_middle. by rewrite andb_false_r.
  - unfold retQ. by rewrite andb_false_r.
Qed.

(** One turn of the loop on a request that has been finished. *)
Lemma finished_turn (turns : nat) (elapsed : list bool) (p p' : RequestProcessor)
    (done rest : list RequestData) (x x' : RequestData) (s s' : list Sent)
    (completed : bool) :
  status x = RequestFinished ->
  clockStaysUnder elapsed ->
  handleFinishedRequest (length done) (queueOf q p c (done ++ x :: rest) s)
  = Some (completed, queueOf q p' c (done ++ x' :: rest) s') ->
  handleRequestsFrom Sha3_256 (S turns) (length done) elapsed
    (queueOf q p c (done ++ x :: rest) s)
  = handleRequestsFrom Sha3_256 turns
      (if completed then length done else S (length done)) (tl elapsed)
      (queueOf q p' c (if completed then done ++ rest else done ++ x' :: rest) s').
Proof.
  intros Hstatus Hclock Hhandle.
  destruct (clock_head _ Hclock) as [Hyield _].
  cbn [handleRequestsFrom].
  unfold queueOf at 1. unfold SecretsRequestQueue.m_requests at 1.
  cbn [SecretsRequestQueue.m_requestProcessor].
  cbn [m_requestQueue withRequestQueue RequestQueue.m_requests].
  rewrite list_lookup_middle by reflexivity.
  rewrite Hstatus. unfold bindQ at 1. unfold bindQ at 1. rewrite Hhandle.
  rewrite Hyield.
  destruct completed.
  - unfold bindQ, retQ. rewrite eraseAt_middle. by rewrite andb_false_r.
  - unfold retQ. by rewrite andb_false_r.
Qed.

End Steps.

Lemma loopPow2_exit {S R : Type} (n : nat) (body : S -> S + R) (s : S) (r : R) :
  body s = inr r -> loopPow2 n body s = inr r.
Proof.
  intros Hexit. induction n as [|n IH]; cbn; [done|]. by rewrite IH.
Qed.

Lemma wrap_successor_differs (counter : Z) :
  0 <= counter < modulus 64 -> wrap 64 (counter + 1) <> counter.
Proof.
  unfold wrap. intros Hrange.
  assert (Hm : 2 <= modulus 64) by (unfold modulus; cbn; lia).
  destruct (decide (counter + 1 < modulus 64)) as [Hlt|Hge].
  - rewrite Z.mod_small by lia. lia.
  - replace (counter + 1) with (modulus 64) by lia. rewrite Z.mod_same by lia. lia.
Qed.

(** [enqueueRequest] when the id after the counter is free. *)
Lemma enqueue_next (request : RequestData) (rq : RequestQueue.t) :
  0 <= requestIdCounter rq < modulus 64 ->
  idInUse (RequestQueue.m_requests rq) (wrap 64 (requestIdCounter rq + 1)) = false ->
  enqueueRequest request rq
  = (ResultOfCode Succeeded,
     RequestQueue.mk (wrap 64 (requestIdCounter rq + 1))
       (RequestQueue.m_requests rq
        ++ [setRequestId (wrap 64 (requestIdCounter rq + 1)) request])).
Proof.
  intros Hrange Hfree.
  unfold enqueueRequest, enqueueRequestOfWidth, scanFreeId.
  rewrite (loopPow2_exit 64 _ _ (wrap 64 (requestIdCounter rq + 1), false)); [reflexivity|].
  unfold scanBody. rewrite Hfree.
  destruct (wrap 64 (requestIdCounter rq + 1) =? requestIdCounter rq) eqn:Heq; [|reflexivity].
  apply Z.eqb_eq in Heq. by apply wrap_successor_differs in Heq.
Qed.

Lemma queueOf_self (q : SecretsRequestQueue.t) :
  q = queueOf q (SecretsRequestQueue.m_requestProcessor q) (idCounter q)
        (SecretsRequestQueue.m_requests q) (SecretsRequestQueue.sent q).
Proof.
  destruct q as [p crypto s]. destruct p as [[counter reqs] ? ? ? ? ? ? ? ? ? ? ? ? ?].
  reflexivity.
Qed.

Section Served.
Variable Sha3_256 : QByteArray -> QByteArray.

(** An enqueued request that is new and last, behind requests in
    progress: [handleRequests] runs the member function of its call. *)
Lemma last_request_served (q : SecretsRequestQueue.t) (c : Z) (call : Call) (pid id : Z)
    (crypto : bool) (cid : Z) (reqs : list RequestData) (elapsed : list bool)
    (p p' : RequestProcessor) (s : list Sent) (result : Result) (outputs : list QVariant) :
  (crypto = true -> SecretsRequestQueue.m_cryptoApiHelperRequests q !! cid = None) ->
  allInProgress reqs ->
  clockStaysUnder elapsed ->
  perform Sha3_256 call pid id p = Some ((result, outputs), p') ->
  handleRequests Sha3_256 elapsed
    (queueOf q p c
       (reqs ++ [mkRequestData pid RequestPending (intOfRequestType (requestTypeOf call))
                   (argumentsOf call) [] id crypto cid]) s)
  = Some (false,
          queueOf q p' c
            (if isPending result
             then reqs ++ [mkRequestData pid RequestInProgress
                             (intOfRequestType (requestTypeOf call)) [] [] id crypto cid]
             else reqs)
            (if isPending result || crypto then s
             else s ++ [Reply id (VResult result :: outputs)])).
Proof.
  intros Hunknown Hall Hclock Hrun.
  pose proof (handlePendingRequest_of_call Sha3_256 q c call pid id RequestInProgress
                crypto cid _ _ reqs [] s _ _ Hunknown Hrun) as Hhandle.
  unfold handleRequests.
  unfold queueOf at 1. unfold SecretsRequestQueue.m_requests at 1.
  cbn [SecretsRequestQueue.m_requestProcessor m_requestQueue withRequestQueue
       RequestQueue.m_requests].
  rewrite length_app. cbn [length].
  rewrite (skip_from_start Sha3_256 q c reqs) by done.
  erewrite (pending_turn Sha3_256 q c 0 _ p p' reqs []);
    [|reflexivity|by apply clock_drop|exact Hhandle].
  destruct (isPending result); cbn [negb orb].
  - rewrite handleRequestsFrom_end by (rewrite length_app; cbn; lia).
    reflexivity.
  - rewrite app_nil_r. rewrite handleRequestsFrom_end by reflexivity.
    reflexivity.
Qed.

(** [handleRequest] for the crypto daemon when the id after the counter
    is free. *)
Lemma handleCryptoRequest_next (q : SecretsRequestQueue.t) (pid cid : Z)
    (t : RequestType) (params : list QVariant) :
  0 <= idCounter q < modulus 64 ->
  idInUse (SecretsRequestQueue.m_requests q) (nextRequestId q) = false ->
  handleCryptoRequest pid cid t params q
  = Some (ResultOfCode Succeeded,
          queueOf q (SecretsRequestQueue.m_requestProcessor q) (nextRequestId q)
            (SecretsRequestQueue.m_requests q
             ++ [mkRequestData pid RequestPending (intOfRequestType t) params []
                   (nextRequestId q) true cid])
            (SecretsRequestQueue.sent q)).
Proof.
  intros Hrange Hfree. unfold handleCryptoRequest, processor.
  rewrite enqueue_next by done. reflexivity.
Qed.

End Served.

End QueueSteps.

Section QueueAndProcessor.
Import RequestQueue.
Variable Sha3_256 : QByteArray -> QByteArray.

(** X15.  A call that arrives over D-Bus while the id after the counter
    is free and every queued request is in progress is enqueued under
    that id with a delayed reply; the next [handleRequests] (with the
    clock within its 100 ms) runs the member function of the call with
    the arguments of the call.  A result other than [Pending] is sent
    as the reply, followed by the outputs, and the request leaves the
    queue; a [Pending] result sends nothing and the request stays, in
    progress. *)
Theorem client_request_is_served (q : SecretsRequestQueue.t) (call : Call) (pid : Z)
    (elapsed : list bool) (result : Result) (outputs : list QVariant)
    (p' : RequestProcessor) :
  0 <= idCounter q < modulus 64 ->
  idInUse (SecretsRequestQueue.m_requests q) (nextRequestId q) = false ->
  allInProgress (SecretsRequestQueue.m_requests q) ->
  clockStaysUnder elapsed ->
  perform Sha3_256 call pid (nextRequestId q) (SecretsRequestQueue.m_requestProcessor q)
  = Some ((result, outputs), p') ->
  exists q1,
    slot call (Some pid) q = Some (None, q1)
    /\ handleRequests Sha3_256 elapsed q1
       = Some (false,
               if isPending result
               then queueOf q p' (nextRequestId q)
                      (SecretsRequestQueue.m_requests q
                       ++ [inProgress call pid (nextRequestId q)])
                      (SecretsRequestQueue.sent q)
               else queueOf q p' (nextRequestId q) (SecretsRequestQueue.m_requests q)
                      (SecretsRequestQueue.sent q ++ [Reply (nextRequestId q) (VResult result :: outputs)])).
Proof.
  intros Hrange Hfree Hall Hclock Hrun.
  rewrite QueueSteps.slot_enqueues.
  eexists. split.
  - unfold handleRequest, bindQ, processor.
    rewrite QueueSteps.enqueue_next by done.
    cbn [isSucceeded code ResultOfCode]. unfold retQ. reflexivity.
  - cbn [setRequestId remotePid status type inParams outParams requestId
         isSecretsCryptoRequest cryptoRequestId].
    pose proof (QueueSteps.last_request_served Sha3_256 q (nextRequestId q) call pid
                  (nextRequestId q) false 0 (SecretsRequestQueue.m_requests q) elapsed
                  _ _ (SecretsRequestQueue.sent q) _ _ ltac:(discriminate) Hall Hclock Hrun)
      as Hserved.
    rewrite orb_false_r in Hserved.
    etransitivity; [exact Hserved|].
    destruct (isPending result); reflexivity.
Qed.

(** X16.  When an operation that was waiting completes for a request of
    a client in the queue, the record is finished with the result and
    the secret, and the next [handleRequests] sends the delayed reply
    (the result, followed by the secret for the kinds that return one)
    and erases the record; the requests in progress around it stay.  A
    result [Pending] erases the record without any reply. *)
Theorem finished_request_is_answered (q : SecretsRequestQueue.t)
    (m : M (Result * QByteArray)) (t : RequestType) (x : RequestData)
    (done rest : list RequestData) (elapsed : list bool)
    (result : Result) (secret : QByteArray) (p' : RequestProcessor) :
  SecretsRequestQueue.m_requests q = (done ++ x :: rest)%list ->
  idInUse done (requestId x) = false ->
  allInProgress done ->
  allInProgress rest ->
  t <> InvalidRequest ->
  type x = intOfRequestType t ->
  isSecretsCryptoRequest x = false ->
  clockStaysUnder elapsed ->
  independentOfQueue m ->
  m (SecretsRequestQueue.m_requestProcessor q) = Some ((result, secret), p') ->
  exists q1,
    processor (finishWith (requestId x) m) q = Some (tt, q1)
    /\ handleRequests Sha3_256 elapsed q1
       = Some (false,
               queueOf q p' (idCounter q) (done ++ rest)
                 (if isPending result then SecretsRequestQueue.sent q
                  else SecretsRequestQueue.sent q
                       ++ [Reply (requestId x)
                             (VResult result
                              :: if repliesWithSecret t then [VBytes secret] else [])])).
Proof.
  intros Hlist Hfree Hdone Hrest Hvalid Htype Hclient Hclock Hm Hrun.
  enough (Hgen : forall q0,
             q0 = queueOf q (SecretsRequestQueue.m_requestProcessor q) (idCounter q)
                    (done ++ x :: rest) (SecretsRequestQueue.sent q) ->
             exists q1,
               processor (finishWith (requestId x) m) q0 = Some (tt, q1)
               /\ handleRequests Sha3_256 elapsed q1
                  = Some (false,
                          queueOf q p' (idCounter q) (done ++ rest)
                            (if isPending result then SecretsRequestQueue.sent q
                             else SecretsRequestQueue.sent q
                                  ++ [Reply (requestId x)
                                        (VResult result
                                         :: if repliesWithSecret t then [VBytes secret]
                                            else [])])))
    by (apply Hgen; rewrite <- Hlist; apply QueueSteps.queueOf_self).
  intros q0 ->.
  eexists. split.
  - rewrite (QueueSteps.finishWith_run q (idCounter q) m (requestId x) _ p'
               (result, secret)) by done.
    rewrite QueueSteps.finishFirst_middle by done. reflexivity.
  - cbn [fst snd].
    destruct (QueueSteps.handleFinishedRequest_of_client q (idCounter q) t
                (finish [VResult result; VBytes secret] x) p' done rest
                (SecretsRequestQueue.sent q) result secret Hvalid Htype Hclient eq_refl)
      as (x' & Hhandle).
    unfold handleRequests.
    unfold queueOf at 1. unfold SecretsRequestQueue.m_requests at 1.
    cbn [SecretsRequestQueue.m_requestProcessor m_requestQueue withRequestQueue
         RequestQueue.m_requests].
    rewrite length_app. cbn [length].
    rewrite (QueueSteps.skip_from_start Sha3_256 q (idCounter q) done) by done.
    erewrite (QueueSteps.finished_turn Sha3_256 q (idCounter q) (length rest) _ p' p' done
                rest);
      [|reflexivity|by apply QueueSteps.clock_drop|exact Hhandle].
    cbv match.
    rewrite QueueSteps.skip_to_end; [reflexivity|done|].
    apply QueueSteps.clock_head. by apply QueueSteps.clock_drop.
Qed.

(** X17.  [storeKey], [storedKey] and [deleteStoredKey] answer [Pending]
    and enqueue a request for the crypto daemon.  When
    [handleRequests] has run the operation and no helper request is on
    record under the crypto request id, the request leaves the queue
    and nothing is sent: neither a reply nor a completion signal, also
    not the key that was read. *)
Theorem crypto_helper_result_goes_nowhere (q : SecretsRequestQueue.t)
    (pid cid : Z) (collectionName name : QString) (elapsed : list bool) :
  0 <= idCounter q < modulus 64 ->
  idInUse (SecretsRequestQueue.m_requests q) (nextRequestId q) = false ->
  allInProgress (SecretsRequestQueue.m_requests q) ->
  clockStaysUnder elapsed ->
  SecretsRequestQueue.m_cryptoApiHelperRequests q !! cid = None ->
  (forall (serialisedKey : QByteArray) (storagePluginName : QString)
          (result : Result) (p' : RequestProcessor),
      setCollectionSecret Sha3_256 pid (nextRequestId q) collectionName name serialisedKey
        PreventUserInteractionMode EmptyString (SecretsRequestQueue.m_requestProcessor q)
      = Some (result, p') ->
      isPending result = false ->
      exists q1,
        storeKey pid cid collectionName name serialisedKey storagePluginName q
        = Some (ResultOfCode Pending, q1)
        /\ handleRequests Sha3_256 elapsed q1
           = Some (false,
                   queueOf q p' (nextRequestId q) (SecretsRequestQueue.m_requests q)
                     (SecretsRequestQueue.sent q)))
  /\ (forall (result : Result) (serialisedKey : QByteArray) (p' : RequestProcessor),
      getCollectionSecret Sha3_256 pid (nextRequestId q) collectionName name
        PreventUserInteractionMode EmptyString (SecretsRequestQueue.m_requestProcessor q)
      = Some ((result, serialisedKey), p') ->
      isPending result = false ->
      exists q1,
        storedKey pid cid collectionName name q = Some (ResultOfCode Pending, q1)
        /\ handleRequests Sha3_256 elapsed q1
           = Some (false,
                   queueOf q p' (nextRequestId q) (SecretsRequestQueue.m_requests q)
                     (SecretsRequestQueue.sent q)))
  /\ (forall (result : Result) (p' : RequestProcessor),
      deleteCollectionSecret Sha3_256 pid (nextRequestId q) collectionName name
        PreventUserInteractionMode EmptyString (SecretsRequestQueue.m_requestProcessor q)
      = Some (result, p') ->
      isPending result = false ->
      exists q1,
        deleteStoredKey pid cid collectionName name q = Some (ResultOfCode Pending, q1)
        /\ handleRequests Sha3_256 elapsed q1
           = Some (false,
                   queueOf q p' (nextRequestId q) (SecretsRequestQueue.m_requests q)
                     (SecretsRequestQueue.sent q))).
Proof.
  intros Hrange Hfree Hall Hclock Hunknown.
  repeat (apply conj).
  - intros serialisedKey storagePluginName result p' Hrun Hdone.
    eexists. split.
    + unfold storeKey, bindQ.
      rewrite (QueueSteps.handleCryptoRequest_next q) by done. reflexivity.
    + rewrite (QueueSteps.last_request_served Sha3_256 q (nextRequestId q)
                 (SetCollectionSecret collectionName name serialisedKey
                    PreventUserInteractionMode EmptyString)
                 pid (nextRequestId q) true cid _ elapsed _ p' _ result []);
        [by rewrite Hdone|done..|].
      unfold perform, bind. by rewrite Hrun.
  - intros result serialisedKey p' Hrun Hdone.
    eexists. split.
    + unfold storedKey, bindQ.
      rewrite (QueueSteps.handleCryptoRequest_next q) by done. reflexivity.
    + rewrite (QueueSteps.last_request_served Sha3_256 q (nextRequestId q)
                 (GetCollectionSecret collectionName name
                    PreventUserInteractionMode EmptyString)
                 pid (nextRequestId q) true cid _ elapsed _ p' _ result
                 [VBytes serialisedKey]);
        [by rewrite Hdone|done..|].
      unfold perform, bind. by rewrite Hrun.
  - intros result p' Hrun Hdone.
    eexists. split.
    + unfold deleteStoredKey, bindQ.
      rewrite (QueueSteps.handleCryptoRequest_next q) by done. reflexivity.
    + rewrite (QueueSteps.last_request_served Sha3_256 q (nextRequestId q)
                 (DeleteCollectionSecret collectionName name
                    PreventUserInteractionMode EmptyString)
                 pid (nextRequestId q) true cid _ elapsed _ p' _ result []);
        [by rewrite Hdone|done..|].
      unfold perform, bind. by rewrite Hrun.
Qed.

End QueueAndProcessor.

(** The continuation of the read of a secret is independent of the
    queue. *)
Lemma getCollectionSecretWithAuthenticationKey_independent
    (Sha3_256 : QByteArray -> QByteArray) (callerPid requestId : Z) (c name : QString)
    (mode : UserInteractionMode) (ui s e : QString) (semantic timeoutMs : Z)
    (key : QByteArray) :
  independentOfQueue
    (getCollectionSecretWithAuthenticationKey Sha3_256 callerPid requestId c name mode ui
       s e semantic timeoutMs key).
Proof. independent. Qed.

Lemma client_request_is_served_witness :
  exists q1,
    slot (CreateDeviceLockCollection "vault" "sqlite" "openssl" DeviceLockKeepUnlocked
            OwnerOnlyMode) (Some 1) (Sample.queueWith Sample.ready)
    = Some (None, q1)
    /\ handleRequests Sample.digest [] q1
       = Some (false,
               queueOf (Sample.queueWith Sample.ready) Sample.withVault 1 []
                 [Reply 1 [VResult (ResultOfCode Succeeded)]]).
Proof.
  destruct (client_request_is_served Sample.digest (Sample.queueWith Sample.ready)
              (CreateDeviceLockCollection "vault" "sqlite" "openssl" DeviceLockKeepUnlocked
                 OwnerOnlyMode)
              1 [] (ResultOfCode Succeeded) [] Sample.withVault)
    as (q1 & Hslot & Hhandle).
  - vm_compute. split; [discriminate | reflexivity].
  - reflexivity.
  - constructor.
  - constructor.
  - vm_compute. reflexivity.
  - exists q1. split; [exact Hslot | exact Hhandle].
Defined.

Lemma finished_request_is_answered_witness :
  exists q1,
    processor
      (finishWith 1
         (getCollectionSecretWithAuthenticationKey Sample.digest 1 1 "diary" "pwd"
            InProcessUserInteractionMode "ui" "sqlite" "openssl" 8 0 "k1"))
      Sample.asked
    = Some (tt, q1)
    /\ exists p',
         handleRequests Sample.digest [] q1
         = Some (false,
                 queueOf Sample.asked p' 1 []
                   [Reply 1 [VResult (ResultOfCode Succeeded); VBytes "pass"]]).
Proof.
  destruct (finished_request_is_answered Sample.digest Sample.asked
              (getCollectionSecretWithAuthenticationKey Sample.digest 1 1 "diary" "pwd"
                 InProcessUserInteractionMode "ui" "sqlite" "openssl" 8 0 "k1")
              GetCollectionSecretRequest
              (RequestQueue.mkRequestData 1 RequestQueue.RequestInProgress 8 [] [] 1 false 0)
              [] [] [] (ResultOfCode Succeeded) "pass"
              (Sample.after
                 (getCollectionSecretWithAuthenticationKey Sample.digest 1 1 "diary" "pwd"
                    InProcessUserInteractionMode "ui" "sqlite" "openssl" 8 0 "k1"
                    (SecretsRequestQueue.m_requestProcessor Sample.asked))))
    as (q1 & Hfinish & Hhandle).
  - vm_compute. reflexivity.
  - reflexivity.
  - constructor.
  - constructor.
  - discriminate.
  - reflexivity.
  - reflexivity.
  - constructor.
  - apply getCollectionSecretWithAuthenticationKey_independent.
  - vm_compute. reflexivity.
  - exists q1. split; [exact Hfinish|]. eexists. exact Hhandle.
Defined.

Lemma crypto_helper_result_goes_nowhere_witness :
  exists q1 p',
    storedKey 1 7 "vault" "pwd" (Sample.queueWith Sample.vaultWithSecret)
    = Some (ResultOfCode Pending, q1)
    /\ getCollectionSecret Sample.digest 1 1 "vault" "pwd" PreventUserInteractionMode
         EmptyString Sample.vaultWithSecret
       = Some ((ResultOfCode Succeeded, "pass"), p')
    /\ handleRequests Sample.digest [] q1
       = Some (false, queueOf (Sample.queueWith Sample.vaultWithSecret) p' 1 [] []).
Proof.
  destruct (crypto_helper_result_goes_nowhere Sample.digest
              (Sample.queueWith Sample.vaultWithSecret) 1 7 "vault" "pwd" [])
    as (_ & Hstored & _).
  - vm_compute. split; [discriminate | reflexivity].
  - reflexivity.
  - constructor.
  - constructor.
  - reflexivity.
  - destruct (Hstored (ResultOfCode Succeeded) "pass"
                (Sample.after
                   (getCollectionSecret Sample.digest 1 1 "vault" "pwd"
                      PreventUserInteractionMode EmptyString Sample.vaultWithSecret)))
      as (q1 & Hrun & Hhandle).
    + vm_compute. reflexivity.
    + reflexivity.
    + exists q1. eexists. split; [exact Hrun|]. split; [|exact Hhandle].
      vm_compute. reflexivity.
Defined.


(** ** The crypto helper signals *)

Module Silence.
Import RequestQueue.

Lemma silent_ret {A : Type} (a : A) : silentForCrypto (retQ a).
Proof. intros q x q' Hempty [= <- <-]. done. Qed.

Lemma silent_bind {A B : Type} (m : Q A) (k : A -> Q B) :
  silentForCrypto m -> (forall a, silentForCrypto (k a)) -> silentForCrypto (bindQ m k).
Proof.
  intros Hm Hk q b q' Hempty Hrun. unfold bindQ in Hrun.
  destruct (m q) as [[a q1]|] eqn:Hfirst; [|discriminate].
  destruct (Hm _ _ _ Hempty Hfirst) as [Hempty1 Hsignals1].
  destruct (Hk a _ _ _ Hempty1 Hrun) as [Hempty2 Hsignals2].
  split; [done|]. by rewrite Hsignals2.
Qed.

Lemma silent_processor {A : Type} (m : M A) : silentForCrypto (processor m).
Proof.
  intros q a q' Hempty Hrun. unfold processor in Hrun.
  destruct (m _) as [[a' p']|]; [|discriminate]. by injection Hrun as <- <-.
Qed.

Lemma silent_send (s : Sent) : isCompletionSignal s = false -> silentForCrypto (send s).
Proof.
  intros Hs q a q' Hempty [= <- <-]. split; [done|].
  unfold signals. cbn. rewrite List.filter_app. cbn. rewrite Hs. by rewrite app_nil_r.
Qed.

Lemma silent_asynchronousCryptoRequestCompleted (cryptoRequestId : Z) (result : Result)
    (parameters : list QVariant) :
  silentForCrypto (asynchronousCryptoRequestCompleted cryptoRequestId result parameters).
Proof.
  intros q a q' Hempty Hrun. unfold asynchronousCryptoRequestCompleted in Hrun.
  rewrite Hempty, lookup_empty in Hrun. by injection Hrun as <- <-.
Qed.

Lemma silent_requestAt (i : nat) : silentForCrypto (requestAt i).
Proof.
  intros q a q' Hempty Hrun. unfold requestAt in Hrun.
  destruct (_ !! i); [|discriminate]. by injection Hrun as <- <-.
Qed.

Lemma silent_setRequestAt (i : nat) (request : RequestData) :
  silentForCrypto (setRequestAt i request).
Proof. intros q a q' Hempty [= <- <-]. done. Qed.

Lemma silent_eraseAt (i : nat) : silentForCrypto (eraseAt i).
Proof. intros q a q' Hempty [= <- <-]. done. Qed.

Lemma silent_takeInParam {A : Type} (i : nat) (read : QVariant -> A) (dflt : A) :
  silentForCrypto (takeInParam i read dflt).
Proof.
  apply silent_bind; [apply silent_requestAt|]. intros request.
  destruct (inParams request); [apply silent_ret|].
  apply silent_bind; [apply silent_setRequestAt|]. intros _. apply silent_ret.
Qed.

Lemma silent_takeOutParam {A : Type} (i : nat) (read : QVariant -> A) (dflt : A) :
  silentForCrypto (takeOutParam i read dflt).
Proof.
  apply silent_bind; [apply silent_requestAt|]. intros request.
  destruct (outParams request); [apply silent_ret|].
  apply silent_bind; [apply silent_setRequestAt|]. intros _. apply silent_ret.
Qed.

Lemma silent_answer (i : nat) (reply : Sent) (parameters : list QVariant) (result : Result) :
  isCompletionSignal reply = false ->
  silentForCrypto (answer i reply parameters result).
Proof.
  intros Hreply. apply silent_bind; [apply silent_requestAt|]. intros request.
  destruct (isSecretsCryptoRequest request).
  - apply silent_asynchronousCryptoRequestCompleted.
  - by apply silent_send.
Qed.

Lemma silent_replyOrWait (i : nat) (result : Result) (outputs : list QVariant) :
  silentForCrypto (replyOrWait i result outputs).
Proof.
  unfold replyOrWait. destruct (isPending result); [apply silent_ret|].
  apply silent_bind; [apply silent_requestAt|]. intros request.
  apply silent_bind; [by apply silent_answer|]. intros _. apply silent_ret.
Qed.

Ltac silent :=
  repeat
    (intros;
     lazymatch goal with
     | |- silentForCrypto (bindQ _ _) => apply silent_bind
     | |- silentForCrypto (retQ _) => apply silent_ret
     | |- silentForCrypto (processor _) => apply silent_processor
     | |- silentForCrypto (send _) => apply silent_send; reflexivity
     | |- silentForCrypto (requestAt _) => apply silent_requestAt
     | |- silentForCrypto (setRequestAt _ _) => apply silent_setRequestAt
     | |- silentForCrypto (eraseAt _) => apply silent_eraseAt
     | |- silentForCrypto (takeInParam _ _ _) => apply silent_takeInParam
     | |- silentForCrypto (takeOutParam _ _ _) => apply silent_takeOutParam
     | |- silentForCrypto (answer _ _ _ _) => apply silent_answer; reflexivity
     | |- silentForCrypto (replyOrWait _ _ _) => apply silent_replyOrWait
     | |- silentForCrypto (if ?b then _ else _) => destruct b
     | |- silentForCrypto (match ?x with _ => _ end) => destruct x
     | |- silentForCrypto (let _ := _ in _) => cbv zeta
     end).

Lemma silent_handlePendingRequest (Sha3_256 : QByteArray -> QByteArray) (i : nat) :
  silentForCrypto (handlePendingRequest Sha3_256 i).
Proof. unfold handlePendingRequest. silent. Qed.

Lemma silent_handleFinishedRequest (i : nat) : silentForCrypto (handleFinishedRequest i).
Proof. unfold handleFinishedRequest. silent. Qed.

Lemma silent_handleRequestsFrom (Sha3_256 : QByteArray -> QByteArray) (turns : nat) :
  forall (i : nat) (elapsed : list bool),
    silentForCrypto (handleRequestsFrom Sha3_256 turns i elapsed).
Proof.
  induction turns as [|turns IH]; intros i elapsed q a q' Hempty Hrun.
  - cbn in Hrun. destruct (decide _); [discriminate|]. by injection Hrun as <- <-.
  - cbn [handleRequestsFrom] in Hrun.
    destruct (SecretsRequestQueue.m_requests q !! i) as [request|];
      [|by injection Hrun as <- <-].
    revert q a q' Hempty Hrun.
    change (silentForCrypto
              (bindQ
                 (match status request with
                  | RequestPending =>
                      bindQ (setRequestAt i (withStatus RequestInProgress request))
                        (fun _ =>
                           bindQ (handlePendingRequest Sha3_256 i)
                             (fun completed =>
                                if completed then bindQ (eraseAt i) (fun _ => retQ i)
                                else retQ (S i)))
                  | RequestFinished =>
                      bindQ (handleFinishedRequest i)
                        (fun completed =>
                           if completed then bindQ (eraseAt i) (fun _ => retQ i)
                           else retQ (S i))
                  | RequestInProgress => retQ (S i)
                  end)
                 (fun next q' =>
                    let yield := match elapsed with e :: _ => e | [] => false end in
                    if negb (Nat.eqb (length (SecretsRequestQueue.m_requests q')) 0) && yield
                    then Some (true, q')
                    else handleRequestsFrom Sha3_256 turns next (tl elapsed) q'))).
    apply silent_bind.
    + destruct (status request).
      * apply silent_bind; [apply silent_setRequestAt|]. intros _.
        apply silent_bind; [apply silent_handlePendingRequest|]. intros completed.
        destruct completed; silent.
      * apply silent_ret.
      * apply silent_bind; [apply silent_handleFinishedRequest|]. intros completed.
        destruct completed; silent.
    + intros next q1 a1 q1' Hempty1 Hrun1. cbv zeta in Hrun1.
      destruct (_ && _); [by injection Hrun1 as <- <-|].
      exact (IH next (tl elapsed) _ _ _ Hempty1 Hrun1).
Qed.

End Silence.

Section CryptoHelperSignals.
Variable Sha3_256 : QByteArray -> QByteArray.

(** X18.  While no crypto helper request is on record, no slot, no run
    of [handleRequests], no completion of an authentication flow and
    no crypto helper records one, and none emits [storedKeyCompleted],
    [deleteStoredKeyCompleted] or [storeKeyCompleted]. *)
Theorem crypto_helper_signals_are_never_sent :
  (forall (call : Call) (remotePid : option Z), silentForCrypto (slot call remotePid))
  /\ (forall remotePid : option Z, silentForCrypto (SecretsDBusObject.getPluginInfo remotePid))
  /\ (forall elapsed : list bool, silentForCrypto (handleRequests Sha3_256 elapsed))
  /\ (forall (evaluationOrder : RequestType -> list nat)
         (convert : QMetaType -> QVariant -> QVariant) (callerPid requestId : Z)
         (app c name ui : QString) (result : Result) (key : QByteArray),
      silentForCrypto
        (deliverAuthentication Sha3_256 evaluationOrder convert callerPid requestId app c
           name ui result key))
  /\ (forall (callerPid cryptoRequestId : Z) (c name : QString) (key : QByteArray)
         (s : QString),
      silentForCrypto (storeKey callerPid cryptoRequestId c name key s))
  /\ (forall (callerPid cryptoRequestId : Z) (c name : QString),
      silentForCrypto (storedKey callerPid cryptoRequestId c name))
  /\ (forall (callerPid cryptoRequestId : Z) (c name : QString),
      silentForCrypto (deleteStoredKey callerPid cryptoRequestId c name))
  /\ (forall callerPid cryptoRequestId : Z,
      silentForCrypto (queueStoragePluginNames callerPid cryptoRequestId))
  /\ (forall (cryptoRequestId : Z) (result : Result) (parameters : list QVariant),
      silentForCrypto (asynchronousCryptoRequestCompleted cryptoRequestId result parameters)).
Proof.
  repeat (apply conj); intros.
  - rewrite QueueSteps.slot_enqueues. unfold handleRequest. Silence.silent.
  - unfold SecretsDBusObject.getPluginInfo, handleRequest. Silence.silent.
  - intros q a q' Hempty Hrun. unfold handleRequests in Hrun.
    exact (Silence.silent_handleRequestsFrom Sha3_256 _ _ _ _ _ _ Hempty Hrun).
  - apply Silence.silent_processor.
  - unfold storeKey, handleCryptoRequest. Silence.silent.
  - unfold storedKey, handleCryptoRequest. Silence.silent.
  - unfold deleteStoredKey, handleCryptoRequest. Silence.silent.
  - unfold queueStoragePluginNames. Silence.silent.
  - apply Silence.silent_asynchronousCryptoRequestCompleted.
Qed.

End CryptoHelperSignals.

(** ** A pass of the loop *)

Module Passing.
Import RequestQueue.

Section Pass.
Variable Sha3_256 : QByteArray -> QByteArray.
Variables (q : SecretsRequestQueue.t) (c : Z).

(** The loop over requests in progress: nothing changes until the
    clock is found beyond the 100 ms at the end of a turn. *)
Lemma pass_in_progress (reqs : list RequestData) :
  forall (turns : nat) (done rest : list RequestData) (elapsed : list bool)
         (p : RequestProcessor) (s : list Sent),
    allInProgress reqs ->
    handleRequestsFrom Sha3_256 (length reqs + turns) (length done) elapsed
      (queueOf q p c (done ++ reqs ++ rest) s)
    = if existsb (fun late => late) (take (length reqs) elapsed)
      then Some (true, queueOf q p c (done ++ reqs ++ rest) s)
      else handleRequestsFrom Sha3_256 turns (length done + length reqs)
             (drop (length reqs) elapsed) (queueOf q p c (done ++ reqs ++ rest) s).
Proof.
  induction reqs as [|r reqs IH]; intros turns done rest elapsed p s Hall.
  - cbn. rewrite Nat.add_0_r. reflexivity.
  - inversion Hall as [|? ? Hr Hall']; subst.
    cbn [length Nat.add handleRequestsFrom].
    unfold queueOf at 1. unfold SecretsRequestQueue.m_requests at 1.
    cbn [SecretsRequestQueue.m_requestProcessor].
    cbn [m_requestQueue withRequestQueue RequestQueue.m_requests].
    change ((r :: reqs) ++ rest)%list with (r :: (reqs ++ rest))%list.
    rewrite list_lookup_middle by reflexivity.
    rewrite Hr. unfold bindQ, retQ.
    unfold queueOf at 1. unfold SecretsRequestQueue.m_requests at 1.
    cbn [SecretsRequestQueue.m_requestProcessor].
    cbn [m_requestQueue withRequestQueue RequestQueue.m_requests].
    rewrite length_app. cbn [length].
    replace (length done + S (length (reqs ++ rest)) =? 0)%nat with false
      by (symmetry; apply Nat.eqb_neq; lia).
    cbn [negb andb].
    destruct elapsed as [|late elapsed]; [|destruct late]; cbn [take existsb orb tl drop].
    + replace (done ++ r :: reqs ++ rest)%list with ((done ++ [r]) ++ reqs ++ rest)%list
        by (rewrite <- app_assoc; reflexivity).
      replace (S (length done)) with (length (done ++ [r]))
        by (rewrite length_app; cbn; lia).
      rewrite IH by done. rewrite take_nil, drop_nil. cbn [existsb].
      rewrite length_app. cbn [length].
      replace (length done + 1 + length reqs)%nat with (length done + S (length reqs))%nat
        by lia.
      reflexivity.
    + reflexivity.
    + replace (done ++ r :: reqs ++ rest)%list with ((done ++ [r]) ++ reqs ++ rest)%list
        by (rewrite <- app_assoc; reflexivity).
      replace (S (length done)) with (length (done ++ [r]))
        by (rewrite length_app; cbn; lia).
      rewrite IH by done.
      rewrite length_app. cbn [length].
      replace (length done + 1 + length reqs)%nat with (length done + S (length reqs))%nat
        by lia.
      reflexivity.
Qed.

End Pass.
End Passing.

(** X24.  A run of [handleRequests] over a queue whose requests are all
    in progress changes nothing.  It reports that it has queued
    another run and left exactly when the clock is found beyond the
    100 ms at the end of one of its turns; with an empty queue it never
    does. *)
Theorem pass_over_requests_in_progress (Sha3_256 : QByteArray -> QByteArray)
    (q : SecretsRequestQueue.t) (elapsed : list bool) :
  allInProgress (SecretsRequestQueue.m_requests q) ->
  handleRequests Sha3_256 elapsed q
  = Some (existsb (fun late => late)
            (take (length (SecretsRequestQueue.m_requests q)) elapsed), q).
Proof.
  intros Hall. unfold handleRequests.
  rewrite (QueueSteps.queueOf_self q) at 2 3.
  pose proof (Passing.pass_in_progress Sha3_256 q (idCounter q)
                (SecretsRequestQueue.m_requests q) 0 [] [] elapsed
                (SecretsRequestQueue.m_requestProcessor q) (SecretsRequestQueue.sent q) Hall)
    as Hpass.
  rewrite Nat.add_0_r, app_nil_r in Hpass. cbn [app length Nat.add] in Hpass.
  rewrite (QueueSteps.handleRequestsFrom_end Sha3_256 q (idCounter q) 0
             (length (SecretsRequestQueue.m_requests q))) in Hpass by reflexivity.
  rewrite <- (QueueSteps.queueOf_self q) in Hpass.
  rewrite <- (QueueSteps.queueOf_self q).
  rewrite Hpass. by destruct (existsb _ _).
Qed.

Lemma pass_over_requests_in_progress_witness :
  handleRequests Sample.digest [true] Sample.asked = Some (true, Sample.asked)
  /\ handleRequests Sample.digest [] Sample.asked = Some (false, Sample.asked).
Proof.
  split.
  - apply (pass_over_requests_in_progress Sample.digest Sample.asked [true]).
    vm_compute. repeat constructor.
  - apply (pass_over_requests_in_progress Sample.digest Sample.asked []).
    vm_compute. repeat constructor.
Defined.

(** ** Plugin information *)

Module PluginNames.

Lemma insertKey_In (k name : QString) (sorted : list QString) :
  In name (insertKey k sorted) <-> name = k \/ In name sorted.
Proof.
  induction sorted as [|k' sorted IH]; cbn; [intuition congruence|].
  destruct (String.ltb k' k); cbn; [rewrite IH|]; intuition congruence.
Qed.

Lemma keys_In {V : Type} (m : gmap string V) (name : QString) :
  In name (keys m) <-> contains m name = true.
Proof.
  unfold keys, contains.
  assert (Hfold : forall l : list QString, In name (foldr insertKey [] l) <-> In name l).
  { induction l as [|k l IH]; cbn; [tauto|]. rewrite insertKey_In, IH. intuition congruence. }
  rewrite Hfold, <- list_elem_of_In, list_elem_of_fmap. split.
  - intros ([k v] & -> & Hkv). apply elem_of_map_to_list in Hkv. cbn. by rewrite Hkv.
  - destruct (m !! name) as [v|] eqn:Hv; [|discriminate].
    intros _. exists (name, v). split; [reflexivity|]. by apply elem_of_map_to_list.
Qed.

End PluginNames.

(** X25.  A [getPluginInfo] call that arrives while the id after the
    counter is free and every queued request is in progress is
    answered by the next [handleRequests] with [Succeeded] and four
    lists that hold exactly the names registered in the four
    registries; the processor is unchanged and the request leaves the
    queue. *)
Theorem plugin_info_lists_the_registries (Sha3_256 : QByteArray -> QByteArray)
    (q : SecretsRequestQueue.t) (pid : Z) (elapsed : list bool) :
  0 <= idCounter q < RequestQueue.modulus 64 ->
  RequestQueue.idInUse (SecretsRequestQueue.m_requests q) (nextRequestId q) = false ->
  allInProgress (SecretsRequestQueue.m_requests q) ->
  clockStaysUnder elapsed ->
  exists q1 info,
    SecretsDBusObject.getPluginInfo (Some pid) q = Some (None, q1)
    /\ handleRequests Sha3_256 elapsed q1
       = Some (false,
               queueOf q (SecretsRequestQueue.m_requestProcessor q) (nextRequestId q)
                 (SecretsRequestQueue.m_requests q)
                 (SecretsRequestQueue.sent q
                  ++ [PluginInfoReply (nextRequestId q) (ResultOfCode Succeeded) info]))
    /\ forall name : QString,
         (In name (storagePluginInfo info)
          <-> contains (m_storagePlugins (SecretsRequestQueue.m_requestProcessor q)) name
              = true)
         /\ (In name (encryptionPluginInfo info)
             <-> contains (m_encryptionPlugins (SecretsRequestQueue.m_requestProcessor q))
                   name = true)
         /\ (In name (encryptedStoragePluginInfo info)
             <-> contains
                   (m_encryptedStoragePlugins (SecretsRequestQueue.m_requestProcessor q))
                   name = true)
         /\ (In name (authenticationPluginInfo info)
             <-> contains
                   (m_authenticationPlugins (SecretsRequestQueue.m_requestProcessor q))
                   name = true).
Proof.
  intros Hrange Hfree Hall Hclock.
  set (p := SecretsRequestQueue.m_requestProcessor q).
  set (id := nextRequestId q).
  set (reqs := SecretsRequestQueue.m_requests q) in *.
  exists (queueOf q p id
            (reqs ++ [RequestQueue.mkRequestData pid RequestQueue.RequestPending 1 [] [] id
                        false 0])
            (SecretsRequestQueue.sent q)),
    (mkPluginInfo (keys (m_storagePlugins p)) (keys (m_encryptionPlugins p))
       (keys (m_encryptedStoragePlugins p)) (keys (m_authenticationPlugins p))).
  split; [|split].
  - unfold SecretsDBusObject.getPluginInfo, handleRequest, bindQ, processor.
    rewrite QueueSteps.enqueue_next by done. reflexivity.
  - unfold handleRequests.
    unfold queueOf at 1. unfold SecretsRequestQueue.m_requests at 1.
    cbn [SecretsRequestQueue.m_requestProcessor m_requestQueue withRequestQueue
         RequestQueue.m_requests].
    rewrite length_app. cbn [length].
    rewrite (QueueSteps.skip_from_start Sha3_256 q id reqs) by done.
    erewrite (QueueSteps.pending_turn Sha3_256 q id 0 _ p p reqs [] _ _ _ _ true);
      [|reflexivity|by apply QueueSteps.clock_drop|].
    + rewrite app_nil_r. rewrite QueueSteps.handleRequestsFrom_end by reflexivity.
      reflexivity.
    + unfold handlePendingRequest. unfold bindQ at 1. rewrite QueueSteps.requestAt_middle.
      cbn [RequestQueue.type requestTypeOfInt Z.eqb Pos.eqb RequestQueue.remotePid
           RequestQueue.requestId withStatus].
      unfold bindQ at 1.
      rewrite (QueueSteps.processor_run q id (getPluginInfo pid id) p p
                 (ResultOfCode Succeeded,
                  mkPluginInfo (keys (m_storagePlugins p)) (keys (m_encryptionPlugins p))
                    (keys (m_encryptedStoragePlugins p))
                    (keys (m_authenticationPlugins p))));
        [|by intros p0 x|reflexivity].
      cbn [fst snd isPending code ResultOfCode].
      unfold bindQ at 1. rewrite QueueSteps.answer_middle by discriminate.
      reflexivity.
  - intros name. cbn [storagePluginInfo encryptionPluginInfo encryptedStoragePluginInfo
                      authenticationPluginInfo].
    repeat (apply conj); apply PluginNames.keys_In.
Qed.

Lemma plugin_info_lists_the_registries_witness :
  exists q1 info,
    SecretsDBusObject.getPluginInfo (Some 1) (Sample.queueWith Sample.ready) = Some (None, q1)
    /\ handleRequests Sample.digest [] q1
       = Some (false,
               queueOf (Sample.queueWith Sample.ready) Sample.ready 1 []
                 [PluginInfoReply 1 (ResultOfCode Succeeded) info])
    /\ In "sqlite" (storagePluginInfo info).
Proof.
  destruct (plugin_info_lists_the_registries Sample.digest (Sample.queueWith Sample.ready)
              1 [])
    as (q1 & info & Hslot & Hhandle & Hnames).
  - vm_compute. split; [discriminate | reflexivity].
  - reflexivity.
  - constructor.
  - constructor.
  - exists q1, info. split; [exact Hslot|]. split; [exact Hhandle|].
    apply (proj1 (Hnames "sqlite")). vm_compute. reflexivity.
Defined.

(** ** The ids of the queued requests *)

Module QueueIds.
Import RequestQueue.

Lemma idInUse_false (reqs : list RequestData) (id : Z) :
  idInUse reqs id = false <-> ~ In id (map requestId reqs).
Proof.
  unfold idInUse. induction reqs as [|r reqs IH]; cbn; [tauto|].
  rewrite orb_false_iff, IH, Z.eqb_neq. tauto.
Qed.

Lemma finishFirst_ids (id : Z) (out : list QVariant) (reqs : list RequestData) :
  map requestId (finishFirst id out reqs) = map requestId reqs.
Proof.
  induction reqs as [|r reqs IH]; cbn; [done|].
  destruct (requestId r =? id); cbn; [done|]. by rewrite IH.
Qed.

Lemma finishFirst_unknown (id : Z) (out : list QVariant) (reqs : list RequestData) :
  idInUse reqs id = false -> finishFirst id out reqs = reqs.
Proof.
  induction reqs as [|r reqs IH]; cbn; [done|].
  intros [-> Hrest]%orb_false_iff. by rewrite IH.
Qed.

Lemma wrap_range (z : Z) : 0 <= wrap 64 z < modulus 64.
Proof. unfold wrap. apply Z.mod_pos_bound. unfold modulus. cbn. lia. Qed.

End QueueIds.

(** X19.  [enqueueRequest] keeps the ids of the queued requests pairwise
    distinct and the counter within the 64 bits, whether it enqueues
    or reports the queue full; [requestFinished] keeps the ids, and
    leaves a queue that does not hold the id as it is. *)
Theorem request_ids_stay_distinct (request : RequestQueue.RequestData)
    (rq : RequestQueue.t) :
  0 <= RequestQueue.requestIdCounter rq < RequestQueue.modulus 64 ->
  List.NoDup (map RequestQueue.requestId (RequestQueue.m_requests rq)) ->
  List.NoDup (map RequestQueue.requestId
                (RequestQueue.m_requests (snd (RequestQueue.enqueueRequest request rq))))
  /\ 0 <= RequestQueue.requestIdCounter (snd (RequestQueue.enqueueRequest request rq))
     < RequestQueue.modulus 64
  /\ (forall (id : Z) (out : list QVariant),
      map RequestQueue.requestId
        (RequestQueue.m_requests (RequestQueue.requestFinished id out rq))
      = map RequestQueue.requestId (RequestQueue.m_requests rq))
  /\ (forall (id : Z) (out : list QVariant),
      RequestQueue.idInUse (RequestQueue.m_requests rq) id = false ->
      RequestQueue.requestFinished id out rq = rq).
Proof.
  intros Hrange Hdistinct.
  split; [|split; [|split]].
  - unfold RequestQueue.enqueueRequest, RequestQueue.enqueueRequestOfWidth.
    destruct (QueueFacts.scanFreeId_spec 64 (RequestQueue.m_requests rq)
                (RequestQueue.requestIdCounter rq) ltac:(lia) Hrange)
      as [(id & _ & _ & Hfree & ->)|(_ & ->)]; cbn [snd RequestQueue.m_requests];
      [|done].
    rewrite map_app. cbn [map RequestQueue.setRequestId RequestQueue.requestId].
    apply QueueIds.idInUse_false in Hfree.
    apply List.NoDup_app; repeat (apply conj); [done|..].
    + constructor; [by intros []|constructor].
    + intros x Hin [<-|[]]. done.
  - unfold RequestQueue.enqueueRequest, RequestQueue.enqueueRequestOfWidth.
    destruct (RequestQueue.scanFreeId _ _ _) as [nextFreeId []];
      cbn [snd RequestQueue.requestIdCounter]; apply QueueIds.wrap_range.
  - intros id out. apply QueueIds.finishFirst_ids.
  - intros id out Hfree. unfold RequestQueue.requestFinished.
    rewrite QueueIds.finishFirst_unknown by done. by destruct rq.
Qed.

Lemma request_ids_stay_distinct_witness :
  List.NoDup (map RequestQueue.requestId
                (RequestQueue.m_requests
                   (snd (RequestQueue.enqueueRequest (Sample.tracked 0)
                           (RequestQueue.mk 0 [Sample.tracked 1; Sample.tracked 2])))))
  /\ 0 <= RequestQueue.requestIdCounter
            (snd (RequestQueue.enqueueRequest (Sample.tracked 0)
                    (RequestQueue.mk 0 [Sample.tracked 1; Sample.tracked 2])))
     < RequestQueue.modulus 64
  /\ map RequestQueue.requestId
       (RequestQueue.m_requests
          (RequestQueue.requestFinished 2 [VResult (ResultOfCode Succeeded)]
             (RequestQueue.mk 0 [Sample.tracked 1; Sample.tracked 2])))
     = [1; 2]
  /\ RequestQueue.requestFinished 7 [VResult (ResultOfCode Succeeded)]
       (RequestQueue.mk 0 [Sample.tracked 1; Sample.tracked 2])
     = RequestQueue.mk 0 [Sample.tracked 1; Sample.tracked 2].
Proof.
  destruct (request_ids_stay_distinct (Sample.tracked 0)
              (RequestQueue.mk 0 [Sample.tracked 1; Sample.tracked 2]))
    as (Hdistinct & Hrange & Hids & Hunknown).
  - cbn. unfold RequestQueue.modulus. cbn. lia.
  - cbn. constructor; [intros [H|[]]; discriminate H|]. constructor; [intros []|constructor].
  - split; [exact Hdistinct|]. split; [exact Hrange|]. split.
    + exact (Hids 2 [VResult (ResultOfCode Succeeded)]).
    + apply (Hunknown 7 [VResult (ResultOfCode Succeeded)]). reflexivity.
Defined.

(** ** Loading the plugins *)

Module Loading.

Lemma contains_insert {V : Type} (m : gmap string V) (k k' : QString) (v : V) :
  contains (<[k := v]> m) k' = bool_decide (k = k') || contains m k'.
Proof.
  unfold contains. destruct (decide (k = k')) as [->|Hne].
  - by rewrite lookup_insert_eq, bool_decide_eq_true_2.
  - by rewrite lookup_insert_ne, bool_decide_eq_false_2.
Qed.

(** What one turn of the loop does to the registries. *)
Lemma loadPlugin_registers (autotestMode : bool) (file : PluginFile) (p : RequestProcessor)
    (name : QString) :
  let p1 := loadPlugin autotestMode file p in
  (isRegistered p1 name = isRegistered p name
   /\ contains (m_storagePlugins p1) name = contains (m_storagePlugins p) name
   /\ contains (m_encryptedStoragePlugins p1) name
      = contains (m_encryptedStoragePlugins p) name)
  \/ (name = pluginName file
      /\ Qt.isEmpty name = false
      /\ isTestPlugin file = autotestMode
      /\ instance file <> NotASecretsPlugin
      /\ (contains (m_storagePlugins p1) name = contains (m_storagePlugins p) name
          \/ (contains (m_storagePlugins p) name = false
              /\ contains (m_encryptedStoragePlugins p1) name
                 = contains (m_encryptedStoragePlugins p) name))).
Proof.
  cbv zeta. unfold loadPlugin.
  destruct (instance file) as [plugin|plugin|plugin|plugin|] eqn:Hinstance;
    [..|by left].
  all: destruct (Bool.eqb (isTestPlugin file) autotestMode) eqn:Hmode; cbn [negb];
    [apply Bool.eqb_prop in Hmode|by left].
  all: destruct (Qt.isEmpty (pluginName file)) eqn:Hempty; cbn [orb]; [by left|].
  all: match goal with
       | |- context [if contains ?m ?k then _ else _] =>
           destruct (contains m k) eqn:Hheld; [by left|]
       end.
  all: destruct (decide (pluginName file = name)) as [<-|Hne];
    [right; repeat (apply conj); try done
    |left; unfold isRegistered; destruct p; cbn;
     rewrite ?contains_insert, ?bool_decide_eq_false_2 by done; done].
  - right. split; [done|]. by destruct p.
  - left. by destruct p.
  - left. by destruct p.
  - left. by destruct p.
Qed.

Lemma loadPlugins_run (files : list PluginFile) (autotestMode : bool)
    (p : RequestProcessor) :
  loadPlugins files autotestMode p
  = Some (true, fold_left (fun p file => loadPlugin autotestMode file p) files p).
Proof. reflexivity. Qed.

(** Every registered name comes from a file that was acceptable. *)
Lemma registered_names (autotestMode : bool) (p : RequestProcessor)
    (files : list PluginFile) :
  noPlugins p ->
  forall name,
    isRegistered (fold_left (fun p file => loadPlugin autotestMode file p) files p) name
    = true ->
    Qt.isEmpty name = false
    /\ exists file,
         In file files /\ pluginName file = name /\ isTestPlugin file = autotestMode
         /\ instance file <> NotASecretsPlugin.
Proof.
  intros (Hs & He & Hes & Ha).
  induction files as [|file files IH] using rev_ind; intros name Hname.
  - cbn in Hname. unfold isRegistered, contains in Hname.
    rewrite Hs, He, Hes, Ha, !lookup_empty in Hname. discriminate.
  - rewrite fold_left_app in Hname. cbn [fold_left] in Hname.
    destruct (loadPlugin_registers autotestMode file
                (fold_left (fun p file => loadPlugin autotestMode file p) files p) name)
      as [(Hsame & _)|(-> & Hempty & Hmode & Hkind & _)].
    + rewrite Hsame in Hname. destruct (IH _ Hname) as (Hempty & f & Hin & Hrest).
      split; [done|]. exists f. split; [|done]. apply in_or_app. by left.
    + split; [done|]. exists file. split; [|done]. apply in_or_app. right. by left.
Qed.

(** With files of pairwise distinct names, no name gets into both the
    storage and the encrypted-storage registry. *)
Lemma storage_registries_disjoint (autotestMode : bool) (p : RequestProcessor)
    (files : list PluginFile) :
  noPlugins p ->
  NoDup (map pluginName files) ->
  forall name,
    contains (m_storagePlugins
                (fold_left (fun p file => loadPlugin autotestMode file p) files p)) name
    && contains (m_encryptedStoragePlugins
                   (fold_left (fun p file => loadPlugin autotestMode file p) files p)) name
    = false.
Proof.
  intros Hnone.
  induction files as [|file files IH] using rev_ind; intros Hdistinct name.
  - destruct Hnone as (Hs & _). cbn. unfold contains. by rewrite Hs, lookup_empty.
  - rewrite map_app in Hdistinct. apply NoDup_app in Hdistinct as (Hfiles & Hfresh & _).
    specialize (IH Hfiles).
    rewrite fold_left_app. cbn [fold_left].
    set (p0 := fold_left (fun p file => loadPlugin autotestMode file p) files p) in *.
    destruct (loadPlugin_registers autotestMode file p0 name)
      as [(_ & -> & ->)|(-> & _ & _ & _ & Hone)]; [apply IH|].
    assert (Hunknown : isRegistered p0 (pluginName file) = false).
    { destruct (isRegistered p0 (pluginName file)) eqn:Hknown; [|done].
      destruct (registered_names autotestMode p files Hnone _ Hknown)
        as (_ & f & Hin & Hf & _).
      exfalso. apply (Hfresh (pluginName file)).
      - rewrite <- Hf. apply list_elem_of_fmap_2. by apply list_elem_of_In.
      - cbn. apply list_elem_of_here. }
    unfold isRegistered in Hunknown.
    apply orb_false_iff in Hunknown as [Hunknown _].
    apply orb_false_iff in Hunknown as [Hunknown Hes].
    apply orb_false_iff in Hunknown as [Hs _].
    destruct Hone as [->|(_ & ->)].
    + by rewrite Hs.
    + rewrite Hes. apply andb_false_r.
Qed.

End Loading.

Section PluginsLoaded.
Variables (files : list PluginFile) (autotestMode : bool).
Variables (p p' : RequestProcessor).
Hypothesis none_before : noPlugins p.
Hypothesis loaded : loadPlugins files autotestMode p = Some (true, p').

(** X20.  After [loadPlugins] on empty registries, every registered name
    is non-empty and is the name of a file of the directory that holds
    a secrets plugin whose test flag equals the mode of the daemon. *)
Theorem loaded_plugins_are_named_and_of_the_mode (name : QString) :
  isRegistered p' name = true ->
  Qt.isEmpty name = false
  /\ exists file,
       In file files /\ pluginName file = name /\ isTestPlugin file = autotestMode
       /\ instance file <> NotASecretsPlugin.
Proof.
  rewrite Loading.loadPlugins_run in loaded. injection loaded as <-.
  by apply Loading.registered_names.
Qed.

(** X21.  When the files of the plugin directory have pairwise distinct
    plugin names, no name is in both the storage and the
    encrypted-storage registry; the create operations ask for both
    when the storage and the encryption plugin names are equal, so no
    collection can be created in an encrypted-storage plugin: the
    answer is [InvalidExtensionPluginError] (or
    [InvalidCollectionError] for the reserved name) and nothing
    changes. *)
Theorem encrypted_storage_collection_cannot_be_created :
  NoDup (map pluginName files) ->
  (forall (callerPid requestId : Z) (c s : QString)
          (semantic : DeviceLockUnlockSemantic) (acm : AccessControlMode),
      createDeviceLockCollection callerPid requestId c s s semantic acm p'
      = Some (ResultOfError (if isReservedName c then InvalidCollectionError
                             else InvalidExtensionPluginError), p'))
  /\ (forall (callerPid requestId : Z) (c s a : QString)
         (semantic : CustomLockUnlockSemantic) (timeoutMs : Z) (acm : AccessControlMode)
         (mode : UserInteractionMode) (ui : QString),
      createCustomLockCollection callerPid requestId c s s a semantic timeoutMs acm mode ui
        p'
      = Some (ResultOfError (if isReservedName c then InvalidCollectionError
                             else InvalidExtensionPluginError), p')).
Proof.
  intros Hdistinct.
  rewrite Loading.loadPlugins_run in loaded. injection loaded as <-.
  pose proof (Loading.storage_registries_disjoint autotestMode p files none_before
                Hdistinct) as Hdisjoint.
  split; intros.
  - unfold createDeviceLockCollection, bind, gets, errorResult, ret.
    destruct (isReservedName c); [reflexivity|].
    rewrite bool_decide_eq_true_2 by done. cbn [andb].
    specialize (Hdisjoint s).
    destruct (contains (m_encryptedStoragePlugins _) s); cbn [negb]; [|reflexivity].
    rewrite andb_true_r in Hdisjoint. rewrite Hdisjoint. reflexivity.
  - unfold createCustomLockCollection, bind, gets, errorResult, ret.
    destruct (isReservedName c); [reflexivity|].
    rewrite bool_decide_eq_true_2 by done. cbn [andb].
    specialize (Hdisjoint s).
    destruct (contains (m_encryptedStoragePlugins _) s); cbn [negb]; [|reflexivity].
    rewrite andb_true_r in Hdisjoint. rewrite Hdisjoint. reflexivity.
Qed.

End PluginsLoaded.

Lemma loaded_plugins_are_named_and_of_the_mode_witness :
  Qt.isEmpty "sqlite" = false
  /\ exists file,
       In file Sample.pluginFiles /\ pluginName file = "sqlite"
       /\ isTestPlugin file = false /\ instance file <> NotASecretsPlugin.
Proof.
  apply (loaded_plugins_are_named_and_of_the_mode Sample.pluginFiles false Sample.bare
           (Sample.after (loadPlugins Sample.pluginFiles false Sample.bare))).
  - repeat (apply conj); reflexivity.
  - reflexivity.
  - vm_compute. reflexivity.
Defined.

Lemma encrypted_storage_collection_cannot_be_created_witness :
  createDeviceLockCollection 1 1 "strongbox" "sqlcipher" "sqlcipher" DeviceLockKeepUnlocked
    OwnerOnlyMode (Sample.after (loadPlugins Sample.pluginFiles false Sample.bare))
  = Some (ResultOfError InvalidExtensionPluginError,
          Sample.after (loadPlugins Sample.pluginFiles false Sample.bare)).
Proof.
  destruct (encrypted_storage_collection_cannot_be_created Sample.pluginFiles false
              Sample.bare (Sample.after (loadPlugins Sample.pluginFiles false Sample.bare)))
    as [Hdevice _].
  - repeat (apply conj); reflexivity.
  - reflexivity.
  - apply (bool_decide_unpack _). vm_compute. exact I.
  - exact (Hdevice 1 1 "strongbox" "sqlcipher" DeviceLockKeepUnlocked OwnerOnlyMode).
Defined.

(** ** The key of the OpenSSL wrappers *)

Module EvpFacts.

Lemma padded_key_nth (key : list Byte.byte) :
  Evp.padded_key key (Z.of_nat (length key))
  = map (fun i => nth i key Byte.x00) (seq 0 32).
Proof.
  unfold Evp.padded_key. apply map_ext. intros i.
  destruct (Z.of_nat i <? Z.of_nat (length key)) eqn:Hi; [reflexivity|].
  apply Z.ltb_ge in Hi. symmetry. apply nth_overflow. lia.
Qed.

Lemma padded_key_agree (key key' : list Byte.byte) :
  (forall i, (i < 32)%nat -> nth i key Byte.x00 = nth i key' Byte.x00) ->
  Evp.padded_key key (Z.of_nat (length key))
  = Evp.padded_key key' (Z.of_nat (length key')).
Proof.
  intros Hagree. rewrite !padded_key_nth. apply map_ext_in.
  intros i Hi%in_seq. apply Hagree. lia.
Qed.

Lemma transform_agree (cipher : Evp.Cipher) (iv key key' input : list Byte.byte)
    (input_length : Z) :
  key <> [] -> key' <> [] ->
  Evp.padded_key key (Z.of_nat (length key))
  = Evp.padded_key key' (Z.of_nat (length key')) ->
  Evp.transform cipher iv key (Z.of_nat (length key)) input input_length
  = Evp.transform cipher iv key' (Z.of_nat (length key')) input input_length.
Proof.
  intros Hkey Hkey' Hpadded. unfold Evp.transform. rewrite Hpadded.
  assert (Hlen : forall k : list Byte.byte, k <> [] -> (Z.of_nat (length k) <=? 0) = false).
  { intros k Hk. destruct k; [done|]. cbn [length]. apply Z.leb_gt. lia. }
  by rewrite !Hlen.
Qed.

End EvpFacts.

Section EvpKeys.
Variables (EVP_Encrypt EVP_Decrypt : Evp.Cipher).
Variables (init_vector key : list Byte.byte).

(** X22.  The OpenSSL wrappers use the first 32 bytes of the key, padded
    with zero bytes: a key and the same key followed by a zero byte
    encrypt and decrypt alike, and so do a key of 32 bytes or more and
    any extension of it.  An empty plaintext is refused with -1. *)
Theorem only_32_padded_key_bytes_matter :
  key <> [] ->
  (forall (input : list Byte.byte) (input_length : Z),
      Evp.osslevp_aes_encrypt_plaintext EVP_Encrypt init_vector (key ++ [Byte.x00])
        (Z.of_nat (length (key ++ [Byte.x00]))) input input_length
      = Evp.osslevp_aes_encrypt_plaintext EVP_Encrypt init_vector key
          (Z.of_nat (length key)) input input_length
      /\ Evp.osslevp_aes_decrypt_ciphertext EVP_Decrypt init_vector (key ++ [Byte.x00])
           (Z.of_nat (length (key ++ [Byte.x00]))) input input_length
         = Evp.osslevp_aes_decrypt_ciphertext EVP_Decrypt init_vector key
             (Z.of_nat (length key)) input input_length)
  /\ (forall (extra input : list Byte.byte) (input_length : Z),
      (32 <= length key)%nat ->
      Evp.osslevp_aes_encrypt_plaintext EVP_Encrypt init_vector (key ++ extra)
        (Z.of_nat (length (key ++ extra))) input input_length
      = Evp.osslevp_aes_encrypt_plaintext EVP_Encrypt init_vector key
          (Z.of_nat (length key)) input input_length
      /\ Evp.osslevp_aes_decrypt_ciphertext EVP_Decrypt init_vector (key ++ extra)
           (Z.of_nat (length (key ++ extra))) input input_length
         = Evp.osslevp_aes_decrypt_ciphertext EVP_Decrypt init_vector key
             (Z.of_nat (length key)) input input_length)
  /\ (forall key_length : Z,
      Evp.osslevp_aes_encrypt_plaintext EVP_Encrypt init_vector key key_length [] 0
      = (-1, None)).
Proof.
  intros Hkey.
  assert (Hnul : Evp.padded_key (key ++ [Byte.x00]) (Z.of_nat (length (key ++ [Byte.x00])))
                 = Evp.padded_key key (Z.of_nat (length key))).
  { apply EvpFacts.padded_key_agree. intros i _.
    destruct (decide (i < length key)%nat) as [Hi|Hi].
    - by rewrite app_nth1.
    - rewrite app_nth2 by lia. rewrite (nth_overflow key) by lia.
      by destruct (i - length key)%nat as [|[|?]]. }
  assert (Hlong : forall extra, (32 <= length key)%nat ->
             Evp.padded_key (key ++ extra) (Z.of_nat (length (key ++ extra)))
             = Evp.padded_key key (Z.of_nat (length key))).
  { intros extra Hlength. apply EvpFacts.padded_key_agree. intros i Hi.
    apply app_nth1. lia. }
  assert (Hmore : forall extra : list Byte.byte, (key ++ extra)%list <> []).
  { intros extra Hnil. by apply app_eq_nil in Hnil as [? _]. }
  unfold Evp.osslevp_aes_encrypt_plaintext, Evp.osslevp_aes_decrypt_ciphertext.
  split; [|split].
  - intros input input_length.
    split; apply EvpFacts.transform_agree; auto.
  - intros extra input input_length Hlength.
    split; apply EvpFacts.transform_agree; auto.
  - intros key_length. reflexivity.
Qed.

End EvpKeys.

Lemma only_32_padded_key_bytes_matter_witness :
  Evp.osslevp_aes_encrypt_plaintext
    (Evp.mkCipher (fun _ _ => true) (fun key _ input => Some (key ++ input)%list)
       (fun _ _ _ => Some []))
    [] ([Byte.x61] ++ [Byte.x00]) (Z.of_nat (length ([Byte.x61] ++ [Byte.x00])))
    [Byte.x62] 1
  = Evp.osslevp_aes_encrypt_plaintext
      (Evp.mkCipher (fun _ _ => true) (fun key _ input => Some (key ++ input)%list)
         (fun _ _ _ => Some []))
      [] [Byte.x61] (Z.of_nat (length [Byte.x61])) [Byte.x62] 1.
Proof.
  destruct (only_32_padded_key_bytes_matter
              (Evp.mkCipher (fun _ _ => true) (fun key _ input => Some (key ++ input)%list)
                 (fun _ _ _ => Some []))
              (Evp.mkCipher (fun _ _ => true) (fun key _ input => Some (key ++ input)%list)
                 (fun _ _ _ => Some []))
              [] [Byte.x61])
    as (Hnul & _).
  - discriminate.
  - exact (proj1 (Hnul [Byte.x62] 1)).
Defined.
